(** * asus-rgb: the HID lighting protocol, the animation engine and the daemon

    A shallow embedding of the keyboard lighting controller.  Four program
    variants live in the repository and are embedded side by side:

    - [Current]  : src/kbdrgb.py (the live-update rework),
    - [Archive]  : src/archive/kbdrgb.py (the full pattern library),
    - [Daemon]   : src/archive/kbdrgb_daemon.py (the background service),
    - [Gui]      : src/archive/OldCode/archive/kbdrgb_gui.py (LiveSender).

    Python integers are [Z]; the packet handed to the ioctl is a
    [list Byte.byte]; Python floats are idealised, as rationals ([Q]) where
    the code only scales and compares them and as reals ([R]) where it takes
    a cosine or a sine.  Everything the operating system decides (whether the
    device node exists, whether the ioctl succeeds, what another thread did
    to the stop flag, whether a worker ends within a join timeout) is an
    oracle carried by the world and indexed by a logical clock. *)

From Stdlib Require Import ZArith Lia List String Reals Lra QArith Qround.
From Stdlib.Strings Require Import Byte Ascii.
From stdpp Require Import gmap strings list.

Open Scope Z_scope.

(** ** Python values and exceptions *)

Inductive exn := ValueError | TypeError | AttributeError | IndexError.

Inductive result (A : Type) :=
| Ok (a : A)
| Raise (e : exn).
Arguments Ok {A} a.
Arguments Raise {A} e.

(** [bytes(l)]: every element must be in [range(0, 256)], else ValueError. *)
Definition byte_of_int (z : Z) : option Byte.byte :=
  if (z <? 0) then None else Byte.of_N (Z.to_N z).

Definition int_of_byte (b : Byte.byte) : Z := Z.of_N (Byte.to_N b).

Fixpoint py_bytes (l : list Z) : result (list Byte.byte) :=
  match l with
  | [] => Ok []
  | z :: l' =>
      match byte_of_int z, py_bytes l' with
      | Some b, Ok bs => Ok (b :: bs)
      | _, _ => Raise ValueError
      end
  end.

(** [l[i]] and [l[i] = x] on a list: a negative index counts from the end,
    an index out of range raises IndexError. *)
Definition norm_index (len i : Z) : option nat :=
  let j := if i <? 0 then i + len else i in
  if (0 <=? j) && (j <? len) then Some (Z.to_nat j) else None.

Definition getitem (l : list Z) (i : Z) : result Z :=
  match norm_index (Z.of_nat (length l)) i with
  | Some n =>
      match nth_error l n with
      | Some x => Ok x
      | None => Raise IndexError
      end
  | None => Raise IndexError
  end.

Fixpoint replace_nth (n : nat) (x : Z) (l : list Z) : list Z :=
  match l, n with
  | [], _ => []
  | _ :: l', O => x :: l'
  | y :: l', S n' => y :: replace_nth n' x l'
  end.

Definition setitem (l : list Z) (i : Z) (x : Z) : result (list Z) :=
  match norm_index (Z.of_nat (length l)) i with
  | Some n => Ok (replace_nth n x l)
  | None => Raise IndexError
  end.

(** [str.lower()] on ASCII text. *)
Definition lower_ascii (c : ascii) : ascii :=
  let n := nat_of_ascii c in
  if ((65 <=? n) && (n <=? 90))%nat then ascii_of_nat (n + 32) else c.

Fixpoint lower (s : string) : string :=
  match s with
  | EmptyString => EmptyString
  | String c s' => String (lower_ascii c) (lower s')
  end.

(** [int(x)] on a float: truncation toward zero. *)
Definition Qint (q : Q) : Z :=
  if Qle_bool 0 q then Qfloor q else Qceiling q.

Definition Rint (x : R) : Z :=
  if Rle_dec 0 x then Int_part x else (- Int_part (- x))%Z.

(** [round(x)] on a float: to the nearest integer, ties to even. *)
Definition Rround (x : R) : Z :=
  let f := Int_part x in
  let d := (x - IZR f)%R in
  if Rlt_dec d (1 / 2) then f
  else if Rlt_dec (1 / 2) d then f + 1
  else if Z.even f then f else f + 1.

(** A value read by [json.load]; also how the trace writes down the
    arguments a worker thread is started with (a tuple as the list of its
    items). *)
#[local] Set Warnings "-register-all".
Inductive json :=
| JNull
| JBool (b : bool)
| JInt (z : Z)
| JFloat (q : Q)
| JStr (s : string)
| JList (l : list json)
| JDict (kvs : list (string * json)).
#[local] Set Warnings "register-all".

(** ** The world: device node, threads, stop flag, trace *)

Record env := {
  path_exists : nat -> string -> bool;  (* os.path.exists(p) at time t *)
  open_ok : nat -> bool;                (* os.open / open succeeds at time t *)
  ioctl_ok : nat -> bool;               (* fcntl.ioctl succeeds at time t *)
  interfere : nat -> option bool;       (* another thread wrote the stop flag *)
  ends_in_time : nat -> bool            (* the joined worker ends before the timeout *)
}.

Inductive event :=
| EvIoctl (path : string) (request : Z) (packet : list Byte.byte) (ok : bool)
| EvSleep
| EvSet
| EvClear
| EvJoin (tid : nat) (ended : bool)
| EvSpawn (tid : nat) (name : string) (func : string) (args : list json)
| EvSignal (state : string).

Record thread := { t_name : string; t_alive : bool }.

Record world := {
  oracle : env;
  now : nat;              (* logical clock, one tick per OS interaction *)
  flag : bool;            (* the controller's threading.Event, shared with its workers *)
  threads : list thread;  (* every thread started so far; the id is the index *)
  trace : list event      (* oldest first *)
}.

Definition tick (w : world) : world :=
  {| oracle := oracle w; now := S (now w); flag := flag w;
     threads := threads w; trace := trace w |}.

Definition emit_event (e : event) (w : world) : world :=
  {| oracle := oracle w; now := now w; flag := flag w;
     threads := threads w; trace := trace w ++ [e] |}.

Definition with_flag (b : bool) (w : world) : world :=
  {| oracle := oracle w; now := now w; flag := b;
     threads := threads w; trace := trace w |}.

Definition with_threads (ts : list thread) (w : world) : world :=
  {| oracle := oracle w; now := now w; flag := flag w;
     threads := ts; trace := trace w |}.

(** The payload of the packets a run has handed to the device, as integers. *)
Definition packets (w : world) : list (list Z) :=
  omap (fun e => match e with
                 | EvIoctl _ _ pkt _ => Some (map int_of_byte pkt)
                 | _ => None
                 end) (trace w).

(** A small state-and-exception monad for the imperative code. *)
Definition M (A : Type) : Type := world -> result A * world.

Definition ret {A} (a : A) : M A := fun w => (Ok a, w).
Definition raise {A} (e : exn) : M A := fun w => (Raise e, w).
Definition bind {A B} (m : M A) (k : A -> M B) : M B :=
  fun w =>
    match m w with
    | (Ok a, w') => k a w'
    | (Raise e, w') => (Raise e, w')
    end.

Notation "'let*' x ':=' m 'in' k" := (bind m (fun x => k))
  (at level 10, x name, m at level 100, k at level 200).
Notation "m '>>' k" := (bind m (fun _ => k))
  (at level 190, right associativity).

(** [try: m  except Exception as e: h e] *)
Definition try_except {A} (m : M A) (h : exn -> M A) : M A :=
  fun w =>
    match m w with
    | (Ok a, w') => (Ok a, w')
    | (Raise e, w') => h e w'
    end.

Definition lift {A} (r : result A) : M A := fun w => (r, w).

Definition exists_ (p : string) : M bool :=
  fun w => (Ok (path_exists (oracle w) (now w) p), tick w).

Definition sleep : M unit :=
  fun w => (Ok tt, tick (emit_event EvSleep w)).

(** The ioctl request number of a feature report of [length] bytes. *)
Definition HIDIOCSFEATURE (length : Z) : Z :=
  Z.lor 0xC0004806 (Z.shiftl length 16).

(** The buffer [fcntl.ioctl] copies a [bytes] argument into. *)
Definition IOCTL_BUFSZ : Z := 1024.

(** [fd = os.open(p, O_RDWR); fcntl.ioctl(fd, HIDIOCSFEATURE(len(pkt)), pkt)]
    inside [try ... except OSError]: [true] when both calls succeed.  A
    packet longer than the buffer of [fcntl.ioctl] makes it raise
    ValueError before any system call, which [except OSError] does not
    catch. *)
Definition open_and_ioctl (p : string) (pkt : list Byte.byte) : M bool :=
  fun w =>
    if open_ok (oracle w) (now w) then
      if IOCTL_BUFSZ <? Z.of_nat (length pkt) then (Raise ValueError, tick w)
      else
        let ok := ioctl_ok (oracle w) (now w) in
        (Ok ok,
         tick (emit_event
                 (EvIoctl p (HIDIOCSFEATURE (Z.of_nat (length pkt))) pkt ok) w))
    else (Ok false, tick w).

Definition is_empty (s : string) : bool :=
  match s with EmptyString => true | _ => false end.

Definition clamp (hi x : Z) : Z := Z.max 0 (Z.min hi x).

Definition SET_COLOR : Z := 0x05.
Definition DISABLE_AUTONOMOUS : Z := 0x0B.
Definition DEFAULT_LED_START : Z := 0.
Definition DEFAULT_LED_END : Z := 100.
Definition MAX_INTENSITY : Z := 255.


(** ** Python strings *)

(** [s.lstrip(c)] for a one-character [c]. *)
Fixpoint lstrip (c : ascii) (s : string) : string :=
  match s with
  | EmptyString => EmptyString
  | String a s' => if Ascii.eqb a c then lstrip c s' else s
  end.

(** [s[i:j]] for [0 <= i <= j]: what lies past the end is left out. *)
Definition slice (s : string) (i j : nat) : string := substring i (j - i) s.

(** The white space [int] skips around a number written in ASCII. *)
Definition is_space (c : ascii) : bool :=
  let n := nat_of_ascii c in
  (((9 <=? n) && (n <=? 13)) || (n =? 32))%nat.

Fixpoint skip_spaces (s : string) : string :=
  match s with
  | EmptyString => EmptyString
  | String c s' => if is_space c then skip_spaces s' else s
  end.

(** The value of a digit character in the bases up to 36. *)
Definition digit_value (c : ascii) : option Z :=
  let n := Z.of_nat (nat_of_ascii c) in
  if (48 <=? n) && (n <=? 57) then Some (n - 48)
  else if (97 <=? n) && (n <=? 122) then Some (n - 87)
  else if (65 <=? n) && (n <=? 90) then Some (n - 55)
  else None.

(** The digits of a base-16 literal, single underscores allowed between
    them: the value read, how many digits it had, and what follows. *)
Fixpoint scan_digits (s : string) (prev_underscore : bool) (acc : Z)
    (digits : nat) : option (Z * nat * string) :=
  match s with
  | EmptyString => if prev_underscore then None else Some (acc, digits, s)
  | String c s' =>
      if Ascii.eqb c "_" then
        if prev_underscore then None else scan_digits s' true acc digits
      else
        match digit_value c with
        | Some d =>
            if d <? 16 then scan_digits s' false (16 * acc + d) (S digits)
            else if prev_underscore then None else Some (acc, digits, s)
        | None => if prev_underscore then None else Some (acc, digits, s)
        end
  end.

(** [int(s, 16)] on ASCII text: white space, an optional sign, an optional
    [0x] prefix, hexadecimal digits, white space; anything else raises
    ValueError. *)
Definition int_base16 (s : string) : result Z :=
  let s1 := skip_spaces s in
  let '(sign, s2) :=
    match s1 with
    | String "+" t => (1, t)
    | String "-" t => (-1, t)
    | _ => (1, s1)
    end in
  let s3 :=
    match s2 with
    | String "0" (String x t) =>
        if Ascii.eqb x "x" || Ascii.eqb x "X"
        then match t with String "_" t' => t' | _ => t end
        else s2
    | _ => s2
    end in
  match s3 with
  | String "_" _ => Raise ValueError
  | _ =>
      match scan_digits s3 false 0 0 with
      | Some (z, S _, rest) =>
          if is_empty (skip_spaces rest) then Ok (sign * z) else Raise ValueError
      | _ => Raise ValueError
      end
  end.

(** [math.log10(x)] for [x > 0]. *)
Definition log10 (x : R) : R := (ln x / ln 10)%R.
(** ** threading.Event and threading.Thread *)

(** [stop_event.is_set()] as a worker sees it: the flag, after whatever
    another thread did to it in the meantime. *)
Definition is_set : M bool :=
  fun w =>
    let f := match interfere (oracle w) (now w) with
             | Some b => b
             | None => flag w
             end in
    (Ok f, tick (with_flag f w)).

Definition event_set : M unit :=
  fun w => (Ok tt, emit_event EvSet (with_flag true w)).

Definition event_clear : M unit :=
  fun w => (Ok tt, emit_event EvClear (with_flag false w)).

Definition thread_alive (tid : nat) (w : world) : bool :=
  match threads w !! tid with
  | Some t => t_alive t
  | None => false
  end.

Definition is_alive (tid : nat) : M bool :=
  fun w => (Ok (thread_alive tid w), w).

Definition mark_dead (tid : nat) (ts : list thread) : list thread :=
  match ts !! tid with
  | Some t => <[tid := {| t_name := t_name t; t_alive := false |}]> ts
  | None => ts
  end.

(** [thread.join(timeout=...)]: returns either because the worker ended or
    because the timeout ran out, in which case the worker is still alive. *)
Definition join (tid : nat) : M unit :=
  fun w =>
    let ended := ends_in_time (oracle w) (now w) in
    let w1 := if ended then with_threads (mark_dead tid (threads w)) w else w in
    (Ok tt, tick (emit_event (EvJoin tid ended) w1)).

(** [t = threading.Thread(target=..., name=...); t.start()]: the target
    calls the worker function [func] with [args] and the stop event of the
    controller that starts it. *)
Definition spawn (name : string) (func : string) (args : list json) : M nat :=
  fun w =>
    let tid := length (threads w) in
    (Ok tid,
     emit_event (EvSpawn tid name func args)
       (with_threads (threads w ++ [{| t_name := name; t_alive := true |}]) w)).

(** [self.thread_state.emit(state)] *)
Definition signal (state : string) : M unit :=
  fun w => (Ok tt, emit_event (EvSignal state) w).

(** ** Loops *)

(** How a worker function stands when the model stops following it. *)
Inductive status :=
| Running    (* the fuel ran out while the worker was still looping *)
| Returned.  (* the function returned *)

(** [range(lo, hi)] *)
Definition range (lo hi : Z) : list Z :=
  map (fun n => lo + Z.of_nat n) (seq 0 (Z.to_nat (hi - lo))).

(** [for x in xs: body], where [body] answers [true] when it executed a
    [return]; the loop answers [true] when the function has returned. *)
Fixpoint for_ (xs : list Z) (body : Z -> M bool) : M bool :=
  match xs with
  | [] => ret false
  | x :: xs' =>
      let* returned := body x in
      if returned then ret true else for_ xs' body
  end.

(** [for x in xs: body] threading a local state and never returning early. *)
Fixpoint for_fold {S : Type} (xs : list Z) (body : Z -> S -> M S) (s : S)
    : M S :=
  match xs with
  | [] => ret s
  | x :: xs' =>
      let* s' := body x s in
      for_fold xs' body s'
  end.

(** [while not stop_event.is_set(): body], followed for [fuel] iterations;
    [body] answers [true] when it executed a [return]. *)
Fixpoint while_not_stopped (fuel : nat) (body : M bool) : M status :=
  match fuel with
  | O => ret Running
  | S fuel' =>
      let* stop := is_set in
      if stop then ret Returned
      else
        let* returned := body in
        if returned then ret Returned else while_not_stopped fuel' body
  end.

(** [try: m  except Exception as e: logger.exception(...)] around a worker
    body: the worker function ends either way. *)
Definition guarded (m : M status) : M status :=
  try_except m (fun _ => ret Returned).

(** ** queue.Queue *)

Inductive queue_exn := Full | Empty.

Record queue := { maxsize : Z; items : list string }.

Definition put_nowait (x : string) (q : queue) : queue_exn + queue :=
  if (0 <? maxsize q) && (maxsize q <=? Z.of_nat (length (items q)))
  then inl Full
  else inr {| maxsize := maxsize q; items := items q ++ [x] |}.

Definition get_nowait (q : queue) : queue_exn + (string * queue) :=
  match items q with
  | [] => inl Empty
  | x :: rest => inr (x, {| maxsize := maxsize q; items := rest |})
  end.

(** [q.empty()] *)
Definition empty (q : queue) : bool :=
  match items q with [] => true | _ => false end.


(** ** src/kbdrgb.py *)
Module Current.

(** [log_queue = queue.Queue(maxsize=1000)] *)
Definition log_queue : queue := {| maxsize := 1000; items := [] |}.

(** [QueueHandler.emit]; [formatted] is [self.format(record)]. *)
Definition emit (formatted : string) (q : queue) : queue :=
  match put_nowait formatted q with
  | inr q' => q'
  | inl _ => q
  end.

Definition send_feature_report (dev_path : string) (report_id : Z)
    (data : list Z) : M bool :=
  let* present := exists_ dev_path in
  if negb present then ret false
  else
    let* head := lift (py_bytes [report_id]) in
    let* body := lift (py_bytes data) in
    open_and_ioctl dev_path (head ++ body).

Definition disable_autonomous (dev_path : string) : M unit :=
  let* _ := send_feature_report dev_path 0x0B [0x00] in
  sleep.

Definition set_color (dev_path : string) (r g b i : Z) : M bool :=
  send_feature_report dev_path 0x05 [0x01; 0; 0; 100; 0; r; g; b; i].

(** The live parameters: colour, interval (seconds), intensity. *)
Definition params : Type := (Z * Z * Z) * Q * Z.

(** [int(phase * intensity)] with
    [phase = (1 - math.cos(k * 2 * math.pi / 180)) / 2], the product taken
    over the reals.  Where the exact product is an integer the doubles of
    the code can fall just short of it and [int] then gives one less; the
    theorems that name a level written therefore state it up to that. *)
Definition breathing_level (k intensity : Z) : Z :=
  let phase := ((1 - cos (IZR k * 2 * PI / 180)) / 2)%R in
  Rint (phase * IZR intensity).

(** One pass of [for k in range(180)]: [true] in the first component means
    [break]. *)
Definition breathing_step (dev_path : string) (param_provider : M params)
    (interval : Q) (k : Z) (s : (Z * Z * Z) * Z) : M (bool * ((Z * Z * Z) * Z)) :=
  let '(rgb, intensity) := s in
  let* stop := is_set in
  if stop then ret (true, s)
  else
    let* p := param_provider in
    let '(new_color, new_interval, new_intensity) := p in
    if negb (Qeq_bool new_interval interval) then ret (true, s)
    else
      let rgb := if bool_decide (new_color <> rgb) then new_color else rgb in
      let intensity := if bool_decide (new_intensity <> intensity)
                       then new_intensity else intensity in
      let '(r, g, b) := rgb in
      let* _ := set_color dev_path r g b (breathing_level k intensity) in
      let* _ := sleep in
      ret (false, (rgb, intensity)).

Fixpoint for_break {S : Type} (xs : list Z) (body : Z -> S -> M (bool * S))
    (s : S) : M S :=
  match xs with
  | [] => ret s
  | x :: xs' =>
      let* r := body x s in
      if fst r then ret (snd r) else for_break xs' body (snd r)
  end.

Definition breathing (dev_path : string) (param_provider : M params)
    (fuel : nat) : M status :=
  let* _ := disable_autonomous dev_path in
  while_not_stopped fuel
    (let* p := param_provider in
     let '(color, interval, intensity) := p in
     let* _ := for_break (range 0 180)
                 (breathing_step dev_path param_provider interval)
                 (color, intensity) in
     ret false).

(** [AnimationController]; its [stop_event] is the world's flag. *)
Record controller := {
  device_path : string;
  thread : option nat;
  current_style : string;
  _params : params
}.

(** [AnimationController(dev_path)] *)
Definition init (dev_path : string) : controller :=
  {| device_path := dev_path; thread := None; current_style := "Static";
     _params := ((255, 0, 0), 0.5%Q, 255) |}.

Definition get_params (c : controller) : M params := ret (_params c).

Definition update_params (color : option (Z * Z * Z)) (interval : option Q)
    (intensity : option Z) (c : controller) : controller :=
  let '(c0, t0, i0) := _params c in
  {| device_path := device_path c; thread := thread c;
     current_style := current_style c;
     _params := (default c0 color, default t0 interval, default i0 intensity) |}.

Definition stop (c : controller) : M controller :=
  let* _ :=
    match thread c with
    | Some t =>
        let* alive := is_alive t in
        if alive then (event_set >> join t) else ret tt
    | None => ret tt
    end in
  let c := {| device_path := device_path c; thread := thread c;
              current_style := "Static"; _params := _params c |} in
  let* _ := disable_autonomous (device_path c) in
  ret c.

(** [start]; the worker thread gets the device path besides the engine's
    own [get_params] and [stop_event]. *)
Definition start (style : string) (color : Z * Z * Z) (interval : Q)
    (intensity : Z) (c : controller) : M controller :=
  let* c := stop c in
  let* _ := event_clear in
  let c := {| device_path := device_path c; thread := thread c;
              current_style := style; _params := _params c |} in
  let c := update_params (Some color) (Some interval) (Some intensity) c in
  let '(r, g, b) := color in
  if String.eqb (lower style) "static" then
    let* _ := set_color (device_path c) r g b intensity in
    ret c
  else if String.eqb (lower style) "breathing" then
    let* t := spawn "breathing" "breathing" [JStr (device_path c)] in
    ret {| device_path := device_path c; thread := Some t;
           current_style := current_style c; _params := _params c |}
  else
    let* _ := set_color (device_path c) r g b intensity in
    ret c.

(** [LogConsole.flush], run by a timer: [while not log_queue.empty():
    self.view.appendPlainText(log_queue.get_nowait())].  The view is the
    list of the lines appended so far; the loop is followed for [fuel]
    passes and answers [None] when that was not enough. *)
Fixpoint flush (fuel : nat) (q : queue) (view : list string)
    : option (queue_exn + queue * list string) :=
  match fuel with
  | O => None
  | S fuel' =>
      if empty q then Some (inr (q, view))
      else
        match get_nowait q with
        | inr (line, q') => flush fuel' q' (view ++ [line])
        | inl e => Some (inl e)
        end
  end.

(** [MainAppWindow._slider_to_interval]:
    [max(0.01, min(30.0, 10 ** (1.0 - 0.03 * v)))] *)
Definition _slider_to_interval (v : Z) : R :=
  Rmax 0.01 (Rmin 30 (Rpower 10 (1 - 0.03 * IZR v))).

(** [MainAppWindow._interval_to_slider]:
    [int(round((1.0 - math.log10(max(0.01, min(30.0, i)))) / 0.03))] *)
Definition _interval_to_slider (i : R) : Z :=
  Rround ((1 - log10 (Rmax 0.01 (Rmin 30 i))) / 0.03).

(** [MainAppWindow.stop_and_off]; the window and its animator hold the
    same device path. *)
Definition stop_and_off (c : controller) : M controller :=
  let* c := stop c in
  let* _ := set_color (device_path c) 0 0 0 0 in
  ret c.

(** The command line as argparse hands it over. *)
Record cli_args := {
  mode : string;
  color : option string;
  brightness : option Z;
  speed : option Q
}.

(** [tuple(int(hex_color[i:i+2], 16) for i in (0, 2, 4))] *)
Definition parse_color (hex_color : string) : result (Z * Z * Z) :=
  match int_base16 (slice hex_color 0 2) with
  | Raise e => Raise e
  | Ok r =>
      match int_base16 (slice hex_color 2 4) with
      | Raise e => Raise e
      | Ok g =>
          match int_base16 (slice hex_color 4 6) with
          | Raise e => Raise e
          | Ok b => Ok (r, g, b)
          end
      end
  end.

(** [handle_cli(args)], entered when [args.mode] is set; [dev_path] is what
    the settings hold as the device path.  It ends in [sys.exit(0)]. *)
Definition handle_cli (dev_path : string) (args : cli_args) : M controller :=
  let animator := init dev_path in
  let* rgb :=
    match color args with
    | Some s =>
        if is_empty s then ret (255, 0, 0)
        else lift (parse_color (lstrip "#" s))
    | None => ret (255, 0, 0)
    end in
  let brightness := default 255 (brightness args) in
  let speed := default 0.5%Q (speed args) in
  let* c := start (mode args) rgb speed brightness animator in
  let* _ := sleep in
  ret c.

End Current.
(** ** src/archive/kbdrgb.py *)
Module Archive.

(** [log_queue = queue.Queue(maxsize=10000)] *)
Definition log_queue : queue := {| maxsize := 10000; items := [] |}.

(** [QueueHandler.emit]; [formatted] is [self.format(record)]. *)
Definition emit (formatted : string) (q : queue) : queue :=
  match put_nowait formatted q with
  | inr q' => q'
  | inl _ =>
      (* Drop oldest message and try again *)
      let q1 := match get_nowait q with
                | inr (_, q') => q'
                | inl _ => q
                end in
      match put_nowait formatted q1 with
      | inr q' => q'
      | inl _ => q1
      end
  end.

Definition send_feature_report (dev_path : string) (report_id : Z)
    (data : list Z) : M bool :=
  if is_empty dev_path then ret false
  else
    let* present := exists_ dev_path in
    if negb present then ret false
    else
      let* head := lift (py_bytes [report_id]) in
      let* body := lift (py_bytes data) in
      open_and_ioctl dev_path (head ++ body).

Definition disable_autonomous (dev_path : string) : M bool :=
  let* sent := send_feature_report dev_path DISABLE_AUTONOMOUS [0x00] in
  if sent then (sleep >> ret true) else ret false.

Definition set_color (dev_path : string) (r g b i : Z)
    (start_id end_id : option Z) : M bool :=
  let start_id := match start_id with None => DEFAULT_LED_START | Some s => s end in
  let end_id := match end_id with None => DEFAULT_LED_END | Some e => e end in
  let r := Z.max 0 (Z.min 255 r) in
  let g := Z.max 0 (Z.min 255 g) in
  let b := Z.max 0 (Z.min 255 b) in
  let i := Z.max 0 (Z.min MAX_INTENSITY i) in
  let payload :=
    [0x01;
     Z.land start_id 0xFF; Z.land (Z.shiftr start_id 8) 0xFF;
     Z.land end_id 0xFF; Z.land (Z.shiftr end_id 8) 0xFF;
     r; g; b; i] in
  send_feature_report dev_path SET_COLOR payload.

(** *** Animations.  Each takes the number of passes of its [while] loop the
    model follows; the [time.sleep] durations are not modelled. *)

(** [int(((1 - math.cos(phase)) * 0.5) * 255)] with
    [phase = (2 * math.pi) * (k / updates_per_cycle)], over the reals; as
    for the level of src/kbdrgb.py, the doubles of the code can come to one
    less. *)
Definition breathing_level (updates_per_cycle k : Z) : Z :=
  let phase := ((2 * PI) * (IZR k / IZR updates_per_cycle))%R in
  Rint (((1 - cos phase) * (1 / 2)) * 255).

(** [max(90, int(120 * interval))], the product taken exactly.  For
    intervals from 0 to 0.75 s it is 90 in doubles as well; above, the
    rounded product of the code can fall on the other side of an integer
    and the count differ by one. *)
Definition updates_per_cycle (interval : Q) : Z :=
  Z.max 90 (Qint (120 * interval)).

Definition breathing (dev_path : string) (base_color : Z * Z * Z)
    (interval : Q) (fuel : nat) : M status :=
  let '(r, g, b) := base_color in
  let n := updates_per_cycle interval in
  guarded
    (let* ok := disable_autonomous dev_path in
     if negb ok then ret Returned
     else
       while_not_stopped fuel
         (for_ (range 0 n)
            (fun k =>
               let* stop := is_set in
               if stop then ret true
               else
                 let intensity := breathing_level n k in
                 let* sent := set_color dev_path r g b intensity None None in
                 if negb sent then ret true
                 else (sleep >> ret false)))).

(** [int(255 * (math.sin(2 * math.pi * hue + shift) * 0.5 + 0.5))] *)
Definition sin_channel (hue shift : R) : Z :=
  Rint (255 * (sin (2 * PI * hue + shift) * (1 / 2) + 1 / 2)).

Definition phase_g : R := (2 * PI / 3)%R.
Definition phase_b : R := (4 * PI / 3)%R.

Definition rainbow_color (hue : R) : Z * Z * Z :=
  (Rint (255 * (sin (2 * PI * hue) * (1 / 2) + 1 / 2)),
   sin_channel hue phase_g,
   sin_channel hue phase_b).

Definition rainbow (dev_path : string) (interval : Q) (fuel : nat)
    : M status :=
  let steps := 180 in
  guarded
    (let* ok := disable_autonomous dev_path in
     if negb ok then ret Returned
     else
       while_not_stopped fuel
         (for_ (range 0 steps)
            (fun k =>
               let* stop := is_set in
               if stop then ret true
               else
                 let hue := (IZR k / IZR steps)%R in
                 let '(r, g, b) := rainbow_color hue in
                 let* _ := set_color dev_path r g b 255 None None in
                 sleep >> ret false))).

(** The on/off square wave shared by [flash], [pulse] and [strobe]: the
    three bodies differ only in the second write and the sleep lengths. *)
Definition square_wave (dev_path : string) (on off : Z * Z * Z * Z)
    (fuel : nat) : M status :=
  let '(r1, g1, b1, i1) := on in
  let '(r2, g2, b2, i2) := off in
  guarded
    (let* ok := disable_autonomous dev_path in
     if negb ok then ret Returned
     else
       while_not_stopped fuel
         (let* _ := set_color dev_path r1 g1 b1 i1 None None in
          let* _ := sleep in
          let* stop := is_set in
          if stop then ret true
          else
            let* _ := set_color dev_path r2 g2 b2 i2 None None in
            sleep >> ret false)).

Definition flash (dev_path : string) (base_color : Z * Z * Z) (interval : Q)
    (fuel : nat) : M status :=
  let '(r, g, b) := base_color in
  square_wave dev_path (r, g, b, 255) (0, 0, 0, 0) fuel.

Definition pulse (dev_path : string) (base_color : Z * Z * Z) (interval : Q)
    (fuel : nat) : M status :=
  let '(r, g, b) := base_color in
  square_wave dev_path (r, g, b, 255) (r, g, b, 64) fuel.

Definition strobe (dev_path : string) (base_color : Z * Z * Z) (interval : Q)
    (fuel : nat) : M status :=
  let '(r, g, b) := base_color in
  square_wave dev_path (r, g, b, 255) (0, 0, 0, 0) fuel.

Definition leds : Z := 20.

(** [int((math.sin((seg+offset)/leds * math.pi) ** 2) * 255)] *)
Definition wave_level (seg offset : Z) : Z :=
  Rint ((sin (IZR (seg + offset) / IZR leds * PI)) ^ 2 * 255).

(** [for seg in range(leds): set_color(..., seg*5, seg*5+4)] with the frame
    of each segment given by [frame]. *)
Definition paint_segments (dev_path : string)
    (frame : Z -> Z * Z * Z * Z) : M unit :=
  for_fold (range 0 leds)
    (fun seg _ =>
       let '(r, g, b, i) := frame seg in
       let* _ := set_color dev_path r g b i (Some (seg * 5)) (Some (seg * 5 + 4)) in
       ret tt) tt.

Definition wave (dev_path : string) (base_color : Z * Z * Z) (interval : Q)
    (fuel : nat) : M status :=
  let '(r, g, b) := base_color in
  guarded
    (let* ok := disable_autonomous dev_path in
     if negb ok then ret Returned
     else
       while_not_stopped fuel
         (for_ (range 0 leds)
            (fun offset =>
               let* stop := is_set in
               if stop then ret true
               else
                 let* _ := paint_segments dev_path
                             (fun seg => (r, g, b, wave_level seg offset)) in
                 sleep >> ret false))).

Definition spectrum (dev_path : string) (interval : Q) (fuel : nat)
    : M status :=
  guarded
    (let* ok := disable_autonomous dev_path in
     if negb ok then ret Returned
     else
       while_not_stopped fuel
         (for_ (range 0 leds)
            (fun offset =>
               let* stop := is_set in
               if stop then ret true
               else
                 let* _ := paint_segments dev_path
                             (fun seg =>
                                let hue := (IZR (seg + offset) / IZR leds)%R in
                                let '(r, g, b) := rainbow_color hue in
                                (r, g, b, 255)) in
                 sleep >> ret false))).

(** [int(c1 + (c2 - c1) * t)] with [t = k / steps]. *)
Definition fade_channel (c1 c2 k steps : Z) : Z :=
  Qint (inject_Z c1 + inject_Z (c2 - c1) * (inject_Z k / inject_Z steps)).

Definition fade (dev_path : string) (base_color : Z * Z * Z) (interval : Q)
    (target : Z * Z * Z) (fuel : nat) : M status :=
  let '(r1, g1, b1) := base_color in
  let '(r2, g2, b2) := target in
  let steps := Z.max 60 (Qint (120 * interval)) in
  guarded
    (let* ok := disable_autonomous dev_path in
     if negb ok then ret Returned
     else
       while_not_stopped fuel
         (for_ (range 0 (steps + 1))
            (fun k =>
               let* stop := is_set in
               if stop then ret true
               else
                 let r := fade_channel r1 r2 k steps in
                 let g := fade_channel g1 g2 k steps in
                 let b := fade_channel b1 b2 k steps in
                 let* _ := set_color dev_path r g b 255 None None in
                 sleep >> ret false))).

(** *** Ripple *)

Definition base_intensity : Z := Qint (0.20 * 255).   (* 20% baseline *)
Definition ripple_boost : Z := Qint (0.05 * 255).     (* 5% boost per ripple *)

(** What [random] hands to one pass of the loop: the value of
    [random.uniform(0.1, 0.5)] and, should the ripple fire, of
    [random.randint(0, leds - 1)]. *)
Record draw := { uniform : Q; randint : Z }.

Record ripple_state := { led_intensities : list Z; ripple_timer : Q }.

(** Body of [for i in range(max(0, keystroke_led - 2), min(leds, keystroke_led + 3))] *)
Definition boost_led (keystroke_led i : Z) (l : list Z) : M (list Z) :=
  let distance := Z.abs (i - keystroke_led) in
  let boost := ripple_boost / (distance + 1) in
  let* x := lift (getitem l i) in
  lift (setitem l i (Z.min 255 (x + boost))).

(** Body of the decay loop [for seg in range(leds)] *)
Definition decay_led (dev_path : string) (rgb : Z * Z * Z) (seg : Z)
    (l : list Z) : M (list Z) :=
  let '(r, g, b) := rgb in
  let* x := lift (getitem l seg) in
  let* l :=
    if base_intensity <? x
    then lift (setitem l seg (Z.max base_intensity (x - 2)))
    else ret l in
  let* y := lift (getitem l seg) in
  let* _ := set_color dev_path r g b y (Some (seg * 5)) (Some (seg * 5 + 4)) in
  ret l.

(** The statements of one pass of [while not stop_event.is_set()], up to
    the decay loop. *)
Definition ripple_pass (dev_path : string) (rgb : Z * Z * Z) (interval : Q)
    (d : draw) (st : ripple_state) : M ripple_state :=
  let timer := (ripple_timer st + interval)%Q in
  let* st1 :=
    if Qle_bool (uniform d) timer then
      let keystroke_led := randint d in
      let* l := for_fold
                  (range (Z.max 0 (keystroke_led - 2))
                         (Z.min leds (keystroke_led + 3)))
                  (boost_led keystroke_led) (led_intensities st) in
      ret {| led_intensities := l; ripple_timer := 0 |}
    else ret {| led_intensities := led_intensities st; ripple_timer := timer |} in
  let* l := for_fold (range 0 leds) (decay_led dev_path rgb)
              (led_intensities st1) in
  ret {| led_intensities := l; ripple_timer := ripple_timer st1 |}.

(** The [while] loop, one pass per draw. *)
Fixpoint ripple_loop (dev_path : string) (rgb : Z * Z * Z) (interval : Q)
    (draws : list draw) (st : ripple_state) : M (status * ripple_state) :=
  match draws with
  | [] => ret (Running, st)
  | d :: draws' =>
      let* stop := is_set in
      if stop then ret (Returned, st)
      else
        let* st' := ripple_pass dev_path rgb interval d st in
        let* stop := is_set in
        if stop then ret (Returned, st')
        else
          let* _ := sleep in
          ripple_loop dev_path rgb interval draws' st'
  end.

Definition ripple_init : ripple_state :=
  {| led_intensities := repeat base_intensity (Z.to_nat leds);
     ripple_timer := 0 |}.

(** [ripple] up to its [while] loop: the baseline is painted first. *)
Definition ripple_setup (dev_path : string) (rgb : Z * Z * Z) : M bool :=
  let '(r, g, b) := rgb in
  let* ok := disable_autonomous dev_path in
  if negb ok then ret false
  else
    let* _ := paint_segments dev_path (fun _ => (r, g, b, base_intensity)) in
    ret true.

Definition ripple (dev_path : string) (base_color : Z * Z * Z) (interval : Q)
    (draws : list draw) : M status :=
  guarded
    (let* ok := ripple_setup dev_path base_color in
     if negb ok then ret Returned
     else
       let* r := ripple_loop dev_path base_color interval draws ripple_init in
       ret (fst r)).

(** [style_funcs], the worker function of each style, each followed for as
    many passes of its [while] loop as there are draws. *)
Definition style_funcs (dev_path : string) (base_color : Z * Z * Z)
    (interval : Q) (draws : list draw) : list (string * M status) :=
  let fuel := length draws in
  [("breathing", breathing dev_path base_color interval fuel);
   ("rainbow", rainbow dev_path interval fuel);
   ("flash", flash dev_path base_color interval fuel);
   ("pulse", pulse dev_path base_color interval fuel);
   ("wave", wave dev_path base_color interval fuel);
   ("spectrum", spectrum dev_path interval fuel);
   ("fade", fade dev_path base_color interval (255, 255, 255) fuel);
   ("strobe", strobe dev_path base_color interval fuel);
   ("ripple", ripple dev_path base_color interval draws)].

(** The call the lambda of [style_funcs] stored under [key] makes, the stop
    event aside: [rainbow] and [spectrum] get the path and the interval,
    the others the base colour as well. *)
Definition style_args (key dev_path : string) (base_color : Z * Z * Z)
    (interval : Q) : list json :=
  let '(r, g, b) := base_color in
  if String.eqb key "rainbow" || String.eqb key "spectrum"
  then [JStr dev_path; JFloat interval]
  else [JStr dev_path; JList [JInt r; JInt g; JInt b]; JFloat interval].

(** *** AnimationController; its [stop_event] is the world's flag. *)
Record controller := {
  thread : option nat;
  _get_device_path : string
}.

Definition stop (c : controller) : M controller :=
  let* _ :=
    match thread c with
    | Some t =>
        let* alive := is_alive t in
        if alive then
          let* _ := event_set in
          let* _ := join t in
          let* still := is_alive t in
          if still then signal "thread_timeout" else signal "thread_stopped"
        else ret tt
    | None => ret tt
    end in
  ret {| thread := None; _get_device_path := _get_device_path c |}.

Definition start (style : string) (base_color : Z * Z * Z) (interval : Q)
    (c : controller) : M controller :=
  let* c := stop c in
  let* _ := event_clear in
  let style_lower := lower style in
  let dev_path := _get_device_path c in
  let* present := if is_empty dev_path then ret false else exists_ dev_path in
  if negb present then
    let* _ := signal "device_unavailable" in
    ret c
  else if String.eqb style_lower "static" then
    let '(r, g, b) := base_color in
    let* _ := disable_autonomous dev_path in
    let* _ := set_color dev_path r g b 255 None None in
    let* _ := signal "static_applied" in
    ret c
  else if existsb (String.eqb style_lower)
            (map fst (style_funcs dev_path base_color interval [])) then
    let* t := spawn ("Anim-" ++ style_lower) style_lower
                (style_args style_lower dev_path base_color interval) in
    let* _ := signal "thread_started" in
    ret {| thread := Some t; _get_device_path := _get_device_path c |}
  else ret c.

(** [LogConsole.flush_logs], run by a timer: [get_nowait] until it raises
    [queue.Empty], every line appended to the view; [appended] tells
    whether the view is then scrolled to its end.  The loop is followed
    for [fuel] passes and answers [None] when that was not enough. *)
Fixpoint flush_logs (fuel : nat) (q : queue) (view : list string)
    (appended : bool) : option (queue * list string * bool) :=
  match fuel with
  | O => None
  | S fuel' =>
      match get_nowait q with
      | inl _ => Some (q, view, appended)
      | inr (line, q') => flush_logs fuel' q' (view ++ [line]) true
      end
  end.

End Archive.
(** ** src/archive/kbdrgb_daemon.py

    Its HID helpers ([send_feature_report], [disable_autonomous],
    [set_color]) and its [ripple] are the code of src/archive/kbdrgb.py
    without the logging and the [try]; the model reuses [Archive]'s. *)

Module Daemon.

Definition breathing (dev_path : string) (base_color : Z * Z * Z)
    (interval : Q) (fuel : nat) : M status :=
  let '(r, g, b) := base_color in
  let steps := Z.max 90 (Qint (120 * interval)) in
  let* ok := Archive.disable_autonomous dev_path in
  if negb ok then ret Returned
  else
    while_not_stopped fuel
      (for_ (range 0 steps)
         (fun k =>
            let* stop := is_set in
            if stop then ret true
            else
              let intensity := Archive.breathing_level steps k in
              let* _ := Archive.set_color dev_path r g b intensity None None in
              sleep >> ret false)).

Definition rainbow (dev_path : string) (interval : Q) (fuel : nat)
    : M status :=
  let steps := 180 in
  let* ok := Archive.disable_autonomous dev_path in
  if negb ok then ret Returned
  else
    while_not_stopped fuel
      (for_ (range 0 steps)
         (fun k =>
            let* stop := is_set in
            if stop then ret true
            else
              let hue := (IZR k / IZR steps)%R in
              let '(r, g, b) := Archive.rainbow_color hue in
              let* _ := Archive.set_color dev_path r g b 255 None None in
              sleep >> ret false)).

Definition ripple (dev_path : string) (base_color : Z * Z * Z) (interval : Q)
    (draws : list Archive.draw) : M status :=
  let* ok := Archive.ripple_setup dev_path base_color in
  if negb ok then ret Returned
  else
    let* r := Archive.ripple_loop dev_path base_color interval draws
                Archive.ripple_init in
    ret (fst r).

(** Python's truth value of a JSON value. *)
Definition truthy (v : json) : bool :=
  match v with
  | JNull => false
  | JBool b => b
  | JInt z => negb (z =? 0)
  | JFloat q => negb (Qeq_bool q 0)
  | JStr s => negb (is_empty s)
  | JList l => match l with [] => false | _ => true end
  | JDict kvs => match kvs with [] => false | _ => true end
  end.

(** [tuple(v)] *)
Definition py_tuple (v : json) : result (list json) :=
  match v with
  | JList l => Ok l
  | JStr s => Ok (map (fun c => JStr (String c EmptyString)) (list_ascii_of_string s))
  | JDict kvs => Ok (map (fun kv => JStr (fst kv)) kvs)
  | _ => Raise TypeError
  end.

(** [v.lower()]: only strings have the method. *)
Definition str_lower (v : json) : result string :=
  match v with
  | JStr s => Ok (lower s)
  | _ => Raise AttributeError
  end.

Section WithConfig.

(** [os.environ.get("KBDRGB_HID", "/dev/hidraw1")] *)
Variable DEFAULT_DEVICE_PATH : string.

(** Python's [int(s)] on a string, which the repository does not define. *)
Variable int_of_str : string -> result Z.

(** [int(v)] *)
Definition py_int (v : json) : result Z :=
  match v with
  | JInt z => Ok z
  | JBool b => Ok (if b then 1 else 0)
  | JFloat q => Ok (Qint q)
  | JStr s => int_of_str s
  | _ => Raise TypeError
  end.

(** The operand of [start_id & 0xFF]: [None] selects the default, an
    integer is taken as it is, anything else has no [&] with an int. *)
Definition led_index (v : json) : result (option Z) :=
  match v with
  | JNull => Ok None
  | JInt z => Ok (Some z)
  | JBool b => Ok (Some (if b then 1 else 0))
  | _ => Raise TypeError
  end.

(** [send_feature_report] called with whatever the state file held as
    [device_path].  A falsy value makes it return False; a string is a
    path; for any other value Python raises TypeError on the way to
    [os.open] (an integer that names no open file descriptor aside). *)
Definition send_feature_report (dev_path : json) (report_id : Z)
    (data : list Z) : M bool :=
  match dev_path with
  | JStr s => Archive.send_feature_report s report_id data
  | v => if truthy v then raise TypeError else ret false
  end.

Definition disable_autonomous (dev_path : json) : M bool :=
  let* sent := send_feature_report dev_path DISABLE_AUTONOMOUS [0x00] in
  if sent then (sleep >> ret true) else ret false.

(** [set_color(dev_path, *args)]: four to six positional arguments. *)
Definition set_color (dev_path : json) (args : list json) : M bool :=
  let call (r g b i start_id end_id : json) : M bool :=
    let* start_id := lift (led_index start_id) in
    let* end_id := lift (led_index end_id) in
    let start_id := default DEFAULT_LED_START start_id in
    let end_id := default DEFAULT_LED_END end_id in
    let* r := lift (py_int r) in
    let r := Z.max 0 (Z.min 255 r) in
    let* g := lift (py_int g) in
    let g := Z.max 0 (Z.min 255 g) in
    let* b := lift (py_int b) in
    let b := Z.max 0 (Z.min 255 b) in
    let* i := lift (py_int i) in
    let i := Z.max 0 (Z.min MAX_INTENSITY i) in
    send_feature_report dev_path SET_COLOR
      [0x01;
       Z.land start_id 0xFF; Z.land (Z.shiftr start_id 8) 0xFF;
       Z.land end_id 0xFF; Z.land (Z.shiftr end_id 8) 0xFF;
       r; g; b; i] in
  match args with
  | [r; g; b; i] => call r g b i JNull JNull
  | [r; g; b; i; s] => call r g b i s JNull
  | [r; g; b; i; s; e] => call r g b i s e
  | _ => raise TypeError
  end.

(** [DaemonState]; its [stop_event] is the world's flag. *)
Record daemon_state := {
  animation_thread : option nat;
  current_animation : option json
}.

Definition animations : list string := ["breathing"; "rainbow"; "ripple"].

Definition stop_animation (ds : daemon_state) : M daemon_state :=
  let* _ :=
    match animation_thread ds with
    | Some t =>
        let* alive := is_alive t in
        if alive then (event_set >> join t) else ret tt
    | None => ret tt
    end in
  ret {| animation_thread := None; current_animation := None |}.

(** The call the lambda of [animations] stored under [key] makes, the stop
    event aside: [breathing] and [ripple] get the path, the colour and the
    interval, [rainbow] the path and the interval. *)
Definition animation_args (key : string) (device_path : json)
    (color : list json) (interval : json) : list json :=
  if String.eqb key "rainbow" then [device_path; interval]
  else [device_path; JList color; interval].

Definition thread_name (style : json) : string :=
  match style with
  | JStr s => "Daemon-" ++ s
  | _ => "Daemon-"
  end.

Definition start_animation (style : json) (color : list json)
    (intensity interval device_path : json) (ds : daemon_state)
    : M daemon_state :=
  let* ds := stop_animation ds in
  let* style_lower := lift (str_lower style) in
  if String.eqb style_lower "static" then
    let* _ := disable_autonomous device_path in
    let* _ := set_color device_path (color ++ [intensity]) in
    ret ds
  else
    let* _ := event_clear in
    if existsb (String.eqb style_lower) animations then
      let* t := spawn (thread_name style) style_lower
                  (animation_args style_lower device_path color interval) in
      ret {| animation_thread := Some t; current_animation := Some style |}
    else ret ds.

Definition apply_state (state : gmap string json) (ds : daemon_state)
    : M daemon_state :=
  let style := default (JStr "static") (state !! "style") in
  let* color :=
    lift (py_tuple (default (JList [JInt 255; JInt 255; JInt 255])
                      (state !! "color"))) in
  let intensity := default (JInt 255) (state !! "intensity") in
  let interval := default (JFloat 0.1) (state !! "interval") in
  let device_path := default (JStr DEFAULT_DEVICE_PATH) (state !! "device_path") in
  start_animation style color intensity interval device_path ds.

(** What one pass of the watch loop finds on disk, the state file being
    left alone while the pass lasts: its [st_mtime] if it exists, and what
    [json.load] makes of it ([None] when it cannot be opened or is not
    JSON). *)
Record snapshot := { st_mtime : option Q; parsed : option json }.

(** [DaemonState.load_state]; Python's [None] is [JNull]. *)
Definition load_state (f : snapshot) : json :=
  match st_mtime f with
  | None => JNull
  | Some _ => default JNull (parsed f)
  end.

(** [self.apply_state(state)] on what [load_state] returned: only an
    object has the [get] that [apply_state] calls; of a key that occurs
    twice [json.load] keeps the last value. *)
Definition apply_loaded (state : json) (ds : daemon_state) : M daemon_state :=
  match state with
  | JDict kvs => apply_state (list_to_map (reverse kvs)) ds
  | _ => raise AttributeError
  end.

(** The fields of the [DaemonState] object once [apply_state] has raised.
    Before it calls [start_animation] it assigns nothing; inside
    [start_animation] whatever can raise comes after [stop_animation],
    which has reset both fields. *)
Definition fields_after_raise (state : json) (ds : daemon_state)
    : daemon_state :=
  match state with
  | JDict kvs =>
      match py_tuple (default (JList [JInt 255; JInt 255; JInt 255])
                        ((list_to_map (reverse kvs) : gmap string json)
                           !! "color")) with
      | Ok _ => {| animation_thread := None; current_animation := None |}
      | Raise _ => ds
      end
  | _ => ds
  end.

(** [DaemonState.watch_state_file], one pass of its [while] loop per
    snapshot; the loop tests the same [stop_event] that [stop_animation]
    sets.  The state is [last_mtime] and the fields of the object. *)
Fixpoint watch_state_file (files : list snapshot) (last_mtime : Q)
    (ds : daemon_state) : M (status * (Q * daemon_state)) :=
  match files with
  | [] => ret (Running, (last_mtime, ds))
  | f :: files' =>
      let* stop := is_set in
      if stop then ret (Returned, (last_mtime, ds))
      else
        let* r :=
          match st_mtime f with
          | Some mtime =>
              if Qle_bool mtime last_mtime then ret (last_mtime, ds)
              else
                let state := load_state f in
                if truthy state then
                  try_except
                    (let* ds' := apply_loaded state ds in ret (mtime, ds'))
                    (fun _ => ret (mtime, fields_after_raise state ds))
                else ret (mtime, ds)
          | None => ret (last_mtime, ds)
          end in
        let* _ := sleep in
        watch_state_file files' (fst r) (snd r)
  end.

End WithConfig.

End Daemon.

(** ** src/archive/OldCode/archive/kbdrgb_gui.py: LiveSender

    The HID helpers of this file are again the code of
    src/archive/kbdrgb.py. *)
Module Gui.

Record live_sender := {
  _last : option (Z * Z * Z * Z);     (* None is (None, None, None, None) *)
  _pending : option (Z * Z * Z * Z);
  _get_dev_path : string
}.

(** [LiveSender(get_dev_path_callable)] *)
Definition init (dev_path : string) : live_sender :=
  {| _last := None; _pending := None; _get_dev_path := dev_path |}.

(** [queue(r, g, b, i)] *)
Definition queue_ (r g b i : Z) (s : live_sender) : live_sender :=
  {| _last := _last s; _pending := Some (r, g, b, i);
     _get_dev_path := _get_dev_path s |}.

(** [_flush], run by the timer on every tick. *)
Definition _flush (s : live_sender) : M live_sender :=
  match _pending s with
  | Some (r, g, b, i) =>
      if bool_decide (_pending s <> _last s) then
        let dev_path := _get_dev_path s in
        let* present := if is_empty dev_path then ret false
                        else exists_ dev_path in
        if negb present then ret s
        else
          try_except
            (let* _ := Archive.disable_autonomous dev_path in
             let* _ := Archive.set_color dev_path r g b i None None in
             ret {| _last := _pending s; _pending := _pending s;
                    _get_dev_path := _get_dev_path s |})
            (fun _ => ret s)
      else ret s
  | None => ret s
  end.

(** [n] timer ticks. *)
Fixpoint ticks (n : nat) (s : live_sender) : M live_sender :=
  match n with
  | O => ret s
  | S n' => let* s' := _flush s in ticks n' s'
  end.

End Gui.

(** ** Reference encodings and test environments *)

(** Little-endian 16-bit encoding, low byte first, and its inverse. *)
Definition le16 (x : Z) : list Z := [x mod 256; (x / 256) mod 256].

Definition le16_decode (bs : list Z) : option Z :=
  match bs with
  | [lo; hi] => Some (lo + 256 * hi)
  | _ => None
  end.

(** An environment in which the device node is there and every call works,
    nobody else touches the stop flag and workers end promptly. *)
Definition friendly : env :=
  {| path_exists := fun _ _ => true;
     open_ok := fun _ => true;
     ioctl_ok := fun _ => true;
     interfere := fun _ => None;
     ends_in_time := fun _ => true |}.

Definition boot (E : env) : world :=
  {| oracle := E; now := 0; flag := false; threads := []; trace := [] |}.

(** An environment whose workers never end within a join timeout (a worker
    asleep in [time.sleep(interval)] for longer than the two seconds). *)
Definition sluggish : env :=
  {| path_exists := fun _ _ => true;
     open_ok := fun _ => true;
     ioctl_ok := fun _ => true;
     interfere := fun _ => None;
     ends_in_time := fun _ => false |}.

Definition fresh : Archive.controller :=
  {| Archive.thread := None; Archive._get_device_path := "/dev/hidraw1" |}.

(** The engine after [start("flash", ...)] and then [start("rainbow", ...)]. *)
Definition flash_then_rainbow (E : env) : result Archive.controller * world :=
  bind (Archive.start "flash" (0, 255, 0) 30 fresh)
       (Archive.start "rainbow" (0, 255, 0) 0.1) (boot E).


(** The device node is missing throughout. *)
Definition unplugged : env :=
  {| path_exists := fun _ _ => false;
     open_ok := fun _ => false;
     ioctl_ok := fun _ => false;
     interfere := fun _ => None;
     ends_in_time := fun _ => true |}.

(** The device node appears at time [T]; from then on every call works. *)
Definition plugged_in_at (T : nat) : env :=
  {| path_exists := fun t _ => (T <=? t)%nat;
     open_ok := fun t => (T <=? t)%nat;
     ioctl_ok := fun t => (T <=? t)%nat;
     interfere := fun _ => None;
     ends_in_time := fun _ => true |}.

(** How many colour reports (report id 0x05) a run has handed to the device. *)
Definition color_writes (w : world) : nat :=
  length (filter (fun pkt => head pkt = Some SET_COLOR) (packets w)).

(** The packet of [set_color(path, r, g, b, i)] over the whole keyboard. *)
Definition color_packet (v : Z * Z * Z * Z) : list Z :=
  let '(r, g, b, i) := v in
  [0x05; 0x01; 0; 0; 100; 0; clamp 255 r; clamp 255 g; clamp 255 b; clamp 255 i].

(** The default the daemon is said to substitute for each field of a state
    record, given the configured default device path. *)
Definition state_defaults (default_path : string) : list (string * json) :=
  [("style", JStr "static");
   ("color", JList [JInt 255; JInt 255; JInt 255]);
   ("intensity", JInt 255);
   ("interval", JFloat 0.1);
   ("device_path", JStr default_path)].

Definition daemon_init : Daemon.daemon_state :=
  {| Daemon.animation_thread := None; Daemon.current_animation := None |}.

(** The band ripple is said to keep every segment in: from the 20% baseline
    (51 = int(0.20 * 255)) up to 255. *)
Definition in_band (x : Z) : Prop := 51 <= x <= 255.

(** A packet respects the band when, if it is a colour report, its intensity
    byte (the last of the ten) is in the band. *)
Definition band_packet (pkt : list Z) : Prop :=
  head pkt = Some SET_COLOR -> in_band (nth 9 pkt 0).

(** The stored intensities are twenty values in the band. *)
Definition band_list (l : list Z) : Prop :=
  length l = 20%nat /\ Forall in_band l.

(** Every colour report written so far carries an intensity in the band. *)
Definition band_wire (w : world) : Prop := Forall band_packet (packets w).


(** The breathing law in the words of the specification: the intensity at
    step [k] of a cycle of [N] steps with target intensity [T] is
    [round(((1 - cos(2*pi*k/N)) / 2) * T)]. *)
Definition spec_breathing_level (N T k : Z) : Z :=
  Rround (((1 - cos (2 * PI * IZR k / IZR N)) / 2) * IZR T).

(** Nobody asks the worker to stop: the flag is clear and stays clear. *)
Definition quiet (w : world) : Prop :=
  flag w = false /\ forall t, interfere (oracle w) t <> Some true.

(** How many pattern steps a run has completed: each step ends in a
    [time.sleep]. *)
Definition sleeps (w : world) : nat :=
  length (omap (fun e => match e with EvSleep => Some tt | _ => None end)
            (trace w)).

(** From [w] the worker got to [w'] unstopped and slept at least [n]
    times on the way. *)
Definition runs (n : nat) (w w' : world) : Prop :=
  quiet w' /\ (sleeps w + n <= sleeps w')%nat.

(** The ioctl works up to time [T] and fails ever after. *)
Definition failing_after (T : nat) : env :=
  {| path_exists := fun _ _ => true;
     open_ok := fun _ => true;
     ioctl_ok := fun t => (t <? T)%nat;
     interfere := fun _ => None;
     ends_in_time := fun _ => true |}.

(** [w'] is [w] after some OS calls that logged [evs]: the oracle, the stop
    flag and the threads are as before. *)
Definition extends (w w' : world) (evs : list event) : Prop :=
  oracle w' = oracle w /\ flag w' = flag w /\ threads w' = threads w /\
  trace w' = trace w ++ evs /\ (now w <= now w')%nat.

(** [w'] differs from [w] by clock ticks and trace entries only. *)
Definition same_threads (w w' : world) : Prop :=
  oracle w' = oracle w /\ flag w' = flag w /\ threads w' = threads w.

(** No worker is running behind the handle [t]. *)
Definition idle (t : option nat) (w : world) : Prop :=
  forall tid, t = Some tid -> thread_alive tid w = false.

(** Every live worker is the one the handle [t] names. *)
Definition owned (t : option nat) (w : world) : Prop :=
  forall tid, thread_alive tid w = true -> t = Some tid.


(** The device node of [p] is there and can be opened, now and later. *)
Definition plugged (p : string) (w : world) : Prop :=
  is_empty p = false /\
  forall t, path_exists (oracle w) t p = true /\ open_ok (oracle w) t = true.

(** A stop has been requested and nobody withdraws it. *)
Definition stopped (w : world) : Prop :=
  flag w = true /\ forall t, interfere (oracle w) t <> Some false.

(** From [w] to [w'] the device was handed exactly the packets [pkts], in
    this order, and neither the stop flag nor the threads changed. *)
Definition wrote (w w' : world) (pkts : list (list Z)) : Prop :=
  oracle w' = oracle w /\ flag w' = flag w /\ threads w' = threads w /\
  (now w <= now w')%nat /\
  packets w' = packets w ++ pkts.

(** The packet of [set_color(path, r, g, b, i, seg*5, seg*5+4)], the colour
    report for the five LEDs of segment [seg]. *)
Definition segment_packet (seg : Z) (v : Z * Z * Z * Z) : list Z :=
  let '(r, g, b, i) := v in
  [0x05; 0x01; seg * 5; 0; seg * 5 + 4; 0;
   clamp 255 r; clamp 255 g; clamp 255 b; clamp 255 i].

(** [s] is two hexadecimal digits and [v] the byte they spell. *)
Definition hex_pair (s : string) (v : Z) : Prop :=
  exists c1 c2 d1 d2,
    s = String c1 (String c2 EmptyString) /\
    digit_value c1 = Some d1 /\ d1 < 16 /\
    digit_value c2 = Some d2 /\ d2 < 16 /\
    v = 16 * d1 + d2.

(** Every character, in the order of the codes. *)
Definition all_ascii : list ascii := map ascii_of_nat (seq 0 256).

(** The device node of [p] is missing, now and later. *)
Definition gone (p : string) (w : world) : Prop :=
  forall t, path_exists (oracle w) t p = false.

(** The colour report of src/kbdrgb.py for the whole keyboard. *)
Definition live_packet (v : Z * Z * Z * Z) : list Z :=
  let '(r, g, b, i) := v in [0x05; 0x01; 0; 0; 100; 0; r; g; b; i].

(** The stored intensities after a keystroke at segment [k], in closed
    form: 12 more at [k], 6 more next to it, 4 more two segments away,
    each capped at 255; the other segments as they were. *)
Definition struck (k : Z) (l : list Z) : list Z :=
  imap (fun i x =>
          let d := Z.abs (Z.of_nat i - k) in
          if d <=? 2 then Z.min 255 (x + 12 / (d + 1)) else x) l.

(** The decay of one pass, in closed form: a segment above the baseline 51
    goes down by 2, but not below the baseline. *)
Definition settled (l : list Z) : list Z :=
  map (fun x => if 51 <? x then Z.max 51 (x - 2) else x) l.

(** The reports a run has handed to the device, each with the path of the
    node it was written to. *)
Definition reports (w : world) : list (string * list Z) :=
  omap (fun e => match e with
                 | EvIoctl p _ pkt _ => Some (p, map int_of_byte pkt)
                 | _ => None
                 end) (trace w).

(** The worker threads a run has started: the name of each thread, the
    worker function it runs and the arguments it runs it with. *)
Definition spawned (w : world) : list (string * string * list json) :=
  omap (fun e => match e with
                 | EvSpawn _ name func args => Some (name, func, args)
                 | _ => None
                 end) (trace w).

(** The device node is there throughout but cannot be opened before time
    [T] (another process holds it, or its permissions are not set yet);
    from then on every call works. *)
Definition busy_until (T : nat) : env :=
  {| path_exists := fun _ _ => true;
     open_ok := fun t => (T <=? t)%nat;
     ioctl_ok := fun _ => true;
     interfere := fun _ => None;
     ends_in_time := fun _ => true |}.

(** The states a run has emitted on the controller's [thread_state]
    signal. *)
Definition signals (w : world) : list string :=
  omap (fun e => match e with
                 | EvSignal state => Some state
                 | _ => None
                 end) (trace w).

(** The outcome of each ioctl of a run: whether the device took the
    report. *)
Definition outcomes (w : world) : list bool :=
  omap (fun e => match e with
                 | EvIoctl _ _ _ ok => Some ok
                 | _ => None
                 end) (trace w).

(** The intensities [int(phase * T)] can come to at step [k] of a
    breathing cycle of [N] steps, whether the arithmetic is exact or that of
    doubles: a value from 0 to [T] that is the rounded value of the curve
    or one less. *)
Definition near_level (N T k i : Z) : Prop :=
  0 <= i <= T /\
  spec_breathing_level N T k - 1 <= i <= spec_breathing_level N T k.

(** From [w] to [w'] the ioctls issued had the outcomes [os], in this
    order; the oracle and the stop flag are as before. *)
Definition answered (w w' : world) (os : list bool) : Prop :=
  oracle w' = oracle w /\ flag w' = flag w /\
  outcomes w' = outcomes w ++ os.

(** How a run stands with respect to its writes: still going with every
    write so far taken by the device, or over with a refused write as its
    last. *)
Definition until_failure (returned : bool) (w w' : world) : Prop :=
  exists m,
    answered w w' (repeat true m ++ (if returned then [false] else [])).

(** The body of [for k in range(updates_per_cycle)] in the archive
    [breathing], as [Archive.breathing] has it. *)
Definition breathing_body (p : string) (r g b n : Z) (k : Z) : M bool :=
  let* stop := is_set in
  if stop then ret true
  else
    let intensity := Archive.breathing_level n k in
    let* sent := Archive.set_color p r g b intensity None None in
    if negb sent then ret true else (sleep >> ret false).
(* ------------------------------------------------------------------ *)
(** * Properties *)



(** ** Bytes *)

Lemma byte_of_int_some (z : Z) :
  0 <= z < 256 -> exists b, byte_of_int z = Some b /\ int_of_byte b = z.
Proof.
  intros [Hlo Hhi]. unfold byte_of_int, int_of_byte.
  destruct (Z.ltb_spec z 0) as [Hneg|_]; [lia|].
  destruct (Byte.of_N (Z.to_N z)) as [b|] eqn:Hb.
  - exists b. split; [reflexivity|].
    apply Byte.to_of_N in Hb. rewrite Hb. lia.
  - apply Byte.of_N_None_iff in Hb. lia.
Qed.

Lemma byte_of_int_none (z : Z) :
  ~ (0 <= z < 256) -> byte_of_int z = None.
Proof.
  intros Hz. unfold byte_of_int.
  destruct (Z.ltb_spec z 0) as [Hneg|Hpos]; [reflexivity|].
  apply Byte.of_N_None_iff. lia.
Qed.

Lemma py_bytes_ok (l : list Z) :
  Forall (fun z => 0 <= z < 256) l ->
  exists bs, py_bytes l = Ok bs /\ map int_of_byte bs = l.
Proof.
  induction 1 as [|z l Hz _ IH]; simpl.
  - exists []. split; reflexivity.
  - destruct (byte_of_int_some z Hz) as (b & -> & Hb).
    destruct IH as (bs & -> & Hbs).
    exists (b :: bs). split; [reflexivity|]. simpl. congruence.
Qed.

Lemma clamp_range (hi x : Z) : 0 <= hi -> 0 <= clamp hi x <= hi.
Proof. unfold clamp. lia. Qed.

Lemma clamp_id (hi x : Z) : 0 <= x <= hi -> clamp hi x = x.
Proof. unfold clamp. lia. Qed.

Lemma land_255_range (x : Z) : 0 <= Z.land x 0xFF < 256.
Proof.
  change 0xFF with (Z.ones 8). rewrite Z.land_ones by lia.
  apply Z.mod_pos_bound. lia.
Qed.

Lemma packets_app (w : world) (e : event) :
  packets (emit_event e w) =
  packets w ++ match e with
               | EvIoctl _ _ pkt _ => [map int_of_byte pkt]
               | _ => []
               end.
Proof.
  unfold packets. simpl. rewrite omap_app. simpl.
  destruct e; reflexivity.
Qed.

Lemma packets_tick (w : world) : packets (tick w) = packets w.
Proof. reflexivity. Qed.

(** ** The feature-report layer *)

(** A packet of at most 1024 bytes passes the length test of the ioctl. *)
Lemma short_packet_fits (b : Byte.byte) (bs : list Byte.byte) (data : list Z) :
  map int_of_byte bs = data ->
  Z.of_nat (length data) < IOCTL_BUFSZ ->
  (IOCTL_BUFSZ <? Z.of_nat (length (b :: bs))) = false.
Proof.
  intros Hbs Hlen. apply Z.ltb_ge.
  rewrite <- Hbs, length_map in Hlen. simpl length. lia.
Qed.

Lemma Archive_send_feature_report_sends (p : string) (id : Z) (data : list Z)
    (w : world) :
  is_empty p = false ->
  path_exists (oracle w) (now w) p = true ->
  open_ok (oracle w) (S (now w)) = true ->
  0 <= id < 256 ->
  Forall (fun z => 0 <= z < 256) data ->
  Z.of_nat (length data) < IOCTL_BUFSZ ->
  exists pkt,
    map int_of_byte pkt = id :: data /\
    Archive.send_feature_report p id data w =
    (Ok (ioctl_ok (oracle w) (S (now w))),
     tick (emit_event
             (EvIoctl p (HIDIOCSFEATURE (Z.of_nat (length pkt))) pkt
                (ioctl_ok (oracle w) (S (now w))))
             (tick w))).
Proof.
  intros Hne Hex Hop Hid Hdata Hlen.
  destruct (byte_of_int_some id Hid) as (b & Hb & Hbz).
  destruct (py_bytes_ok data Hdata) as (bs & Hbs & Hbsz).
  exists (b :: bs). split; [simpl; congruence|].
  unfold Archive.send_feature_report. rewrite Hne.
  unfold bind, exists_, lift, open_and_ioctl. rewrite Hex. simpl.
  rewrite Hb, Hbs. cbn [app]. cbn [tick oracle now]. rewrite Hop.
  rewrite (short_packet_fits b bs data Hbsz Hlen). reflexivity.
Qed.

Lemma Archive_send_feature_report_absent (p : string) (id : Z) (data : list Z)
    (w : world) :
  path_exists (oracle w) (now w) p = false ->
  fst (Archive.send_feature_report p id data w) = Ok false /\
  trace (snd (Archive.send_feature_report p id data w)) = trace w.
Proof.
  intros Hex. unfold Archive.send_feature_report.
  destruct (is_empty p); [split; reflexivity|].
  unfold bind, exists_. rewrite Hex. split; reflexivity.
Qed.

Lemma Archive_set_color_payload_bytes (r g b i s e : Z) :
  Forall (fun z => 0 <= z < 256)
    [0x01; Z.land s 0xFF; Z.land (Z.shiftr s 8) 0xFF;
     Z.land e 0xFF; Z.land (Z.shiftr e 8) 0xFF;
     Z.max 0 (Z.min 255 r); Z.max 0 (Z.min 255 g);
     Z.max 0 (Z.min 255 b); Z.max 0 (Z.min MAX_INTENSITY i)].
Proof.
  pose proof (land_255_range s). pose proof (land_255_range (Z.shiftr s 8)).
  pose proof (land_255_range e). pose proof (land_255_range (Z.shiftr e 8)).
  unfold MAX_INTENSITY. repeat constructor; lia.
Qed.

(** What the archive [set_color] puts on the wire, for any integers. *)
Lemma Archive_set_color_packet (p : string) (r g b i : Z)
    (start_id end_id : option Z) (w : world) :
  is_empty p = false ->
  path_exists (oracle w) (now w) p = true ->
  open_ok (oracle w) (S (now w)) = true ->
  let s := default DEFAULT_LED_START start_id in
  let e := default DEFAULT_LED_END end_id in
  fst (Archive.set_color p r g b i start_id end_id w) =
    Ok (ioctl_ok (oracle w) (S (now w))) /\
  packets (snd (Archive.set_color p r g b i start_id end_id w)) =
    packets w ++
    [[0x05; 0x01;
      Z.land s 0xFF; Z.land (Z.shiftr s 8) 0xFF;
      Z.land e 0xFF; Z.land (Z.shiftr e 8) 0xFF;
      clamp 255 r; clamp 255 g; clamp 255 b; clamp 255 i]].
Proof.
  intros Hne Hex Hop s e.
  unfold Archive.set_color.
  assert (Hs : match start_id with None => DEFAULT_LED_START | Some s0 => s0 end = s)
    by (destruct start_id; reflexivity).
  assert (He : match end_id with None => DEFAULT_LED_END | Some e0 => e0 end = e)
    by (destruct end_id; reflexivity).
  rewrite Hs, He.
  destruct (Archive_send_feature_report_sends p SET_COLOR _ w Hne Hex Hop
              ltac:(unfold SET_COLOR; lia)
              (Archive_set_color_payload_bytes r g b i s e)
              ltac:(reflexivity))
    as (pkt & Hpkt & ->).
  split; [reflexivity|].
  simpl snd. rewrite packets_tick, packets_app, packets_tick, Hpkt.
  reflexivity.
Qed.

Lemma le16_land_shift (x : Z) :
  0 <= x < 65536 ->
  [Z.land x 0xFF; Z.land (Z.shiftr x 8) 0xFF] = le16 x.
Proof.
  intros Hx. unfold le16.
  change 0xFF with (Z.ones 8). rewrite !Z.land_ones by lia.
  rewrite Z.shiftr_div_pow2 by lia. reflexivity.
Qed.

Lemma le16_roundtrip (x : Z) :
  0 <= x < 65536 -> le16_decode (le16 x) = Some x.
Proof.
  intros Hx. unfold le16, le16_decode. f_equal.
  rewrite (Z.mod_small (x / 256)) by (split; [apply Z.div_pos; lia | apply Z.div_lt_upper_bound; lia]).
  pose proof (Z.div_mod x 256). lia.
Qed.


(** ** Running the monad *)

Lemma bind_ok {A B} (m : M A) (k : A -> M B) (w w' : world) (a : A) :
  m w = (Ok a, w') -> bind m k w = k a w'.
Proof. intros H. unfold bind. rewrite H. reflexivity. Qed.

Lemma bind_raise {A B} (m : M A) (k : A -> M B) (w w' : world) (e : exn) :
  m w = (Raise e, w') -> bind m k w = (Raise e, w').
Proof. intros H. unfold bind. rewrite H. reflexivity. Qed.

(** ** What a HID helper may do to the world *)

Lemma extends_refl (w : world) : extends w w [].
Proof. unfold extends. rewrite app_nil_r. repeat split; lia. Qed.

Lemma extends_trans (w1 w2 w3 : world) (e1 e2 : list event) :
  extends w1 w2 e1 -> extends w2 w3 e2 -> extends w1 w3 (e1 ++ e2).
Proof.
  intros (Ho & Hf & Ht & Htr & Hn) (Ho' & Hf' & Ht' & Htr' & Hn').
  unfold extends. rewrite Htr', Htr, app_assoc.
  repeat split; try congruence; lia.
Qed.

Lemma extends_tick (w : world) : extends w (tick w) [].
Proof. unfold extends. simpl. rewrite app_nil_r. repeat split; lia. Qed.

Lemma Archive_send_feature_report_effect (p : string) (id : Z)
    (data : list Z) (w : world) :
  0 <= id < 256 ->
  Forall (fun z => 0 <= z < 256) data ->
  Z.of_nat (length data) < IOCTL_BUFSZ ->
  exists sent w' evs,
    Archive.send_feature_report p id data w = (Ok sent, w') /\
    extends w w' evs /\
    (evs = [] /\ sent = false \/
     exists req pkt, evs = [EvIoctl p req pkt sent] /\
                     map int_of_byte pkt = id :: data).
Proof.
  intros Hid Hdata Hlen.
  unfold Archive.send_feature_report.
  destruct (is_empty p) eqn:Hp.
  { exists false, w, []. split; [reflexivity|]. split; [apply extends_refl|].
    left. split; reflexivity. }
  destruct (path_exists (oracle w) (now w) p) eqn:Hex.
  2:{ exists false, (tick w), []. split.
      - unfold bind, exists_. rewrite Hex. reflexivity.
      - split; [apply extends_tick|]. left. split; reflexivity. }
  destruct (byte_of_int_some id Hid) as (b0 & Hb0 & Hb0z).
  destruct (py_bytes_ok data Hdata) as (bs & Hbs & Hbsz).
  unfold bind, exists_, lift, open_and_ioctl. rewrite Hex. simpl.
  rewrite Hb0, Hbs. cbn [app]. cbn [tick oracle now].
  rewrite (short_packet_fits b0 bs data Hbsz Hlen).
  destruct (open_ok (oracle w) (S (now w))) eqn:Hop.
  - eexists _, _, [_]. split; [reflexivity|]. split.
    + unfold extends. simpl. repeat split; lia.
    + right. eexists _, (b0 :: bs). split; [reflexivity|]. simpl. congruence.
  - exists false, (tick (tick w)), []. split; [reflexivity|]. split.
    + unfold extends. simpl. rewrite app_nil_r. repeat split; lia.
    + left. split; reflexivity.
Qed.

Lemma Archive_set_color_effect (p : string) (r g b i : Z)
    (start_id end_id : option Z) (w : world) :
  exists sent w' evs,
    Archive.set_color p r g b i start_id end_id w = (Ok sent, w') /\
    extends w w' evs /\
    (evs = [] /\ sent = false \/
     exists req pkt,
       evs = [EvIoctl p req pkt sent] /\
       map int_of_byte pkt =
       [0x05; 0x01;
        Z.land (default DEFAULT_LED_START start_id) 0xFF;
        Z.land (Z.shiftr (default DEFAULT_LED_START start_id) 8) 0xFF;
        Z.land (default DEFAULT_LED_END end_id) 0xFF;
        Z.land (Z.shiftr (default DEFAULT_LED_END end_id) 8) 0xFF;
        clamp 255 r; clamp 255 g; clamp 255 b; clamp 255 i]).
Proof.
  unfold Archive.set_color.
  assert (Hs : match start_id with None => DEFAULT_LED_START | Some s0 => s0 end
               = default DEFAULT_LED_START start_id)
    by (destruct start_id; reflexivity).
  assert (He : match end_id with None => DEFAULT_LED_END | Some e0 => e0 end
               = default DEFAULT_LED_END end_id)
    by (destruct end_id; reflexivity).
  rewrite Hs, He.
  apply Archive_send_feature_report_effect.
  - unfold SET_COLOR. lia.
  - apply Archive_set_color_payload_bytes.
  - reflexivity.
Qed.

Lemma Archive_disable_autonomous_effect (p : string) (w : world) :
  exists ok w' evs,
    Archive.disable_autonomous p w = (Ok ok, w') /\
    extends w w' evs /\
    (evs = [] /\ ok = false \/
     exists req pkt,
       map int_of_byte pkt = [0x0B; 0x00] /\
       (evs = [EvIoctl p req pkt false] /\ ok = false \/
        evs = [EvIoctl p req pkt true; EvSleep] /\ ok = true)).
Proof.
  unfold Archive.disable_autonomous.
  destruct (Archive_send_feature_report_effect p DISABLE_AUTONOMOUS [0x00] w)
    as (sent & w1 & evs & Hrun & Hext & Hevs).
  { unfold DISABLE_AUTONOMOUS. lia. }
  { repeat constructor; lia. }
  { reflexivity. }
  rewrite (bind_ok _ _ _ _ _ Hrun).
  destruct Hevs as [[-> ->]|(req & pkt & -> & Hpkt)].
  - exists false, w1, []. split; [reflexivity|]. split; [exact Hext|].
    left. split; reflexivity.
  - destruct sent.
    + exists true, (tick (emit_event EvSleep w1)), [EvIoctl p req pkt true; EvSleep].
      split; [reflexivity|]. split.
      * destruct Hext as (Ho & Hf & Ht & Htr & Hn).
        unfold extends. simpl. rewrite Htr, <- app_assoc. simpl.
        repeat split; try assumption; lia.
      * right. exists req, pkt. split; [exact Hpkt|]. right. split; reflexivity.
    + exists false, w1, [EvIoctl p req pkt false].
      split; [reflexivity|]. split; [exact Hext|].
      right. exists req, pkt. split; [exact Hpkt|]. left. split; reflexivity.
Qed.
(** ** The log queue *)

Lemma put_nowait_room (x : string) (q : queue) :
  Z.of_nat (length (items q)) < maxsize q ->
  put_nowait x q = inr {| maxsize := maxsize q; items := items q ++ [x] |}.
Proof.
  intros H. unfold put_nowait.
  destruct (Z.leb_spec (maxsize q) (Z.of_nat (length (items q)))); [lia|].
  rewrite andb_false_r. reflexivity.
Qed.

Lemma put_nowait_full (x : string) (q : queue) :
  0 < maxsize q ->
  maxsize q <= Z.of_nat (length (items q)) ->
  put_nowait x q = inl Full.
Proof.
  intros Hpos H. unfold put_nowait.
  destruct (Z.ltb_spec 0 (maxsize q)); [|lia].
  destruct (Z.leb_spec (maxsize q) (Z.of_nat (length (items q)))); [|lia].
  reflexivity.
Qed.

(** With room left both handlers append the line. *)
Lemma emit_room (x : string) (q : queue) :
  Z.of_nat (length (items q)) < maxsize q ->
  items (Current.emit x q) = items q ++ [x] /\
  items (Archive.emit x q) = items q ++ [x].
Proof.
  intros H. unfold Current.emit, Archive.emit.
  rewrite (put_nowait_room x q H). split; reflexivity.
Qed.

(** On a full queue the archive handler evicts the oldest line. *)
Lemma Archive_emit_full (x oldest : string) (rest : list string) (m : Z) :
  0 < m ->
  Z.of_nat (length (oldest :: rest)) = m ->
  Archive.emit x {| maxsize := m; items := oldest :: rest |} =
  {| maxsize := m; items := rest ++ [x] |}.
Proof.
  intros Hpos Hlen. unfold Archive.emit.
  rewrite put_nowait_full by (simpl maxsize; simpl items; lia).
  simpl get_nowait. cbv iota beta.
  rewrite put_nowait_room; [reflexivity|].
  simpl maxsize; simpl items. simpl length in Hlen. lia.
Qed.

(** On a full queue the current handler keeps the queue as it is. *)
Lemma Current_emit_full (x : string) (q : queue) :
  0 < maxsize q ->
  maxsize q <= Z.of_nat (length (items q)) ->
  Current.emit x q = q.
Proof.
  intros Hpos H. unfold Current.emit.
  rewrite (put_nowait_full x q Hpos H). reflexivity.
Qed.

(** ** What the HID helpers leave untouched *)

Lemma same_threads_refl (w : world) : same_threads w w.
Proof. repeat split. Qed.

Lemma same_threads_trans (w1 w2 w3 : world) :
  same_threads w1 w2 -> same_threads w2 w3 -> same_threads w1 w3.
Proof.
  intros (Ho & Hf & Ht) (Ho' & Hf' & Ht'). repeat split; congruence.
Qed.

Lemma Current_disable_autonomous_effect (p : string) (w : world) :
  exists w',
    Current.disable_autonomous p w = (Ok tt, w') /\
    same_threads w w' /\
    (packets w' = packets w \/ packets w' = packets w ++ [[0x0B; 0x00]]).
Proof.
  unfold Current.disable_autonomous, Current.send_feature_report,
    bind, exists_, lift, open_and_ioctl, sleep, ret.
  simpl.
  destruct (path_exists (oracle w) (now w) p); simpl.
  - destruct (open_ok (oracle w) (S (now w))); simpl;
      eexists; (split; [reflexivity|]); (split; [repeat split|]).
    + right. unfold packets. simpl. rewrite !omap_app. simpl.
      rewrite app_nil_r. reflexivity.
    + left. unfold packets. simpl. rewrite omap_app. simpl.
      rewrite app_nil_r. reflexivity.
  - eexists. split; [reflexivity|]. split; [repeat split|].
    left. unfold packets. simpl. rewrite omap_app. simpl.
    rewrite app_nil_r. reflexivity.
Qed.

(** ** The animation engine *)

Lemma owned_at_most_one (t : option nat) (w : world) (t1 t2 : nat) :
  owned t w -> thread_alive t1 w = true -> thread_alive t2 w = true -> t1 = t2.
Proof.
  intros Ho H1 H2. apply Ho in H1. apply Ho in H2. congruence.
Qed.

Lemma thread_alive_mark_dead (a tid : nat) (w : world) :
  thread_alive tid (with_threads (mark_dead a (threads w)) w) =
  if decide (tid = a) then false else thread_alive tid w.
Proof.
  unfold thread_alive, mark_dead. simpl.
  destruct (threads w !! a) as [ta|] eqn:Ha.
  - destruct (decide (tid = a)) as [->|Hne].
    + rewrite list_lookup_insert_eq; [reflexivity|].
      apply lookup_lt_Some in Ha. exact Ha.
    + rewrite list_lookup_insert_ne by congruence. reflexivity.
  - destruct (decide (tid = a)) as [->|Hne]; [|reflexivity].
    rewrite Ha. reflexivity.
Qed.

Lemma thread_alive_spawn (name func : string) (args : list json) (tid : nat)
    (w : world) :
  thread_alive tid (snd (spawn name func args w)) =
  if decide (tid = length (threads w)) then true else thread_alive tid w.
Proof.
  unfold thread_alive, spawn. simpl.
  destruct (decide (tid = length (threads w))) as [->|Hne].
  - rewrite lookup_app_r by lia. rewrite Nat.sub_diag. reflexivity.
  - destruct (Nat.lt_ge_cases tid (length (threads w))) as [Hlt|Hge].
    + rewrite lookup_app_l by exact Hlt. reflexivity.
    + rewrite lookup_app_r by exact Hge.
      rewrite (lookup_ge_None_2 (threads w)) by exact Hge.
      destruct (tid - length (threads w))%nat as [|n] eqn:Hd; [lia|].
      reflexivity.
Qed.

Lemma thread_alive_same (w w' : world) (tid : nat) :
  threads w' = threads w -> thread_alive tid w' = thread_alive tid w.
Proof. intros H. unfold thread_alive. rewrite H. reflexivity. Qed.

(** The archive [stop]: what it does to the world, case by case. *)
Lemma Archive_stop_idle (c : Archive.controller) (w : world) :
  idle (Archive.thread c) w ->
  Archive.stop c w =
  (Ok {| Archive.thread := None;
         Archive._get_device_path := Archive._get_device_path c |}, w).
Proof.
  intros Hidle. unfold Archive.stop.
  destruct (Archive.thread c) as [t|] eqn:Ht; [|reflexivity].
  unfold bind at 1. unfold bind at 1. unfold is_alive.
  rewrite (Hidle t eq_refl). reflexivity.
Qed.

Lemma Archive_stop_running (c : Archive.controller) (a : nat) (w : world) :
  Archive.thread c = Some a ->
  thread_alive a w = true ->
  let ended := ends_in_time (oracle w) (now w) in
  let w1 := emit_event EvSet (with_flag true w) in
  let w2 := tick (emit_event (EvJoin a ended)
                    (if ended then with_threads (mark_dead a (threads w1)) w1
                     else w1)) in
  Archive.stop c w =
  (Ok {| Archive.thread := None;
         Archive._get_device_path := Archive._get_device_path c |},
   emit_event (EvSignal (if ended then "thread_stopped" else "thread_timeout"))
     w2).
Proof.
  intros Ht Halive ended w1 w2. unfold Archive.stop. rewrite Ht.
  unfold bind, is_alive, event_set, join, signal, ret. rewrite Halive.
  cbv zeta. fold w1.
  change (oracle w1) with (oracle w). change (now w1) with (now w).
  fold ended.
  destruct ended eqn:He.
  - rewrite thread_alive_same with (w := with_threads (mark_dead a (threads w1)) w1)
      by reflexivity.
    rewrite thread_alive_mark_dead. destruct (decide (a = a)); [|congruence].
    reflexivity.
  - rewrite thread_alive_same with (w := w) by reflexivity.
    rewrite Halive. reflexivity.
Qed.

(** ** LiveSender *)

Lemma flush_nothing_new (s : Gui.live_sender) (w : world) :
  Gui._pending s = None \/ Gui._pending s = Gui._last s ->
  Gui._flush s w = (Ok s, w).
Proof.
  intros H. unfold Gui._flush.
  destruct (Gui._pending s) as [[[[r g] b] i]|] eqn:Hp; [|reflexivity].
  destruct H as [H|H]; [discriminate|].
  rewrite bool_decide_eq_false_2; [reflexivity|].
  intros Hne. apply Hne. exact H.
Qed.

Lemma flush_device_absent (s : Gui.live_sender) (w : world) :
  path_exists (oracle w) (now w) (Gui._get_dev_path s) = false ->
  exists w', Gui._flush s w = (Ok s, w') /\ extends w w' [].
Proof.
  intros Hex. unfold Gui._flush.
  destruct (Gui._pending s) as [[[[r g] b] i]|] eqn:Hp.
  2:{ exists w. split; [reflexivity|apply extends_refl]. }
  destruct (bool_decide (Some (r, g, b, i) <> Gui._last s)).
  2:{ exists w. split; [reflexivity|apply extends_refl]. }
  destruct (is_empty (Gui._get_dev_path s)).
  - exists w. split; [reflexivity|apply extends_refl].
  - exists (tick w). split; [|apply extends_tick].
    unfold bind, exists_. rewrite Hex. reflexivity.
Qed.

Lemma packets_extends (w w' : world) (evs : list event) :
  extends w w' evs ->
  packets w' = packets w ++
    omap (fun e => match e with
                   | EvIoctl _ _ pkt _ => Some (map int_of_byte pkt)
                   | _ => None
                   end) evs.
Proof.
  intros (_ & _ & _ & Htr & _). unfold packets. rewrite Htr, omap_app.
  reflexivity.
Qed.

(** With something new pending and the device there from now on, a tick
    hands the device the disable-autonomous report and the colour report,
    and records the value as sent. *)
Lemma flush_sends (s : Gui.live_sender) (v : Z * Z * Z * Z) (w : world) :
  is_empty (Gui._get_dev_path s) = false ->
  Gui._pending s = Some v ->
  Gui._pending s <> Gui._last s ->
  (forall t, (now w <= t)%nat ->
             path_exists (oracle w) t (Gui._get_dev_path s) = true /\
             open_ok (oracle w) t = true) ->
  exists w',
    Gui._flush s w =
      (Ok {| Gui._last := Some v; Gui._pending := Some v;
             Gui._get_dev_path := Gui._get_dev_path s |}, w') /\
    oracle w' = oracle w /\ (now w <= now w')%nat /\
    packets w' = packets w ++ [[0x0B; 0x00]; color_packet v].
Proof.
  intros Hne Hp Hneq Hdev. unfold Gui._flush. rewrite Hp.
  destruct v as [[[r g] b] i].
  rewrite <- Hp. rewrite bool_decide_eq_true_2 by exact Hneq.
  rewrite Hne, Hp.
  set (p := Gui._get_dev_path s) in *.
  assert (Hex : exists_ p w = (Ok true, tick w)).
  { unfold exists_. rewrite (proj1 (Hdev (now w) (Nat.le_refl _))). reflexivity. }
  rewrite (bind_ok _ _ _ _ _ Hex). cbn [negb].
  (* disable_autonomous *)
  destruct (Archive_send_feature_report_sends p DISABLE_AUTONOMOUS [0x00]
              (tick w) Hne) as (pkt & Hpkt & Hsend).
  { apply Hdev. simpl. lia. }
  { apply Hdev. simpl. lia. }
  { unfold DISABLE_AUTONOMOUS. lia. }
  { repeat constructor; lia. }
  { reflexivity. }
  assert (Hdis : exists ok w2,
            Archive.disable_autonomous p (tick w) = (Ok ok, w2) /\
            oracle w2 = oracle w /\ (now w <= now w2)%nat /\
            packets w2 = packets w ++ [[0x0B; 0x00]]).
  { unfold Archive.disable_autonomous. rewrite (bind_ok _ _ _ _ _ Hsend).
    destruct (ioctl_ok (oracle (tick w)) (S (now (tick w))));
      eexists _, _; (split; [reflexivity|]); simpl;
      (split; [reflexivity|]); (split; [lia|]);
      repeat (rewrite packets_tick || rewrite packets_app);
      rewrite Hpkt; simpl; rewrite ?app_nil_r; reflexivity. }
  destruct Hdis as (ok & w2 & Hrun2 & Hw2).
  destruct Hw2 as (Ho2 & Hn2 & Hpk2).
  unfold try_except.
  rewrite (bind_ok _ _ _ _ _ Hrun2).
  (* set_color *)
  destruct (Archive_set_color_packet p r g b i None None w2 Hne) as [Hres Hpk3].
  { rewrite Ho2. apply Hdev. lia. }
  { rewrite Ho2. apply Hdev. lia. }
  destruct (Archive_set_color_effect p r g b i None None w2)
    as (sent & w3 & e3 & Hrun3 & Hext3 & _).
  rewrite (bind_ok _ _ _ _ _ Hrun3).
  rewrite Hrun3 in Hpk3. simpl in Hpk3.
  exists w3. split; [reflexivity|].
  destruct Hext3 as (Ho3 & _ & _ & _ & Hn3).
  split; [congruence|]. split; [lia|].
  rewrite Hpk3, Hpk2, <- app_assoc. reflexivity.
Qed.

(** Whatever the environment, one tick ends normally and hands the device
    at most one colour report. *)
Lemma flush_at_most_one (s : Gui.live_sender) (w : world) :
  exists s' w',
    Gui._flush s w = (Ok s', w') /\
    Gui._pending s' = Gui._pending s /\
    Gui._get_dev_path s' = Gui._get_dev_path s /\
    (color_writes w' <= color_writes w + 1)%nat.
Proof.
  unfold Gui._flush.
  destruct (Gui._pending s) as [[[[r g] b] i]|] eqn:Hp.
  2:{ exists s, w. repeat split; [exact Hp|lia]. }
  destruct (bool_decide (Some (r, g, b, i) <> Gui._last s)).
  2:{ exists s, w. repeat split; [exact Hp|lia]. }
  set (p := Gui._get_dev_path s).
  assert (Hpres : exists present w1,
            (if is_empty p then ret false else exists_ p) w = (Ok present, w1) /\
            extends w w1 []).
  { destruct (is_empty p).
    - exists false, w. split; [reflexivity|apply extends_refl].
    - eexists _, (tick w). split; [reflexivity|apply extends_tick]. }
  destruct Hpres as (present & w1 & Hrun1 & Hext1).
  rewrite (bind_ok _ _ _ _ _ Hrun1).
  pose proof (packets_extends _ _ _ Hext1) as Hpk1. simpl in Hpk1.
  rewrite app_nil_r in Hpk1.
  destruct present; cbn [negb].
  2:{ exists s, w1. repeat split; [exact Hp|].
      unfold color_writes. rewrite Hpk1. lia. }
  destruct (Archive_disable_autonomous_effect p w1)
    as (ok & w2 & e2 & Hrun2 & Hext2 & He2).
  destruct (Archive_set_color_effect p r g b i None None w2)
    as (sent & w3 & e3 & Hrun3 & Hext3 & He3).
  unfold try_except.
  rewrite (bind_ok _ _ _ _ _ Hrun2), (bind_ok _ _ _ _ _ Hrun3).
  eexists _, w3. split; [reflexivity|]. simpl. repeat split.
  pose proof (packets_extends _ _ _ Hext2) as Hpk2.
  pose proof (packets_extends _ _ _ Hext3) as Hpk3.
  unfold color_writes. rewrite Hpk3, Hpk2, Hpk1.
  rewrite !filter_app, !length_app.
  assert (H2 : length (filter (fun pkt => head pkt = Some SET_COLOR)
                 (omap (fun e => match e with
                                 | EvIoctl _ _ pkt _ => Some (map int_of_byte pkt)
                                 | _ => None
                                 end) e2)) = 0%nat).
  { destruct He2 as [[-> _]|(req & pkt & Hpkt & [[-> _]|[-> _]])];
      simpl; rewrite ?Hpkt; reflexivity. }
  assert (H3 : (length (filter (fun pkt => head pkt = Some SET_COLOR)
                 (omap (fun e => match e with
                                 | EvIoctl _ _ pkt _ => Some (map int_of_byte pkt)
                                 | _ => None
                                 end) e3)) <= 1)%nat).
  { destruct He3 as [[-> _]|(req & pkt & -> & Hpkt)]; simpl; [lia|].
    rewrite Hpkt. simpl. lia. }
  lia.
Qed.

Lemma flush_device_absent_tick (s : Gui.live_sender) (w : world) :
  is_empty (Gui._get_dev_path s) = false ->
  is_Some (Gui._pending s) ->
  Gui._pending s <> Gui._last s ->
  path_exists (oracle w) (now w) (Gui._get_dev_path s) = false ->
  Gui._flush s w = (Ok s, tick w).
Proof.
  intros Hne [v Hp] Hneq Hex. unfold Gui._flush. rewrite Hp.
  destruct v as [[[r g] b] i].
  rewrite <- Hp, bool_decide_eq_true_2 by exact Hneq.
  rewrite Hne. unfold bind, exists_. rewrite Hex. reflexivity.
Qed.

(** Ticking goes on while the device is away and delivers once it is back. *)
Lemma ticks_eventually_send (v : Z * Z * Z * Z) (T d : nat) :
  forall (s : Gui.live_sender) (w : world),
    is_empty (Gui._get_dev_path s) = false ->
    Gui._pending s = Some v ->
    Gui._pending s <> Gui._last s ->
    (forall t, path_exists (oracle w) t (Gui._get_dev_path s) = (T <=? t)%nat) ->
    (forall t, (T <= t)%nat -> open_ok (oracle w) t = true) ->
    (T <= now w + d)%nat ->
    exists n s' w',
      Gui.ticks n s w = (Ok s', w') /\
      Gui._last s' = Some v /\
      Gui._pending s' = Some v /\
      packets w' = packets w ++ [[0x0B; 0x00]; color_packet v].
Proof.
  induction d as [|d IH]; intros s w Hne Hp Hneq Hpath Hopen HT.
  - destruct (flush_sends s v w Hne Hp Hneq) as (w' & Hrun & _ & _ & Hpk).
    { intros t Ht. split.
      - rewrite Hpath. apply Nat.leb_le. lia.
      - apply Hopen. lia. }
    exists 1%nat. eexists _, w'. split.
    + simpl. rewrite (bind_ok _ _ _ _ _ Hrun). reflexivity.
    + repeat split. exact Hpk.
  - destruct (Nat.leb_spec T (now w)) as [Hle|Hlt].
    + destruct (flush_sends s v w Hne Hp Hneq) as (w' & Hrun & _ & _ & Hpk).
      { intros t Ht. split.
        - rewrite Hpath. apply Nat.leb_le. lia.
        - apply Hopen. lia. }
      exists 1%nat. eexists _, w'. split.
      * simpl. rewrite (bind_ok _ _ _ _ _ Hrun). reflexivity.
      * repeat split. exact Hpk.
    + assert (Hrun : Gui._flush s w = (Ok s, tick w)).
      { apply flush_device_absent_tick; try assumption.
        - rewrite Hp. eexists. reflexivity.
        - rewrite Hpath. apply Nat.leb_gt. exact Hlt. }
      destruct (IH s (tick w) Hne Hp Hneq Hpath Hopen) as (n & s' & w' & Hn & Hl & Hq & Hpk).
      { simpl. lia. }
      exists (S n), s', w'. split.
      * simpl. rewrite (bind_ok _ _ _ _ _ Hrun). exact Hn.
      * repeat split; assumption.
Qed.

Lemma ticks_unplugged (s : Gui.live_sender) (n : nat) :
  forall w, oracle w = unplugged ->
    exists w', Gui.ticks n s w = (Ok s, w') /\ oracle w' = unplugged /\
               packets w' = packets w.
Proof.
  induction n as [|n IH]; intros w Ho.
  - exists w. repeat split. exact Ho.
  - destruct (flush_device_absent s w) as (w1 & Hrun & Hext).
    { rewrite Ho. reflexivity. }
    destruct (IH w1) as (w' & Hn & Ho' & Hpk).
    { destruct Hext as (Ho1 & _). congruence. }
    exists w'. split.
    + simpl. rewrite (bind_ok _ _ _ _ _ Hrun). exact Hn.
    + split; [exact Ho'|]. rewrite Hpk.
      rewrite (packets_extends _ _ _ Hext). simpl. apply app_nil_r.
Qed.

(** ** Lists as Python uses them *)

Lemma In_range (lo hi x : Z) : In x (range lo hi) <-> lo <= x < hi.
Proof.
  unfold range. rewrite in_map_iff. split.
  - intros (n & <- & Hn). apply in_seq in Hn. lia.
  - intros Hx. exists (Z.to_nat (x - lo)). split; [lia|].
    apply in_seq. lia.
Qed.

Lemma norm_index_in_range (len i : Z) :
  0 <= i < len -> norm_index len i = Some (Z.to_nat i).
Proof.
  intros Hi. unfold norm_index.
  destruct (Z.ltb_spec i 0); [lia|].
  destruct (Z.leb_spec 0 i); [|lia].
  destruct (Z.ltb_spec i len); [|lia].
  reflexivity.
Qed.

Lemma getitem_in_range (l : list Z) (i : Z) :
  0 <= i < Z.of_nat (length l) ->
  exists x, getitem l i = Ok x /\ nth_error l (Z.to_nat i) = Some x.
Proof.
  intros Hi. unfold getitem. rewrite norm_index_in_range by exact Hi.
  destruct (nth_error l (Z.to_nat i)) as [x|] eqn:Hx.
  - exists x. split; reflexivity.
  - apply nth_error_None in Hx. lia.
Qed.

Lemma setitem_in_range (l : list Z) (i x : Z) :
  0 <= i < Z.of_nat (length l) ->
  setitem l i x = Ok (replace_nth (Z.to_nat i) x l).
Proof.
  intros Hi. unfold setitem. rewrite norm_index_in_range by exact Hi.
  reflexivity.
Qed.

Lemma replace_nth_length (n : nat) (x : Z) (l : list Z) :
  length (replace_nth n x l) = length l.
Proof.
  revert n. induction l as [|y l IH]; intros [|n]; simpl; auto.
Qed.

Lemma replace_nth_Forall (P : Z -> Prop) (n : nat) (x : Z) (l : list Z) :
  Forall P l -> P x -> Forall P (replace_nth n x l).
Proof.
  intros Hl Hx. revert n.
  induction Hl as [|y l Hy Hl IH]; intros [|n]; simpl; auto.
Qed.

Lemma replace_nth_same (n : nat) (x : Z) (l : list Z) :
  (n < length l)%nat -> nth_error (replace_nth n x l) n = Some x.
Proof.
  revert n. induction l as [|y l IH]; intros [|n] Hn; simpl in *;
    try lia; [reflexivity|].
  apply IH. lia.
Qed.

Lemma nth_error_Forall (P : Z -> Prop) (l : list Z) (n : nat) (x : Z) :
  Forall P l -> nth_error l n = Some x -> P x.
Proof.
  intros Hl Hn. apply nth_error_In in Hn.
  rewrite Forall_forall in Hl. apply Hl. apply list_elem_of_In. exact Hn.
Qed.

(** A loop keeps what each pass of its body keeps. *)
Lemma for_fold_inv {S : Type} (I : S -> world -> Prop) (xs : list Z)
    (body : Z -> S -> M S) :
  (forall x s w, In x xs -> I s w ->
                 exists s' w', body x s w = (Ok s', w') /\ I s' w') ->
  forall s w, I s w ->
    exists s' w', for_fold xs body s w = (Ok s', w') /\ I s' w'.
Proof.
  induction xs as [|x xs IH]; intros Hbody s w HI.
  - exists s, w. split; [reflexivity|exact HI].
  - destruct (Hbody x s w (or_introl eq_refl) HI) as (s1 & w1 & Hrun & HI1).
    destruct (IH (fun y s0 w0 Hy => Hbody y s0 w0 (or_intror Hy)) s1 w1 HI1)
      as (s2 & w2 & Hrun2 & HI2).
    exists s2, w2. split; [|exact HI2].
    simpl. rewrite (bind_ok _ _ _ _ _ Hrun). exact Hrun2.
Qed.

(** ** Ripple *)

Lemma base_intensity_eq : Archive.base_intensity = 51.
Proof. reflexivity. Qed.

Lemma ripple_boost_eq : Archive.ripple_boost = 12.
Proof. reflexivity. Qed.

Lemma leds_eq : Archive.leds = 20.
Proof. reflexivity. Qed.

Lemma band_wire_extends (w w' : world) (evs : list event) :
  extends w w' evs ->
  band_wire w ->
  Forall band_packet
    (omap (fun e => match e with
                    | EvIoctl _ _ pkt _ => Some (map int_of_byte pkt)
                    | _ => None
                    end) evs) ->
  band_wire w'.
Proof.
  intros Hext Hw Hevs. unfold band_wire.
  rewrite (packets_extends _ _ _ Hext). apply Forall_app. split; assumption.
Qed.

Lemma Archive_set_color_band (p : string) (r g b i : Z)
    (start_id end_id : option Z) (w : world) :
  in_band i ->
  band_wire w ->
  exists sent w',
    Archive.set_color p r g b i start_id end_id w = (Ok sent, w') /\
    band_wire w'.
Proof.
  intros Hi Hw.
  destruct (Archive_set_color_effect p r g b i start_id end_id w)
    as (sent & w' & evs & Hrun & Hext & Hevs).
  exists sent, w'. split; [exact Hrun|].
  apply (band_wire_extends _ _ _ Hext Hw).
  destruct Hevs as [[-> _]|(req & pkt & -> & Hpkt)]; simpl.
  - constructor.
  - constructor; [|constructor]. intros _. rewrite Hpkt. simpl.
    rewrite clamp_id; unfold in_band in Hi; [exact Hi|lia].
Qed.

Lemma Archive_disable_autonomous_band (p : string) (w : world) :
  band_wire w ->
  exists ok w',
    Archive.disable_autonomous p w = (Ok ok, w') /\ band_wire w'.
Proof.
  intros Hw.
  destruct (Archive_disable_autonomous_effect p w)
    as (ok & w' & evs & Hrun & Hext & Hevs).
  exists ok, w'. split; [exact Hrun|].
  apply (band_wire_extends _ _ _ Hext Hw).
  destruct Hevs as [[-> _]|(req & pkt & Hpkt & [[-> _]|[-> _]])]; simpl.
  - constructor.
  - constructor; [|constructor]. intros H. rewrite Hpkt in H. discriminate.
  - constructor; [|constructor]. intros H. rewrite Hpkt in H. discriminate.
Qed.

Lemma boost_led_band (keystroke_led i : Z) (l : list Z) (w : world) :
  0 <= i < 20 ->
  band_list l ->
  exists l', Archive.boost_led keystroke_led i l w = (Ok l', w) /\ band_list l'.
Proof.
  intros Hi [Hlen Hl]. unfold Archive.boost_led.
  destruct (getitem_in_range l i) as (x & Hget & Hnth); [lia|].
  pose proof (nth_error_Forall _ _ _ _ Hl Hnth) as Hx. unfold in_band in Hx.
  unfold bind, lift. rewrite Hget, setitem_in_range by lia.
  eexists. split; [reflexivity|]. split.
  - rewrite replace_nth_length. exact Hlen.
  - apply replace_nth_Forall; [exact Hl|].
    rewrite ripple_boost_eq.
    assert (0 <= 12 / (Z.abs (i - keystroke_led) + 1))
      by (apply Z.div_pos; lia).
    unfold in_band. lia.
Qed.

Section RippleInvariant.

(** A property of the world that the calls ripple makes preserve. *)
Variable W : world -> Prop.
Hypothesis W_set_color :
  forall p r g b i start_id end_id w,
    in_band i -> W w ->
    exists sent w',
      Archive.set_color p r g b i start_id end_id w = (Ok sent, w') /\ W w'.
Hypothesis W_is_set : forall w, W w -> W (snd (is_set w)).
Hypothesis W_sleep : forall w, W w -> W (snd (sleep w)).

Lemma decay_led_band (p : string) (rgb : Z * Z * Z) (seg : Z) (l : list Z)
    (w : world) :
  0 <= seg < 20 ->
  band_list l -> W w ->
  exists l' w',
    Archive.decay_led p rgb seg l w = (Ok l', w') /\
    band_list l' /\ W w'.
Proof.
  intros Hseg [Hlen Hl] Hw. unfold Archive.decay_led.
  destruct rgb as [[r g] b].
  destruct (getitem_in_range l seg) as (x & Hget & Hnth); [lia|].
  pose proof (nth_error_Forall _ _ _ _ Hl Hnth) as Hx. unfold in_band in Hx.
  assert (Hg : lift (getitem l seg) w = (Ok x, w))
    by (unfold lift; rewrite Hget; reflexivity).
  rewrite (bind_ok _ _ _ _ _ Hg).
  rewrite base_intensity_eq.
  assert (Hmid : exists l1 y,
            (if 51 <? x then lift (setitem l seg (Z.max 51 (x - 2))) else ret l) w
            = (Ok l1, w) /\ band_list l1 /\
            getitem l1 seg = Ok y /\ in_band y).
  { destruct (Z.ltb_spec 51 x).
    - exists (replace_nth (Z.to_nat seg) (Z.max 51 (x - 2)) l), (Z.max 51 (x - 2)).
      unfold lift. rewrite setitem_in_range by lia.
      split; [reflexivity|]. split; [|split].
      + split; [rewrite replace_nth_length; exact Hlen|].
        apply replace_nth_Forall; [exact Hl|]. unfold in_band. lia.
      + unfold getitem. rewrite replace_nth_length.
        rewrite norm_index_in_range by lia.
        rewrite replace_nth_same by lia. reflexivity.
      + unfold in_band. lia.
    - exists l, x. split; [reflexivity|]. split; [split; assumption|].
      split; [exact Hget|exact Hx]. }
  destruct Hmid as (l1 & y & Hrun1 & Hl1 & Hget1 & Hy).
  rewrite (bind_ok _ _ _ _ _ Hrun1).
  assert (Hg1 : lift (getitem l1 seg) w = (Ok y, w))
    by (unfold lift; rewrite Hget1; reflexivity).
  rewrite (bind_ok _ _ _ _ _ Hg1).
  destruct (W_set_color p r g b y (Some (seg * 5)) (Some (seg * 5 + 4))
              w Hy Hw) as (sent & w' & Hrun2 & Hw').
  rewrite (bind_ok _ _ _ _ _ Hrun2).
  exists l1, w'. split; [reflexivity|]. split; assumption.
Qed.

Lemma ripple_pass_band (p : string) (rgb : Z * Z * Z) (interval : Q)
    (d : Archive.draw) (st : Archive.ripple_state) (w : world) :
  band_list (Archive.led_intensities st) -> W w ->
  exists st' w',
    Archive.ripple_pass p rgb interval d st w = (Ok st', w') /\
    band_list (Archive.led_intensities st') /\ W w'.
Proof.
  intros Hst Hw. unfold Archive.ripple_pass.
  set (timer := (Archive.ripple_timer st + interval)%Q).
  assert (Hboost : exists st1,
    (if Qle_bool (Archive.uniform d) timer
     then
       let keystroke_led := Archive.randint d in
       let* l := for_fold
                   (range (Z.max 0 (keystroke_led - 2))
                          (Z.min Archive.leds (keystroke_led + 3)))
                   (Archive.boost_led keystroke_led)
                   (Archive.led_intensities st) in
       ret {| Archive.led_intensities := l; Archive.ripple_timer := 0 |}
     else ret {| Archive.led_intensities := Archive.led_intensities st;
                 Archive.ripple_timer := timer |}) w = (Ok st1, w) /\
    band_list (Archive.led_intensities st1)).
  { destruct (Qle_bool (Archive.uniform d) timer).
    - cbv zeta.
      destruct (for_fold_inv (fun l w0 => band_list l /\ w0 = w)
                  (range (Z.max 0 (Archive.randint d - 2))
                         (Z.min Archive.leds (Archive.randint d + 3)))
                  (Archive.boost_led (Archive.randint d)))
        with (s := Archive.led_intensities st) (w := w)
        as (l' & w' & Hrun & Hl' & ->).
      + intros x l0 w0 Hx [Hl0 ->]. apply In_range in Hx.
        rewrite leds_eq in Hx.
        destruct (boost_led_band (Archive.randint d) x l0 w) as (l1 & Hr & Hl1);
          [lia|exact Hl0|].
        exists l1, w. split; [exact Hr|]. split; [exact Hl1|reflexivity].
      + split; [exact Hst|reflexivity].
      + rewrite (bind_ok _ _ _ _ _ Hrun). eexists. split; [reflexivity|exact Hl'].
    - eexists. split; [reflexivity|exact Hst]. }
  destruct Hboost as (st1 & Hrun1 & Hst1).
  rewrite (bind_ok _ _ _ _ _ Hrun1).
  destruct (for_fold_inv (fun l w0 => band_list l /\ W w0)
              (range 0 Archive.leds) (Archive.decay_led p rgb))
    with (s := Archive.led_intensities st1) (w := w)
    as (l2 & w2 & Hrun2 & Hl2 & Hw2).
  - intros x l0 w0 Hx [Hl0 Hw0]. apply In_range in Hx. rewrite leds_eq in Hx.
    destruct (decay_led_band p rgb x l0 w0 Hx Hl0 Hw0) as (l1 & w1 & Hr & H1 & H2).
    exists l1, w1. split; [exact Hr|]. split; assumption.
  - split; assumption.
  - rewrite (bind_ok _ _ _ _ _ Hrun2).
    eexists _, w2. split; [reflexivity|]. split; assumption.
Qed.

Lemma ripple_loop_band (p : string) (rgb : Z * Z * Z) (interval : Q)
    (draws : list Archive.draw) :
  forall st w,
    band_list (Archive.led_intensities st) -> W w ->
    exists status st' w',
      Archive.ripple_loop p rgb interval draws st w = (Ok (status, st'), w') /\
      band_list (Archive.led_intensities st') /\ W w'.
Proof.
  induction draws as [|d draws IH]; intros st w Hst Hw.
  - exists Running, st, w. split; [reflexivity|]. split; assumption.
  - simpl. unfold bind at 1. unfold is_set at 1.
    set (f1 := match interfere (oracle w) (now w) with
               | Some b => b | None => flag w end).
    set (w1 := tick (with_flag f1 w)).
    assert (Hw1 : W w1) by (apply (W_is_set w Hw)).
    destruct f1.
    { exists Returned, st, w1. split; [reflexivity|]. split; assumption. }
    destruct (ripple_pass_band p rgb interval d st w1 Hst Hw1)
      as (st' & w2 & Hrun & Hst' & Hw2).
    rewrite (bind_ok _ _ _ _ _ Hrun).
    unfold bind at 1. unfold is_set at 1.
    set (f2 := match interfere (oracle w2) (now w2) with
               | Some b => b | None => flag w2 end).
    set (w3 := tick (with_flag f2 w2)).
    assert (Hw3 : W w3) by (apply (W_is_set w2 Hw2)).
    destruct f2.
    { exists Returned, st', w3. split; [reflexivity|]. split; assumption. }
    unfold bind at 1. unfold sleep at 1.
    set (w4 := tick (emit_event EvSleep w3)).
    assert (Hw4 : W w4) by (apply (W_sleep w3 Hw3)).
    destruct (IH st' w4 Hst' Hw4) as (status & st2 & w5 & Hrun5 & H5 & H6).
    exists status, st2, w5. split; [exact Hrun5|]. split; assumption.
Qed.

End RippleInvariant.

Lemma band_wire_is_set (w : world) : band_wire w -> band_wire (snd (is_set w)).
Proof. intros H. exact H. Qed.

Lemma band_wire_sleep (w : world) : band_wire w -> band_wire (snd (sleep w)).
Proof.
  intros H. unfold band_wire. simpl. rewrite packets_tick, packets_app.
  simpl. rewrite app_nil_r. exact H.
Qed.

Lemma Archive_set_color_total (p : string) (r g b i : Z)
    (start_id end_id : option Z) (w : world) :
  in_band i -> True ->
  exists sent w',
    Archive.set_color p r g b i start_id end_id w = (Ok sent, w') /\ True.
Proof.
  intros _ _.
  destruct (Archive_set_color_effect p r g b i start_id end_id w)
    as (sent & w' & _ & Hrun & _).
  exists sent, w'. split; [exact Hrun|exact I].
Qed.

Lemma ripple_init_band : band_list (Archive.led_intensities Archive.ripple_init).
Proof.
  split; [reflexivity|]. simpl.
  repeat (constructor; [rewrite base_intensity_eq; unfold in_band; lia|]).
  constructor.
Qed.

Lemma ripple_setup_band (p : string) (rgb : Z * Z * Z) (w : world) :
  band_wire w ->
  exists ok w', Archive.ripple_setup p rgb w = (Ok ok, w') /\ band_wire w'.
Proof.
  intros Hw. unfold Archive.ripple_setup. destruct rgb as [[r g] b].
  destruct (Archive_disable_autonomous_band p w Hw) as (ok & w1 & Hrun & Hw1).
  rewrite (bind_ok _ _ _ _ _ Hrun).
  destruct ok; cbn [negb].
  2:{ exists false, w1. split; [reflexivity|exact Hw1]. }
  unfold Archive.paint_segments.
  destruct (for_fold_inv (fun (_ : unit) w0 => band_wire w0)
              (range 0 Archive.leds)
              (fun seg (_ : unit) =>
                 let '(r0, g0, b0, i0) := (r, g, b, Archive.base_intensity) in
                 let* _ := Archive.set_color p r0 g0 b0 i0
                             (Some (seg * 5)) (Some (seg * 5 + 4)) in
                 ret tt))
    with (s := tt) (w := w1) as (u & w2 & Hrun2 & Hw2).
  - intros x s w0 _ Hw0.
    destruct (Archive_set_color_band p r g b Archive.base_intensity
                (Some (x * 5)) (Some (x * 5 + 4)) w0) as (sent & w' & Hr & Hw').
    { rewrite base_intensity_eq. unfold in_band. lia. }
    { exact Hw0. }
    exists tt, w'. split; [|exact Hw'].
    cbv iota beta. rewrite (bind_ok _ _ _ _ _ Hr). reflexivity.
  - exact Hw1.
  - rewrite (bind_ok _ _ _ _ _ Hrun2). exists true, w2.
    split; [reflexivity|exact Hw2].
Qed.

(** ** Truncation and rounding of reals *)

Lemma Int_part_unique (x : R) (z : Z) :
  (IZR z <= x < IZR z + 1)%R -> Int_part x = z.
Proof.
  intros [Hlo Hhi]. symmetry. apply Int_part_spec. lra.
Qed.

Lemma Int_part_bounds (x : R) :
  (IZR (Int_part x) <= x < IZR (Int_part x) + 1)%R.
Proof. destruct (base_Int_part x). lra. Qed.

Lemma Rint_IZR (z : Z) : Rint (IZR z) = z.
Proof.
  unfold Rint. destruct (Rle_dec 0 (IZR z)).
  - apply Int_part_unique. lra.
  - rewrite <- opp_IZR. rewrite (Int_part_unique (IZR (- z)) (- z)) by lra. lia.
Qed.

Lemma Rint_nonneg (x : R) : (0 <= x)%R -> Rint x = Int_part x.
Proof.
  intros Hx. unfold Rint. destruct (Rle_dec 0 x); [reflexivity|contradiction].
Qed.

Lemma Rint_between (x : R) (T : Z) :
  (0 <= x <= IZR T)%R -> 0 <= Rint x <= T.
Proof.
  intros [Hlo Hhi]. rewrite Rint_nonneg by exact Hlo.
  destruct (Int_part_bounds x) as [H1 H2]. split.
  - assert (H : (IZR (-1) < IZR (Int_part x))%R) by (simpl; lra).
    apply lt_IZR in H. lia.
  - assert (H : (IZR (Int_part x) < IZR (T + 1))%R) by (rewrite plus_IZR; lra).
    apply lt_IZR in H. lia.
Qed.

(** Truncation is the rounding or one less. *)
Lemma Rint_Rround (x : R) :
  (0 <= x)%R -> Rround x - 1 <= Rint x <= Rround x.
Proof.
  intros Hx. rewrite Rint_nonneg by exact Hx. unfold Rround.
  destruct (Rlt_dec _ _); [lia|].
  destruct (Rlt_dec _ _); [lia|].
  destruct (Z.even _); lia.
Qed.

(** ** The breathing curve *)

Lemma phase_bounds (t : R) : (0 <= (1 - cos t) / 2 <= 1)%R.
Proof. pose proof (COS_bound t). lra. Qed.

Lemma phase_scaled (t : R) (T : Z) :
  0 <= T -> (0 <= (1 - cos t) / 2 * IZR T <= IZR T)%R.
Proof.
  intros HT. pose proof (phase_bounds t) as [H0 H1].
  assert (0 <= IZR T)%R by (apply IZR_le; exact HT).
  split; [apply Rmult_le_pos; assumption|].
  rewrite <- (Rmult_1_l (IZR T)) at 2. apply Rmult_le_compat_r; assumption.
Qed.

Lemma Current_breathing_level_range (k T : Z) :
  0 <= T -> 0 <= Current.breathing_level k T <= T.
Proof.
  intros HT. unfold Current.breathing_level.
  apply Rint_between, phase_scaled, HT.
Qed.

Lemma Current_breathing_level_period (k T : Z) :
  Current.breathing_level (k + 180) T = Current.breathing_level k T.
Proof.
  unfold Current.breathing_level. do 3 f_equal.
  rewrite plus_IZR.
  replace ((IZR k + 180) * 2 * PI / 180)%R
    with (IZR k * 2 * PI / 180 + 2 * INR 1 * PI)%R by (simpl; field).
  rewrite cos_period. reflexivity.
Qed.

Lemma Current_breathing_level_start (T : Z) : Current.breathing_level 0 T = 0.
Proof.
  unfold Current.breathing_level.
  replace (0 * 2 * PI / 180)%R with 0%R by field.
  rewrite cos_0.
  replace ((1 - 1) / 2 * IZR T)%R with (IZR 0) by (simpl; field).
  apply Rint_IZR.
Qed.

Lemma Current_breathing_level_peak (T : Z) : Current.breathing_level 90 T = T.
Proof.
  unfold Current.breathing_level.
  replace (90 * 2 * PI / 180)%R with PI by field.
  rewrite cos_PI.
  replace ((1 - -1) / 2 * IZR T)%R with (IZR T) by field.
  apply Rint_IZR.
Qed.

Lemma Current_breathing_level_vs_spec (k T : Z) :
  0 <= T ->
  spec_breathing_level 180 T k - 1 <= Current.breathing_level k T
    <= spec_breathing_level 180 T k.
Proof.
  intros HT. unfold spec_breathing_level, Current.breathing_level.
  replace (2 * PI * IZR k / 180)%R with (IZR k * 2 * PI / 180)%R by field.
  apply Rint_Rround. apply phase_scaled. exact HT.
Qed.

Lemma Archive_breathing_level_range (N k : Z) :
  0 <= Archive.breathing_level N k <= 255.
Proof.
  unfold Archive.breathing_level. apply Rint_between.
  pose proof (phase_scaled ((2 * PI) * (IZR k / IZR N)) 255 ltac:(lia)) as H.
  lra.
Qed.

Lemma Archive_breathing_level_start (N : Z) : Archive.breathing_level N 0 = 0.
Proof.
  unfold Archive.breathing_level.
  replace (2 * PI * (0 / IZR N))%R with 0%R by (unfold Rdiv; ring).
  rewrite cos_0.
  replace ((1 - 1) * (1 / 2) * 255)%R with (IZR 0) by (simpl; field).
  apply Rint_IZR.
Qed.

Lemma Archive_breathing_level_end (N : Z) :
  0 < N -> Archive.breathing_level N N = 0.
Proof.
  intros HN. unfold Archive.breathing_level.
  assert (IZR N <> 0)%R by (apply not_0_IZR; lia).
  replace (2 * PI * (IZR N / IZR N))%R with (2 * PI)%R by (field; assumption).
  rewrite cos_2PI.
  replace ((1 - 1) * (1 / 2) * 255)%R with (IZR 0) by (simpl; field).
  apply Rint_IZR.
Qed.

Lemma Archive_breathing_level_peak (N : Z) :
  0 < N -> Archive.breathing_level (2 * N) N = 255.
Proof.
  intros HN. unfold Archive.breathing_level.
  assert (IZR N <> 0)%R by (apply not_0_IZR; lia).
  rewrite mult_IZR.
  replace (2 * PI * (IZR N / (2 * IZR N)))%R with PI by (field; assumption).
  rewrite cos_PI.
  replace ((1 - -1) * (1 / 2) * 255)%R with (IZR 255) by field.
  apply Rint_IZR.
Qed.

Lemma Archive_breathing_level_vs_spec (N k : Z) :
  spec_breathing_level N 255 k - 1 <= Archive.breathing_level N k
    <= spec_breathing_level N 255 k.
Proof.
  unfold spec_breathing_level, Archive.breathing_level.
  replace (2 * PI * (IZR k / IZR N))%R with (2 * PI * IZR k / IZR N)%R
    by (unfold Rdiv; ring).
  replace ((1 - cos (2 * PI * IZR k / IZR N)) * (1 / 2) * 255)%R
    with ((1 - cos (2 * PI * IZR k / IZR N)) / 2 * 255)%R by field.
  apply Rint_Rround.
  pose proof (phase_scaled (2 * PI * IZR k / IZR N) 255 ltac:(lia)) as H.
  lra.
Qed.

(** At a twelfth of the cycle the curve stands at a quarter: 63.75 of 255. *)
Lemma quarter_level : ((1 - cos (PI / 3)) / 2 * 255 = 255 / 4)%R.
Proof. rewrite cos_PI3. field. Qed.

Lemma Int_part_63_75 : Int_part (255 / 4) = 63.
Proof. apply Int_part_unique. lra. Qed.

Lemma Rround_63_75 : Rround (255 / 4) = 64.
Proof.
  unfold Rround. rewrite Int_part_63_75.
  destruct (Rlt_dec (255 / 4 - 63) (1 / 2)) as [H|_]; [lra|].
  destruct (Rlt_dec (1 / 2) (255 / 4 - 63)) as [_|H]; [reflexivity|lra].
Qed.

(** ** Workers that nobody stops *)

Lemma runs_refl (w : world) : quiet w -> runs 0 w w.
Proof. intros H. split; [exact H|lia]. Qed.

Lemma runs_trans (n m : nat) (w1 w2 w3 : world) :
  runs n w1 w2 -> runs m w2 w3 -> runs (n + m) w1 w3.
Proof. intros [_ H1] [Hq H2]. split; [exact Hq|lia]. Qed.

Lemma runs_weaken (n m : nat) (w w' : world) :
  (m <= n)%nat -> runs n w w' -> runs m w w'.
Proof. intros Hle [Hq H]. split; [exact Hq|lia]. Qed.

Lemma sleeps_extends (w w' : world) (evs : list event) :
  extends w w' evs ->
  sleeps w' =
  (sleeps w +
   length (omap (fun e => match e with EvSleep => Some tt | _ => None end) evs))%nat.
Proof.
  intros (_ & _ & _ & Htr & _). unfold sleeps.
  rewrite Htr, omap_app, length_app. reflexivity.
Qed.

Lemma quiet_extends (w w' : world) (evs : list event) :
  extends w w' evs -> quiet w -> quiet w'.
Proof.
  intros (Ho & Hf & _) [Hflag Hint]. split; [congruence|].
  rewrite Ho. exact Hint.
Qed.

Lemma runs_extends (w w' : world) (evs : list event) :
  extends w w' evs -> quiet w -> runs 0 w w'.
Proof.
  intros Hext Hq. split; [exact (quiet_extends _ _ _ Hext Hq)|].
  rewrite (sleeps_extends _ _ _ Hext). lia.
Qed.

Lemma is_set_quiet (w : world) :
  quiet w -> exists w', is_set w = (Ok false, w') /\ runs 0 w w'.
Proof.
  intros [Hflag Hint]. unfold is_set.
  assert (Hf : match interfere (oracle w) (now w) with
               | Some b => b | None => flag w end = false).
  { destruct (interfere (oracle w) (now w)) as [[|]|] eqn:Hi.
    - exfalso. exact (Hint _ Hi).
    - reflexivity.
    - exact Hflag. }
  rewrite Hf. eexists. split; [reflexivity|].
  split; [split; [reflexivity|exact Hint]|]. unfold sleeps. simpl. lia.
Qed.

Lemma sleep_runs (w : world) :
  quiet w -> exists w', sleep w = (Ok tt, w') /\ runs 1 w w'.
Proof.
  intros Hq. eexists. split; [reflexivity|]. split; [exact Hq|].
  unfold sleeps. simpl. rewrite omap_app, length_app. simpl. lia.
Qed.

Lemma Archive_set_color_runs (p : string) (r g b i : Z)
    (start_id end_id : option Z) (w : world) :
  quiet w ->
  exists sent w',
    Archive.set_color p r g b i start_id end_id w = (Ok sent, w') /\
    runs 0 w w'.
Proof.
  intros Hq.
  destruct (Archive_set_color_effect p r g b i start_id end_id w)
    as (sent & w' & evs & Hrun & Hext & _).
  exists sent, w'. split; [exact Hrun|]. exact (runs_extends _ _ _ Hext Hq).
Qed.

Lemma Archive_disable_autonomous_runs (p : string) (w : world) :
  quiet w ->
  exists ok w',
    Archive.disable_autonomous p w = (Ok ok, w') /\ runs 0 w w'.
Proof.
  intros Hq.
  destruct (Archive_disable_autonomous_effect p w)
    as (ok & w' & evs & Hrun & Hext & _).
  exists ok, w'. split; [exact Hrun|]. exact (runs_extends _ _ _ Hext Hq).
Qed.

(** A [for] loop whose body never returns and sleeps once a pass. *)
Lemma for_runs (xs : list Z) (body : Z -> M bool) :
  (forall x w, In x xs -> quiet w ->
               exists w', body x w = (Ok false, w') /\ runs 1 w w') ->
  forall w, quiet w ->
    exists w', for_ xs body w = (Ok false, w') /\ runs (length xs) w w'.
Proof.
  induction xs as [|x xs IH]; intros Hbody w Hq.
  - exists w. split; [reflexivity|apply runs_refl; exact Hq].
  - destruct (Hbody x w (or_introl eq_refl) Hq) as (w1 & Hrun & Hr1).
    destruct (IH (fun y w0 Hy => Hbody y w0 (or_intror Hy)) w1 (proj1 Hr1))
      as (w2 & Hrun2 & Hr2).
    exists w2. split.
    + simpl. rewrite (bind_ok _ _ _ _ _ Hrun). exact Hrun2.
    + exact (runs_trans 1 (length xs) _ _ _ Hr1 Hr2).
Qed.

(** A [for] loop that only writes. *)
Lemma for_fold_runs {S : Type} (xs : list Z) (body : Z -> S -> M S) :
  (forall x s w, quiet w -> exists s' w', body x s w = (Ok s', w') /\ runs 0 w w') ->
  forall s w, quiet w ->
    exists s' w', for_fold xs body s w = (Ok s', w') /\ runs 0 w w'.
Proof.
  intros Hbody. induction xs as [|x xs IH]; intros s w Hq.
  - exists s, w. split; [reflexivity|apply runs_refl; exact Hq].
  - destruct (Hbody x s w Hq) as (s1 & w1 & Hrun & Hr1).
    destruct (IH s1 w1 (proj1 Hr1)) as (s2 & w2 & Hrun2 & Hr2).
    exists s2, w2. split.
    + simpl. rewrite (bind_ok _ _ _ _ _ Hrun). exact Hrun2.
    + exact (runs_trans 0 0 _ _ _ Hr1 Hr2).
Qed.

(** The [while] loop goes on for as long as it is followed. *)
Lemma while_runs (body : M bool) :
  (forall w, quiet w -> exists w', body w = (Ok false, w') /\ runs 1 w w') ->
  forall fuel w, quiet w ->
    exists w', while_not_stopped fuel body w = (Ok Running, w') /\
               runs fuel w w'.
Proof.
  intros Hbody. induction fuel as [|fuel IH]; intros w Hq.
  - exists w. split; [reflexivity|apply runs_refl; exact Hq].
  - destruct (is_set_quiet w Hq) as (w1 & Hset & Hr1).
    destruct (Hbody w1 (proj1 Hr1)) as (w2 & Hrun & Hr2).
    destruct (IH w2 (proj1 Hr2)) as (w3 & Hrun3 & Hr3).
    exists w3. split.
    + simpl. rewrite (bind_ok _ _ _ _ _ Hset). cbv iota.
      rewrite (bind_ok _ _ _ _ _ Hrun). exact Hrun3.
    + exact (runs_trans 1 fuel _ _ _ (runs_trans 0 1 _ _ _ Hr1 Hr2) Hr3).
Qed.

Lemma range_length (lo hi : Z) : length (range lo hi) = Z.to_nat (hi - lo).
Proof. unfold range. rewrite length_map, length_seq. reflexivity. Qed.

(** One step of the simple patterns: check the flag, write, sleep. *)
Lemma step_runs (p : string) (frame : Z -> Z * Z * Z * Z) (k : Z) (w : world) :
  quiet w ->
  exists w',
    (let* stop := is_set in
     if stop then ret true
     else
       let '(r, g, b, i) := frame k in
       let* _ := Archive.set_color p r g b i None None in
       sleep >> ret false) w = (Ok false, w') /\
    runs 1 w w'.
Proof.
  intros Hq.
  destruct (is_set_quiet w Hq) as (w1 & Hset & Hr1).
  rewrite (bind_ok _ _ _ _ _ Hset). cbv iota.
  destruct (frame k) as [[[r g] b] i].
  destruct (Archive_set_color_runs p r g b i None None w1 (proj1 Hr1))
    as (sent & w2 & Hrun & Hr2).
  rewrite (bind_ok _ _ _ _ _ Hrun).
  destruct (sleep_runs w2 (proj1 Hr2)) as (w3 & Hsl & Hr3).
  rewrite (bind_ok _ _ _ _ _ Hsl).
  exists w3. split; [reflexivity|].
  exact (runs_trans 0 1 _ _ _ (runs_trans 0 0 _ _ _ Hr1 Hr2) Hr3).
Qed.

Ltac run_is_set w1 Hr :=
  match goal with
  | Hq : quiet ?w |- context [bind is_set _ ?w] =>
      let Hset := fresh "Hset" in
      destruct (is_set_quiet w Hq) as (w1 & Hset & Hr);
      rewrite (bind_ok _ _ _ _ _ Hset); cbv iota
  end.

Ltac run_set_color Hq w2 Hr :=
  match goal with
  | |- context [bind (Archive.set_color ?p ?r ?g ?b ?i ?s ?e) _ ?w] =>
      let H := fresh "Hcol" in
      let sent := fresh "sent" in
      destruct (Archive_set_color_runs p r g b i s e w Hq) as (sent & w2 & H & Hr);
      rewrite (bind_ok _ _ _ _ _ H)
  end.

Ltac run_sleep Hq w3 Hr :=
  match goal with
  | |- context [bind sleep _ ?w] =>
      let H := fresh "Hsl" in
      destruct (sleep_runs w Hq) as (w3 & H & Hr);
      rewrite (bind_ok _ _ _ _ _ H)
  end.

(** The common frame of the archive workers: the [try], the pre-flight
    [disable_autonomous], then the loop. *)
Lemma guarded_preflight_runs (p : string) (loop : M status) (n : nat)
    (w : world) :
  quiet w ->
  fst (Archive.disable_autonomous p w) = Ok true ->
  (forall w1, quiet w1 -> exists w', loop w1 = (Ok Running, w') /\ runs n w1 w') ->
  exists w',
    guarded (let* ok := Archive.disable_autonomous p in
             if negb ok then ret Returned else loop) w = (Ok Running, w') /\
    runs n w w'.
Proof.
  intros Hq Hpre Hloop.
  destruct (Archive_disable_autonomous_runs p w Hq) as (ok & w1 & Hrun & Hr1).
  rewrite Hrun in Hpre. simpl in Hpre. inversion Hpre; subst ok.
  destruct (Hloop w1 (proj1 Hr1)) as (w2 & Hrun2 & Hr2).
  exists w2. split.
  - unfold guarded, try_except. rewrite (bind_ok _ _ _ _ _ Hrun). cbn [negb].
    rewrite Hrun2. reflexivity.
  - exact (runs_trans 0 n _ _ _ Hr1 Hr2).
Qed.

Lemma preflight_runs (p : string) (loop : M status) (n : nat) (w : world) :
  quiet w ->
  fst (Archive.disable_autonomous p w) = Ok true ->
  (forall w1, quiet w1 -> exists w', loop w1 = (Ok Running, w') /\ runs n w1 w') ->
  exists w',
    (let* ok := Archive.disable_autonomous p in
     if negb ok then ret Returned else loop) w = (Ok Running, w') /\
    runs n w w'.
Proof.
  intros Hq Hpre Hloop.
  destruct (Archive_disable_autonomous_runs p w Hq) as (ok & w1 & Hrun & Hr1).
  rewrite Hrun in Hpre. simpl in Hpre. inversion Hpre; subst ok.
  destruct (Hloop w1 (proj1 Hr1)) as (w2 & Hrun2 & Hr2).
  exists w2. split.
  - rewrite (bind_ok _ _ _ _ _ Hrun). cbn [negb]. exact Hrun2.
  - exact (runs_trans 0 n _ _ _ Hr1 Hr2).
Qed.

(** A pass over a non-empty range of steps that each sleep once. *)
Lemma cycle_runs (lo hi : Z) (body : Z -> M bool) (w : world) :
  lo < hi ->
  (forall x w0, quiet w0 -> exists w', body x w0 = (Ok false, w') /\ runs 1 w0 w') ->
  quiet w ->
  exists w', for_ (range lo hi) body w = (Ok false, w') /\ runs 1 w w'.
Proof.
  intros Hlt Hbody Hq.
  destruct (for_runs (range lo hi) body (fun x w0 _ => Hbody x w0) w Hq)
    as (w' & Hrun & Hr).
  exists w'. split; [exact Hrun|].
  apply (runs_weaken (length (range lo hi))); [|exact Hr].
  rewrite range_length. lia.
Qed.

Lemma Archive_rainbow_runs (p : string) (interval : Q) (fuel : nat) (w : world) :
  quiet w ->
  fst (Archive.disable_autonomous p w) = Ok true ->
  exists w', Archive.rainbow p interval fuel w = (Ok Running, w') /\
             runs fuel w w'.
Proof.
  intros Hq Hpre. unfold Archive.rainbow.
  apply guarded_preflight_runs; [exact Hq|exact Hpre|].
  intros w1 Hq1. apply while_runs; [|exact Hq1].
  intros w2 Hq2. apply cycle_runs; [lia| |exact Hq2].
  intros k w3 Hq3.
  run_is_set w4 Hr4.
  destruct (Archive.rainbow_color (IZR k / 180)) as [[r g] b].
  run_set_color (proj1 Hr4) w5 Hr5.
  run_sleep (proj1 Hr5) w6 Hr6.
  exists w6. split; [reflexivity|].
  exact (runs_trans 0 1 _ _ _ (runs_trans 0 0 _ _ _ Hr4 Hr5) Hr6).
Qed.

Lemma Daemon_rainbow_runs (p : string) (interval : Q) (fuel : nat) (w : world) :
  quiet w ->
  fst (Archive.disable_autonomous p w) = Ok true ->
  exists w', Daemon.rainbow p interval fuel w = (Ok Running, w') /\
             runs fuel w w'.
Proof.
  intros Hq Hpre. unfold Daemon.rainbow.
  apply preflight_runs; [exact Hq|exact Hpre|].
  intros w1 Hq1. apply while_runs; [|exact Hq1].
  intros w2 Hq2. apply cycle_runs; [lia| |exact Hq2].
  intros k w3 Hq3.
  run_is_set w4 Hr4.
  destruct (Archive.rainbow_color (IZR k / 180)) as [[r g] b].
  run_set_color (proj1 Hr4) w5 Hr5.
  run_sleep (proj1 Hr5) w6 Hr6.
  exists w6. split; [reflexivity|].
  exact (runs_trans 0 1 _ _ _ (runs_trans 0 0 _ _ _ Hr4 Hr5) Hr6).
Qed.

Lemma Daemon_breathing_runs (p : string) (rgb : Z * Z * Z) (interval : Q)
    (fuel : nat) (w : world) :
  quiet w ->
  fst (Archive.disable_autonomous p w) = Ok true ->
  exists w', Daemon.breathing p rgb interval fuel w = (Ok Running, w') /\
             runs fuel w w'.
Proof.
  intros Hq Hpre. unfold Daemon.breathing. destruct rgb as [[r g] b].
  apply preflight_runs; [exact Hq|exact Hpre|].
  intros w1 Hq1. apply while_runs; [|exact Hq1].
  intros w2 Hq2. apply cycle_runs; [lia| |exact Hq2].
  intros k w3 Hq3.
  run_is_set w4 Hr4.
  run_set_color (proj1 Hr4) w5 Hr5.
  run_sleep (proj1 Hr5) w6 Hr6.
  exists w6. split; [reflexivity|].
  exact (runs_trans 0 1 _ _ _ (runs_trans 0 0 _ _ _ Hr4 Hr5) Hr6).
Qed.

Lemma Archive_square_wave_runs (p : string) (on off : Z * Z * Z * Z)
    (fuel : nat) (w : world) :
  quiet w ->
  fst (Archive.disable_autonomous p w) = Ok true ->
  exists w', Archive.square_wave p on off fuel w = (Ok Running, w') /\
             runs fuel w w'.
Proof.
  intros Hq Hpre. unfold Archive.square_wave.
  destruct on as [[[r1 g1] b1] i1]. destruct off as [[[r2 g2] b2] i2].
  apply guarded_preflight_runs; [exact Hq|exact Hpre|].
  intros w1 Hq1. apply while_runs; [|exact Hq1].
  intros w2 Hq2.
  run_set_color Hq2 w3 Hr3.
  run_sleep (proj1 Hr3) w4 Hr4.
  pose proof (proj1 Hr4) as Hq4.
  run_is_set w5 Hr5.
  run_set_color (proj1 Hr5) w6 Hr6.
  run_sleep (proj1 Hr6) w7 Hr7.
  exists w7. split; [reflexivity|].
  apply (runs_weaken 2); [lia|].
  exact (runs_trans 1 1 _ _ _
           (runs_trans 0 1 _ _ _ Hr3 Hr4)
           (runs_trans 0 1 _ _ _ (runs_trans 0 0 _ _ _ Hr5 Hr6) Hr7)).
Qed.

Lemma paint_segments_runs (p : string) (frame : Z -> Z * Z * Z * Z)
    (w : world) :
  quiet w ->
  exists w', Archive.paint_segments p frame w = (Ok tt, w') /\ runs 0 w w'.
Proof.
  intros Hq. unfold Archive.paint_segments.
  destruct (for_fold_runs (range 0 Archive.leds)
              (fun seg (_ : unit) =>
                 let '(r, g, b, i) := frame seg in
                 let* _ := Archive.set_color p r g b i
                             (Some (seg * 5)) (Some (seg * 5 + 4)) in
                 ret tt)) with (s := tt) (w := w) as (u & w' & Hrun & Hr).
  - intros x s w0 Hq0. destruct (frame x) as [[[r g] b] i].
    run_set_color Hq0 w1 Hr1.
    exists tt, w1. split; [reflexivity|exact Hr1].
  - exact Hq.
  - exists w'. destruct u. split; [exact Hrun|exact Hr].
Qed.

Lemma Archive_wave_runs (p : string) (rgb : Z * Z * Z) (interval : Q)
    (fuel : nat) (w : world) :
  quiet w ->
  fst (Archive.disable_autonomous p w) = Ok true ->
  exists w', Archive.wave p rgb interval fuel w = (Ok Running, w') /\
             runs fuel w w'.
Proof.
  intros Hq Hpre. unfold Archive.wave. destruct rgb as [[r g] b].
  apply guarded_preflight_runs; [exact Hq|exact Hpre|].
  intros w1 Hq1. apply while_runs; [|exact Hq1].
  intros w2 Hq2. apply cycle_runs; [rewrite leds_eq; lia| |exact Hq2].
  intros k w3 Hq3.
  run_is_set w4 Hr4.
  destruct (paint_segments_runs p
              (fun seg => (r, g, b, Archive.wave_level seg k)) w4 (proj1 Hr4))
    as (w5 & Hp & Hr5).
  rewrite (bind_ok _ _ _ _ _ Hp).
  run_sleep (proj1 Hr5) w6 Hr6.
  exists w6. split; [reflexivity|].
  exact (runs_trans 0 1 _ _ _ (runs_trans 0 0 _ _ _ Hr4 Hr5) Hr6).
Qed.

Lemma Archive_spectrum_runs (p : string) (interval : Q) (fuel : nat)
    (w : world) :
  quiet w ->
  fst (Archive.disable_autonomous p w) = Ok true ->
  exists w', Archive.spectrum p interval fuel w = (Ok Running, w') /\
             runs fuel w w'.
Proof.
  intros Hq Hpre. unfold Archive.spectrum.
  apply guarded_preflight_runs; [exact Hq|exact Hpre|].
  intros w1 Hq1. apply while_runs; [|exact Hq1].
  intros w2 Hq2. apply cycle_runs; [rewrite leds_eq; lia| |exact Hq2].
  intros k w3 Hq3.
  run_is_set w4 Hr4.
  match goal with
  | |- context [bind (Archive.paint_segments p ?f) _ w4] =>
      destruct (paint_segments_runs p f w4 (proj1 Hr4)) as (w5 & Hp & Hr5)
  end.
  rewrite (bind_ok _ _ _ _ _ Hp).
  run_sleep (proj1 Hr5) w6 Hr6.
  exists w6. split; [reflexivity|].
  exact (runs_trans 0 1 _ _ _ (runs_trans 0 0 _ _ _ Hr4 Hr5) Hr6).
Qed.

Lemma Archive_fade_runs (p : string) (rgb target : Z * Z * Z) (interval : Q)
    (fuel : nat) (w : world) :
  quiet w ->
  fst (Archive.disable_autonomous p w) = Ok true ->
  exists w', Archive.fade p rgb interval target fuel w = (Ok Running, w') /\
             runs fuel w w'.
Proof.
  intros Hq Hpre. unfold Archive.fade.
  destruct rgb as [[r1 g1] b1]. destruct target as [[r2 g2] b2].
  apply guarded_preflight_runs; [exact Hq|exact Hpre|].
  intros w1 Hq1. apply while_runs; [|exact Hq1].
  intros w2 Hq2. apply cycle_runs; [lia| |exact Hq2].
  intros k w3 Hq3.
  run_is_set w4 Hr4.
  run_set_color (proj1 Hr4) w5 Hr5.
  run_sleep (proj1 Hr5) w6 Hr6.
  exists w6. split; [reflexivity|].
  exact (runs_trans 0 1 _ _ _ (runs_trans 0 0 _ _ _ Hr4 Hr5) Hr6).
Qed.

Lemma Archive_set_color_steady (n : nat) (p : string) (r g b i : Z)
    (start_id end_id : option Z) (w : world) :
  in_band i ->
  quiet w /\ sleeps w = n ->
  exists sent w',
    Archive.set_color p r g b i start_id end_id w = (Ok sent, w') /\
    (quiet w' /\ sleeps w' = n).
Proof.
  intros _ [Hq Hn].
  destruct (Archive_set_color_effect p r g b i start_id end_id w)
    as (sent & w' & evs & Hrun & Hext & Hevs).
  exists sent, w'. split; [exact Hrun|].
  split; [exact (quiet_extends _ _ _ Hext Hq)|].
  rewrite (sleeps_extends _ _ _ Hext), <- Hn.
  destruct Hevs as [[-> _]|(req & pkt & -> & _)]; simpl; lia.
Qed.

Lemma ripple_loop_runs (p : string) (rgb : Z * Z * Z) (interval : Q)
    (draws : list Archive.draw) :
  forall st w,
    band_list (Archive.led_intensities st) -> quiet w ->
    exists st' w',
      Archive.ripple_loop p rgb interval draws st w = (Ok (Running, st'), w') /\
      runs (length draws) w w'.
Proof.
  induction draws as [|d draws IH]; intros st w Hst Hq.
  - exists st, w. split; [reflexivity|apply runs_refl; exact Hq].
  - cbn [Archive.ripple_loop length].
    run_is_set w1 Hr1.
    destruct (ripple_pass_band (fun w' => quiet w' /\ sleeps w' = sleeps w1)
                (Archive_set_color_steady (sleeps w1)) p rgb interval d st w1
                Hst (conj (proj1 Hr1) eq_refl))
      as (st' & w2 & Hrun & Hst' & Hq2 & Hs2).
    rewrite (bind_ok _ _ _ _ _ Hrun).
    run_is_set w3 Hr3.
    run_sleep (proj1 Hr3) w4 Hr4.
    destruct (IH st' w4 Hst' (proj1 Hr4)) as (st2 & w5 & Hrun5 & Hr5).
    exists st2, w5. split; [exact Hrun5|].
    assert (Hr2 : runs 0 w1 w2) by (split; [exact Hq2|lia]).
    exact (runs_trans 1 (length draws) _ _ _
             (runs_trans 0 1 _ _ _
                (runs_trans 0 0 _ _ _ (runs_trans 0 0 _ _ _ Hr1 Hr2) Hr3) Hr4)
             Hr5).
Qed.

Lemma ripple_setup_runs (p : string) (rgb : Z * Z * Z) (w : world) :
  quiet w ->
  fst (Archive.disable_autonomous p w) = Ok true ->
  exists w', Archive.ripple_setup p rgb w = (Ok true, w') /\ runs 0 w w'.
Proof.
  intros Hq Hpre. unfold Archive.ripple_setup. destruct rgb as [[r g] b].
  destruct (Archive_disable_autonomous_runs p w Hq) as (ok & w1 & Hrun & Hr1).
  rewrite Hrun in Hpre. simpl in Hpre. inversion Hpre; subst ok.
  rewrite (bind_ok _ _ _ _ _ Hrun). cbn [negb].
  destruct (paint_segments_runs p (fun _ => (r, g, b, Archive.base_intensity))
              w1 (proj1 Hr1)) as (w2 & Hp & Hr2).
  rewrite (bind_ok _ _ _ _ _ Hp).
  exists w2. split; [reflexivity|exact (runs_trans 0 0 _ _ _ Hr1 Hr2)].
Qed.

Lemma Daemon_ripple_runs (p : string) (rgb : Z * Z * Z) (interval : Q)
    (draws : list Archive.draw) (w : world) :
  quiet w ->
  fst (Archive.disable_autonomous p w) = Ok true ->
  exists w', Daemon.ripple p rgb interval draws w = (Ok Running, w') /\
             runs (length draws) w w'.
Proof.
  intros Hq Hpre. unfold Daemon.ripple.
  destruct (ripple_setup_runs p rgb w Hq Hpre) as (w1 & Hrun & Hr1).
  rewrite (bind_ok _ _ _ _ _ Hrun). cbn [negb].
  destruct (ripple_loop_runs p rgb interval draws Archive.ripple_init w1
              ripple_init_band (proj1 Hr1)) as (st & w2 & Hrun2 & Hr2).
  rewrite (bind_ok _ _ _ _ _ Hrun2).
  exists w2. split; [reflexivity|exact (runs_trans 0 _ _ _ _ Hr1 Hr2)].
Qed.

Lemma Archive_ripple_runs (p : string) (rgb : Z * Z * Z) (interval : Q)
    (draws : list Archive.draw) (w : world) :
  quiet w ->
  fst (Archive.disable_autonomous p w) = Ok true ->
  exists w', Archive.ripple p rgb interval draws w = (Ok Running, w') /\
             runs (length draws) w w'.
Proof.
  intros Hq Hpre.
  destruct (Daemon_ripple_runs p rgb interval draws w Hq Hpre) as (w' & Hrun & Hr).
  exists w'. split; [|exact Hr].
  unfold Archive.ripple, guarded, try_except.
  unfold Daemon.ripple in Hrun. rewrite Hrun. reflexivity.
Qed.

(** ** The current breathing worker *)

Lemma Current_send_feature_report_effect (p : string) (id : Z)
    (data : list Z) (w : world) :
  0 <= id < 256 ->
  Forall (fun z => 0 <= z < 256) data ->
  Z.of_nat (length data) < IOCTL_BUFSZ ->
  exists sent w' evs,
    Current.send_feature_report p id data w = (Ok sent, w') /\
    extends w w' evs /\
    (evs = [] \/ exists req pkt, evs = [EvIoctl p req pkt sent]).
Proof.
  intros Hid Hdata Hlen. unfold Current.send_feature_report.
  destruct (path_exists (oracle w) (now w) p) eqn:Hex.
  2:{ exists false, (tick w), []. split.
      - unfold bind, exists_. rewrite Hex. reflexivity.
      - split; [apply extends_tick|]. left. reflexivity. }
  destruct (byte_of_int_some id Hid) as (b0 & Hb0 & _).
  destruct (py_bytes_ok data Hdata) as (bs & Hbs & Hbsz).
  unfold bind, exists_, lift, open_and_ioctl. rewrite Hex. simpl.
  rewrite Hb0, Hbs. cbn [app]. cbn [tick oracle now].
  rewrite (short_packet_fits b0 bs data Hbsz Hlen).
  destruct (open_ok (oracle w) (S (now w))) eqn:Hop.
  - eexists _, _, [_]. split; [reflexivity|]. split.
    + unfold extends. simpl. repeat split; lia.
    + right. eexists _, _. reflexivity.
  - exists false, (tick (tick w)), []. split; [reflexivity|]. split.
    + unfold extends. simpl. rewrite app_nil_r. repeat split; lia.
    + left. reflexivity.
Qed.

Lemma Current_set_color_runs (p : string) (r g b i : Z) (w : world) :
  0 <= r <= 255 -> 0 <= g <= 255 -> 0 <= b <= 255 -> 0 <= i <= 255 ->
  quiet w ->
  exists sent w', Current.set_color p r g b i w = (Ok sent, w') /\ runs 0 w w'.
Proof.
  intros Hr Hg Hb Hi Hq. unfold Current.set_color.
  destruct (Current_send_feature_report_effect p 0x05
              [0x01; 0; 0; 100; 0; r; g; b; i] w)
    as (sent & w' & evs & Hrun & Hext & Hevs).
  { lia. }
  { repeat constructor; lia. }
  { reflexivity. }
  exists sent, w'. split; [exact Hrun|]. exact (runs_extends _ _ _ Hext Hq).
Qed.

Lemma Current_disable_autonomous_runs (p : string) (w : world) :
  quiet w ->
  exists w', Current.disable_autonomous p w = (Ok tt, w') /\ runs 1 w w'.
Proof.
  intros Hq. unfold Current.disable_autonomous.
  destruct (Current_send_feature_report_effect p 0x0B [0x00] w)
    as (sent & w1 & evs & Hrun & Hext & _).
  { lia. }
  { repeat constructor; lia. }
  { reflexivity. }
  rewrite (bind_ok _ _ _ _ _ Hrun).
  pose proof (runs_extends _ _ _ Hext Hq) as Hr1.
  destruct (sleep_runs w1 (proj1 Hr1)) as (w2 & Hsl & Hr2).
  exists w2. split; [exact Hsl|exact (runs_trans 0 1 _ _ _ Hr1 Hr2)].
Qed.

Lemma for_break_runs {S : Type} (I : S -> Prop) (xs : list Z)
    (body : Z -> S -> M (bool * S)) :
  (forall x s w, I s -> quiet w ->
     exists s' w', body x s w = (Ok (false, s'), w') /\ I s' /\ runs 1 w w') ->
  forall s w, I s -> quiet w ->
    exists s' w', Current.for_break xs body s w = (Ok s', w') /\
                  runs (length xs) w w'.
Proof.
  intros Hbody. induction xs as [|x xs IH]; intros s w HI Hq.
  - exists s, w. split; [reflexivity|apply runs_refl; exact Hq].
  - destruct (Hbody x s w HI Hq) as (s1 & w1 & Hrun & HI1 & Hr1).
    destruct (IH s1 w1 HI1 (proj1 Hr1)) as (s2 & w2 & Hrun2 & Hr2).
    exists s2, w2. split.
    + simpl. rewrite (bind_ok _ _ _ _ _ Hrun). exact Hrun2.
    + exact (runs_trans 1 (length xs) _ _ _ Hr1 Hr2).
Qed.

(** With parameters that fit a byte, the worker the current controller
    starts goes on whatever the device answers. *)
Lemma Current_breathing_runs (c : Current.controller) (r g b : Z)
    (interval : Q) (intensity : Z) (fuel : nat) (w : world) :
  Current._params c = ((r, g, b), interval, intensity) ->
  0 <= r <= 255 -> 0 <= g <= 255 -> 0 <= b <= 255 -> 0 <= intensity <= 255 ->
  quiet w ->
  exists w',
    Current.breathing (Current.device_path c) (Current.get_params c) fuel w =
      (Ok Running, w') /\
    runs fuel w w'.
Proof.
  intros Hp Hr Hg Hb Hi Hq. unfold Current.breathing.
  destruct (Current_disable_autonomous_runs (Current.device_path c) w Hq)
    as (w1 & Hdis & Hr1).
  rewrite (bind_ok _ _ _ _ _ Hdis).
  destruct (while_runs
              (let* p := Current.get_params c in
               let '(color, interval0, intensity0) := p in
               let* _ := Current.for_break (range 0 180)
                           (Current.breathing_step (Current.device_path c)
                              (Current.get_params c) interval0)
                           (color, intensity0) in
               ret false)) with (fuel := fuel) (w := w1)
    as (w2 & Hrun & Hr2).
  - intros w0 Hq0. unfold Current.get_params at 1.
    unfold bind at 1. unfold ret at 1. rewrite Hp.
    destruct (for_break_runs (fun s => s = ((r, g, b), intensity)) (range 0 180)
                (Current.breathing_step (Current.device_path c)
                   (Current.get_params c) interval))
      with (s := ((r, g, b), intensity)) (w := w0) as (s' & w' & Hfb & Hrfb).
    + intros k s wk -> Hqk. unfold Current.breathing_step.
      match goal with
      | Hqq : quiet wk |- _ =>
          destruct (is_set_quiet wk Hqq) as (wa & Hset & Hra)
      end.
      rewrite (bind_ok _ _ _ _ _ Hset). cbv iota.
      unfold Current.get_params at 1. unfold bind at 1. unfold ret at 1.
      rewrite Hp. rewrite Qeq_bool_refl. cbn [negb].
      rewrite !bool_decide_eq_false_2 by (intros H; apply H; reflexivity).
      pose proof (Current_breathing_level_range k intensity (proj1 Hi)) as Hlev.
      destruct (Current_set_color_runs (Current.device_path c) r g b
                  (Current.breathing_level k intensity) wa)
        as (sent & wb & Hcol & Hrb); try assumption; [lia|exact (proj1 Hra)|].
      rewrite (bind_ok _ _ _ _ _ Hcol).
      destruct (sleep_runs wb (proj1 Hrb)) as (wc & Hsl & Hrc).
      rewrite (bind_ok _ _ _ _ _ Hsl).
      eexists _, wc. split; [reflexivity|]. split; [reflexivity|].
      exact (runs_trans 0 1 _ _ _ (runs_trans 0 0 _ _ _ Hra Hrb) Hrc).
    + reflexivity.
    + exact Hq0.
    + rewrite (bind_ok _ _ _ _ _ Hfb). exists w'. split; [reflexivity|].
      apply (runs_weaken (length (range 0 180))); [|exact Hrfb].
      rewrite range_length. lia.
  - exact (proj1 Hr1).
  - exists w2. split; [exact Hrun|].
    apply (runs_weaken (1 + fuel)); [lia|].
    exact (runs_trans 1 fuel _ _ _ Hr1 Hr2).
Qed.

(** ** The archive breathing worker gives up *)

(** When the pre-flight write works, nobody asks for a stop and the first
    colour write of the loop fails at the ioctl, the archive [breathing]
    returns after that one write, however long it is followed. *)
Lemma Archive_breathing_returns_on_failed_write (p : string)
    (rgb : Z * Z * Z) (interval : Q) (fuel : nat) (w : world) :
  is_empty p = false ->
  quiet w ->
  (forall t, path_exists (oracle w) t p = true) ->
  (forall t, open_ok (oracle w) t = true) ->
  ioctl_ok (oracle w) (S (now w)) = true ->
  ioctl_ok (oracle w) (now w + 6) = false ->
  exists w',
    Archive.breathing p rgb interval (S fuel) w = (Ok Returned, w') /\
    length (packets w') = (length (packets w) + 2)%nat /\
    sleeps w' = S (sleeps w).
Proof.
  intros Hne Hq Hpath Hopen Hpre Hfail.
  unfold Archive.breathing. destruct rgb as [[r g] b].
  unfold guarded, try_except.
  (* the pre-flight *)
  destruct (Archive_send_feature_report_sends p DISABLE_AUTONOMOUS [0x00] w Hne
              (Hpath _) (Hopen _)) as (pkt & Hpkt & Hsend).
  { unfold DISABLE_AUTONOMOUS. lia. }
  { repeat constructor; lia. }
  { reflexivity. }
  rewrite Hpre in Hsend.
  set (w1 := tick (emit_event EvSleep
               (tick (emit_event
                  (EvIoctl p (HIDIOCSFEATURE (Z.of_nat (length pkt))) pkt true)
                  (tick w))))).
  assert (Hdis : Archive.disable_autonomous p w = (Ok true, w1)).
  { unfold Archive.disable_autonomous. rewrite (bind_ok _ _ _ _ _ Hsend).
    reflexivity. }
  rewrite (bind_ok _ _ _ _ _ Hdis). cbn [negb].
  assert (Hq1 : quiet w1) by exact Hq.
  assert (Hnow1 : now w1 = (now w + 3)%nat) by (unfold w1; simpl; lia).
  (* the while test *)
  destruct (is_set_quiet w1 Hq1) as (w2 & Hset2 & Hr2).
  assert (Hw2 : w2 = tick (with_flag false w1)).
  { revert Hset2. unfold is_set. destruct Hq1 as [Hf Hi].
    destruct (interfere (oracle w1) (now w1)) as [[|]|] eqn:E;
      [exfalso; exact (Hi _ E)| |rewrite Hf]; intros H; inversion H; reflexivity. }
  (* the first step of the for loop *)
  destruct (is_set_quiet w2 (proj1 Hr2)) as (w3 & Hset3 & Hr3).
  assert (Hw3 : w3 = tick (with_flag false w2)).
  { revert Hset3. unfold is_set. destruct (proj1 Hr2) as [Hf Hi].
    destruct (interfere (oracle w2) (now w2)) as [[|]|] eqn:E;
      [exfalso; exact (Hi _ E)| |rewrite Hf]; intros H; inversion H; reflexivity. }
  assert (Hnow3 : now w3 = (now w + 5)%nat).
  { rewrite Hw3, Hw2. simpl. lia. }
  assert (Ho3 : oracle w3 = oracle w) by (rewrite Hw3, Hw2; reflexivity).
  set (n := Archive.updates_per_cycle interval).
  destruct (Archive_set_color_packet p r g b (Archive.breathing_level n 0)
              None None w3 Hne) as [Hres Hpk].
  { rewrite Ho3. apply Hpath. }
  { rewrite Ho3. apply Hopen. }
  destruct (Archive_set_color_effect p r g b (Archive.breathing_level n 0)
              None None w3) as (sent & w4 & evs & Hcol & Hext & Hevs).
  rewrite Hcol in Hres, Hpk. simpl in Hres, Hpk.
  assert (Hsent : sent = false).
  { inversion Hres as [Hs]. rewrite Ho3, Hnow3.
    replace (S (now w + 5)) with (now w + 6)%nat by lia. exact Hfail. }
  subst sent.
  set (body := fun k : Z =>
         let* stop := is_set in
         if stop then ret true
         else
           let intensity := Archive.breathing_level n k in
           let* sent := Archive.set_color p r g b intensity None None in
           if negb sent then ret true else (sleep >> ret false)).
  assert (Hstep : body 0 w2 = (Ok true, w4)).
  { unfold body. rewrite (bind_ok _ _ _ _ _ Hset3). cbv iota zeta.
    rewrite (bind_ok _ _ _ _ _ Hcol). reflexivity. }
  assert (Hrange : exists rest, range 0 n = 0 :: rest).
  { unfold range, n, Archive.updates_per_cycle.
    destruct (Z.to_nat (Z.max 90 (Qint (120 * interval)) - 0)) as [|m] eqn:Hm;
      [lia|]. simpl. eexists. reflexivity. }
  destruct Hrange as (rest & Hrange).
  assert (Hfor : for_ (range 0 n) body w2 = (Ok true, w4)).
  { rewrite Hrange. cbn [for_]. rewrite (bind_ok _ _ _ _ _ Hstep). reflexivity. }
  assert (Hwhile : while_not_stopped (S fuel) (for_ (range 0 n) body) w1
                   = (Ok Returned, w4)).
  { cbn [while_not_stopped]. rewrite (bind_ok _ _ _ _ _ Hset2). cbv iota.
    rewrite (bind_ok _ _ _ _ _ Hfor). reflexivity. }
  exists w4. split; [|split].
  - fold n. fold body. rewrite Hwhile. reflexivity.
  - rewrite Hpk, Hw3, Hw2. rewrite !packets_tick.
    change (packets (with_flag false (tick (with_flag false w1))))
      with (packets w1).
    unfold w1. repeat (rewrite packets_tick || rewrite packets_app).
    rewrite !length_app. simpl. lia.
  - rewrite (sleeps_extends _ _ _ Hext).
    assert (Hnos : length (omap (fun e => match e with
                                          | EvSleep => Some tt | _ => None end) evs)
                   = 0%nat).
    { destruct Hevs as [[-> _]|(req & pkt' & -> & _)]; reflexivity. }
    rewrite Hnos, Hw3, Hw2. unfold sleeps, w1. simpl.
    rewrite !omap_app, !length_app. simpl. lia.
Qed.

(** ** C1: channel clamping *)

(** C1 (defect of src/kbdrgb.py).  The current [set_color] encodes [int(r)],
    [int(g)], [int(b)], [int(i)] unclamped: called with r = 300 on a present
    device it raises ValueError from [bytes(...)] and nothing reaches the
    device, whereas the archive [set_color] sends the clamped byte 255. *)
Theorem C1_current_set_color_does_not_clamp :
  fst (Current.set_color "/dev/hidraw1" 300 0 0 255 (boot friendly)) =
    Raise ValueError /\
  packets (snd (Current.set_color "/dev/hidraw1" 300 0 0 255 (boot friendly))) = [] /\
  packets (snd (Archive.set_color "/dev/hidraw1" 300 0 0 255 None None
                  (boot friendly))) =
    [[0x05; 0x01; 0; 0; 100; 0; 255; 0; 0; 255]].
Proof. repeat split; reflexivity. Qed.

(** ** C2: wire format *)

(** C2.  For a range whose indices fit in 16 bits the archive [set_color]
    hands the device one packet: report id 0x05, then 0x01, the little-endian
    encodings of start and end, and the four clamped channels.  The range
    bytes decode back to start and end. *)
Theorem C2_set_color_wire_format (p : string) (r g b i s e : Z) (w : world) :
  0 <= s < 65536 ->
  0 <= e < 65536 ->
  is_empty p = false ->
  path_exists (oracle w) (now w) p = true ->
  open_ok (oracle w) (S (now w)) = true ->
  packets (snd (Archive.set_color p r g b i (Some s) (Some e) w)) =
    packets w ++
    [0x05 :: 0x01 :: le16 s ++ le16 e ++
       [clamp 255 r; clamp 255 g; clamp 255 b; clamp 255 i]] /\
  le16_decode (le16 s) = Some s /\
  le16_decode (le16 e) = Some e.
Proof.
  intros Hs He Hne Hex Hop.
  destruct (Archive_set_color_packet p r g b i (Some s) (Some e) w Hne Hex Hop)
    as [_ Hpk].
  simpl in Hpk. rewrite Hpk.
  split; [|split; apply le16_roundtrip; assumption].
  do 3 f_equal.
  rewrite <- (le16_land_shift s Hs), <- (le16_land_shift e He). reflexivity.
Qed.

Lemma C2_set_color_wire_format_witness :
  packets (snd (Archive.set_color "/dev/hidraw1" 300 (-4) 17 999
                  (Some 260) (Some 9) (boot friendly))) =
    packets (boot friendly) ++
    [0x05 :: 0x01 :: le16 260 ++ le16 9 ++
       [clamp 255 300; clamp 255 (-4); clamp 255 17; clamp 255 999]] /\
  le16_decode (le16 260) = Some 260 /\
  le16_decode (le16 9) = Some 9.
Proof.
  apply (C2_set_color_wire_format "/dev/hidraw1" 300 (-4) 17 999 260 9
           (boot friendly)); [lia | lia | reflexivity | reflexivity | reflexivity].
Defined.

(** ** C8: the bounded log buffer *)

(** C8 (defect of src/kbdrgb.py).  When [log_queue] (maxsize 1000) holds
    1000 lines, the current [QueueHandler.emit] swallows [queue.Full] and
    leaves the queue as it was: the newest line is dropped and the oldest
    kept.  The archive handler, on the same queue, evicts the oldest line
    and admits the newest. *)
Theorem C8_current_emit_drops_newest :
  let q := {| maxsize := maxsize Current.log_queue;
              items := "oldest" :: repeat "line" 999 |} in
  Current.emit "newest" q = q /\
  items (Archive.emit "newest" q) = repeat "line" 999 ++ ["newest"].
Proof.
  intros q. split.
  - apply Current_emit_full; [reflexivity|].
    vm_compute. discriminate.
  - unfold q. rewrite Archive_emit_full; reflexivity.
Qed.

(** ** C4: stop on an idle engine *)

(** C4, as stated, fails on src/kbdrgb.py: its [stop] always ends with
    [disable_autonomous], so on an idle engine with the device present one
    feature report (0x0B, [0x00]) is written. *)
Lemma C4_current_stop_writes_when_idle :
  idle (Current.thread (Current.init "/dev/hidraw1")) (boot friendly) /\
  packets (snd (Current.stop (Current.init "/dev/hidraw1") (boot friendly)))
  = [[0x0B; 0x00]].
Proof.
  split; [intros tid H; discriminate|reflexivity].
Qed.

(** What the [disable_autonomous] of src/kbdrgb.py logs: the sleep that
    ends it, after the one report if the node was there and opened. *)
Lemma Current_disable_autonomous_trace (p : string) (w : world) :
  exists w',
    Current.disable_autonomous p w = (Ok tt, w') /\
    (trace w' = trace w ++ [EvSleep] \/
     exists req pkt ok,
       trace w' = trace w ++ [EvIoctl p req pkt ok; EvSleep] /\
       map int_of_byte pkt = [0x0B; 0x00]).
Proof.
  unfold Current.disable_autonomous, Current.send_feature_report,
    bind, exists_, lift, open_and_ioctl, sleep, ret.
  simpl.
  destruct (path_exists (oracle w) (now w) p); simpl.
  - destruct (open_ok (oracle w) (S (now w))); simpl;
      eexists; (split; [reflexivity|]).
    + right. eexists _, _, _. simpl. rewrite <- app_assoc.
      split; reflexivity.
    + left. reflexivity.
  - eexists. split; [reflexivity|]. left. reflexivity.
Qed.

(** C4 (amended).  [stop] on an idle engine raises nothing, signals and
    joins no worker and sends no colour report.  The archive controller
    leaves the world exactly as it was.  The controller of src/kbdrgb.py
    resets its style, keeps the handle, and ends with [disable_autonomous]:
    all it logs is the sleep of that call, preceded by the one report
    (0x0B, [0x00]) when the device node is there and opens; the stop flag
    and the threads are as they were. *)
Theorem C4_stop_on_idle_engine (t : option nat) (w : world) :
  idle t w ->
  (forall p,
     Archive.stop {| Archive.thread := t; Archive._get_device_path := p |} w =
     (Ok {| Archive.thread := None; Archive._get_device_path := p |}, w)) /\
  (forall p style ps,
     exists w',
       Current.stop {| Current.device_path := p; Current.thread := t;
                       Current.current_style := style;
                       Current._params := ps |} w =
         (Ok {| Current.device_path := p; Current.thread := t;
                Current.current_style := "Static";
                Current._params := ps |}, w') /\
       same_threads w w' /\
       (packets w' = packets w \/ packets w' = packets w ++ [[0x0B; 0x00]]) /\
       (trace w' = trace w ++ [EvSleep] \/
        exists req pkt ok,
          trace w' = trace w ++ [EvIoctl p req pkt ok; EvSleep] /\
          map int_of_byte pkt = [0x0B; 0x00])).
Proof.
  intros Hidle. split.
  - intros p.
    apply (Archive_stop_idle
             {| Archive.thread := t; Archive._get_device_path := p |} w).
    exact Hidle.
  - intros p style ps. unfold Current.stop. simpl Current.thread.
    simpl Current.device_path.
    assert (Hfirst :
      (match t with
       | Some t0 => let* alive := is_alive t0 in
                    if alive then (event_set >> join t0) else ret tt
       | None => ret tt
       end) w = (Ok tt, w)).
    { destruct t as [t0|]; [|reflexivity].
      unfold bind, is_alive. rewrite (Hidle t0 eq_refl). reflexivity. }
    rewrite (bind_ok _ _ _ _ _ Hfirst).
    destruct (Current_disable_autonomous_effect p w) as (w' & Hrun & Hsame & Hpk).
    destruct (Current_disable_autonomous_trace p w) as (w2 & Hrun2 & Htr).
    assert (w2 = w') by congruence. subst w2.
    rewrite (bind_ok _ _ _ _ _ Hrun).
    exists w'. split; [reflexivity|]. repeat split; try apply Hsame; assumption.
Qed.

Lemma C4_stop_on_idle_engine_witness :
  (forall p,
     Archive.stop {| Archive.thread := Some 0%nat; Archive._get_device_path := p |}
       (boot friendly) =
     (Ok {| Archive.thread := None; Archive._get_device_path := p |},
      boot friendly)) /\
  (forall p style ps,
     exists w',
       Current.stop {| Current.device_path := p; Current.thread := Some 0%nat;
                       Current.current_style := style;
                       Current._params := ps |} (boot friendly) =
         (Ok {| Current.device_path := p; Current.thread := Some 0%nat;
                Current.current_style := "Static";
                Current._params := ps |}, w') /\
       same_threads (boot friendly) w' /\
       (packets w' = packets (boot friendly) \/
        packets w' = packets (boot friendly) ++ [[0x0B; 0x00]]) /\
       (trace w' = trace (boot friendly) ++ [EvSleep] \/
        exists req pkt ok,
          trace w' = trace (boot friendly) ++ [EvIoctl p req pkt ok; EvSleep] /\
          map int_of_byte pkt = [0x0B; 0x00])).
Proof.
  apply (C4_stop_on_idle_engine (Some 0%nat) (boot friendly)).
  intros tid H. reflexivity.
Defined.

(** ** C3: a superseding start *)

(** C3, as stated, fails: when the join on worker A times out, [stop]
    clears the handle all the same, [start] clears the stop flag the two
    workers share and spawns B, so both are alive and A no longer sees a
    stop request. *)
Lemma C3_two_workers_after_join_timeout :
  let w := snd (flash_then_rainbow sluggish) in
  thread_alive 0 w = true /\ thread_alive 1 w = true /\ flag w = false.
Proof. repeat split; reflexivity. Qed.

(** What [start] does once the running worker has been dealt with. *)
Lemma Archive_start_tail (style : string) (color : Z * Z * Z) (interval : Q)
    (p : string) (w : world) :
  exists c' w' rest,
    (let* _ := event_clear in
     let style_lower := lower style in
     let c := {| Archive.thread := None; Archive._get_device_path := p |} in
     let dev_path := Archive._get_device_path c in
     let* present := if is_empty dev_path then ret false else exists_ dev_path in
     if negb present then
       let* _ := signal "device_unavailable" in ret c
     else if String.eqb style_lower "static" then
       let '(r, g, b) := color in
       let* _ := Archive.disable_autonomous dev_path in
       let* _ := Archive.set_color dev_path r g b 255 None None in
       let* _ := signal "static_applied" in ret c
     else if existsb (String.eqb style_lower)
               (map fst (Archive.style_funcs dev_path color interval [])) then
       let* t := spawn ("Anim-" ++ style_lower) style_lower
                   (Archive.style_args style_lower dev_path color interval) in
       let* _ := signal "thread_started" in
       ret {| Archive.thread := Some t;
              Archive._get_device_path := Archive._get_device_path c |}
     else ret c) w = (Ok c', w') /\
    trace w' = trace w ++ EvClear :: rest /\
    ((forall tid, thread_alive tid w = false) -> owned (Archive.thread c') w').
Proof.
  set (w0 := emit_event EvClear (with_flag false w)).
  assert (Hclear : event_clear w = (Ok tt, w0)) by reflexivity.
  rewrite (bind_ok _ _ _ _ _ Hclear). cbv zeta. simpl Archive._get_device_path.
  assert (Hdead0 : (forall tid, thread_alive tid w = false) ->
                   forall tid, thread_alive tid w0 = false).
  { intros H tid. rewrite <- (H tid). apply thread_alive_same. reflexivity. }
  assert (Hpres : exists present w1,
            (if is_empty p then ret false else exists_ p) w0 = (Ok present, w1) /\
            extends w0 w1 []).
  { destruct (is_empty p).
    - exists false, w0. split; [reflexivity|apply extends_refl].
    - eexists _, (tick w0). split; [reflexivity|apply extends_tick]. }
  destruct Hpres as (present & w1 & Hrun1 & Hext1).
  rewrite (bind_ok _ _ _ _ _ Hrun1).
  assert (Hdead1 : (forall tid, thread_alive tid w = false) ->
                   forall tid, thread_alive tid w1 = false).
  { intros H tid. rewrite <- (Hdead0 H tid). apply thread_alive_same.
    apply Hext1. }
  assert (Htr1 : trace w1 = trace w ++ [EvClear]).
  { destruct Hext1 as (_ & _ & _ & Htr & _). rewrite Htr, app_nil_r.
    reflexivity. }
  destruct present; cbn [negb].
  2:{ eexists _, _, [_]. split; [reflexivity|]. split.
      - simpl. rewrite Htr1, <- app_assoc. reflexivity.
      - intros H tid Ha. simpl in Ha.
        rewrite (thread_alive_same w1) in Ha by reflexivity.
        rewrite (Hdead1 H) in Ha. discriminate. }
  destruct (String.eqb (lower style) "static").
  { destruct color as [[r g] b]. cbv iota beta.
    destruct (Archive_disable_autonomous_effect p w1)
      as (ok & w2 & e2 & Hrun2 & Hext2 & _).
    rewrite (bind_ok _ _ _ _ _ Hrun2).
    destruct (Archive_set_color_effect p r g b 255 None None w2)
      as (sent & w3 & e3 & Hrun3 & Hext3 & _).
    rewrite (bind_ok _ _ _ _ _ Hrun3).
    eexists _, _, (e2 ++ e3 ++ [EvSignal "static_applied"]).
    split; [reflexivity|].
    destruct Hext2 as (_ & _ & Ht2 & Htr2 & _).
    destruct Hext3 as (_ & _ & Ht3 & Htr3 & _).
    split.
    - simpl. rewrite Htr3, Htr2, Htr1, <- !app_assoc. reflexivity.
    - intros H tid Ha. simpl in Ha.
      rewrite (thread_alive_same w1) in Ha by (simpl; congruence).
      rewrite (Hdead1 H) in Ha. discriminate. }
  destruct (existsb (String.eqb (lower style))
              (map fst (Archive.style_funcs p color interval []))).
  - eexists _, _, [_; _]. split; [reflexivity|]. split.
    + simpl. rewrite Htr1, <- !app_assoc. reflexivity.
    + intros H tid Ha. simpl Archive.thread.
      rewrite (thread_alive_same
                 (snd (spawn ("Anim-" ++ lower style) (lower style)
                         (Archive.style_args (lower style) p color interval)
                         w1)))
        in Ha by reflexivity.
      rewrite thread_alive_spawn in Ha.
      destruct (decide (tid = length (threads w1))) as [->|Hne]; [reflexivity|].
      rewrite (Hdead1 H) in Ha. discriminate.
  - eexists _, _, []. split; [reflexivity|]. split.
    + rewrite Htr1. reflexivity.
    + intros H tid Ha. rewrite (Hdead1 H) in Ha. discriminate.
Qed.

Lemma mark_dead_length (a : nat) (ts : list thread) :
  length (mark_dead a ts) = length ts.
Proof.
  unfold mark_dead. destruct (ts !! a); [apply length_insert|reflexivity].
Qed.

Lemma thread_alive_lt (a : nat) (w : world) :
  thread_alive a w = true -> (a < length (threads w))%nat.
Proof.
  unfold thread_alive. intros H.
  destruct (threads w !! a) as [t|] eqn:Ht; [|discriminate].
  apply lookup_lt_Some in Ht. exact Ht.
Qed.

(** C3 (amended).  With worker A alive behind the handle, [start] first sets
    the stop flag, then joins A, and only then clears the flag and goes on
    to the new style, whatever it is: the flag is set before anything of B
    happens.  If A ends within the join timeout, the only worker alive
    afterwards is the one the new handle names, so no two workers are alive
    together.  For a style that is one of the nine patterns, with the
    device node there, B is launched in both cases: after the join, the
    signal and the clearing of the flag comes the start of the thread
    "Anim-" and the style, running the worker of that name with the path,
    the colour and the interval of the call; the new handle names it, it is
    alive and the flag is clear.  A is dead then if the join saw it end;
    if the join timed out A is still alive next to B, orphaned, since the
    handle names B alone. *)
Theorem C3_start_supersedes (c : Archive.controller) (a : nat)
    (style : string) (color : Z * Z * Z) (interval : Q) (w : world) :
  Archive.thread c = Some a ->
  thread_alive a w = true ->
  owned (Some a) w ->
  let p := Archive._get_device_path c in
  let ended := ends_in_time (oracle w) (now w) in
  let outcome := if ended then "thread_stopped"%string
                 else "thread_timeout"%string in
  let b := length (threads w) in
  (exists c' w' rest,
     Archive.start style color interval c w = (Ok c', w') /\
     trace w' =
       trace w ++ [EvSet; EvJoin a ended; EvSignal outcome; EvClear] ++ rest /\
     (ended = true ->
      owned (Archive.thread c') w' /\
      forall t1 t2, thread_alive t1 w' = true -> thread_alive t2 w' = true ->
                    t1 = t2)) /\
  (is_empty p = false ->
   (forall t, path_exists (oracle w) t p = true) ->
   In (lower style)
      ["breathing"; "rainbow"; "flash"; "pulse"; "wave"; "spectrum";
       "fade"; "strobe"; "ripple"]%string ->
   exists w',
     Archive.start style color interval c w =
       (Ok {| Archive.thread := Some b; Archive._get_device_path := p |}, w') /\
     trace w' =
       trace w ++
       [EvSet; EvJoin a ended; EvSignal outcome; EvClear;
        EvSpawn b ("Anim-" ++ lower style) (lower style)
          (Archive.style_args (lower style) p color interval);
        EvSignal "thread_started"] /\
     flag w' = false /\
     thread_alive b w' = true /\
     thread_alive a w' = negb ended /\
     a <> b).
Proof.
  intros Hc Ha Hown p ended outcome b.
  pose proof (Archive_stop_running c a w Hc Ha) as Hstop. cbv zeta in Hstop.
  fold ended in Hstop. fold outcome in Hstop.
  split.
  - unfold Archive.start.
    rewrite (bind_ok _ _ _ _ _ Hstop).
    match goal with
    | |- context [bind event_clear _ ?w1] => set (ws := w1)
    end.
    destruct (Archive_start_tail style color interval (Archive._get_device_path c) ws)
      as (c' & w' & rest & Hrun & Htr & Hown').
    simpl Archive._get_device_path in *.
    exists c', w', rest.
    split; [exact Hrun|]. split.
    + rewrite Htr. unfold ws. simpl.
      destruct ended; simpl; rewrite <- !app_assoc; reflexivity.
    + intros Hend.
      assert (Hnone : forall tid, thread_alive tid ws = false).
      { intros tid. unfold ws. rewrite Hend.
        rewrite (thread_alive_same
                   (with_threads (mark_dead a (threads (emit_event EvSet (with_flag true w))))
                      (emit_event EvSet (with_flag true w)))) by reflexivity.
        rewrite thread_alive_mark_dead.
        destruct (decide (tid = a)) as [->|Hne]; [reflexivity|].
        rewrite (thread_alive_same w) by reflexivity.
        destruct (thread_alive tid w) eqn:Ht; [|reflexivity].
        apply Hown in Ht. congruence. }
      split; [exact (Hown' Hnone)|].
      intros t1 t2. apply owned_at_most_one with (t := Archive.thread c').
      exact (Hown' Hnone).
  - intros Hne Hpath Hin.
    pose proof (thread_alive_lt a w Ha) as Hlt.
    assert (Hns : String.eqb (lower style) "static" = false).
    { apply String.eqb_neq. intros Heq. rewrite Heq in Hin.
      simpl in Hin. intuition discriminate. }
    assert (Hex : existsb (String.eqb (lower style))
                    (map fst (Archive.style_funcs p color interval [])) = true).
    { apply existsb_exists. exists (lower style).
      split; [exact Hin|apply String.eqb_refl]. }
    unfold Archive.start.
    rewrite (bind_ok _ _ _ _ _ Hstop).
    match goal with
    | |- context [bind event_clear _ ?w1] => set (ws := w1)
    end.
    assert (Hlen : length (threads ws) = b).
    { unfold ws. destruct ended;
        cbn [threads emit_event with_flag tick with_threads];
        [apply mark_dead_length|reflexivity]. }
    assert (Hwa : thread_alive a ws = negb ended).
    { unfold ws. destruct ended; cbn [negb].
      - rewrite (thread_alive_same
                   (with_threads (mark_dead a (threads (emit_event EvSet (with_flag true w))))
                      (emit_event EvSet (with_flag true w)))) by reflexivity.
        rewrite thread_alive_mark_dead.
        destruct (decide (a = a)); [reflexivity|congruence].
      - rewrite (thread_alive_same w) by reflexivity. exact Ha. }
    assert (Htr : trace ws =
                  trace w ++ [EvSet; EvJoin a ended; EvSignal outcome]).
    { unfold ws. destruct ended; simpl; rewrite <- !app_assoc; reflexivity. }
    assert (Hos : oracle ws = oracle w).
    { unfold ws. destruct ended; reflexivity. }
    clearbody ws.
    cbv zeta. cbn [Archive._get_device_path]. fold p.
    set (w0 := emit_event EvClear (with_flag false ws)).
    assert (Hclear : event_clear ws = (Ok tt, w0)) by reflexivity.
    rewrite (bind_ok _ _ _ _ _ Hclear). rewrite Hne.
    assert (Hpres : exists_ p w0 = (Ok true, tick w0)).
    { unfold exists_. change (oracle w0) with (oracle ws).
      rewrite Hos, Hpath. reflexivity. }
    rewrite (bind_ok _ _ _ _ _ Hpres). cbn [negb].
    rewrite Hns, Hex.
    unfold bind, spawn, signal, ret.
    change (threads (tick w0)) with (threads ws). rewrite Hlen.
    eexists. split; [reflexivity|].
    cbn [trace flag emit_event with_flag tick with_threads w0].
    split; [rewrite Htr, <- !app_assoc; reflexivity|].
    split; [reflexivity|].
    split; [|split].
    + unfold thread_alive.
      cbn [threads emit_event with_flag tick with_threads].
      rewrite lookup_app_r by lia. rewrite Hlen, Nat.sub_diag. reflexivity.
    + rewrite <- Hwa. unfold thread_alive.
      cbn [threads emit_event with_flag tick with_threads].
      rewrite lookup_app_l by lia. reflexivity.
    + unfold b. lia.
Qed.

Lemma C3_start_supersedes_witness :
  let w := snd (Archive.start "flash" (0, 255, 0) 30 fresh (boot sluggish)) in
  let c := {| Archive.thread := Some 0%nat;
              Archive._get_device_path := "/dev/hidraw1" |} in
  exists w',
    Archive.start "Rainbow" (0, 255, 0) 0.1 c w =
      (Ok {| Archive.thread := Some 1%nat;
             Archive._get_device_path := "/dev/hidraw1" |}, w') /\
    trace w' =
      trace w ++
      [EvSet; EvJoin 0 false; EvSignal "thread_timeout"; EvClear;
       EvSpawn 1 "Anim-rainbow" "rainbow" [JStr "/dev/hidraw1"; JFloat 0.1];
       EvSignal "thread_started"] /\
    flag w' = false /\
    thread_alive 1 w' = true /\
    thread_alive 0 w' = true /\
    0%nat <> 1%nat.
Proof.
  intros w c.
  apply (proj2 (C3_start_supersedes c 0 "Rainbow" (0, 255, 0) 0.1 w
                  eq_refl eq_refl
                  ltac:(intros [|[|tid]] H;
                        [reflexivity|vm_compute in H; discriminate
                        |vm_compute in H; discriminate]))).
  - reflexivity.
  - intros t. reflexivity.
  - simpl. tauto.
Defined.
(** ** C9: the live sender *)

(** A report whose open is refused: the helper answers False and nothing
    has been handed to the device. *)
Lemma Archive_send_feature_report_refused (p : string) (id : Z)
    (data : list Z) (w : world) :
  open_ok (oracle w) (S (now w)) = false ->
  0 <= id < 256 ->
  Forall (fun z => 0 <= z < 256) data ->
  exists w',
    Archive.send_feature_report p id data w = (Ok false, w') /\
    extends w w' [] /\ (now w' <= now w + 2)%nat.
Proof.
  intros Hop Hid Hdata. unfold Archive.send_feature_report.
  destruct (is_empty p).
  { exists w. split; [reflexivity|]. split; [apply extends_refl|lia]. }
  destruct (path_exists (oracle w) (now w) p) eqn:Hex.
  2:{ exists (tick w). split.
      - unfold bind, exists_. rewrite Hex. reflexivity.
      - split; [apply extends_tick|simpl; lia]. }
  destruct (byte_of_int_some id Hid) as (b0 & Hb0 & _).
  destruct (py_bytes_ok data Hdata) as (bs & Hbs & _).
  unfold bind, exists_, lift, open_and_ioctl. rewrite Hex. simpl.
  rewrite Hb0, Hbs. cbn [app]. cbn [tick oracle now]. rewrite Hop.
  exists (tick (tick w)). split; [reflexivity|]. split.
  - unfold extends. simpl. rewrite app_nil_r. repeat split; lia.
  - simpl. lia.
Qed.

(** C9 fails on the code, by a slip.  [_flush] records a value as sent
    after calling [disable_autonomous] and [set_color] inside [try ...
    except Exception], so that a failed update is not recorded and the next
    tick tries again; with the device node missing it returns before that
    and the value stays pending.  But the two helpers catch OSError
    themselves and answer False, which [_flush] does not look at: when the
    node is there and the open is refused, nothing is handed to the device,
    the value is recorded as sent all the same, and no later tick sends it,
    however long the ticking goes on and whatever the device does then. *)
Theorem C9_failed_write_is_recorded_as_sent (s : Gui.live_sender)
    (v : Z * Z * Z * Z) (w : world) :
  is_empty (Gui._get_dev_path s) = false ->
  Gui._pending s = Some v ->
  Gui._pending s <> Gui._last s ->
  path_exists (oracle w) (now w) (Gui._get_dev_path s) = true ->
  (forall t, (now w < t <= now w + 4)%nat -> open_ok (oracle w) t = false) ->
  exists s' w',
    Gui._flush s w = (Ok s', w') /\
    Gui._last s' = Some v /\
    Gui._pending s' = Some v /\
    packets w' = packets w /\
    forall n, Gui.ticks n s' w' = (Ok s', w').
Proof.
  intros Hne Hp Hneq Hex Hop. unfold Gui._flush. rewrite Hp.
  destruct v as [[[r g] b] i].
  rewrite <- Hp. rewrite bool_decide_eq_true_2 by exact Hneq.
  rewrite Hne, Hp.
  set (p := Gui._get_dev_path s) in *.
  assert (Hpres : exists_ p w = (Ok true, tick w)).
  { unfold exists_. rewrite Hex. reflexivity. }
  rewrite (bind_ok _ _ _ _ _ Hpres). cbn [negb].
  (* disable_autonomous: refused *)
  destruct (Archive_send_feature_report_refused p DISABLE_AUTONOMOUS [0x00]
              (tick w)) as (w2 & Hsend & Hext2 & Hn2).
  { apply Hop. simpl. lia. }
  { unfold DISABLE_AUTONOMOUS. lia. }
  { repeat constructor; lia. }
  assert (Hdis : Archive.disable_autonomous p (tick w) = (Ok false, w2)).
  { unfold Archive.disable_autonomous. rewrite (bind_ok _ _ _ _ _ Hsend).
    reflexivity. }
  unfold try_except. rewrite (bind_ok _ _ _ _ _ Hdis).
  (* set_color: refused *)
  destruct Hext2 as (Ho2 & _ & _ & Htr2 & Hn2').
  destruct (Archive_send_feature_report_refused p SET_COLOR
              [0x01; Z.land 0 0xFF; Z.land (Z.shiftr 0 8) 0xFF;
               Z.land 100 0xFF; Z.land (Z.shiftr 100 8) 0xFF;
               Z.max 0 (Z.min 255 r); Z.max 0 (Z.min 255 g);
               Z.max 0 (Z.min 255 b); Z.max 0 (Z.min MAX_INTENSITY i)] w2)
    as (w3 & Hcol & Hext3 & _).
  { rewrite Ho2. apply Hop. simpl in Hn2, Hn2'. lia. }
  { unfold SET_COLOR. lia. }
  { apply Archive_set_color_payload_bytes. }
  assert (Hset : Archive.set_color p r g b i None None w2 = (Ok false, w3)).
  { rewrite <- Hcol. reflexivity. }
  rewrite (bind_ok _ _ _ _ _ Hset).
  eexists _, w3. split; [reflexivity|]. cbn [Gui._last Gui._pending].
  split; [reflexivity|]. split; [reflexivity|]. split.
  - destruct Hext3 as (_ & _ & _ & Htr3 & _).
    unfold packets. rewrite Htr3, Htr2. simpl. rewrite !app_nil_r.
    reflexivity.
  - intros n. induction n as [|n IH]; [reflexivity|].
    cbn [Gui.ticks]. unfold bind at 1.
    rewrite flush_nothing_new by (right; reflexivity). exact IH.
Qed.

Lemma C9_failed_write_is_recorded_as_sent_witness :
  let s := Gui.queue_ 255 0 0 255 (Gui.init "/dev/hidraw1") in
  let w := boot (busy_until 5) in
  exists s' w',
    Gui._flush s w = (Ok s', w') /\
    Gui._last s' = Some (255, 0, 0, 255) /\
    Gui._pending s' = Some (255, 0, 0, 255) /\
    packets w' = packets w /\
    forall n, Gui.ticks n s' w' = (Ok s', w').
Proof.
  intros s w.
  apply (C9_failed_write_is_recorded_as_sent s (255, 0, 0, 255) w).
  - reflexivity.
  - reflexivity.
  - discriminate.
  - reflexivity.
  - intros t Ht. change ((5 <=? t)%nat = false). apply Nat.leb_gt.
    simpl in Ht. lia.
Defined.

(** ** C10: defaults of the daemon state record *)

Lemma Daemon_stop_animation_effect (ds : Daemon.daemon_state) (w : world) :
  exists w', Daemon.stop_animation ds w = (Ok daemon_init, w') /\
             oracle w' = oracle w.
Proof.
  unfold Daemon.stop_animation.
  destruct (Daemon.animation_thread ds) as [t|].
  - unfold bind, is_alive, event_set, join, ret.
    destruct (thread_alive t w).
    + eexists. split; [reflexivity|].
      destruct (ends_in_time _ _); reflexivity.
    + eexists. split; reflexivity.
  - eexists. split; reflexivity.
Qed.

(** A record that lacks a field is applied exactly as the record with that
    field set to its default. *)
Lemma apply_state_default (default_path : string)
    (int_of_str : string -> result Z) (state : gmap string json)
    (k : string) (v : json) (ds : Daemon.daemon_state) :
  In (k, v) (state_defaults default_path) ->
  state !! k = None ->
  Daemon.apply_state default_path int_of_str state ds =
  Daemon.apply_state default_path int_of_str (<[k := v]> state) ds.
Proof.
  intros Hin Hk. unfold Daemon.apply_state.
  simpl in Hin.
  destruct Hin as [H|[H|[H|[H|[H|[]]]]]]; inversion H; subst k v; clear H;
    rewrite lookup_insert_eq, !lookup_insert_ne by discriminate;
    rewrite ?Hk; reflexivity.
Qed.

Lemma reports_tick (w : world) : reports (tick w) = reports w.
Proof. reflexivity. Qed.

Lemma reports_app (w : world) (e : event) :
  reports (emit_event e w) =
  reports w ++ match e with
               | EvIoctl p _ pkt _ => [(p, map int_of_byte pkt)]
               | _ => []
               end.
Proof.
  unfold reports. simpl. rewrite omap_app. simpl. destruct e; reflexivity.
Qed.

Lemma spawned_app (w : world) (e : event) :
  spawned (emit_event e w) =
  spawned w ++ match e with
               | EvSpawn _ name func args => [(name, func, args)]
               | _ => []
               end.
Proof.
  unfold spawned. simpl. rewrite omap_app. simpl. destruct e; reflexivity.
Qed.

(** [stop_animation] hands nothing to the device and starts nothing. *)
Lemma Daemon_stop_animation_silent (ds : Daemon.daemon_state) (w : world) :
  exists w', Daemon.stop_animation ds w = (Ok daemon_init, w') /\
             oracle w' = oracle w /\ reports w' = reports w /\
             spawned w' = spawned w.
Proof.
  unfold Daemon.stop_animation.
  destruct (Daemon.animation_thread ds) as [t|];
    [|eexists; repeat split; reflexivity].
  unfold bind, is_alive, event_set, join, ret.
  destruct (thread_alive t w); [|eexists; repeat split; reflexivity].
  eexists. split; [reflexivity|].
  destruct (ends_in_time _ _); cbn [oracle tick emit_event with_threads
    with_flag]; rewrite ?reports_tick, ?reports_app, ?spawned_app;
    unfold reports, spawned; cbn [trace tick emit_event with_threads with_flag];
    rewrite !omap_app; simpl; rewrite !app_nil_r; repeat split; reflexivity.
Qed.

(** A report that goes out on a device that is there is written to the
    node of the path given. *)
Lemma Archive_send_feature_report_to (p : string) (id : Z) (data : list Z)
    (w : world) :
  plugged p w ->
  0 <= id < 256 ->
  Forall (fun z => 0 <= z < 256) data ->
  Z.of_nat (length data) < IOCTL_BUFSZ ->
  exists w',
    Archive.send_feature_report p id data w =
      (Ok (ioctl_ok (oracle w) (S (now w))), w') /\
    oracle w' = oracle w /\
    reports w' = reports w ++ [(p, id :: data)] /\
    spawned w' = spawned w.
Proof.
  intros [Hne Hdev] Hid Hdata Hlen.
  destruct (Archive_send_feature_report_sends p id data w Hne
              (proj1 (Hdev _)) (proj2 (Hdev _)) Hid Hdata Hlen)
    as (pkt & Hpkt & Hrun).
  eexists. split; [exact Hrun|]. split; [reflexivity|].
  rewrite reports_tick, reports_app, reports_tick, Hpkt.
  split; [reflexivity|].
  unfold spawned. simpl. rewrite omap_app. simpl. apply app_nil_r.
Qed.

(** C10.  [apply_state] never rejects a record for a missing field: a
    record without [style], [color], [intensity], [interval] or
    [device_path] is applied exactly as the record completed with "static",
    [255, 255, 255], 255, 0.1 and the configured default path, and the
    record with no field at all is applied by a call of [start_animation]
    with exactly these five values, which ends normally.  What is done
    with the values shows which ones they are.  For a style that
    lower-cases to "static", the disable-autonomous report and one colour
    report over the whole keyboard go to the node of the record's
    [device_path], or of the default path when the field is missing, with
    the record's colour and intensity, or white and 255.  For "breathing",
    "rainbow" and "ripple" one thread is started, named "Daemon-" and the
    style, to run the worker of that name with the record's [device_path],
    [color] and [interval], each replaced by its default when missing:
    the default path, white and 0.1. *)
Theorem C10_apply_state_defaults (default_path : string)
    (int_of_str : string -> result Z) :
  (forall state k v ds,
     In (k, v) (state_defaults default_path) ->
     state !! k = None ->
     Daemon.apply_state default_path int_of_str state ds =
     Daemon.apply_state default_path int_of_str (<[k := v]> state) ds) /\
  (forall ds,
     Daemon.apply_state default_path int_of_str ∅ ds =
     Daemon.start_animation int_of_str (JStr "static")
       [JInt 255; JInt 255; JInt 255] (JInt 255) (JFloat 0.1)
       (JStr default_path) ds) /\
  (forall ds w,
     exists ds' w', Daemon.apply_state default_path int_of_str ∅ ds w = (Ok ds', w')) /\
  (forall (state : gmap string json) s r g b i p ds w,
     default (JStr "static") (state !! "style") = JStr s ->
     lower s = "static"%string ->
     default (JList [JInt 255; JInt 255; JInt 255]) (state !! "color") =
       JList [JInt r; JInt g; JInt b] ->
     default (JInt 255) (state !! "intensity") = JInt i ->
     default (JStr default_path) (state !! "device_path") = JStr p ->
     plugged p w ->
     exists w',
       Daemon.apply_state default_path int_of_str state ds w =
         (Ok daemon_init, w') /\
       reports w' = reports w ++
         [(p, [0x0B; 0x00]); (p, color_packet (r, g, b, i))] /\
       spawned w' = spawned w) /\
  (forall (state : gmap string json) s color ds w,
     default (JStr "static") (state !! "style") = JStr s ->
     In (lower s) Daemon.animations ->
     Daemon.py_tuple (default (JList [JInt 255; JInt 255; JInt 255])
                        (state !! "color")) = Ok color ->
     exists t w',
       Daemon.apply_state default_path int_of_str state ds w =
         (Ok {| Daemon.animation_thread := Some t;
                Daemon.current_animation := Some (JStr s) |}, w') /\
       spawned w' = spawned w ++
         [(("Daemon-" ++ s)%string, lower s,
           Daemon.animation_args (lower s)
             (default (JStr default_path) (state !! "device_path"))
             color
             (default (JFloat 0.1) (state !! "interval")))] /\
       reports w' = reports w).
Proof.
  split; [intros state k v ds; apply apply_state_default|].
  split; [reflexivity|].
  split.
  { intros ds w. unfold Daemon.apply_state. rewrite !lookup_empty.
    cbn [default Daemon.py_tuple].
    unfold Daemon.start_animation.
    assert (Htup : lift (Ok [JInt 255; JInt 255; JInt 255]) w
                   = (Ok [JInt 255; JInt 255; JInt 255], w)) by reflexivity.
    rewrite (bind_ok _ _ _ _ _ Htup).
    destruct (Daemon_stop_animation_effect ds w) as (w1 & Hstop & _).
    rewrite (bind_ok _ _ _ _ _ Hstop).
    assert (Hlow : lift (Daemon.str_lower (JStr "static")) w1 = (Ok "static", w1))
      by reflexivity.
    rewrite (bind_ok _ _ _ _ _ Hlow).
    change (String.eqb "static" "static") with true. cbv iota.
    destruct (Archive_disable_autonomous_effect default_path w1)
      as (ok & w2 & e2 & Hdis & _ & _).
    change (Daemon.disable_autonomous (JStr default_path))
      with (Archive.disable_autonomous default_path).
    rewrite (bind_ok _ _ _ _ _ Hdis).
    destruct (Archive_set_color_effect default_path 255 255 255 255 None None w2)
      as (sent & w3 & e3 & Hset & _ & _).
    assert (Hset' : Daemon.set_color int_of_str (JStr default_path)
                      ([JInt 255; JInt 255; JInt 255] ++ [JInt 255]) w2
                    = (Ok sent, w3)).
    { rewrite <- Hset. reflexivity. }
    rewrite (bind_ok _ _ _ _ _ Hset').
    eexists _, _. reflexivity. }
  split.
  { intros state s r g b i p ds w Hstyle Hst Hcolor Hint Hpath Hpl.
    unfold Daemon.apply_state. rewrite Hstyle, Hcolor, Hint, Hpath.
    cbn [Daemon.py_tuple].
    assert (Htup : lift (Ok [JInt r; JInt g; JInt b]) w
                   = (Ok [JInt r; JInt g; JInt b], w)) by reflexivity.
    rewrite (bind_ok _ _ _ _ _ Htup).
    unfold Daemon.start_animation.
    destruct (Daemon_stop_animation_silent ds w) as (w1 & Hstop & Ho1 & Hr1 & Hs1).
    rewrite (bind_ok _ _ _ _ _ Hstop).
    assert (Hlow : lift (Daemon.str_lower (JStr s)) w1 = (Ok (lower s), w1))
      by reflexivity.
    rewrite (bind_ok _ _ _ _ _ Hlow). rewrite Hst.
    change (String.eqb "static" "static") with true. cbv iota.
    assert (Hpl1 : plugged p w1).
    { destruct Hpl as [Hne Hdev]. split; [exact Hne|]. rewrite Ho1. exact Hdev. }
    (* the disable-autonomous report *)
    destruct (Archive_send_feature_report_to p DISABLE_AUTONOMOUS [0x00] w1 Hpl1)
      as (w2 & Hsend & Ho2 & Hr2 & Hs2);
      [unfold DISABLE_AUTONOMOUS; lia|repeat constructor; lia|reflexivity|].
    assert (Hdis : exists ok w3,
              Daemon.disable_autonomous (JStr p) w1 = (Ok ok, w3) /\
              oracle w3 = oracle w1 /\ reports w3 = reports w2 /\
              spawned w3 = spawned w2).
    { unfold Daemon.disable_autonomous, Daemon.send_feature_report.
      rewrite (bind_ok _ _ _ _ _ Hsend).
      destruct (ioctl_ok (oracle w1) (S (now w1))).
      - eexists _, _. split; [reflexivity|]. split; [exact Ho2|].
        unfold reports, spawned. simpl. rewrite !omap_app. simpl.
        rewrite !app_nil_r. split; reflexivity.
      - eexists _, _. split; [reflexivity|]. repeat split. exact Ho2. }
    destruct Hdis as (ok & w3 & Hdis & Ho3 & Hr3 & Hs3).
    rewrite (bind_ok _ _ _ _ _ Hdis).
    assert (Hpl3 : plugged p w3).
    { destruct Hpl1 as [Hne Hdev]. split; [exact Hne|]. rewrite Ho3. exact Hdev. }
    (* the colour report *)
    destruct (Archive_send_feature_report_to p SET_COLOR
                [0x01; Z.land 0 0xFF; Z.land (Z.shiftr 0 8) 0xFF;
                 Z.land 100 0xFF; Z.land (Z.shiftr 100 8) 0xFF;
                 Z.max 0 (Z.min 255 r); Z.max 0 (Z.min 255 g);
                 Z.max 0 (Z.min 255 b); Z.max 0 (Z.min MAX_INTENSITY i)]
                w3 Hpl3)
      as (w4 & Hcol & Ho4 & Hr4 & Hs4);
      [unfold SET_COLOR; lia|apply Archive_set_color_payload_bytes
      |reflexivity|].
    assert (Hset : Daemon.set_color int_of_str (JStr p)
                     ([JInt r; JInt g; JInt b] ++ [JInt i]) w3 =
                   (Ok (ioctl_ok (oracle w3) (S (now w3))), w4)).
    { rewrite <- Hcol. reflexivity. }
    rewrite (bind_ok _ _ _ _ _ Hset).
    exists w4. split; [reflexivity|]. split.
    - rewrite Hr4, Hr3, Hr2, Hr1, <- app_assoc. reflexivity.
    - congruence. }
  intros state s color ds w Hstyle Hin Hcolor.
  unfold Daemon.apply_state. rewrite Hstyle, Hcolor.
  assert (Htup : lift (Ok color) w = (Ok color, w)) by reflexivity.
  rewrite (bind_ok _ _ _ _ _ Htup).
  unfold Daemon.start_animation.
  destruct (Daemon_stop_animation_silent ds w) as (w1 & Hstop & Ho1 & Hr1 & Hs1).
  rewrite (bind_ok _ _ _ _ _ Hstop).
  assert (Hlow : lift (Daemon.str_lower (JStr s)) w1 = (Ok (lower s), w1))
    by reflexivity.
  rewrite (bind_ok _ _ _ _ _ Hlow).
  assert (Hns : String.eqb (lower s) "static" = false).
  { apply String.eqb_neq. intros Heq. rewrite Heq in Hin.
    simpl in Hin. intuition discriminate. }
  assert (Hex : existsb (String.eqb (lower s)) Daemon.animations = true).
  { apply existsb_exists. exists (lower s).
    split; [exact Hin|apply String.eqb_refl]. }
  rewrite Hns, Hex.
  eexists _, _. split; [reflexivity|].
  cbn [Daemon.thread_name].
  unfold reports, spawned in *.
  cbn [trace emit_event with_threads with_flag].
  rewrite !omap_app. simpl. rewrite ?app_nil_r.
  split; [|exact Hr1]. rewrite Hs1. reflexivity.
Qed.

Lemma C10_apply_state_defaults_witness :
  let state : gmap string json := <["style" := JStr "Breathing"]> ∅ in
  (exists t w',
     Daemon.apply_state "/dev/hidraw1" (fun _ => Raise ValueError) state
       daemon_init (boot friendly) =
       (Ok {| Daemon.animation_thread := Some t;
              Daemon.current_animation := Some (JStr "Breathing") |}, w') /\
     spawned w' = spawned (boot friendly) ++
       [("Daemon-Breathing"%string, "breathing"%string,
         [JStr "/dev/hidraw1"; JList [JInt 255; JInt 255; JInt 255];
          JFloat 0.1])] /\
     reports w' = reports (boot friendly)) /\
  (exists w',
     Daemon.apply_state "/dev/hidraw1" (fun _ => Raise ValueError) ∅
       daemon_init (boot friendly) = (Ok daemon_init, w') /\
     reports w' = reports (boot friendly) ++
       [("/dev/hidraw1"%string, [0x0B; 0x00]);
        ("/dev/hidraw1"%string, color_packet (255, 255, 255, 255))] /\
     spawned w' = spawned (boot friendly)).
Proof.
  intros state. split.
  - apply (proj2 (proj2 (proj2 (proj2
             (C10_apply_state_defaults "/dev/hidraw1"
                (fun _ => Raise ValueError)))))
             state "Breathing" [JInt 255; JInt 255; JInt 255] daemon_init
             (boot friendly)).
    + reflexivity.
    + simpl. tauto.
    + reflexivity.
  - apply (proj1 (proj2 (proj2 (proj2
             (C10_apply_state_defaults "/dev/hidraw1"
                (fun _ => Raise ValueError)))))
             ∅ "static" 255 255 255 255 "/dev/hidraw1" daemon_init
             (boot friendly)).
    + reflexivity.
    + reflexivity.
    + reflexivity.
    + reflexivity.
    + reflexivity.
    + split; [reflexivity|intros t; split; reflexivity].
Defined.

(** ** C6: the ripple band *)

(** C6.  Whatever [random] draws and whatever the device does, after any
    number of passes of the ripple loop the twenty stored intensities lie
    between the 20% baseline 51 and 255; and every colour report the whole
    [ripple] function writes, in the archive program and in the daemon,
    carries an intensity in that band (each segment is written right after
    its decay, so the band holds inside a pass as well). *)
Theorem C6_ripple_stays_in_band :
  (forall p rgb interval draws w,
     exists status st w',
       Archive.ripple_loop p rgb interval draws Archive.ripple_init w =
         (Ok (status, st), w') /\
       length (Archive.led_intensities st) = 20%nat /\
       Forall (fun x => Archive.base_intensity <= x <= 255)
         (Archive.led_intensities st)) /\
  (forall p rgb interval draws E,
     exists status w',
       Archive.ripple p rgb interval draws (boot E) = (Ok status, w') /\
       Forall band_packet (packets w')) /\
  (forall p rgb interval draws E,
     exists status w',
       Daemon.ripple p rgb interval draws (boot E) = (Ok status, w') /\
       Forall band_packet (packets w')).
Proof.
  assert (Hboot : forall E, band_wire (boot E)) by (intros E; constructor).
  split; [|split].
  - intros p rgb interval draws w.
    destruct (ripple_loop_band (fun _ => True) Archive_set_color_total
                (fun _ _ => I) (fun _ _ => I) p rgb interval draws
                Archive.ripple_init w ripple_init_band I)
      as (status & st & w' & Hrun & [Hlen Hband] & _).
    exists status, st, w'. split; [exact Hrun|]. split; [exact Hlen|].
    rewrite base_intensity_eq. exact Hband.
  - intros p rgb interval draws E. unfold Archive.ripple, guarded, try_except.
    destruct (ripple_setup_band p rgb (boot E) (Hboot E)) as (ok & w1 & Hrun & Hw1).
    rewrite (bind_ok _ _ _ _ _ Hrun).
    destruct ok; cbn [negb].
    2:{ exists Returned, w1. split; [reflexivity|exact Hw1]. }
    destruct (ripple_loop_band band_wire Archive_set_color_band
                band_wire_is_set band_wire_sleep p rgb interval draws
                Archive.ripple_init w1 ripple_init_band Hw1)
      as (status & st & w' & Hrun2 & _ & Hw').
    rewrite (bind_ok _ _ _ _ _ Hrun2).
    exists status, w'. split; [reflexivity|exact Hw'].
  - intros p rgb interval draws E. unfold Daemon.ripple.
    destruct (ripple_setup_band p rgb (boot E) (Hboot E)) as (ok & w1 & Hrun & Hw1).
    rewrite (bind_ok _ _ _ _ _ Hrun).
    destruct ok; cbn [negb].
    2:{ exists Returned, w1. split; [reflexivity|exact Hw1]. }
    destruct (ripple_loop_band band_wire Archive_set_color_band
                band_wire_is_set band_wire_sleep p rgb interval draws
                Archive.ripple_init w1 ripple_init_band Hw1)
      as (status & st & w' & Hrun2 & _ & Hw').
    rewrite (bind_ok _ _ _ _ _ Hrun2).
    exists status, w'. split; [reflexivity|exact Hw'].
Qed.

(** ** C5: the breathing curve *)

(** C5, as stated, fails: the code truncates with [int(...)] where the
    claim rounds.  At step 30 of 180 with target 255 the curve stands at
    63.75; both programs write 63, the rounding is 64. *)
Lemma C5_breathing_truncates :
  Current.breathing_level 30 255 = 63 /\
  Archive.breathing_level 180 30 = 63 /\
  spec_breathing_level 180 255 30 = 64.
Proof.
  split; [|split].
  - unfold Current.breathing_level.
    replace (30 * 2 * PI / 180)%R with (PI / 3)%R by field.
    rewrite quarter_level, Rint_nonneg by lra. apply Int_part_63_75.
  - unfold Archive.breathing_level.
    replace (2 * PI * (30 / 180))%R with (PI / 3)%R by field.
    replace ((1 - cos (PI / 3)) * (1 / 2) * 255)%R
      with ((1 - cos (PI / 3)) / 2 * 255)%R by field.
    rewrite quarter_level, Rint_nonneg by lra. apply Int_part_63_75.
  - unfold spec_breathing_level.
    replace (2 * PI * 30 / 180)%R with (PI / 3)%R by field.
    rewrite quarter_level. apply Rround_63_75.
Qed.

(** C5 (amended).  With Python's floats read as real numbers, the intensity
    written at step k is the truncation int(((1 - cos(2*pi*k/N)) / 2) * T):
    it lies between 0 and T and is the rounded value of the claim or one
    less.  In src/kbdrgb.py N is 180 and T the live intensity; in the
    archive T is 255 and N the number of updates per cycle.  The curve has
    period N, so the values at k = 0 and k = N coincide (both 0), and at
    k = N/2 the value is exactly T. *)
Theorem C5_breathing_curve (T N k : Z) :
  0 <= T ->
  0 < N ->
  (0 <= Current.breathing_level k T <= T /\
   spec_breathing_level 180 T k - 1 <= Current.breathing_level k T
     <= spec_breathing_level 180 T k /\
   Current.breathing_level (k + 180) T = Current.breathing_level k T /\
   Current.breathing_level 0 T = 0 /\
   Current.breathing_level 180 T = 0 /\
   Current.breathing_level 90 T = T) /\
  (0 <= Archive.breathing_level N k <= 255 /\
   spec_breathing_level N 255 k - 1 <= Archive.breathing_level N k
     <= spec_breathing_level N 255 k /\
   Archive.breathing_level N 0 = 0 /\
   Archive.breathing_level N N = 0 /\
   Archive.breathing_level (2 * N) N = 255).
Proof.
  intros HT HN. split.
  - split; [apply Current_breathing_level_range; exact HT|].
    split; [apply Current_breathing_level_vs_spec; exact HT|].
    split; [apply Current_breathing_level_period|].
    split; [apply Current_breathing_level_start|].
    split; [|apply Current_breathing_level_peak].
    change (Current.breathing_level 180 T)
      with (Current.breathing_level (0 + 180) T).
    rewrite (Current_breathing_level_period 0 T).
    apply Current_breathing_level_start.
  - split; [apply Archive_breathing_level_range|].
    split; [apply Archive_breathing_level_vs_spec|].
    split; [apply Archive_breathing_level_start|].
    split; [apply Archive_breathing_level_end; exact HN|].
    apply Archive_breathing_level_peak; exact HN.
Qed.

Lemma C5_breathing_curve_witness :
  (0 <= Current.breathing_level 30 255 <= 255 /\
   spec_breathing_level 180 255 30 - 1 <= Current.breathing_level 30 255
     <= spec_breathing_level 180 255 30 /\
   Current.breathing_level (30 + 180) 255 = Current.breathing_level 30 255 /\
   Current.breathing_level 0 255 = 0 /\
   Current.breathing_level 180 255 = 0 /\
   Current.breathing_level 90 255 = 255) /\
  (0 <= Archive.breathing_level 90 30 <= 255 /\
   spec_breathing_level 90 255 30 - 1 <= Archive.breathing_level 90 30
     <= spec_breathing_level 90 255 30 /\
   Archive.breathing_level 90 0 = 0 /\
   Archive.breathing_level 90 90 = 0 /\
   Archive.breathing_level (2 * 90) 90 = 255).
Proof.
  apply (C5_breathing_curve 255 90 30); lia.
Defined.


(** ** The HID layer, beyond the wire format *)

Lemma HIDIOCSFEATURE_fields (n : Z) :
  0 <= n < 16384 ->
  Z.land (Z.shiftr (HIDIOCSFEATURE n) 16) 0x3FFF = n /\
  Z.land (HIDIOCSFEATURE n) 0xFFFF = 0x4806 /\
  Z.shiftr (HIDIOCSFEATURE n) 30 = 3.
Proof.
  intros Hn. unfold HIDIOCSFEATURE. repeat split.
  - rewrite Z.shiftr_lor, Z.shiftr_shiftl_l by lia.
    replace (16 - 16) with 0 by lia. rewrite Z.shiftl_0_r.
    rewrite Z.land_lor_distr_l.
    change 0x3FFF with (Z.ones 14). rewrite !Z.land_ones by lia.
    change (Z.shiftr 3221243910 16 mod 2 ^ 14) with 0.
    rewrite Z.lor_0_l. apply Z.mod_small. lia.
  - rewrite Z.land_lor_distr_l.
    change 0xFFFF with (Z.ones 16). rewrite !Z.land_ones by lia.
    rewrite Z.shiftl_mul_pow2 by lia. rewrite Z.mod_mul by lia.
    reflexivity.
  - rewrite Z.shiftr_lor, Z.shiftr_shiftl_r by lia.
    replace (30 - 16) with 14 by lia.
    rewrite (Z.shiftr_div_pow2 n) by lia. rewrite (Z.div_small n) by lia.
    reflexivity.
Qed.

Lemma py_bytes_inv (l : list Z) (bs : list Byte.byte) :
  py_bytes l = Ok bs -> Forall (fun z => 0 <= z < 256) l.
Proof.
  revert bs. induction l as [|z l IH]; intros bs H; [constructor|].
  simpl in H. destruct (byte_of_int z) as [b|] eqn:Hb; [|discriminate].
  destruct (py_bytes l) as [bs'|e] eqn:Hl; [|discriminate].
  constructor; [|eapply IH; reflexivity].
  destruct (Z_lt_le_dec z 0) as [Hneg|Hpos].
  - rewrite byte_of_int_none in Hb by lia. discriminate.
  - destruct (Z_lt_le_dec z 256) as [Hlt|Hge]; [lia|].
    rewrite byte_of_int_none in Hb by lia. discriminate.
Qed.

Lemma py_bytes_exn (l : list Z) (e : exn) :
  py_bytes l = Raise e -> e = ValueError.
Proof.
  destruct l as [|z l]; [discriminate|]. simpl.
  destruct (byte_of_int z); [|congruence].
  destruct (py_bytes l); [discriminate|congruence].
Qed.

Lemma py_bytes_raises (l : list Z) :
  ~ Forall (fun z => 0 <= z < 256) l -> py_bytes l = Raise ValueError.
Proof.
  intros Hn. destruct (py_bytes l) as [bs|e] eqn:H.
  - exfalso. apply Hn. eapply py_bytes_inv. exact H.
  - apply py_bytes_exn in H. congruence.
Qed.

Lemma py_bytes_length (l : list Z) (bs : list Byte.byte) :
  py_bytes l = Ok bs -> length bs = length l.
Proof.
  revert bs. induction l as [|z l IH]; intros bs H; simpl in H.
  - injection H as <-. reflexivity.
  - destruct (byte_of_int z) as [b|]; [|discriminate].
    destruct (py_bytes l) as [bs'|e]; [|discriminate].
    injection H as <-. simpl. f_equal. apply IH. reflexivity.
Qed.

(** X1.  The request number of the ioctl [send_feature_report] issues is
    [HIDIOCSFEATURE(len(packet))]: for a packet that fits the 1024 bytes
    [fcntl.ioctl] accepts, its size field (bits 16 to 29) reads back as the
    length of the packet, one more than the length of the data, and the
    direction, type and number fields are those of the base 0xC0004806
    whatever the length. *)
Theorem send_feature_report_request_size (p : string) (id : Z)
    (data : list Z) (w : world) :
  is_empty p = false ->
  path_exists (oracle w) (now w) p = true ->
  open_ok (oracle w) (S (now w)) = true ->
  0 <= id < 256 ->
  Forall (fun z => 0 <= z < 256) data ->
  Z.of_nat (length data) < IOCTL_BUFSZ ->
  exists req pkt ok,
    trace (snd (Archive.send_feature_report p id data w)) =
      trace w ++ [EvIoctl p req pkt ok] /\
    map int_of_byte pkt = id :: data /\
    Z.land (Z.shiftr req 16) 0x3FFF = 1 + Z.of_nat (length data) /\
    Z.land req 0xFFFF = 0x4806 /\
    Z.shiftr req 30 = 3.
Proof.
  intros Hne Hex Hop Hid Hdata Hlen.
  destruct (Archive_send_feature_report_sends p id data w Hne Hex Hop Hid Hdata
              Hlen) as (pkt & Hpkt & Hrun).
  assert (Hl : Z.of_nat (length pkt) = 1 + Z.of_nat (length data)).
  { rewrite <- (length_map int_of_byte pkt), Hpkt. simpl length. lia. }
  destruct (HIDIOCSFEATURE_fields (Z.of_nat (length pkt))) as (H1 & H2 & H3);
    [unfold IOCTL_BUFSZ in Hlen; lia|].
  eexists _, pkt, _. rewrite Hrun. simpl snd. simpl trace.
  split; [reflexivity|]. split; [exact Hpkt|].
  rewrite <- Hl. auto.
Qed.

Lemma send_feature_report_request_size_witness :
  exists req pkt ok,
    trace (snd (Archive.send_feature_report "/dev/hidraw1" 0x0B [0x00]
                  (boot friendly))) =
      trace (boot friendly) ++ [EvIoctl "/dev/hidraw1" req pkt ok] /\
    map int_of_byte pkt = [0x0B; 0x00] /\
    Z.land (Z.shiftr req 16) 0x3FFF = 1 + Z.of_nat (length [0x00]) /\
    Z.land req 0xFFFF = 0x4806 /\
    Z.shiftr req 30 = 3.
Proof.
  apply (send_feature_report_request_size "/dev/hidraw1" 0x0B [0x00]
           (boot friendly));
    [reflexivity | reflexivity | reflexivity | lia
    | repeat constructor; lia | reflexivity].
Defined.

Lemma land_shift_wrap (x : Z) :
  [Z.land x 0xFF; Z.land (Z.shiftr x 8) 0xFF] = le16 (x mod 65536).
Proof.
  unfold le16. change 0xFF with (Z.ones 8). rewrite !Z.land_ones by lia.
  rewrite Z.shiftr_div_pow2 by lia.
  change (2 ^ 8) with 256.
  pose proof (Z.div_mod x 65536 ltac:(lia)) as Hx.
  set (q := x mod 65536) in *. set (k := x / 65536) in *.
  clearbody q k.
  f_equal; [|f_equal].
  - rewrite Hx. replace (65536 * k + q) with (q + (256 * k) * 256) by lia.
    rewrite Z.mod_add by lia. reflexivity.
  - rewrite Hx. replace (65536 * k + q) with (q + (k * 256) * 256) by lia.
    rewrite Z.div_add by lia. rewrite Z.mod_add by lia. reflexivity.
Qed.

(** X2.  The archive [set_color] never raises, whatever integers it is
    given: a channel outside [0, 255] saturates, and a range index outside
    16 bits (negative ones included) wraps modulo 65536.  It issues at most
    one ioctl, and answers True exactly when that ioctl succeeded. *)
Theorem Archive_set_color_any_integers (p : string) (r g b i s e : Z)
    (w : world) :
  exists sent w' evs,
    Archive.set_color p r g b i (Some s) (Some e) w = (Ok sent, w') /\
    extends w w' evs /\
    (evs = [] /\ sent = false \/
     exists req pkt,
       evs = [EvIoctl p req pkt sent] /\
       map int_of_byte pkt =
         0x05 :: 0x01 :: le16 (s mod 65536) ++ le16 (e mod 65536) ++
         [clamp 255 r; clamp 255 g; clamp 255 b; clamp 255 i]).
Proof.
  destruct (Archive_set_color_effect p r g b i (Some s) (Some e) w)
    as (sent & w' & evs & Hrun & Hext & Hevs).
  exists sent, w', evs. split; [exact Hrun|]. split; [exact Hext|].
  destruct Hevs as [Hnone|(req & pkt & Hev & Hpkt)]; [left; exact Hnone|].
  right. exists req, pkt. split; [exact Hev|].
  rewrite Hpkt. cbn [default].
  rewrite <- (land_shift_wrap s), <- (land_shift_wrap e). reflexivity.
Qed.

(** X3.  [send_feature_report] lets a ValueError escape exactly when the
    device node is there and either the report id or a data element is not
    a byte (the conversion by [bytes(...)] is outside the [try]), or the
    node opens and the packet, report id included, is longer than the 1024
    bytes [fcntl.ioctl] accepts (which [except OSError] does not catch);
    nothing has reached the device then.  No other exception leaves the
    function, and with the node missing even malformed data is answered by
    False. *)
Theorem Archive_send_feature_report_value_error (p : string) (id : Z)
    (data : list Z) (w : world) :
  (fst (Archive.send_feature_report p id data w) = Raise ValueError <->
   is_empty p = false /\
   path_exists (oracle w) (now w) p = true /\
   (~ Forall (fun z => 0 <= z < 256) (id :: data) \/
    open_ok (oracle w) (S (now w)) = true /\
    IOCTL_BUFSZ <= Z.of_nat (length data))) /\
  (fst (Archive.send_feature_report p id data w) = Raise ValueError ->
   trace (snd (Archive.send_feature_report p id data w)) = trace w) /\
  (forall e, fst (Archive.send_feature_report p id data w) = Raise e ->
             e = ValueError).
Proof.
  remember (Archive.send_feature_report p id data w) as res eqn:Hres.
  unfold Archive.send_feature_report in Hres.
  destruct (is_empty p) eqn:Hne.
  { subst res. simpl. repeat split; try discriminate.
    intros (H & _). discriminate. }
  unfold bind, exists_, lift in Hres.
  destruct (path_exists (oracle w) (now w) p) eqn:Hex; cbn [negb] in Hres.
  2:{ subst res. simpl. repeat split; try discriminate.
      intros (_ & H & _). discriminate. }
  cbn [py_bytes] in Hres.
  destruct (byte_of_int id) as [bid|] eqn:Hid.
  2:{ subst res. simpl. repeat split; auto.
      - left. intros Hall. inversion Hall as [|? ? Hb _]; subst.
        destruct (byte_of_int_some id Hb) as (b0 & Hb0 & _). congruence.
      - intros e He. congruence. }
  assert (Hidr : 0 <= id < 256).
  { assert (H : py_bytes [id] = Ok [bid]) by (simpl; rewrite Hid; reflexivity).
    apply py_bytes_inv in H. inversion H; assumption. }
  destruct (py_bytes data) as [body|e0] eqn:Hdata.
  - pose proof (py_bytes_inv _ _ Hdata) as Hall.
    pose proof (py_bytes_length _ _ Hdata) as Hlen.
    unfold open_and_ioctl in Hres. cbn [app length tick oracle now] in Hres.
    rewrite Hlen in Hres.
    destruct (open_ok (oracle w) (S (now w))) eqn:Hop.
    + destruct (Z.ltb_spec IOCTL_BUFSZ (Z.of_nat (S (length data))))
        as [Hlong|Hshort]; subst res; simpl.
      * repeat split; auto; try congruence.
        right. split; [reflexivity|lia].
      * repeat split; try discriminate.
        intros (_ & _ & [Hn|(_ & Hn)]); [|lia].
        exfalso. apply Hn. constructor; assumption.
    + subst res. simpl. repeat split; try discriminate.
      intros (_ & _ & [Hn|(Hn & _)]); [|discriminate].
      exfalso. apply Hn. constructor; assumption.
  - assert (Hbad : ~ Forall (fun z => 0 <= z < 256) data).
    { intros Hall. destruct (py_bytes_ok data Hall) as (bs & Hbs & _).
      congruence. }
    rewrite (py_bytes_raises data Hbad) in Hdata. injection Hdata as <-.
    subst res. simpl. repeat split; auto.
    + left. intros Hall. inversion Hall; subst. contradiction.
    + intros e He. congruence.
Qed.

(** ** The log pipeline: handler, queue, console *)

Lemma Archive_emit_keeps_newest (x : string) (q : queue) :
  0 < maxsize q ->
  Z.of_nat (length (items q)) <= maxsize q ->
  maxsize (Archive.emit x q) = maxsize q /\
  items (Archive.emit x q) =
    drop (length (items q ++ [x]) - Z.to_nat (maxsize q)) (items q ++ [x]).
Proof.
  intros Hm Hlen.
  destruct (Z_lt_le_dec (Z.of_nat (length (items q))) (maxsize q)) as [Hroom|Hfull].
  - unfold Archive.emit. rewrite put_nowait_room by assumption. simpl.
    split; [reflexivity|].
    replace (length (items q ++ [x]) - Z.to_nat (maxsize q))%nat with 0%nat
      by (rewrite length_app; simpl; lia).
    reflexivity.
  - destruct q as [m its]. simpl in *.
    destruct its as [|oldest rest]; [simpl in Hfull; lia|].
    rewrite Archive_emit_full by (simpl in *; lia). simpl.
    split; [reflexivity|].
    replace (S (length (rest ++ [x])) - Z.to_nat m)%nat with 1%nat
      by (rewrite length_app; simpl in *; lia).
    reflexivity.
Qed.

Lemma Archive_emit_all (lines : list string) :
  forall q,
    0 < maxsize q ->
    Z.of_nat (length (items q)) <= maxsize q ->
    maxsize (fold_left (fun q line => Archive.emit line q) lines q) = maxsize q /\
    items (fold_left (fun q line => Archive.emit line q) lines q) =
      drop (length (items q ++ lines) - Z.to_nat (maxsize q)) (items q ++ lines).
Proof.
  induction lines as [|x lines IH]; intros q Hm Hlen.
  - simpl. split; [reflexivity|]. rewrite app_nil_r.
    replace (length (items q) - Z.to_nat (maxsize q))%nat with 0%nat by lia.
    reflexivity.
  - simpl fold_left.
    destruct (Archive_emit_keeps_newest x q Hm Hlen) as [Hmax Hits].
    assert (Hlen1 : Z.of_nat (length (items (Archive.emit x q))) <= maxsize q).
    { rewrite Hits, length_drop. lia. }
    destruct (IH (Archive.emit x q)) as [Hmax' Hits']; [lia|lia|].
    split; [lia|].
    rewrite Hits', Hmax, Hits.
    set (A := items q ++ [x]). set (m := Z.to_nat (maxsize q)).
    replace (items q ++ x :: lines) with (A ++ lines)
      by (unfold A; rewrite <- app_assoc; reflexivity).
    assert (Hk : (length A - m <= length A)%nat) by lia.
    rewrite <- (drop_app_le A lines (length A - m)) by exact Hk.
    rewrite drop_drop. f_equal.
    rewrite length_drop, !length_app. lia.
Qed.

Lemma Current_emit_keeps_oldest (x : string) (q : queue) :
  0 < maxsize q ->
  Z.of_nat (length (items q)) <= maxsize q ->
  maxsize (Current.emit x q) = maxsize q /\
  items (Current.emit x q) = take (Z.to_nat (maxsize q)) (items q ++ [x]).
Proof.
  intros Hm Hlen.
  destruct (Z_lt_le_dec (Z.of_nat (length (items q))) (maxsize q)) as [Hroom|Hfull].
  - unfold Current.emit. rewrite put_nowait_room by assumption. simpl.
    split; [reflexivity|].
    rewrite take_ge; [reflexivity|]. rewrite length_app. simpl. lia.
  - rewrite Current_emit_full by assumption.
    split; [reflexivity|].
    rewrite take_app_le by lia. rewrite take_ge by lia. reflexivity.
Qed.

Lemma Current_emit_all (lines : list string) :
  forall q,
    0 < maxsize q ->
    Z.of_nat (length (items q)) <= maxsize q ->
    maxsize (fold_left (fun q line => Current.emit line q) lines q) = maxsize q /\
    items (fold_left (fun q line => Current.emit line q) lines q) =
      take (Z.to_nat (maxsize q)) (items q ++ lines).
Proof.
  induction lines as [|x lines IH]; intros q Hm Hlen.
  - simpl. split; [reflexivity|]. rewrite app_nil_r, take_ge by lia.
    reflexivity.
  - simpl fold_left.
    destruct (Current_emit_keeps_oldest x q Hm Hlen) as [Hmax Hits].
    assert (Hlen1 : Z.of_nat (length (items (Current.emit x q))) <= maxsize q).
    { rewrite Hits, length_take. lia. }
    destruct (IH (Current.emit x q)) as [Hmax' Hits']; [lia|lia|].
    split; [lia|].
    rewrite Hits', Hmax, Hits.
    set (A := items q ++ [x]). set (m := Z.to_nat (maxsize q)).
    replace (items q ++ x :: lines) with (A ++ lines)
      by (unfold A; rewrite <- app_assoc; reflexivity).
    destruct (Nat.le_gt_cases (length A) m) as [Hle|Hgt].
    + rewrite (take_ge A) by exact Hle. reflexivity.
    + rewrite (take_app_le A lines) by lia.
      rewrite take_app_le by (rewrite length_take; lia).
      rewrite take_take. f_equal. lia.
Qed.

Lemma Archive_flush_logs_drains (its : list string) :
  forall fuel m view appended,
    (length its < fuel)%nat ->
    Archive.flush_logs fuel {| maxsize := m; items := its |} view appended =
    Some ({| maxsize := m; items := [] |}, view ++ its,
          match its with [] => appended | _ => true end).
Proof.
  induction its as [|x its IH]; intros fuel m view appended Hfuel;
    (destruct fuel as [|fuel]; [simpl in Hfuel; lia|]).
  - simpl. rewrite app_nil_r. reflexivity.
  - simpl. rewrite IH by (simpl in Hfuel; lia).
    rewrite <- app_assoc. simpl. destruct its; reflexivity.
Qed.

Lemma Current_flush_drains (its : list string) :
  forall fuel m view,
    (length its < fuel)%nat ->
    Current.flush fuel {| maxsize := m; items := its |} view =
    Some (inr ({| maxsize := m; items := [] |}, view ++ its)).
Proof.
  induction its as [|x its IH]; intros fuel m view Hfuel;
    (destruct fuel as [|fuel]; [simpl in Hfuel; lia|]).
  - simpl. rewrite app_nil_r. reflexivity.
  - simpl. rewrite IH by (simpl in Hfuel; lia).
    rewrite <- app_assoc. reflexivity.
Qed.

(** X4.  The archive log pipeline.  Whatever lines the handler is given
    between two timer ticks, [flush_logs] ends (its loop needs one pass per
    queued line and one more), appends to the view the last [maxsize]
    (10000) of them in the order they were logged, and leaves the queue
    empty: a burst longer than the queue loses its oldest lines and no
    others. *)
Theorem Archive_console_shows_newest (lines view : list string) (spare : nat) :
  Archive.flush_logs (S (length lines) + spare)
    (fold_left (fun q line => Archive.emit line q) lines Archive.log_queue)
    view false =
  Some ({| maxsize := maxsize Archive.log_queue; items := [] |},
        view ++
        drop (length lines - Z.to_nat (maxsize Archive.log_queue)) lines,
        match lines with [] => false | _ => true end).
Proof.
  destruct (Archive_emit_all lines Archive.log_queue) as [Hmax Hits];
    [reflexivity|simpl; lia|].
  assert (HM : (0 < Z.to_nat (maxsize Archive.log_queue))%nat)
    by (simpl maxsize; lia).
  change (items Archive.log_queue ++ lines) with lines in Hits.
  set (M := Z.to_nat (maxsize Archive.log_queue)) in *.
  destruct (fold_left (fun q line => Archive.emit line q) lines Archive.log_queue)
    as [m its] eqn:Hq.
  cbn [maxsize items] in Hmax, Hits. subst m its.
  rewrite Archive_flush_logs_drains by (rewrite length_drop; lia).
  f_equal. f_equal.
  destruct lines as [|x lines]; [reflexivity|].
  destruct (drop (length (x :: lines) - M) (x :: lines)) eqn:Hd;
    [|reflexivity].
  apply (f_equal length) in Hd. rewrite length_drop in Hd.
  cbn [length] in Hd. lia.
Qed.

(** X5.  The log pipeline of src/kbdrgb.py.  Whatever lines the handler is
    given between two timer ticks, [LogConsole.flush] ends without
    [queue.Empty] escaping, appends to the view the first [maxsize] (1000)
    of them in the order they were logged, and leaves the queue empty: a
    burst longer than the queue loses everything after its first 1000
    lines. *)
Theorem Current_console_shows_oldest (lines view : list string) (spare : nat) :
  Current.flush (S (length lines) + spare)
    (fold_left (fun q line => Current.emit line q) lines Current.log_queue)
    view =
  Some (inr ({| maxsize := maxsize Current.log_queue; items := [] |},
             view ++ take (Z.to_nat (maxsize Current.log_queue)) lines)).
Proof.
  destruct (Current_emit_all lines Current.log_queue) as [Hmax Hits];
    [reflexivity|simpl; lia|].
  change (items Current.log_queue ++ lines) with lines in Hits.
  set (M := Z.to_nat (maxsize Current.log_queue)) in *.
  destruct (fold_left (fun q line => Current.emit line q) lines Current.log_queue)
    as [m its] eqn:Hq.
  cbn [maxsize items] in Hmax, Hits. subst m its.
  rewrite Current_flush_drains by (rewrite length_take; lia).
  reflexivity.
Qed.

(** ** The colour laws of the patterns *)

Lemma sin_half_scaled (t : R) : (0 <= 255 * (sin t * (1 / 2) + 1 / 2) <= 255)%R.
Proof. pose proof (SIN_bound t). lra. Qed.

Lemma sin_channel_range (hue shift : R) :
  0 <= Archive.sin_channel hue shift <= 255.
Proof. apply Rint_between. apply sin_half_scaled. Qed.

Lemma sin_channel_period (hue shift : R) :
  Archive.sin_channel (hue + 1) shift = Archive.sin_channel hue shift.
Proof.
  unfold Archive.sin_channel.
  replace (2 * PI * (hue + 1) + shift)%R
    with ((2 * PI * hue + shift) + 2 * PI)%R by ring.
  rewrite sin_plus, sin_2PI, cos_2PI. 
  replace (sin (2 * PI * hue + shift) * 1 + cos (2 * PI * hue + shift) * 0)%R
    with (sin (2 * PI * hue + shift)) by ring.
  reflexivity.
Qed.

(** X6.  The colour wheel of [rainbow] and [spectrum]: for every hue each of
    the three channels is a byte, so the clamping of [set_color] never
    alters a rainbow colour, and the colour is periodic in the hue with
    period 1, so the 180-step cycle of [rainbow] and the 20-step sweep of
    [spectrum] close on themselves. *)
Theorem rainbow_color_wheel (hue : R) :
  (let '(r, g, b) := Archive.rainbow_color hue in
   0 <= r <= 255 /\ 0 <= g <= 255 /\ 0 <= b <= 255) /\
  Archive.rainbow_color (hue + 1) = Archive.rainbow_color hue.
Proof.
  assert (Hr : forall h, Rint (255 * (sin (2 * PI * h) * (1 / 2) + 1 / 2)) =
                         Archive.sin_channel h 0).
  { intros h. unfold Archive.sin_channel. rewrite Rplus_0_r. reflexivity. }
  unfold Archive.rainbow_color. rewrite !Hr. split.
  - repeat split; apply sin_channel_range.
  - rewrite !sin_channel_period. reflexivity.
Qed.

(** X7.  The brightness of [wave] at a segment is a byte for every segment
    and offset; it is 0 where segment and offset add up to 0 and 255 where
    they add up to 10, half the keyboard further; and it repeats when the
    offset advances by the 20 segments of the keyboard, so every pass of the
    [while] loop shows the same sweep. *)
Theorem wave_level_law (seg offset : Z) :
  0 <= Archive.wave_level seg offset <= 255 /\
  Archive.wave_level seg (offset + 20) = Archive.wave_level seg offset /\
  Archive.wave_level seg (- seg) = 0 /\
  Archive.wave_level seg (10 - seg) = 255.
Proof.
  unfold Archive.wave_level. split; [|split; [|split]].
  - apply Rint_between.
    pose proof (SIN_bound (IZR (seg + offset) / IZR Archive.leds * PI)) as Hs.
    set (s := sin (IZR (seg + offset) / IZR Archive.leds * PI)) in *.
    assert (0 <= s ^ 2 <= 1)%R by (simpl; nra). lra.
  - replace (IZR (seg + (offset + 20)) / IZR Archive.leds * PI)%R
      with (IZR (seg + offset) / IZR Archive.leds * PI + PI)%R.
    + rewrite neg_sin. f_equal. ring.
    + unfold Archive.leds. rewrite !plus_IZR. field.
  - replace (seg + - seg) with 0 by lia.
    replace (0 / IZR Archive.leds * PI)%R with 0%R
      by (unfold Archive.leds; field).
    rewrite sin_0. replace (0 ^ 2 * 255)%R with (IZR 0) by (simpl; ring).
    apply Rint_IZR.
  - replace (seg + (10 - seg)) with 10 by lia.
    replace (10 / IZR Archive.leds * PI)%R with (PI / 2)%R
      by (unfold Archive.leds; field).
    rewrite sin_PI2. replace (1 ^ 2 * 255)%R with (IZR 255) by (simpl; ring).
    apply Rint_IZR.
Qed.

Lemma Qint_comp (p q : Q) : (p == q)%Q -> Qint p = Qint q.
Proof.
  intros H. unfold Qint.
  assert (Hb : Qle_bool 0 p = Qle_bool 0 q).
  { destruct (Qle_bool 0 p) eqn:Hp, (Qle_bool 0 q) eqn:Hq; try reflexivity.
    - apply Qle_bool_iff in Hp. rewrite H in Hp. apply Qle_bool_iff in Hp.
      congruence.
    - apply Qle_bool_iff in Hq. rewrite <- H in Hq. apply Qle_bool_iff in Hq.
      congruence. }
  rewrite Hb. destruct (Qle_bool 0 q).
  - apply Qfloor_comp. exact H.
  - apply Qceiling_comp. exact H.
Qed.

Lemma Qint_inject_Z (z : Z) : Qint (inject_Z z) = z.
Proof.
  unfold Qint. destruct (Qle_bool 0 (inject_Z z)).
  - apply Qfloor_Z.
  - apply Qceiling_Z.
Qed.

Lemma Qint_between (q : Q) (lo hi : Z) :
  (inject_Z lo <= q)%Q -> (q <= inject_Z hi)%Q -> lo <= Qint q <= hi.
Proof.
  intros Hlo Hhi. unfold Qint. destruct (Qle_bool 0 q).
  - split.
    + rewrite <- (Qfloor_Z lo). apply Qfloor_resp_le. exact Hlo.
    + rewrite <- (Qfloor_Z hi). apply Qfloor_resp_le. exact Hhi.
  - split.
    + rewrite <- (Qceiling_Z lo). apply Qceiling_resp_le. exact Hlo.
    + rewrite <- (Qceiling_Z hi). apply Qceiling_resp_le. exact Hhi.
Qed.

Lemma fade_mix_between (c1 c2 k steps : Z) :
  0 < steps -> 0 <= k <= steps ->
  (inject_Z (Z.min c1 c2) <=
   inject_Z c1 + inject_Z (c2 - c1) * (inject_Z k / inject_Z steps))%Q /\
  (inject_Z c1 + inject_Z (c2 - c1) * (inject_Z k / inject_Z steps) <=
   inject_Z (Z.max c1 c2))%Q.
Proof.
  intros Hs Hk.
  destruct steps as [|ps|ps]; try lia.
  unfold Qle, Qplus, Qmult, Qdiv, Qinv, inject_Z. simpl.
  rewrite !Pos.mul_1_l.
  destruct (Z.min_spec c1 c2) as [[? ->]|[? ->]],
           (Z.max_spec c1 c2) as [[? ->]|[? ->]]; nia.
Qed.

(** X8.  The colour of [fade]: a cycle has [steps = max(60, int(120 *
    interval))] steps, never fewer than 60, so the division by [steps] is
    always defined; at step 0 every channel is the base colour exactly, at
    step [steps] it is the target exactly, and in between it never leaves
    the interval the two span. *)
Theorem fade_channel_law (c1 c2 k : Z) (interval : Q) :
  let steps := Z.max 60 (Qint (120 * interval)) in
  0 <= k <= steps ->
  60 <= steps /\
  Archive.fade_channel c1 c2 0 steps = c1 /\
  Archive.fade_channel c1 c2 steps steps = c2 /\
  Z.min c1 c2 <= Archive.fade_channel c1 c2 k steps <= Z.max c1 c2.
Proof.
  intros steps Hk. assert (Hs : 60 <= steps) by (unfold steps; lia).
  split; [exact Hs|]. unfold Archive.fade_channel. split; [|split].
  - transitivity (Qint (inject_Z c1)); [apply Qint_comp|apply Qint_inject_Z].
    destruct steps as [|ps|ps]; try lia.
    unfold Qeq, Qplus, Qmult, Qdiv, Qinv, inject_Z. simpl. lia.
  - transitivity (Qint (inject_Z c2)); [apply Qint_comp|apply Qint_inject_Z].
    destruct steps as [|ps|ps]; try lia.
    unfold Qeq, Qplus, Qmult, Qdiv, Qinv, inject_Z. simpl.
    rewrite !Pos.mul_1_l. lia.
  - destruct (fade_mix_between c1 c2 k steps) as [Hlo Hhi]; [lia|lia|].
    apply Qint_between; assumption.
Qed.

Lemma fade_channel_law_witness :
  60 <= Z.max 60 (Qint (120 * 1)) /\
  Archive.fade_channel 10 250 0 (Z.max 60 (Qint (120 * 1))) = 10 /\
  Archive.fade_channel 10 250 (Z.max 60 (Qint (120 * 1)))
    (Z.max 60 (Qint (120 * 1))) = 250 /\
  Z.min 10 250 <= Archive.fade_channel 10 250 7 (Z.max 60 (Qint (120 * 1)))
    <= Z.max 10 250.
Proof.
  apply (fade_channel_law 10 250 7 1). vm_compute. split; discriminate.
Defined.

(** ** What a running pattern hands to the device *)

Lemma wrote_refl (w : world) : wrote w w [].
Proof. unfold wrote. rewrite app_nil_r. auto. Qed.

Lemma wrote_trans (w1 w2 w3 : world) (a b : list (list Z)) :
  wrote w1 w2 a -> wrote w2 w3 b -> wrote w1 w3 (a ++ b).
Proof.
  intros (Ho1 & Hf1 & Ht1 & Hn1 & Hp1) (Ho2 & Hf2 & Ht2 & Hn2 & Hp2).
  unfold wrote. rewrite Hp2, Hp1, app_assoc.
  repeat split; try congruence. lia.
Qed.

Lemma wrote_quiet (w w' : world) (pkts : list (list Z)) :
  wrote w w' pkts -> quiet w -> quiet w'.
Proof.
  intros (Ho & Hf & _) [Hflag Hint]. split; [congruence|].
  rewrite Ho. exact Hint.
Qed.

Lemma wrote_plugged (p : string) (w w' : world) (pkts : list (list Z)) :
  wrote w w' pkts -> plugged p w -> plugged p w'.
Proof.
  intros (Ho & _) [Hne Hdev]. split; [exact Hne|]. rewrite Ho. exact Hdev.
Qed.

Lemma is_set_wrote (w : world) :
  quiet w -> exists w', is_set w = (Ok false, w') /\ wrote w w' [].
Proof.
  intros [Hflag Hint]. unfold is_set.
  assert (Hf : match interfere (oracle w) (now w) with
               | Some b => b | None => flag w end = false).
  { destruct (interfere (oracle w) (now w)) as [[|]|] eqn:Hi.
    - exfalso. exact (Hint _ Hi).
    - reflexivity.
    - exact Hflag. }
  rewrite Hf. eexists. split; [reflexivity|].
  unfold wrote. simpl. rewrite packets_tick, app_nil_r.
  repeat split; auto.
Qed.

Lemma sleep_wrote (w : world) :
  exists w', sleep w = (Ok tt, w') /\ wrote w w' [].
Proof.
  eexists. split; [reflexivity|].
  unfold wrote. simpl. rewrite packets_tick, packets_app, app_nil_r.
  repeat split; auto.
Qed.

Lemma Archive_send_feature_report_wrote (p : string) (id : Z) (data : list Z)
    (w : world) :
  plugged p w ->
  0 <= id < 256 ->
  Forall (fun z => 0 <= z < 256) data ->
  Z.of_nat (length data) < IOCTL_BUFSZ ->
  exists w',
    Archive.send_feature_report p id data w =
      (Ok (ioctl_ok (oracle w) (S (now w))), w') /\
    wrote w w' [id :: data].
Proof.
  intros [Hne Hdev] Hid Hdata Hlen.
  destruct (Archive_send_feature_report_sends p id data w Hne
              (proj1 (Hdev _)) (proj2 (Hdev _)) Hid Hdata Hlen)
    as (pkt & Hpkt & Hrun).
  eexists. split; [exact Hrun|].
  unfold wrote. simpl. rewrite packets_tick, packets_app, packets_tick, Hpkt.
  repeat split; auto.
Qed.

Lemma Archive_set_color_wrote (p : string) (r g b i : Z)
    (start_id end_id : option Z) (w : world) :
  plugged p w ->
  exists w',
    Archive.set_color p r g b i start_id end_id w =
      (Ok (ioctl_ok (oracle w) (S (now w))), w') /\
    wrote w w'
      [[0x05; 0x01;
        Z.land (default DEFAULT_LED_START start_id) 0xFF;
        Z.land (Z.shiftr (default DEFAULT_LED_START start_id) 8) 0xFF;
        Z.land (default DEFAULT_LED_END end_id) 0xFF;
        Z.land (Z.shiftr (default DEFAULT_LED_END end_id) 8) 0xFF;
        clamp 255 r; clamp 255 g; clamp 255 b; clamp 255 i]].
Proof.
  intros Hpl. unfold Archive.set_color.
  apply (Archive_send_feature_report_wrote p SET_COLOR _ w Hpl).
  - unfold SET_COLOR. lia.
  - destruct start_id, end_id; apply Archive_set_color_payload_bytes.
  - reflexivity.
Qed.

Lemma Archive_set_color_whole (p : string) (r g b i : Z) (w : world) :
  plugged p w ->
  exists w',
    Archive.set_color p r g b i None None w =
      (Ok (ioctl_ok (oracle w) (S (now w))), w') /\
    wrote w w' [color_packet (r, g, b, i)].
Proof. apply Archive_set_color_wrote. Qed.

Lemma Archive_set_color_segment (p : string) (r g b i seg : Z) (w : world) :
  plugged p w ->
  0 <= seg < 20 ->
  exists w',
    Archive.set_color p r g b i (Some (seg * 5)) (Some (seg * 5 + 4)) w =
      (Ok (ioctl_ok (oracle w) (S (now w))), w') /\
    wrote w w' [segment_packet seg (r, g, b, i)].
Proof.
  intros Hpl Hseg.
  destruct (Archive_set_color_wrote p r g b i (Some (seg * 5))
              (Some (seg * 5 + 4)) w Hpl) as (w' & Hrun & Hw).
  exists w'. split; [exact Hrun|].
  unfold from_option, Datatypes.id in Hw. unfold segment_packet.
  assert (Hlo : forall x, 0 <= x < 256 ->
            Z.land x 0xFF = x /\ Z.land (Z.shiftr x 8) 0xFF = 0).
  { intros x Hx. change 0xFF with (Z.ones 8). rewrite !Z.land_ones by lia.
    rewrite Z.shiftr_div_pow2 by lia. change (2 ^ 8) with 256.
    rewrite (Z.div_small x) by lia. split; [apply Z.mod_small; lia|reflexivity]. }
  destruct (Hlo (seg * 5)) as [H1 H2]; [lia|].
  destruct (Hlo (seg * 5 + 4)) as [H3 H4]; [lia|].
  rewrite H1, H2, H3, H4 in Hw. exact Hw.
Qed.

Lemma Archive_disable_autonomous_wrote (p : string) (w : world) :
  plugged p w ->
  exists w',
    Archive.disable_autonomous p w =
      (Ok (ioctl_ok (oracle w) (S (now w))), w') /\
    wrote w w' [[0x0B; 0x00]].
Proof.
  intros Hpl. unfold Archive.disable_autonomous.
  destruct (Archive_send_feature_report_wrote p DISABLE_AUTONOMOUS [0x00] w Hpl)
    as (w1 & Hrun & Hw);
    [unfold DISABLE_AUTONOMOUS; lia|repeat constructor; lia|reflexivity|].
  rewrite (bind_ok _ _ _ _ _ Hrun).
  destruct (ioctl_ok (oracle w) (S (now w))).
  - destruct (sleep_wrote w1) as (w2 & Hsl & Hw2).
    unfold bind at 1. rewrite Hsl. eexists. split; [reflexivity|].
    pose proof (wrote_trans _ _ _ _ _ Hw Hw2) as H. rewrite app_nil_r in H.
    exact H.
  - eexists. split; [reflexivity|exact Hw].
Qed.

Section TraceInvariant.

(** What the caller knows of the world and every write preserves: that
    nobody stops the worker, that the device is there, and whatever else
    depends on the oracle and the flag alone. *)
Variable Q : world -> Prop.
Hypothesis Q_quiet : forall w, Q w -> quiet w.
Hypothesis Q_wrote : forall w w' pkts, wrote w w' pkts -> Q w -> Q w'.

(** A [for] loop none of whose passes returns, pass [x] writing [f x]. *)
Lemma for_wrote (f : Z -> list (list Z)) (body : Z -> M bool) (xs : list Z) :
  (forall x w, In x xs -> Q w ->
     exists w', body x w = (Ok false, w') /\ wrote w w' (f x)) ->
  forall w, Q w ->
    exists w', for_ xs body w = (Ok false, w') /\
               wrote w w' (concat (map f xs)).
Proof.
  induction xs as [|x xs IH]; intros Hbody w HQ.
  - exists w. split; [reflexivity|apply wrote_refl].
  - destruct (Hbody x w (or_introl eq_refl) HQ) as (w1 & Hrun & Hw1).
    destruct (IH (fun y w0 Hy => Hbody y w0 (or_intror Hy)) w1
                (Q_wrote _ _ _ Hw1 HQ)) as (w2 & Hrun2 & Hw2).
    exists w2. split.
    + simpl for_. rewrite (bind_ok _ _ _ _ _ Hrun). exact Hrun2.
    + simpl. exact (wrote_trans _ _ _ _ _ Hw1 Hw2).
Qed.

Lemma for_fold_wrote {S : Type} (f : Z -> list (list Z))
    (body : Z -> S -> M S) (xs : list Z) :
  (forall x s w, In x xs -> Q w ->
     exists s' w', body x s w = (Ok s', w') /\ wrote w w' (f x)) ->
  forall s w, Q w ->
    exists s' w', for_fold xs body s w = (Ok s', w') /\
                  wrote w w' (concat (map f xs)).
Proof.
  induction xs as [|x xs IH]; intros Hbody s w HQ.
  - exists s, w. split; [reflexivity|apply wrote_refl].
  - destruct (Hbody x s w (or_introl eq_refl) HQ) as (s1 & w1 & Hrun & Hw1).
    destruct (IH (fun y s0 w0 Hy => Hbody y s0 w0 (or_intror Hy)) s1 w1
                (Q_wrote _ _ _ Hw1 HQ)) as (s2 & w2 & Hrun2 & Hw2).
    exists s2, w2. split.
    + simpl for_fold. rewrite (bind_ok _ _ _ _ _ Hrun). exact Hrun2.
    + simpl. exact (wrote_trans _ _ _ _ _ Hw1 Hw2).
Qed.

(** A [while] loop whose body never returns and writes [cycle] each time. *)
Lemma while_wrote (cycle : list (list Z)) (body : M bool) :
  (forall w, Q w -> exists w', body w = (Ok false, w') /\ wrote w w' cycle) ->
  forall fuel w, Q w ->
    exists w', while_not_stopped fuel body w = (Ok Running, w') /\
               wrote w w' (concat (repeat cycle fuel)).
Proof.
  intros Hbody. induction fuel as [|fuel IH]; intros w HQ.
  - exists w. split; [reflexivity|apply wrote_refl].
  - destruct (is_set_wrote w (Q_quiet _ HQ)) as (w1 & Hset & Hw1).
    pose proof (Q_wrote _ _ _ Hw1 HQ) as HQ1.
    destruct (Hbody w1 HQ1) as (w2 & Hrun & Hw2).
    destruct (IH w2 (Q_wrote _ _ _ Hw2 HQ1)) as (w3 & Hrun3 & Hw3).
    exists w3. split.
    + simpl while_not_stopped. rewrite (bind_ok _ _ _ _ _ Hset). cbv iota.
      rewrite (bind_ok _ _ _ _ _ Hrun). exact Hrun3.
    + simpl. exact (wrote_trans _ _ _ _ _ Hw1 (wrote_trans _ _ _ _ _ Hw2 Hw3)).
Qed.

(** The frame of the workers: the pre-flight, then the loop. *)
Lemma preflight_wrote (p : string) (loop : M status) (pkts : list (list Z))
    (w : world) :
  Q w -> plugged p w ->
  ioctl_ok (oracle w) (S (now w)) = true ->
  (forall w1, Q w1 ->
     exists w', loop w1 = (Ok Running, w') /\ wrote w1 w' pkts) ->
  exists w',
    (let* ok := Archive.disable_autonomous p in
     if negb ok then ret Returned else loop) w = (Ok Running, w') /\
    wrote w w' ([0x0B; 0x00] :: pkts).
Proof.
  intros HQ Hpl Hok Hloop.
  destruct (Archive_disable_autonomous_wrote p w Hpl) as (w1 & Hrun & Hw1).
  rewrite Hok in Hrun.
  destruct (Hloop w1 (Q_wrote _ _ _ Hw1 HQ)) as (w2 & Hrun2 & Hw2).
  exists w2. split.
  - rewrite (bind_ok _ _ _ _ _ Hrun). exact Hrun2.
  - exact (wrote_trans _ _ _ _ _ Hw1 Hw2).
Qed.

End TraceInvariant.

Lemma guarded_ok (m : M status) (w w' : world) (s : status) :
  m w = (Ok s, w') -> guarded m w = (Ok s, w').
Proof. intros H. unfold guarded, try_except. rewrite H. reflexivity. Qed.

Lemma live_quiet (p : string) (w : world) :
  quiet w /\ plugged p w -> quiet w.
Proof. tauto. Qed.

Lemma live_wrote (p : string) (w w' : world) (pkts : list (list Z)) :
  wrote w w' pkts -> quiet w /\ plugged p w -> quiet w' /\ plugged p w'.
Proof.
  intros Hw [Hq Hpl]. split; [eapply wrote_quiet|eapply wrote_plugged]; eauto.
Qed.

(** One step of a whole-keyboard pattern: the stop check, the colour
    report, the sleep. *)
Lemma step_wrote (p : string) (v : Z * Z * Z * Z) (w : world) :
  quiet w -> plugged p w ->
  exists w',
    (let* stop := is_set in
     if stop then ret true
     else
       let '(r, g, b, i) := v in
       let* _ := Archive.set_color p r g b i None None in
       sleep >> ret false) w = (Ok false, w') /\
    wrote w w' [color_packet v].
Proof.
  intros Hq Hpl. destruct v as [[[r g] b] i].
  destruct (is_set_wrote w Hq) as (w1 & Hset & Hw1).
  rewrite (bind_ok _ _ _ _ _ Hset). cbv iota.
  destruct (Archive_set_color_whole p r g b i w1 (wrote_plugged _ _ _ _ Hw1 Hpl))
    as (w2 & Hcol & Hw2).
  rewrite (bind_ok _ _ _ _ _ Hcol).
  destruct (sleep_wrote w2) as (w3 & Hsl & Hw3).
  rewrite (bind_ok _ _ _ _ _ Hsl).
  eexists. split; [reflexivity|].
  pose proof (wrote_trans _ _ _ _ _ Hw1 (wrote_trans _ _ _ _ _ Hw2 Hw3)) as H.
  simpl in H. exact H.
Qed.

(** X9.  [flash], [pulse] and [strobe] on a device that is there, with
    nobody stopping them: after the disable-autonomous report each pass of
    the loop hands the device exactly two colour reports, the base colour
    at intensity 255 and then black at intensity 0 ([flash], [strobe]) or
    the base colour at intensity 64 ([pulse]), and nothing else, whether or
    not the writes succeed. *)
Theorem square_patterns_alternate (p : string) (r g b : Z) (interval : Q)
    (fuel : nat) (w : world) :
  quiet w -> plugged p w ->
  ioctl_ok (oracle w) (S (now w)) = true ->
  (exists w',
     Archive.flash p (r, g, b) interval fuel w = (Ok Running, w') /\
     packets w' = packets w ++ [0x0B; 0x00] ::
       concat (repeat [color_packet (r, g, b, 255); color_packet (0, 0, 0, 0)]
                 fuel)) /\
  (exists w',
     Archive.pulse p (r, g, b) interval fuel w = (Ok Running, w') /\
     packets w' = packets w ++ [0x0B; 0x00] ::
       concat (repeat [color_packet (r, g, b, 255); color_packet (r, g, b, 64)]
                 fuel)) /\
  (exists w',
     Archive.strobe p (r, g, b) interval fuel w = (Ok Running, w') /\
     packets w' = packets w ++ [0x0B; 0x00] ::
       concat (repeat [color_packet (r, g, b, 255); color_packet (0, 0, 0, 0)]
                 fuel)).
Proof.
  intros Hq Hpl Hok.
  assert (Hsq : forall on off,
    exists w',
      Archive.square_wave p on off fuel w = (Ok Running, w') /\
      packets w' = packets w ++ [0x0B; 0x00] ::
        concat (repeat [color_packet on; color_packet off] fuel)).
  { intros [[[r1 g1] b1] i1] [[[r2 g2] b2] i2]. unfold Archive.square_wave.
    destruct (preflight_wrote (fun w => quiet w /\ plugged p w)
                (live_wrote p) p
                (while_not_stopped fuel
                   (let* _ := Archive.set_color p r1 g1 b1 i1 None None in
                    let* _ := sleep in
                    let* stop := is_set in
                    if stop then ret true
                    else
                      let* _ := Archive.set_color p r2 g2 b2 i2 None None in
                      sleep >> ret false))
                (concat (repeat [color_packet (r1, g1, b1, i1);
                                 color_packet (r2, g2, b2, i2)] fuel))
                w (conj Hq Hpl) Hpl Hok) as (w' & Hrun & Hw).
    - intros w1 HQ1.
      apply (while_wrote (fun w => quiet w /\ plugged p w) (live_quiet p)
               (live_wrote p)); [|exact HQ1].
      clear w1 HQ1. intros w1 [Hq1 Hpl1].
      destruct (Archive_set_color_whole p r1 g1 b1 i1 w1 Hpl1)
        as (w2 & Hc1 & Hw2).
      rewrite (bind_ok _ _ _ _ _ Hc1).
      destruct (sleep_wrote w2) as (w3 & Hs1 & Hw3).
      rewrite (bind_ok _ _ _ _ _ Hs1).
      pose proof (wrote_trans _ _ _ _ _ Hw2 Hw3) as Hw13.
      destruct (step_wrote p (r2, g2, b2, i2) w3
                  (wrote_quiet _ _ _ Hw13 Hq1) (wrote_plugged _ _ _ _ Hw13 Hpl1))
        as (w4 & Hstep & Hw4).
      exists w4. split; [exact Hstep|].
      exact (wrote_trans _ _ _ _ _ Hw13 Hw4).
    - exists w'. split; [apply guarded_ok; exact Hrun|]. apply Hw. }
  unfold Archive.flash, Archive.pulse, Archive.strobe.
  repeat split; apply Hsq.
Qed.

Lemma square_patterns_alternate_witness :
  (exists w',
     Archive.flash "/dev/hidraw1" (0, 255, 0) 0.5 2 (boot friendly) =
       (Ok Running, w') /\
     packets w' = packets (boot friendly) ++ [0x0B; 0x00] ::
       concat (repeat [color_packet (0, 255, 0, 255); color_packet (0, 0, 0, 0)]
                 2)) /\
  (exists w',
     Archive.pulse "/dev/hidraw1" (0, 255, 0) 0.5 2 (boot friendly) =
       (Ok Running, w') /\
     packets w' = packets (boot friendly) ++ [0x0B; 0x00] ::
       concat (repeat [color_packet (0, 255, 0, 255); color_packet (0, 255, 0, 64)]
                 2)) /\
  (exists w',
     Archive.strobe "/dev/hidraw1" (0, 255, 0) 0.5 2 (boot friendly) =
       (Ok Running, w') /\
     packets w' = packets (boot friendly) ++ [0x0B; 0x00] ::
       concat (repeat [color_packet (0, 255, 0, 255); color_packet (0, 0, 0, 0)]
                 2)).
Proof.
  apply (square_patterns_alternate "/dev/hidraw1" 0 255 0 0.5 2 (boot friendly)).
  - split; [reflexivity|intros t; discriminate].
  - split; [reflexivity|intros t; split; reflexivity].
  - reflexivity.
Defined.

Lemma concat_map_singleton {A B : Type} (f : A -> B) (xs : list A) :
  concat (map (fun x => [f x]) xs) = map f xs.
Proof. induction xs as [|x xs IH]; simpl; [reflexivity|rewrite IH; reflexivity]. Qed.

(** A cycle of a whole-keyboard pattern: one frame per step. *)
Lemma cycle_wrote (p : string) (frame : Z -> Z * Z * Z * Z) (xs : list Z)
    (w : world) :
  quiet w /\ plugged p w ->
  exists w',
    for_ xs
      (fun k =>
         let* stop := is_set in
         if stop then ret true
         else
           let '(r, g, b, i) := frame k in
           let* _ := Archive.set_color p r g b i None None in
           sleep >> ret false) w = (Ok false, w') /\
    wrote w w' (map (fun k => color_packet (frame k)) xs).
Proof.
  intros HQ. rewrite <- concat_map_singleton.
  apply (for_wrote (fun w => quiet w /\ plugged p w) (live_wrote p)); [|exact HQ].
  intros k w0 _ [Hq0 Hpl0]. apply step_wrote; assumption.
Qed.

(** The packets of [breathing] as the model computes them, the step count
    and the level of each step taken in exact arithmetic. *)
Lemma breathing_exact (p : string) (r g b : Z) (interval : Q) (fuel : nat)
    (w : world) :
  quiet w -> plugged p w ->
  ioctl_ok (oracle w) (S (now w)) = true ->
  let n := Archive.updates_per_cycle interval in
  let cycle :=
    map (fun k => color_packet (r, g, b, Archive.breathing_level n k))
      (range 0 n) in
  (exists w',
     Daemon.breathing p (r, g, b) interval fuel w = (Ok Running, w') /\
     packets w' = packets w ++ [0x0B; 0x00] :: concat (repeat cycle fuel)) /\
  ((forall t, ioctl_ok (oracle w) t = true) ->
   exists w',
     Archive.breathing p (r, g, b) interval fuel w = (Ok Running, w') /\
     packets w' = packets w ++ [0x0B; 0x00] :: concat (repeat cycle fuel)).
Proof.
  intros Hq Hpl Hok n cycle. split.
  - unfold Daemon.breathing. fold (Archive.updates_per_cycle interval). fold n.
    destruct (preflight_wrote (fun w => quiet w /\ plugged p w) (live_wrote p) p
                (while_not_stopped fuel
                   (for_ (range 0 n)
                      (fun k =>
                         let* stop := is_set in
                         if stop then ret true
                         else
                           let intensity := Archive.breathing_level n k in
                           let* _ := Archive.set_color p r g b intensity None None in
                           sleep >> ret false)))
                (concat (repeat cycle fuel)) w (conj Hq Hpl) Hpl Hok)
      as (w' & Hrun & Hw).
    + intros w1 HQ1.
      apply (while_wrote (fun w => quiet w /\ plugged p w) (live_quiet p)
               (live_wrote p)); [|exact HQ1].
      intros w2 HQ2.
      apply (cycle_wrote p (fun k => (r, g, b, Archive.breathing_level n k))
               (range 0 n) w2 HQ2).
    + exists w'. split; [exact Hrun|apply Hw].
  - intros Hall. unfold Archive.breathing. fold n.
    set (Q := fun w0 : world =>
                (quiet w0 /\ plugged p w0) /\
                forall t, ioctl_ok (oracle w0) t = true).
    assert (Q_quiet : forall w0, Q w0 -> quiet w0) by (intros w0 [[H _] _]; exact H).
    assert (Q_wrote : forall w0 w1 pk, wrote w0 w1 pk -> Q w0 -> Q w1).
    { intros w0 w1 pk Hw [HQ Hio]. split; [exact (live_wrote p _ _ _ Hw HQ)|].
      destruct Hw as (Ho & _). rewrite Ho. exact Hio. }
    destruct (preflight_wrote Q Q_wrote p
                (while_not_stopped fuel
                   (for_ (range 0 n)
                      (fun k =>
                         let* stop := is_set in
                         if stop then ret true
                         else
                           let intensity := Archive.breathing_level n k in
                           let* sent := Archive.set_color p r g b intensity None None in
                           if negb sent then ret true
                           else (sleep >> ret false))))
                (concat (repeat cycle fuel)) w (conj (conj Hq Hpl) Hall) Hpl Hok)
      as (w' & Hrun & Hw).
    + intros w1 HQ1.
      apply (while_wrote Q Q_quiet Q_wrote); [|exact HQ1].
      intros w2 HQ2. unfold cycle. rewrite <- concat_map_singleton.
      apply (for_wrote Q Q_wrote); [|exact HQ2].
      intros k w3 _ [[Hq3 Hpl3] Hio3]. cbv zeta.
      destruct (is_set_wrote w3 Hq3) as (w4 & Hset & Hw4).
      rewrite (bind_ok _ _ _ _ _ Hset). cbv iota.
      destruct (Archive_set_color_whole p r g b (Archive.breathing_level n k) w4
                  (wrote_plugged _ _ _ _ Hw4 Hpl3)) as (w5 & Hcol & Hw5).
      rewrite (bind_ok _ _ _ _ _ Hcol).
      replace (ioctl_ok (oracle w4) (S (now w4))) with true
        by (destruct Hw4 as (Ho & _); rewrite Ho, Hio3; reflexivity).
      cbn [negb].
      destruct (sleep_wrote w5) as (w6 & Hsl & Hw6).
      rewrite (bind_ok _ _ _ _ _ Hsl).
      eexists. split; [reflexivity|].
      pose proof (wrote_trans _ _ _ _ _ Hw4 (wrote_trans _ _ _ _ _ Hw5 Hw6)) as H.
      simpl in H. exact H.
    + exists w'. split; [apply guarded_ok; exact Hrun|apply Hw].
Qed.

Lemma concat_repeat_map {A B : Type} (f : A -> B) (xs : list A) (n : nat) :
  concat (repeat (map f xs) n) = map f (concat (repeat xs n)).
Proof.
  induction n as [|n IH]; [reflexivity|].
  simpl. rewrite IH, map_app. reflexivity.
Qed.

Lemma Forall2_map_levels (R : Z -> Z -> Prop) (f : Z -> Z) (xs : list Z) :
  (forall k, R k (f k)) -> Forall2 R xs (map f xs).
Proof.
  intros H. induction xs as [|x xs IH]; simpl; constructor; auto.
Qed.

(** An interval of at most three quarters of a second gives the minimum of
    90 steps. *)
Lemma updates_per_cycle_fast (interval : Q) :
  (0 < interval)%Q -> (interval <= 3 / 4)%Q ->
  Archive.updates_per_cycle interval = 90.
Proof.
  intros Hpos Hle. unfold Archive.updates_per_cycle, Qint.
  assert (H0 : (0 <= 120 * interval)%Q).
  { apply Qmult_le_0_compat; [discriminate|apply Qlt_le_weak; exact Hpos]. }
  rewrite (proj2 (Qle_bool_iff _ _) H0).
  assert (H90 : (120 * interval <= 90)%Q).
  { apply (Qle_trans _ (120 * (3 / 4))%Q); [|discriminate].
    apply Qmult_le_l; [reflexivity|exact Hle]. }
  pose proof (Qfloor_resp_le _ _ H90) as Hf.
  change (Qfloor 90) with 90 in Hf. lia.
Qed.

Lemma Archive_breathing_level_near (N k : Z) :
  near_level N 255 k (Archive.breathing_level N k).
Proof.
  split; [apply Archive_breathing_level_range
         |apply Archive_breathing_level_vs_spec].
Qed.

(** X10.  [breathing] of the archive and of the daemon on a device that is
    there, with nobody stopping it and an interval of at most 0.75 s, for
    which [max(90, int(120 * interval))] is 90: after the
    disable-autonomous report each pass of the [while] loop hands the
    device exactly 90 colour reports and nothing else, the reports of the
    steps 0 to 89 in this order, each with the base colour and an
    intensity from 0 to 255 that is the rounded value of the breathing
    curve at its step or one less (which of the two depends on how the
    [int(...)] of the step rounds).  The daemon's worker does so whether or
    not the writes succeed, the archive's as long as they succeed. *)
Theorem breathing_cycle (p : string) (r g b : Z) (interval : Q) (fuel : nat)
    (w : world) :
  quiet w -> plugged p w ->
  ioctl_ok (oracle w) (S (now w)) = true ->
  (0 < interval)%Q -> (interval <= 3 / 4)%Q ->
  (exists w' levels,
     Daemon.breathing p (r, g, b) interval fuel w = (Ok Running, w') /\
     packets w' = packets w ++ [0x0B; 0x00] ::
       map (fun i => color_packet (r, g, b, i)) levels /\
     Forall2 (near_level 90 255) (concat (repeat (range 0 90) fuel)) levels) /\
  ((forall t, ioctl_ok (oracle w) t = true) ->
   exists w' levels,
     Archive.breathing p (r, g, b) interval fuel w = (Ok Running, w') /\
     packets w' = packets w ++ [0x0B; 0x00] ::
       map (fun i => color_packet (r, g, b, i)) levels /\
     Forall2 (near_level 90 255) (concat (repeat (range 0 90) fuel)) levels).
Proof.
  intros Hq Hpl Hok Hpos Hle.
  pose proof (breathing_exact p r g b interval fuel w Hq Hpl Hok) as Hex.
  cbv zeta in Hex. rewrite (updates_per_cycle_fast interval Hpos Hle) in Hex.
  destruct Hex as [Hd Ha].
  assert (Hshape : forall pk : list (list Z),
    pk = packets w ++ [0x0B; 0x00] ::
         concat (repeat
                   (map (fun k => color_packet (r, g, b, Archive.breathing_level 90 k))
                      (range 0 90)) fuel) ->
    pk = packets w ++ [0x0B; 0x00] ::
         map (fun i => color_packet (r, g, b, i))
           (map (Archive.breathing_level 90) (concat (repeat (range 0 90) fuel)))).
  { intros pk ->. rewrite map_map, <- concat_repeat_map. reflexivity. }
  assert (Hnear : Forall2 (near_level 90 255)
                    (concat (repeat (range 0 90) fuel))
                    (map (Archive.breathing_level 90)
                       (concat (repeat (range 0 90) fuel)))).
  { apply Forall2_map_levels. intros k. apply Archive_breathing_level_near. }
  split.
  - destruct Hd as (w' & Hrun & Hp).
    exists w', (map (Archive.breathing_level 90)
                  (concat (repeat (range 0 90) fuel))).
    split; [exact Hrun|]. split; [exact (Hshape _ Hp)|exact Hnear].
  - intros Hall. destruct (Ha Hall) as (w' & Hrun & Hp).
    exists w', (map (Archive.breathing_level 90)
                  (concat (repeat (range 0 90) fuel))).
    split; [exact Hrun|]. split; [exact (Hshape _ Hp)|exact Hnear].
Qed.

Lemma breathing_cycle_witness :
  (exists w' levels,
     Daemon.breathing "/dev/hidraw1" (0, 255, 0) 0.5 1 (boot friendly) =
       (Ok Running, w') /\
     packets w' = packets (boot friendly) ++ [0x0B; 0x00] ::
       map (fun i => color_packet (0, 255, 0, i)) levels /\
     Forall2 (near_level 90 255) (concat (repeat (range 0 90) 1)) levels) /\
  ((forall t, ioctl_ok (oracle (boot friendly)) t = true) ->
   exists w' levels,
     Archive.breathing "/dev/hidraw1" (0, 255, 0) 0.5 1 (boot friendly) =
       (Ok Running, w') /\
     packets w' = packets (boot friendly) ++ [0x0B; 0x00] ::
       map (fun i => color_packet (0, 255, 0, i)) levels /\
     Forall2 (near_level 90 255) (concat (repeat (range 0 90) 1)) levels).
Proof.
  apply (breathing_cycle "/dev/hidraw1" 0 255 0 0.5 1 (boot friendly)).
  - split; [reflexivity|intros t; discriminate].
  - split; [reflexivity|intros t; split; reflexivity].
  - reflexivity.
  - reflexivity.
  - discriminate.
Defined.

(** X11.  [rainbow] of the archive and of the daemon on a device that is
    there, with nobody stopping it: after the disable-autonomous report
    each pass of the [while] loop hands the device exactly 180 colour
    reports, the wheel colour of the hues 0/180, 1/180, ..., 179/180 at
    intensity 255 in this order, and nothing else, whether or not the
    writes succeed. *)
Theorem rainbow_cycle (p : string) (interval : Q) (fuel : nat) (w : world) :
  quiet w -> plugged p w ->
  ioctl_ok (oracle w) (S (now w)) = true ->
  let cycle :=
    map (fun k => let '(r, g, b) := Archive.rainbow_color (IZR k / 180) in
                  color_packet (r, g, b, 255))
      (range 0 180) in
  (exists w',
     Archive.rainbow p interval fuel w = (Ok Running, w') /\
     packets w' = packets w ++ [0x0B; 0x00] :: concat (repeat cycle fuel)) /\
  (exists w',
     Daemon.rainbow p interval fuel w = (Ok Running, w') /\
     packets w' = packets w ++ [0x0B; 0x00] :: concat (repeat cycle fuel)).
Proof.
  intros Hq Hpl Hok cycle.
  assert (Hloop : forall w1, quiet w1 /\ plugged p w1 ->
    exists w',
      while_not_stopped fuel
        (for_ (range 0 180)
           (fun k =>
              let* stop := is_set in
              if stop then ret true
              else
                let hue := (IZR k / IZR 180)%R in
                let '(r, g, b) := Archive.rainbow_color hue in
                let* _ := Archive.set_color p r g b 255 None None in
                sleep >> ret false)) w1 = (Ok Running, w') /\
      wrote w1 w' (concat (repeat cycle fuel))).
  { intros w1 HQ1.
    apply (while_wrote (fun w => quiet w /\ plugged p w) (live_quiet p)
             (live_wrote p)); [|exact HQ1].
    intros w2 HQ2. unfold cycle. rewrite <- concat_map_singleton.
    apply (for_wrote (fun w => quiet w /\ plugged p w) (live_wrote p));
      [|exact HQ2].
    intros k w3 _ [Hq3 Hpl3]. cbv zeta.
    destruct (Archive.rainbow_color (IZR k / 180)) as [[r g] b].
    apply (step_wrote p (r, g, b, 255)); assumption. }
  destruct (preflight_wrote (fun w => quiet w /\ plugged p w) (live_wrote p) p
              _ _ w (conj Hq Hpl) Hpl Hok Hloop) as (w' & Hrun & Hw).
  split; exists w'.
  - split; [apply guarded_ok; exact Hrun|apply Hw].
  - split; [exact Hrun|apply Hw].
Qed.

Lemma rainbow_cycle_witness :
  let cycle :=
    map (fun k => let '(r, g, b) := Archive.rainbow_color (IZR k / 180) in
                  color_packet (r, g, b, 255))
      (range 0 180) in
  (exists w',
     Archive.rainbow "/dev/hidraw1" 0.1 3 (boot friendly) = (Ok Running, w') /\
     packets w' = packets (boot friendly) ++ [0x0B; 0x00] ::
                  concat (repeat cycle 3)) /\
  (exists w',
     Daemon.rainbow "/dev/hidraw1" 0.1 3 (boot friendly) = (Ok Running, w') /\
     packets w' = packets (boot friendly) ++ [0x0B; 0x00] ::
                  concat (repeat cycle 3)).
Proof.
  apply (rainbow_cycle "/dev/hidraw1" 0.1 3 (boot friendly)).
  - split; [reflexivity|intros t; discriminate].
  - split; [reflexivity|intros t; split; reflexivity].
  - reflexivity.
Defined.

(** [paint_segments]: one colour report per segment, lowest first. *)
Lemma paint_segments_wrote (p : string) (frame : Z -> Z * Z * Z * Z)
    (w : world) :
  quiet w /\ plugged p w ->
  exists w',
    Archive.paint_segments p frame w = (Ok tt, w') /\
    wrote w w' (map (fun seg => segment_packet seg (frame seg)) (range 0 20)).
Proof.
  intros HQ. unfold Archive.paint_segments. rewrite <- concat_map_singleton.
  destruct (for_fold_wrote (fun w => quiet w /\ plugged p w) (live_wrote p)
              (fun seg => [segment_packet seg (frame seg)])
              (fun seg (_ : unit) =>
                 let '(r, g, b, i) := frame seg in
                 let* _ := Archive.set_color p r g b i (Some (seg * 5))
                             (Some (seg * 5 + 4)) in
                 ret tt)
              (range 0 Archive.leds)) with (s := tt) (w := w)
    as ([] & w' & Hrun & Hw); [|exact HQ|].
  - intros seg [] w0 Hin [Hq0 Hpl0]. apply In_range in Hin.
    destruct (frame seg) as [[[r g] b] i].
    destruct (Archive_set_color_segment p r g b i seg w0 Hpl0)
      as (w1 & Hcol & Hw1); [unfold Archive.leds in Hin; lia|].
    rewrite (bind_ok _ _ _ _ _ Hcol). eexists tt, w1.
    split; [reflexivity|exact Hw1].
  - exists w'. split; [exact Hrun|exact Hw].
Qed.

(** A sweep of a per-segment pattern: for every offset the stop check, the
    twenty segments, the sleep. *)
Lemma sweep_wrote (p : string) (frame : Z -> Z -> Z * Z * Z * Z)
    (fuel : nat) (w : world) :
  quiet w /\ plugged p w ->
  exists w',
    while_not_stopped fuel
      (for_ (range 0 Archive.leds)
         (fun offset =>
            let* stop := is_set in
            if stop then ret true
            else
              let* _ := Archive.paint_segments p (frame offset) in
              sleep >> ret false)) w = (Ok Running, w') /\
    wrote w w'
      (concat (repeat
         (concat (map (fun offset =>
                         map (fun seg => segment_packet seg (frame offset seg))
                           (range 0 20))
                    (range 0 20))) fuel)).
Proof.
  intros HQ.
  apply (while_wrote (fun w => quiet w /\ plugged p w) (live_quiet p)
           (live_wrote p)); [|exact HQ].
  intros w1 HQ1.
  apply (for_wrote (fun w => quiet w /\ plugged p w) (live_wrote p)
           (fun offset => map (fun seg => segment_packet seg (frame offset seg))
                            (range 0 20))); [|exact HQ1].
  intros offset w2 _ [Hq2 Hpl2].
  destruct (is_set_wrote w2 Hq2) as (w3 & Hset & Hw3).
  rewrite (bind_ok _ _ _ _ _ Hset). cbv iota.
  destruct (paint_segments_wrote p (frame offset) w3
              (live_wrote p _ _ _ Hw3 (conj Hq2 Hpl2))) as (w4 & Hpaint & Hw4).
  rewrite (bind_ok _ _ _ _ _ Hpaint).
  destruct (sleep_wrote w4) as (w5 & Hsl & Hw5).
  rewrite (bind_ok _ _ _ _ _ Hsl).
  eexists. split; [reflexivity|].
  pose proof (wrote_trans _ _ _ _ _ Hw3 (wrote_trans _ _ _ _ _ Hw4 Hw5)) as H.
  rewrite app_nil_l, app_nil_r in H. exact H.
Qed.

(** X12.  [wave] and [spectrum] on a device that is there, with nobody
    stopping them: after the disable-autonomous report every step hands
    the device exactly twenty colour reports, one per segment from 0 to 19,
    segment [seg] addressing the five LEDs [5*seg .. 5*seg+4], and a pass
    of the [while] loop is twenty such steps, offsets 0 to 19.  [wave] writes the
    base colour at intensity [wave_level seg offset], [spectrum] the wheel
    colour of hue [(seg + offset) / 20] at intensity 255. *)
Theorem segment_patterns_sweep (p : string) (r g b : Z) (interval : Q)
    (fuel : nat) (w : world) :
  quiet w -> plugged p w ->
  ioctl_ok (oracle w) (S (now w)) = true ->
  let sweep (frame : Z -> Z -> Z * Z * Z * Z) :=
    concat (map (fun offset =>
                   map (fun seg => segment_packet seg (frame offset seg))
                     (range 0 20))
              (range 0 20)) in
  (exists w',
     Archive.wave p (r, g, b) interval fuel w = (Ok Running, w') /\
     packets w' = packets w ++ [0x0B; 0x00] ::
       concat (repeat
                 (sweep (fun offset seg =>
                           (r, g, b, Archive.wave_level seg offset))) fuel)) /\
  (exists w',
     Archive.spectrum p interval fuel w = (Ok Running, w') /\
     packets w' = packets w ++ [0x0B; 0x00] ::
       concat (repeat
                 (sweep (fun offset seg =>
                           let '(r, g, b) :=
                             Archive.rainbow_color (IZR (seg + offset) / 20) in
                           (r, g, b, 255))) fuel)).
Proof.
  intros Hq Hpl Hok sweep. split.
  - unfold Archive.wave.
    destruct (preflight_wrote (fun w => quiet w /\ plugged p w) (live_wrote p) p
                _ _ w (conj Hq Hpl) Hpl Hok
                (fun w1 HQ1 =>
                   sweep_wrote p (fun offset seg =>
                                    (r, g, b, Archive.wave_level seg offset))
                     fuel w1 HQ1)) as (w' & Hrun & Hw).
    exists w'. split; [apply guarded_ok; exact Hrun|apply Hw].
  - unfold Archive.spectrum.
    destruct (preflight_wrote (fun w => quiet w /\ plugged p w) (live_wrote p) p
                _ _ w (conj Hq Hpl) Hpl Hok
                (fun w1 HQ1 =>
                   sweep_wrote p (fun offset seg =>
                                    let '(r, g, b) :=
                                      Archive.rainbow_color
                                        (IZR (seg + offset) / 20) in
                                    (r, g, b, 255))
                     fuel w1 HQ1)) as (w' & Hrun & Hw).
    exists w'. split; [apply guarded_ok; exact Hrun|apply Hw].
Qed.

Lemma segment_patterns_sweep_witness :
  let sweep (frame : Z -> Z -> Z * Z * Z * Z) :=
    concat (map (fun offset =>
                   map (fun seg => segment_packet seg (frame offset seg))
                     (range 0 20))
              (range 0 20)) in
  (exists w',
     Archive.wave "/dev/hidraw1" (0, 255, 0) 0.1 2 (boot friendly) =
       (Ok Running, w') /\
     packets w' = packets (boot friendly) ++ [0x0B; 0x00] ::
       concat (repeat
                 (sweep (fun offset seg =>
                           (0, 255, 0, Archive.wave_level seg offset))) 2)) /\
  (exists w',
     Archive.spectrum "/dev/hidraw1" 0.1 2 (boot friendly) = (Ok Running, w') /\
     packets w' = packets (boot friendly) ++ [0x0B; 0x00] ::
       concat (repeat
                 (sweep (fun offset seg =>
                           let '(r, g, b) :=
                             Archive.rainbow_color (IZR (seg + offset) / 20) in
                           (r, g, b, 255))) 2)).
Proof.
  apply (segment_patterns_sweep "/dev/hidraw1" 0 255 0 0.1 2 (boot friendly)).
  - split; [reflexivity|intros t; discriminate].
  - split; [reflexivity|intros t; split; reflexivity].
  - reflexivity.
Defined.

(** ** Workers that are stopped, or never get going *)

Lemma stopped_extends (w w' : world) (evs : list event) :
  extends w w' evs -> stopped w -> stopped w'.
Proof.
  intros (Ho & Hf & _) [Hflag Hint]. split; [congruence|].
  rewrite Ho. exact Hint.
Qed.

Lemma is_set_stopped (w : world) :
  stopped w -> exists w', is_set w = (Ok true, w') /\ extends w w' [].
Proof.
  intros [Hflag Hint]. unfold is_set.
  assert (Hf : match interfere (oracle w) (now w) with
               | Some b => b | None => flag w end = true).
  { destruct (interfere (oracle w) (now w)) as [[|]|] eqn:Hi.
    - reflexivity.
    - exfalso. exact (Hint _ Hi).
    - exact Hflag. }
  rewrite Hf. eexists. split; [reflexivity|].
  unfold extends. simpl. rewrite app_nil_r. repeat split; auto.
Qed.

Lemma color_writes_extends (w w' : world) (evs : list event) :
  extends w w' evs ->
  color_writes w' =
  (color_writes w +
   length (filter (fun pkt => head pkt = Some SET_COLOR)
             (omap (fun e => match e with
                             | EvIoctl _ _ pkt _ => Some (map int_of_byte pkt)
                             | _ => None
                             end) evs)))%nat.
Proof.
  intros Hext. unfold color_writes.
  rewrite (packets_extends _ _ _ Hext), filter_app, length_app. reflexivity.
Qed.

Lemma Archive_disable_autonomous_no_colour (p : string) (w : world) :
  exists ok w' evs,
    Archive.disable_autonomous p w = (Ok ok, w') /\
    extends w w' evs /\
    color_writes w' = color_writes w /\
    (ok = false -> sleeps w' = sleeps w).
Proof.
  destruct (Archive_disable_autonomous_effect p w)
    as (ok & w' & evs & Hrun & Hext & Hevs).
  exists ok, w', evs. split; [exact Hrun|]. split; [exact Hext|].
  rewrite (color_writes_extends _ _ _ Hext), (sleeps_extends _ _ _ Hext).
  destruct Hevs as [[-> ->]|(req & pkt & Hpkt & [[-> ->]|[-> ->]])].
  - simpl. split; [lia|intros _; lia].
  - simpl. rewrite Hpkt. simpl. split; [lia|intros _; lia].
  - simpl. rewrite Hpkt. simpl. split; [lia|discriminate].
Qed.

Lemma Archive_set_color_one_colour (p : string) (r g b i : Z)
    (start_id end_id : option Z) (w : world) :
  exists sent w' evs,
    Archive.set_color p r g b i start_id end_id w = (Ok sent, w') /\
    extends w w' evs /\
    (color_writes w' <= color_writes w + 1)%nat.
Proof.
  destruct (Archive_set_color_effect p r g b i start_id end_id w)
    as (sent & w' & evs & Hrun & Hext & Hevs).
  exists sent, w', evs. split; [exact Hrun|]. split; [exact Hext|].
  rewrite (color_writes_extends _ _ _ Hext).
  destruct Hevs as [[-> ->]|(req & pkt & -> & Hpkt)]; simpl; [lia|].
  rewrite Hpkt. simpl. lia.
Qed.

Lemma paint_segments_colours (p : string) (frame : Z -> Z * Z * Z * Z)
    (w : world) :
  exists w' evs,
    Archive.paint_segments p frame w = (Ok tt, w') /\
    extends w w' evs /\
    (color_writes w' <= color_writes w + 20)%nat.
Proof.
  unfold Archive.paint_segments.
  change 20%nat with (length (range 0 Archive.leds)).
  generalize (range 0 Archive.leds) as xs. intros xs. revert w.
  induction xs as [|seg xs IH]; intros w.
  - exists w, []. split; [reflexivity|]. split; [apply extends_refl|simpl; lia].
  - simpl for_fold. destruct (frame seg) as [[[r g] b] i].
    destruct (Archive_set_color_one_colour p r g b i (Some (seg * 5))
                (Some (seg * 5 + 4)) w) as (sent & w1 & e1 & Hrun & Hext1 & Hc1).
    unfold bind at 1. unfold bind at 1. rewrite Hrun. cbn [ret].
    destruct (IH w1) as (w2 & e2 & Hrun2 & Hext2 & Hc2).
    exists w2, (e1 ++ e2). split; [exact Hrun2|].
    split; [exact (extends_trans _ _ _ _ _ Hext1 Hext2)|]. simpl length. lia.
Qed.

(** A [while] loop entered with the stop requested ends at its first
    check. *)
Lemma while_stopped (fuel : nat) (body : M bool) (w : world) :
  stopped w ->
  exists w', while_not_stopped (S fuel) body w = (Ok Returned, w') /\
             extends w w' [].
Proof.
  intros Hs. destruct (is_set_stopped w Hs) as (w1 & Hset & Hext).
  exists w1. simpl while_not_stopped. rewrite (bind_ok _ _ _ _ _ Hset).
  split; [reflexivity|exact Hext].
Qed.

(** The frame of the workers when a stop is pending. *)
Lemma preflight_stopped (p : string) (loop : M status) (n : nat) (w : world) :
  stopped w ->
  (forall w1, stopped w1 ->
     exists w2, loop w1 = (Ok Returned, w2) /\
                (color_writes w2 <= color_writes w1 + n)%nat) ->
  exists w',
    (let* ok := Archive.disable_autonomous p in
     if negb ok then ret Returned else loop) w = (Ok Returned, w') /\
    (color_writes w' <= color_writes w + n)%nat.
Proof.
  intros Hs Hloop.
  destruct (Archive_disable_autonomous_no_colour p w)
    as (ok & w1 & evs & Hrun & Hext & Hc & _).
  rewrite (bind_ok _ _ _ _ _ Hrun). destruct ok; cbn [negb].
  - destruct (Hloop w1 (stopped_extends _ _ _ Hext Hs)) as (w2 & Hrun2 & Hc2).
    exists w2. split; [exact Hrun2|lia].
  - exists w1. split; [reflexivity|lia].
Qed.

Lemma while_stopped_colours (fuel : nat) (body : M bool) (w1 : world) :
  stopped w1 ->
  exists w2, while_not_stopped (S fuel) body w1 = (Ok Returned, w2) /\
             (color_writes w2 <= color_writes w1 + 0)%nat.
Proof.
  intros Hs. destruct (while_stopped fuel body w1 Hs) as (w2 & Hrun & Hext).
  exists w2. split; [exact Hrun|].
  rewrite (color_writes_extends _ _ _ Hext). simpl. lia.
Qed.

Lemma ripple_stopped (p : string) (rgb : Z * Z * Z) (interval : Q)
    (d : Archive.draw) (draws : list Archive.draw) (w : world) :
  stopped w ->
  exists w',
    (let* ok := Archive.ripple_setup p rgb in
     if negb ok then ret Returned
     else
       let* r := Archive.ripple_loop p rgb interval (d :: draws)
                   Archive.ripple_init in
       ret (fst r)) w = (Ok Returned, w') /\
    (color_writes w' <= color_writes w + 20)%nat.
Proof.
  intros Hs. unfold Archive.ripple_setup. destruct rgb as [[r g] b].
  destruct (Archive_disable_autonomous_no_colour p w)
    as (ok & w1 & evs & Hrun & Hext & Hc & _).
  unfold bind at 1. unfold bind at 1. rewrite Hrun.
  destruct ok; cbn [negb].
  - destruct (paint_segments_colours p (fun _ => (r, g, b, Archive.base_intensity)) w1)
      as (w2 & e2 & Hpaint & Hext2 & Hc2).
    unfold bind at 1. rewrite Hpaint. cbn [ret negb].
    pose proof (stopped_extends _ _ _ Hext2 (stopped_extends _ _ _ Hext Hs)) as Hs2.
    destruct (is_set_stopped w2 Hs2) as (w3 & Hset & Hext3).
    simpl Archive.ripple_loop. unfold bind at 1. unfold bind at 1.
    rewrite Hset. cbn [ret fst].
    exists w3. split; [reflexivity|].
    rewrite (color_writes_extends _ _ _ Hext3). simpl. lia.
  - cbn [ret negb]. exists w1. split; [reflexivity|lia].
Qed.

(** X13.  A worker launched while a stop is pending does nothing visible:
    every pattern of the archive and of the daemon and the live breathing
    of src/kbdrgb.py return at their first stop check, having handed the
    device no colour report.  [ripple] is the exception: it paints its
    baseline before it looks at the stop flag, so it may write up to
    twenty colour reports before it returns. *)
Theorem stop_pending_at_launch (p : string) (rgb : Z * Z * Z) (interval : Q)
    (d : Archive.draw) (draws : list Archive.draw) (w : world) :
  stopped w ->
  (forall name worker,
     In (name, worker) (Archive.style_funcs p rgb interval (d :: draws)) ->
     exists w',
       worker w = (Ok Returned, w') /\
       (color_writes w' <= color_writes w + 20)%nat /\
       (name <> "ripple" -> color_writes w' = color_writes w)) /\
  (exists w', Daemon.breathing p rgb interval (S (length draws)) w = (Ok Returned, w') /\
              color_writes w' = color_writes w) /\
  (exists w', Daemon.rainbow p interval (S (length draws)) w = (Ok Returned, w') /\
              color_writes w' = color_writes w) /\
  (exists w', Daemon.ripple p rgb interval (d :: draws) w = (Ok Returned, w') /\
              (color_writes w' <= color_writes w + 20)%nat) /\
  (forall provider,
     exists w', Current.breathing p provider (S (length draws)) w = (Ok Returned, w') /\
                color_writes w' = color_writes w).
Proof.
  intros Hs.
  assert (Hframe : forall body,
    exists w',
      (let* ok := Archive.disable_autonomous p in
       if negb ok then ret Returned
       else while_not_stopped (S (length draws)) body) w = (Ok Returned, w') /\
      color_writes w' = color_writes w).
  { intros body.
    destruct (preflight_stopped p (while_not_stopped (S (length draws)) body) 0 w Hs)
      as (w' & Hrun & Hc).
    - intros w1 Hs1. apply while_stopped_colours. exact Hs1.
    - exists w'. split; [exact Hrun|].
      destruct (Archive_disable_autonomous_no_colour p w)
        as (ok & w1 & evs & Hrun1 & Hext & Hc1 & _).
      rewrite (bind_ok _ _ _ _ _ Hrun1) in Hrun.
      destruct ok; cbn [negb] in Hrun.
      + destruct (while_stopped (length draws) body w1
                    (stopped_extends _ _ _ Hext Hs)) as (w2 & Hrun2 & Hext2).
        rewrite Hrun2 in Hrun. injection Hrun as <-.
        rewrite (color_writes_extends _ _ _ Hext2). simpl. lia.
      + injection Hrun as <-. exact Hc1. }
  assert (Hguard : forall (P : Prop) body,
    exists w',
      guarded (let* ok := Archive.disable_autonomous p in
               if negb ok then ret Returned
               else while_not_stopped (S (length draws)) body) w
        = (Ok Returned, w') /\
      (color_writes w' <= color_writes w + 20)%nat /\
      (P -> color_writes w' = color_writes w)).
  { intros P body. destruct (Hframe body) as (w' & Hrun & Hc).
    exists w'. unfold guarded, try_except. rewrite Hrun.
    split; [reflexivity|]. split; [lia|intros _; exact Hc]. }
  destruct rgb as [[r g] b].
  split; [|split; [|split; [|split]]].
  - intros name worker Hin. simpl in Hin.
    destruct Hin as [H|[H|[H|[H|[H|[H|[H|[H|[H|[]]]]]]]]]];
      inversion H; subst name worker; clear H;
      try (unfold Archive.breathing, Archive.rainbow, Archive.flash,
             Archive.pulse, Archive.strobe, Archive.square_wave, Archive.wave,
             Archive.spectrum, Archive.fade;
           cbv iota beta; cbn [length]; apply Hguard).
    destruct (ripple_stopped p (r, g, b) interval d draws w Hs) as (w' & Hrun & Hc).
    exists w'. split; [|split; [exact Hc|intros Hne; exfalso; apply Hne; reflexivity]].
    unfold Archive.ripple, guarded, try_except. rewrite Hrun. reflexivity.
  - apply Hframe.
  - apply Hframe.
  - apply ripple_stopped. exact Hs.
  - intros provider. unfold Current.breathing.
    destruct (Current_disable_autonomous_effect p w) as (w1 & Hrun & Hsame & Hpk).
    rewrite (bind_ok _ _ _ _ _ Hrun).
    assert (Hs1 : stopped w1).
    { destruct Hsame as (Ho & Hf & _). destruct Hs as [Hflag Hint].
      split; [congruence|]. rewrite Ho. exact Hint. }
    destruct (while_stopped (length draws)
                (let* p0 := provider in
                 let '(color, interval0, intensity) := p0 in
                 let* _ := Current.for_break (range 0 180)
                             (Current.breathing_step p provider interval0)
                             (color, intensity) in
                 ret false) w1 Hs1) as (w2 & Hrun2 & Hext2).
    exists w2. split; [exact Hrun2|].
    rewrite (color_writes_extends _ _ _ Hext2). simpl.
    unfold color_writes. destruct Hpk as [-> | ->]; [lia|].
    rewrite filter_app, length_app. simpl. lia.
Qed.

Lemma stop_pending_at_launch_witness :
  let p := "/dev/hidraw1"%string in
  let rgb := (0, 255, 0) in
  let d := {| Archive.uniform := 0.3; Archive.randint := 4 |} in
  let w := with_flag true (boot friendly) in
  (forall name worker,
     In (name, worker) (Archive.style_funcs p rgb 0.1 [d]) ->
     exists w',
       worker w = (Ok Returned, w') /\
       (color_writes w' <= color_writes w + 20)%nat /\
       (name <> "ripple"%string -> color_writes w' = color_writes w)) /\
  (exists w', Daemon.breathing p rgb 0.1 1 w = (Ok Returned, w') /\
              color_writes w' = color_writes w) /\
  (exists w', Daemon.rainbow p 0.1 1 w = (Ok Returned, w') /\
              color_writes w' = color_writes w) /\
  (exists w', Daemon.ripple p rgb 0.1 [d] w = (Ok Returned, w') /\
              (color_writes w' <= color_writes w + 20)%nat) /\
  (forall provider,
     exists w', Current.breathing p provider 1 w = (Ok Returned, w') /\
                color_writes w' = color_writes w).
Proof.
  intros p rgb d w.
  apply (stop_pending_at_launch p rgb 0.1 d [] w).
  split; [reflexivity|intros t; discriminate].
Defined.

(** When the pre-flight [disable_autonomous] answers False, the worker
    returns in the world the pre-flight left. *)
Lemma preflight_failure_returns (p : string) (rgb : Z * Z * Z)
    (interval : Q) (draws : list Archive.draw) (w : world) :
  fst (Archive.disable_autonomous p w) = Ok false ->
  let w1 := snd (Archive.disable_autonomous p w) in
  (forall name worker,
     In (name, worker) (Archive.style_funcs p rgb interval draws) ->
     worker w = (Ok Returned, w1)) /\
  Daemon.breathing p rgb interval (length draws) w = (Ok Returned, w1) /\
  Daemon.rainbow p interval (length draws) w = (Ok Returned, w1) /\
  Daemon.ripple p rgb interval draws w = (Ok Returned, w1) /\
  color_writes w1 = color_writes w /\
  sleeps w1 = sleeps w.
Proof.
  intros Hfail w1.
  assert (Hrun : Archive.disable_autonomous p w = (Ok false, w1)).
  { unfold w1. destruct (Archive.disable_autonomous p w) as [res w0].
    simpl in *. congruence. }
  assert (Hframe : forall loop,
    (let* ok := Archive.disable_autonomous p in
     if negb ok then ret Returned else loop) w = (Ok Returned, w1)).
  { intros loop. rewrite (bind_ok _ _ _ _ _ Hrun). reflexivity. }
  assert (Hguard : forall loop,
    guarded (let* ok := Archive.disable_autonomous p in
             if negb ok then ret Returned else loop) w = (Ok Returned, w1)).
  { intros loop. unfold guarded, try_except. rewrite Hframe. reflexivity. }
  assert (Hripple :
    (let* ok := Archive.ripple_setup p rgb in
     if negb ok then ret Returned
     else
       let* r := Archive.ripple_loop p rgb interval draws Archive.ripple_init in
       ret (fst r)) w = (Ok Returned, w1)).
  { unfold Archive.ripple_setup. destruct rgb as [[r g] b].
    unfold bind at 1. unfold bind at 1. rewrite Hrun. reflexivity. }
  destruct rgb as [[r g] b].
  split; [|split; [|split; [|split]]].
  - intros name worker Hin. simpl in Hin.
    destruct Hin as [H|[H|[H|[H|[H|[H|[H|[H|[H|[]]]]]]]]]];
      inversion H; subst name worker; clear H;
      try (unfold Archive.breathing, Archive.rainbow, Archive.flash,
             Archive.pulse, Archive.strobe, Archive.square_wave, Archive.wave,
             Archive.spectrum, Archive.fade;
           cbv iota beta; apply Hguard).
    unfold Archive.ripple, guarded, try_except. rewrite Hripple. reflexivity.
  - apply Hframe.
  - apply Hframe.
  - exact Hripple.
  - destruct (Archive_disable_autonomous_no_colour p w)
      as (ok & w0 & evs & Hrun0 & _ & Hc & Hsl).
    rewrite Hrun in Hrun0. injection Hrun0 as <- <-.
    split; [exact Hc|exact (Hsl eq_refl)].
Qed.

(** X14.  A failed pre-flight ends the worker at once: when
    [disable_autonomous] answers False (device node missing, open or ioctl
    refused), every pattern of the archive and of the daemon returns
    without a single colour report and without sleeping; the world is as
    the pre-flight left it. *)
Theorem preflight_failure_ends_worker (p : string) (rgb : Z * Z * Z)
    (interval : Q) (draws : list Archive.draw) (w : world) :
  fst (Archive.disable_autonomous p w) = Ok false ->
  let w1 := snd (Archive.disable_autonomous p w) in
  (forall name worker,
     In (name, worker) (Archive.style_funcs p rgb interval draws) ->
     worker w = (Ok Returned, w1)) /\
  Daemon.breathing p rgb interval (length draws) w = (Ok Returned, w1) /\
  Daemon.rainbow p interval (length draws) w = (Ok Returned, w1) /\
  Daemon.ripple p rgb interval draws w = (Ok Returned, w1) /\
  color_writes w1 = color_writes w /\
  sleeps w1 = sleeps w.
Proof. apply preflight_failure_returns. Qed.

Lemma preflight_failure_ends_worker_witness :
  let p := "/dev/hidraw1"%string in
  let rgb := (0, 255, 0) in
  let draws := [{| Archive.uniform := 0.3; Archive.randint := 4 |}] in
  let w := boot unplugged in
  let w1 := snd (Archive.disable_autonomous p w) in
  (forall name worker,
     In (name, worker) (Archive.style_funcs p rgb 0.1 draws) ->
     worker w = (Ok Returned, w1)) /\
  Daemon.breathing p rgb 0.1 (length draws) w = (Ok Returned, w1) /\
  Daemon.rainbow p 0.1 (length draws) w = (Ok Returned, w1) /\
  Daemon.ripple p rgb 0.1 draws w = (Ok Returned, w1) /\
  color_writes w1 = color_writes w /\
  sleeps w1 = sleeps w.
Proof.
  intros p rgb draws w.
  apply (preflight_failure_ends_worker p rgb 0.1 draws w).
  reflexivity.
Defined.

(** ** The controller of src/kbdrgb.py *)

Lemma Current_send_feature_report_wrote (p : string) (id : Z) (data : list Z)
    (w : world) :
  plugged p w ->
  0 <= id < 256 ->
  Forall (fun z => 0 <= z < 256) data ->
  Z.of_nat (length data) < IOCTL_BUFSZ ->
  exists w',
    Current.send_feature_report p id data w =
      (Ok (ioctl_ok (oracle w) (S (now w))), w') /\
    wrote w w' [id :: data].
Proof.
  intros Hpl Hid Hdata Hlen.
  destruct (Archive_send_feature_report_wrote p id data w Hpl Hid Hdata Hlen)
    as (w' & Hrun & Hw).
  exists w'. split; [|exact Hw].
  rewrite <- Hrun. unfold Archive.send_feature_report.
  destruct Hpl as [-> _]. reflexivity.
Qed.

Lemma Current_set_color_wrote (p : string) (r g b i : Z) (w : world) :
  plugged p w ->
  0 <= r <= 255 -> 0 <= g <= 255 -> 0 <= b <= 255 -> 0 <= i <= 255 ->
  exists sent w',
    Current.set_color p r g b i w = (Ok sent, w') /\
    wrote w w' [[0x05; 0x01; 0; 0; 100; 0; r; g; b; i]].
Proof.
  intros Hpl Hr Hg Hb Hi. unfold Current.set_color.
  destruct (Current_send_feature_report_wrote p 0x05 [0x01; 0; 0; 100; 0; r; g; b; i]
              w Hpl) as (w' & Hrun & Hw);
    [lia|repeat constructor; lia|reflexivity|].
  eexists _, w'. split; [exact Hrun|exact Hw].
Qed.

Lemma Current_disable_autonomous_wrote (p : string) (w : world) :
  plugged p w ->
  exists w',
    Current.disable_autonomous p w = (Ok tt, w') /\ wrote w w' [[0x0B; 0x00]].
Proof.
  intros Hpl. unfold Current.disable_autonomous.
  destruct (Current_send_feature_report_wrote p 0x0B [0x00] w Hpl)
    as (w1 & Hrun & Hw1); [lia|repeat constructor; lia|reflexivity|].
  rewrite (bind_ok _ _ _ _ _ Hrun).
  destruct (sleep_wrote w1) as (w2 & Hsl & Hw2).
  exists w2. split; [exact Hsl|].
  pose proof (wrote_trans _ _ _ _ _ Hw1 Hw2) as H. rewrite app_nil_r in H.
  exact H.
Qed.

(** [stop] with the device there: the worker, if one is alive, is
    signalled and joined, and the one report goes out. *)
Lemma Current_stop_plugged (c : Current.controller) (w : world) :
  plugged (Current.device_path c) w ->
  exists w',
    Current.stop c w =
      (Ok {| Current.device_path := Current.device_path c;
             Current.thread := Current.thread c;
             Current.current_style := "Static";
             Current._params := Current._params c |}, w') /\
    oracle w' = oracle w /\
    packets w' = packets w ++ [[0x0B; 0x00]] /\
    length (threads w') = length (threads w) /\
    (idle (Current.thread c) w -> threads w' = threads w /\ flag w' = flag w) /\
    (forall t, Current.thread c = Some t -> thread_alive t w = true ->
               flag w' = true).
Proof.
  intros Hpl. unfold Current.stop.
  assert (Hfirst : exists w1,
    (match Current.thread c with
     | Some t => let* alive := is_alive t in
                 if alive then (event_set >> join t) else ret tt
     | None => ret tt
     end) w = (Ok tt, w1) /\
    oracle w1 = oracle w /\ packets w1 = packets w /\
    length (threads w1) = length (threads w) /\
    (idle (Current.thread c) w -> w1 = w) /\
    (forall t, Current.thread c = Some t -> thread_alive t w = true ->
               flag w1 = true)).
  { destruct (Current.thread c) as [t|].
    - unfold bind, is_alive. destruct (thread_alive t w) eqn:Ha.
      + eexists. split; [reflexivity|].
        unfold event_set, join. cbn [fst snd].
        destruct (ends_in_time _ _); cbn [oracle now flag threads trace tick
          emit_event with_flag with_threads].
        * split; [reflexivity|].
          split; [unfold packets; simpl; rewrite !omap_app; simpl;
                  rewrite !app_nil_r; reflexivity|].
          split; [|split; [intros Hidle; rewrite (Hidle t eq_refl) in Ha;
                           discriminate|reflexivity]].
          unfold mark_dead. destruct (threads w !! t); [|reflexivity].
          apply length_insert.
        * split; [reflexivity|].
          split; [unfold packets; simpl; rewrite !omap_app; simpl;
                  rewrite !app_nil_r; reflexivity|].
          split; [reflexivity|].
          split; [intros Hidle; rewrite (Hidle t eq_refl) in Ha;
                  discriminate|reflexivity].
      + exists w. repeat split; auto. intros t0 [= <-] H. congruence.
    - exists w. repeat split; auto. intros t0 [=]. }
  destruct Hfirst as (w1 & Hrun1 & Ho1 & Hp1 & Hl1 & Hidle1 & Hset1).
  rewrite (bind_ok _ _ _ _ _ Hrun1). simpl Current.device_path.
  assert (Hpl1 : plugged (Current.device_path c) w1).
  { destruct Hpl as [Hne Hdev]. split; [exact Hne|]. rewrite Ho1. exact Hdev. }
  destruct (Current_disable_autonomous_wrote _ w1 Hpl1)
    as (w2 & Hrun2 & Ho2 & Hf2 & Ht2 & _ & Hp2).
  rewrite (bind_ok _ _ _ _ _ Hrun2).
  eexists. split; [reflexivity|].
  split; [congruence|]. split; [rewrite Hp2, Hp1; reflexivity|].
  split; [congruence|]. split.
  - intros Hidle. rewrite (Hidle1 Hidle) in *. split; assumption.
  - intros t Ht Ha. rewrite Hf2. exact (Hset1 t Ht Ha).
Qed.

(** [start] on an engine with no worker running and the device there. *)
Lemma Current_start_idle (style : string) (r g b : Z) (interval : Q)
    (intensity : Z) (c : Current.controller) (w : world) :
  idle (Current.thread c) w ->
  plugged (Current.device_path c) w ->
  0 <= r <= 255 -> 0 <= g <= 255 -> 0 <= b <= 255 -> 0 <= intensity <= 255 ->
  exists c' w',
    Current.start style (r, g, b) interval intensity c w = (Ok c', w') /\
    Current.current_style c' = style /\
    Current._params c' = ((r, g, b), interval, intensity) /\
    flag w' = false /\
    if String.eqb (lower style) "breathing" then
      Current.thread c' = Some (length (threads w)) /\
      thread_alive (length (threads w)) w' = true /\
      packets w' = packets w ++ [[0x0B; 0x00]]
    else
      Current.thread c' = Current.thread c /\
      threads w' = threads w /\
      packets w' = packets w ++
        [[0x0B; 0x00]; [0x05; 0x01; 0; 0; 100; 0; r; g; b; intensity]].
Proof.
  intros Hidle Hpl Hr Hg Hb Hi. unfold Current.start.
  destruct (Current_stop_plugged c w Hpl)
    as (w1 & Hstop & Ho1 & Hp1 & _ & Hid1 & _).
  destruct (Hid1 Hidle) as [Ht1 Hf1].
  rewrite (bind_ok _ _ _ _ _ Hstop).
  set (w2 := emit_event EvClear (with_flag false w1)).
  assert (Hclear : event_clear w1 = (Ok tt, w2)) by reflexivity.
  rewrite (bind_ok _ _ _ _ _ Hclear).
  unfold Current.update_params. destruct (Current._params c) as [[c0 t0] i0].
  cbn [default from_option Datatypes.id Current.device_path Current.thread
         Current.current_style Current._params].
  assert (Hpl2 : plugged (Current.device_path c) w2).
  { destruct Hpl as [Hne Hdev]. split; [exact Hne|].
    unfold w2. simpl. rewrite Ho1. exact Hdev. }
  assert (Hp2 : packets w2 = packets w ++ [[0x0B; 0x00]]).
  { unfold w2. rewrite packets_app, app_nil_r. unfold packets at 1.
    simpl trace. fold (packets w1). exact Hp1. }
  assert (Hstatic : exists sent w3,
    Current.set_color (Current.device_path c) r g b intensity w2 = (Ok sent, w3) /\
    flag w3 = false /\ threads w3 = threads w /\
    packets w3 = packets w ++
      [[0x0B; 0x00]; [0x05; 0x01; 0; 0; 100; 0; r; g; b; intensity]]).
  { destruct (Current_set_color_wrote _ r g b intensity w2 Hpl2 Hr Hg Hb Hi)
      as (sent & w3 & Hcol & Ho3 & Hf3 & Ht3 & _ & Hp3).
    exists sent, w3. split; [exact Hcol|].
    split; [rewrite Hf3; reflexivity|].
    split; [rewrite Ht3; unfold w2; simpl; exact Ht1|].
    rewrite Hp3, Hp2, <- app_assoc. reflexivity. }
  destruct Hstatic as (sent & w3 & Hcol & Hf3 & Ht3 & Hp3).
  destruct (String.eqb (lower style) "static") eqn:Hst.
  - assert (Hnb : String.eqb (lower style) "breathing" = false).
    { apply String.eqb_eq in Hst. rewrite Hst. reflexivity. }
    rewrite Hnb. rewrite (bind_ok _ _ _ _ _ Hcol).
    eexists _, w3. split; [reflexivity|]. simpl.
    split; [reflexivity|]. split; [reflexivity|]. split; [exact Hf3|].
    split; [reflexivity|]. split; [exact Ht3|exact Hp3].
  - destruct (String.eqb (lower style) "breathing").
    + eexists _, _. split; [reflexivity|]. simpl.
      split; [reflexivity|]. split; [reflexivity|]. split; [reflexivity|].
      rewrite Ht1. split; [reflexivity|]. split.
      * unfold thread_alive. simpl.
        rewrite lookup_app_r by lia. rewrite Nat.sub_diag. reflexivity.
      * rewrite packets_app, app_nil_r. unfold packets at 1. simpl trace.
        fold (packets w2). exact Hp2.
    + rewrite (bind_ok _ _ _ _ _ Hcol).
      eexists _, w3. split; [reflexivity|]. simpl.
      split; [reflexivity|]. split; [reflexivity|]. split; [exact Hf3|].
      split; [reflexivity|]. split; [exact Ht3|exact Hp3].
Qed.

(** X15.  [AnimationController.start] of src/kbdrgb.py on an engine with
    no worker running and the device there: it records the style as given
    and the three parameters, leaves the stop flag clear, and after the
    disable-autonomous report of its [stop()] either launches the one
    worker it knows (style "breathing" in any letter case; the worker is
    alive on return and [start] itself writes no colour) or, for every
    other style, known or not, writes the one static colour report and
    launches nothing. *)
Theorem Current_start_effect (style : string) (r g b : Z) (interval : Q)
    (intensity : Z) (c : Current.controller) (w : world) :
  idle (Current.thread c) w ->
  plugged (Current.device_path c) w ->
  0 <= r <= 255 -> 0 <= g <= 255 -> 0 <= b <= 255 -> 0 <= intensity <= 255 ->
  exists c' w',
    Current.start style (r, g, b) interval intensity c w = (Ok c', w') /\
    Current.current_style c' = style /\
    Current._params c' = ((r, g, b), interval, intensity) /\
    flag w' = false /\
    if String.eqb (lower style) "breathing" then
      Current.thread c' = Some (length (threads w)) /\
      thread_alive (length (threads w)) w' = true /\
      packets w' = packets w ++ [[0x0B; 0x00]]
    else
      Current.thread c' = Current.thread c /\
      threads w' = threads w /\
      packets w' = packets w ++
        [[0x0B; 0x00]; [0x05; 0x01; 0; 0; 100; 0; r; g; b; intensity]].
Proof. apply Current_start_idle. Qed.

Lemma Current_start_effect_witness :
  let c := Current.init "/dev/hidraw1" in
  let w := boot friendly in
  exists c' w',
    Current.start "Rainbow" (0, 255, 127) 0.5 200 c w = (Ok c', w') /\
    Current.current_style c' = "Rainbow"%string /\
    Current._params c' = ((0, 255, 127), 0.5%Q, 200) /\
    flag w' = false /\
    if String.eqb (lower "Rainbow") "breathing" then
      Current.thread c' = Some (length (threads w)) /\
      thread_alive (length (threads w)) w' = true /\
      packets w' = packets w ++ [[0x0B; 0x00]]
    else
      Current.thread c' = Current.thread c /\
      threads w' = threads w /\
      packets w' = packets w ++
        [[0x0B; 0x00]; [0x05; 0x01; 0; 0; 100; 0; 0; 255; 127; 200]].
Proof.
  intros c w.
  apply (Current_start_effect "Rainbow" 0 255 127 0.5 200 c w);
    [ intros tid H; discriminate
    | split; [reflexivity|intros t; split; reflexivity]
    | lia | lia | lia | lia ].
Defined.

(** X16.  [stop_and_off] with the device there, whether or not a worker is
    running: it never raises, it hands the device the disable-autonomous
    report and then one colour report that is black at intensity 0, and
    nothing else; if a worker was alive the stop flag is set and stays set
    on return. *)
Theorem Current_stop_and_off_blacks_out (c : Current.controller) (w : world) :
  plugged (Current.device_path c) w ->
  exists c' w',
    Current.stop_and_off c w = (Ok c', w') /\
    Current.current_style c' = "Static"%string /\
    packets w' = packets w ++
      [[0x0B; 0x00]; [0x05; 0x01; 0; 0; 100; 0; 0; 0; 0; 0]] /\
    (forall t, Current.thread c = Some t -> thread_alive t w = true ->
               flag w' = true).
Proof.
  intros Hpl. unfold Current.stop_and_off.
  destruct (Current_stop_plugged c w Hpl)
    as (w1 & Hstop & Ho1 & Hp1 & _ & _ & Hset1).
  rewrite (bind_ok _ _ _ _ _ Hstop). simpl Current.device_path.
  assert (Hpl1 : plugged (Current.device_path c) w1).
  { destruct Hpl as [Hne Hdev]. split; [exact Hne|]. rewrite Ho1. exact Hdev. }
  destruct (Current_set_color_wrote _ 0 0 0 0 w1 Hpl1)
    as (sent & w2 & Hcol & _ & Hf2 & _ & _ & Hp2); try lia.
  rewrite (bind_ok _ _ _ _ _ Hcol).
  eexists _, w2. split; [reflexivity|]. simpl.
  split; [reflexivity|]. split.
  - rewrite Hp2, Hp1, <- app_assoc. reflexivity.
  - intros t Ht Ha. rewrite Hf2. exact (Hset1 t Ht Ha).
Qed.

Lemma Current_stop_and_off_blacks_out_witness :
  let c := Current.init "/dev/hidraw1" in
  let w := boot friendly in
  exists c' w',
    Current.stop_and_off c w = (Ok c', w') /\
    Current.current_style c' = "Static"%string /\
    packets w' = packets w ++
      [[0x0B; 0x00]; [0x05; 0x01; 0; 0; 100; 0; 0; 0; 0; 0]] /\
    (forall t, Current.thread c = Some t -> thread_alive t w = true ->
               flag w' = true).
Proof.
  intros c w.
  apply (Current_stop_and_off_blacks_out c w).
  split; [reflexivity|intros t; split; reflexivity].
Defined.

(** ** The controller of the archive *)

(** [stop], whatever is running: the handle is cleared, nothing is written
    to the device and no thread is created. *)
Lemma Archive_stop_effect (c : Archive.controller) (w : world) :
  exists w',
    Archive.stop c w =
      (Ok {| Archive.thread := None;
             Archive._get_device_path := Archive._get_device_path c |}, w') /\
    oracle w' = oracle w /\
    packets w' = packets w /\
    length (threads w') = length (threads w) /\
    (idle (Archive.thread c) w -> w' = w).
Proof.
  destruct (Archive.thread c) as [a|] eqn:Hc.
  - destruct (thread_alive a w) eqn:Ha.
    + pose proof (Archive_stop_running c a w Hc Ha) as Hrun. cbv zeta in Hrun.
      eexists. split; [exact Hrun|].
      destruct (ends_in_time (oracle w) (now w)).
      * split; [reflexivity|].
        split; [unfold packets; simpl; rewrite !omap_app; simpl;
                rewrite !app_nil_r; reflexivity|].
        split; [|intros Hidle; rewrite (Hidle a eq_refl) in Ha; discriminate].
        simpl. unfold mark_dead. destruct (threads w !! a); [|reflexivity].
        apply length_insert.
      * split; [reflexivity|].
        split; [unfold packets; simpl; rewrite !omap_app; simpl;
                rewrite !app_nil_r; reflexivity|].
        split; [reflexivity|].
        intros Hidle. rewrite (Hidle a eq_refl) in Ha. discriminate.
    + exists w. split; [|auto].
      apply Archive_stop_idle. rewrite Hc. intros tid [= <-]. exact Ha.
  - exists w. split; [|auto].
    apply Archive_stop_idle. rewrite Hc. intros tid [=].
Qed.

(** X17.  [AnimationController.start] of the archive with the device
    missing (no path configured, or no node at the path): whatever the
    style and whatever was running, it leaves the engine without a worker
    handle, launches no thread, hands nothing to the device, and its last
    act is the signal "device_unavailable". *)
Theorem Archive_start_without_device (style : string) (rgb : Z * Z * Z)
    (interval : Q) (c : Archive.controller) (w : world) :
  (is_empty (Archive._get_device_path c) = true \/
   forall t, path_exists (oracle w) t (Archive._get_device_path c) = false) ->
  exists w',
    Archive.start style rgb interval c w =
      (Ok {| Archive.thread := None;
             Archive._get_device_path := Archive._get_device_path c |}, w') /\
    packets w' = packets w /\
    length (threads w') = length (threads w) /\
    last (trace w') = Some (EvSignal "device_unavailable").
Proof.
  intros Hmiss. unfold Archive.start.
  destruct (Archive_stop_effect c w) as (w1 & Hstop & Ho1 & Hp1 & Hl1 & _).
  rewrite (bind_ok _ _ _ _ _ Hstop).
  set (w2 := emit_event EvClear (with_flag false w1)).
  assert (Hclear : event_clear w1 = (Ok tt, w2)) by reflexivity.
  rewrite (bind_ok _ _ _ _ _ Hclear). cbv zeta. simpl Archive._get_device_path.
  assert (Hpres : exists w3,
    (if is_empty (Archive._get_device_path c) then ret false
     else exists_ (Archive._get_device_path c)) w2 = (Ok false, w3) /\
    trace w3 = trace w2 /\ threads w3 = threads w2).
  { destruct (is_empty (Archive._get_device_path c)) eqn:He.
    - exists w2. repeat split.
    - destruct Hmiss as [H|H]; [discriminate|].
      exists (tick w2). unfold exists_. unfold w2 at 1 2. simpl oracle.
      rewrite Ho1, H. repeat split. }
  destruct Hpres as (w3 & Hrun3 & Htr3 & Hth3).
  rewrite (bind_ok _ _ _ _ _ Hrun3). cbn [negb].
  eexists. split; [reflexivity|]. simpl.
  split; [|split].
  - unfold packets. simpl. rewrite Htr3. unfold w2. simpl.
    rewrite !omap_app. simpl. rewrite !app_nil_r. exact Hp1.
  - rewrite Hth3. unfold w2. simpl. exact Hl1.
  - apply last_snoc.
Qed.

Lemma Archive_start_without_device_witness :
  exists w',
    Archive.start "rainbow" (0, 255, 0) 0.1 fresh (boot unplugged) =
      (Ok {| Archive.thread := None;
             Archive._get_device_path := Archive._get_device_path fresh |}, w') /\
    packets w' = packets (boot unplugged) /\
    length (threads w') = length (threads (boot unplugged)) /\
    last (trace w') = Some (EvSignal "device_unavailable").
Proof.
  apply (Archive_start_without_device "rainbow" (0, 255, 0) 0.1 fresh
           (boot unplugged)).
  right. intros t. reflexivity.
Defined.

(** What [start] has done when it reaches the style: the old worker is
    dealt with, the flag is clear, the device was found. *)
Lemma Archive_start_head (c : Archive.controller) (w : world) :
  plugged (Archive._get_device_path c) w ->
  exists w3,
    (forall (k : Archive.controller -> bool -> M Archive.controller),
       (let* c1 := Archive.stop c in
        let* _ := event_clear in
        let* present :=
          (if is_empty (Archive._get_device_path c1) then ret false
           else exists_ (Archive._get_device_path c1)) in
        k c1 present) w =
       k {| Archive.thread := None;
            Archive._get_device_path := Archive._get_device_path c |} true w3) /\
    oracle w3 = oracle w /\ flag w3 = false /\
    packets w3 = packets w /\
    length (threads w3) = length (threads w) /\
    (idle (Archive.thread c) w -> threads w3 = threads w).
Proof.
  intros [Hne Hdev].
  destruct (Archive_stop_effect c w) as (w1 & Hstop & Ho1 & Hp1 & Hl1 & Hid1).
  exists (tick (emit_event EvClear (with_flag false w1))).
  split; [|split; [exact Ho1|split; [reflexivity|split; [|split]]]].
  - intros k. rewrite (bind_ok _ _ _ _ _ Hstop).
    unfold bind at 1. unfold event_clear at 1. cbn [fst snd].
    simpl Archive._get_device_path. rewrite Hne.
    unfold bind, exists_. simpl oracle. rewrite Ho1.
    rewrite (proj1 (Hdev _)). reflexivity.
  - unfold packets. simpl. rewrite !omap_app. simpl. rewrite !app_nil_r.
    exact Hp1.
  - simpl. exact Hl1.
  - intros Hidle. rewrite (Hid1 Hidle). reflexivity.
Qed.

(** X18.  The static style of the archive controller, with the device
    there: spelt in any letter case, it launches no worker and hands the
    device the disable-autonomous report followed by one colour report
    over the whole keyboard, the clamped base colour at intensity 255
    whatever brightness is selected elsewhere; its last act is the signal
    "static_applied". *)
Theorem Archive_start_static (style : string) (r g b : Z) (interval : Q)
    (c : Archive.controller) (w : world) :
  plugged (Archive._get_device_path c) w ->
  lower style = "static"%string ->
  exists w',
    Archive.start style (r, g, b) interval c w =
      (Ok {| Archive.thread := None;
             Archive._get_device_path := Archive._get_device_path c |}, w') /\
    packets w' = packets w ++ [[0x0B; 0x00]; color_packet (r, g, b, 255)] /\
    length (threads w') = length (threads w) /\
    last (trace w') = Some (EvSignal "static_applied").
Proof.
  intros Hpl Hst.
  destruct (Archive_start_head c w Hpl) as (w3 & Hhead & Ho3 & Hf3 & Hp3 & Hl3 & _).
  unfold Archive.start. cbv zeta.
  rewrite (Hhead (fun c1 present =>
    if negb present then let* _ := signal "device_unavailable" in ret c1
    else if String.eqb (lower style) "static" then
      let* _ := Archive.disable_autonomous (Archive._get_device_path c1) in
      let* _ := Archive.set_color (Archive._get_device_path c1) r g b 255 None None in
      let* _ := signal "static_applied" in ret c1
    else if existsb (String.eqb (lower style))
              (map fst (Archive.style_funcs (Archive._get_device_path c1)
                          (r, g, b) interval [])) then
      let* t := spawn ("Anim-" ++ lower style) (lower style)
                  (Archive.style_args (lower style)
                     (Archive._get_device_path c1) (r, g, b) interval) in
      let* _ := signal "thread_started" in
      ret {| Archive.thread := Some t;
             Archive._get_device_path := Archive._get_device_path c1 |}
    else ret c1)).
  cbn [negb]. rewrite Hst. change (String.eqb "static" "static") with true.
  cbv iota. simpl Archive._get_device_path.
  assert (Hpl3 : plugged (Archive._get_device_path c) w3).
  { destruct Hpl as [Hne Hdev]. split; [exact Hne|]. rewrite Ho3. exact Hdev. }
  destruct (Archive_disable_autonomous_wrote _ w3 Hpl3) as (w4 & Hdis & Hw4).
  rewrite (bind_ok _ _ _ _ _ Hdis).
  destruct (Archive_set_color_whole _ r g b 255 w4 (wrote_plugged _ _ _ _ Hw4 Hpl3))
    as (w5 & Hcol & Hw5).
  rewrite (bind_ok _ _ _ _ _ Hcol).
  eexists. split; [reflexivity|].
  destruct (wrote_trans _ _ _ _ _ Hw4 Hw5) as (_ & _ & Ht5 & _ & Hp5).
  simpl. split; [|split].
  - rewrite packets_app, app_nil_r, Hp5, Hp3. reflexivity.
  - rewrite Ht5. exact Hl3.
  - apply last_snoc.
Qed.

Lemma Archive_start_static_witness :
  exists w',
    Archive.start "Static" (300, 128, -1) 0.1 fresh (boot friendly) =
      (Ok {| Archive.thread := None;
             Archive._get_device_path := Archive._get_device_path fresh |}, w') /\
    packets w' = packets (boot friendly) ++
                 [[0x0B; 0x00]; color_packet (300, 128, -1, 255)] /\
    length (threads w') = length (threads (boot friendly)) /\
    last (trace w') = Some (EvSignal "static_applied").
Proof.
  apply (Archive_start_static "Static" 300 128 (-1) 0.1 fresh (boot friendly)).
  - split; [reflexivity|intros t; split; reflexivity].
  - reflexivity.
Defined.

(** X19.  The animated styles of the archive controller, with the device
    there and no worker running: [start] launches a worker exactly when
    the style, lower-cased, is one of the nine pattern names; the thread is
    then called "Anim-" and the lower-cased style, it is alive on return
    and the handle names it.  For any other style nothing is launched and
    the handle stays empty.  Either way [start] itself hands nothing to the
    device: the pre-flight is left to the worker. *)
Theorem Archive_start_launches (style : string) (rgb : Z * Z * Z)
    (interval : Q) (c : Archive.controller) (w : world) :
  plugged (Archive._get_device_path c) w ->
  idle (Archive.thread c) w ->
  lower style <> "static"%string ->
  exists c' w',
    Archive.start style rgb interval c w = (Ok c', w') /\
    packets w' = packets w /\
    (In (lower style)
        ["breathing"; "rainbow"; "flash"; "pulse"; "wave"; "spectrum";
         "fade"; "strobe"; "ripple"]%string ->
     Archive.thread c' = Some (length (threads w)) /\
     threads w' = threads w ++
                  [{| t_name := "Anim-" ++ lower style; t_alive := true |}]) /\
    (~ In (lower style)
        ["breathing"; "rainbow"; "flash"; "pulse"; "wave"; "spectrum";
         "fade"; "strobe"; "ripple"]%string ->
     Archive.thread c' = None /\ threads w' = threads w).
Proof.
  intros Hpl Hidle Hns.
  destruct (Archive_start_head c w Hpl) as (w3 & Hhead & Ho3 & Hf3 & Hp3 & _ & Ht3).
  specialize (Ht3 Hidle).
  unfold Archive.start. cbv zeta.
  rewrite (Hhead (fun c1 present =>
    if negb present then let* _ := signal "device_unavailable" in ret c1
    else if String.eqb (lower style) "static" then
      let '(r, g, b) := rgb in
      let* _ := Archive.disable_autonomous (Archive._get_device_path c1) in
      let* _ := Archive.set_color (Archive._get_device_path c1) r g b 255 None None in
      let* _ := signal "static_applied" in ret c1
    else if existsb (String.eqb (lower style))
              (map fst (Archive.style_funcs (Archive._get_device_path c1)
                          rgb interval [])) then
      let* t := spawn ("Anim-" ++ lower style) (lower style)
                  (Archive.style_args (lower style)
                     (Archive._get_device_path c1) rgb interval) in
      let* _ := signal "thread_started" in
      ret {| Archive.thread := Some t;
             Archive._get_device_path := Archive._get_device_path c1 |}
    else ret c1)).
  cbn [negb].
  destruct (String.eqb (lower style) "static") eqn:Hst;
    [apply String.eqb_eq in Hst; contradiction|].
  simpl Archive._get_device_path.
  change (map fst (Archive.style_funcs (Archive._get_device_path c) rgb interval []))
    with ["breathing"; "rainbow"; "flash"; "pulse"; "wave"; "spectrum";
          "fade"; "strobe"; "ripple"]%string.
  destruct (existsb (String.eqb (lower style)) _) eqn:Hex.
  - eexists _, _. split; [reflexivity|]. simpl.
    split; [|split].
    + unfold packets in *. simpl. rewrite !omap_app. simpl.
      rewrite !app_nil_r. exact Hp3.
    + intros _. rewrite Ht3. split; reflexivity.
    + intros Hn. exfalso. apply Hn.
      apply existsb_exists in Hex. destruct Hex as (x & Hin & Heq).
      apply String.eqb_eq in Heq. rewrite Heq. exact Hin.
  - exists {| Archive.thread := None;
              Archive._get_device_path := Archive._get_device_path c |}, w3.
    split; [reflexivity|]. split; [exact Hp3|]. split.
    + intros Hin. exfalso.
      assert (Ht : existsb (String.eqb (lower style))
                     ["breathing"; "rainbow"; "flash"; "pulse"; "wave";
                      "spectrum"; "fade"; "strobe"; "ripple"]%string = true).
      { apply existsb_exists. exists (lower style).
        split; [exact Hin|apply String.eqb_refl]. }
      pose proof (eq_trans (eq_sym Ht) Hex) as Habs. discriminate Habs.
    + intros _. split; [reflexivity|exact Ht3].
Qed.

Lemma Archive_start_launches_witness :
  exists c' w',
    Archive.start "SPECTRUM" (0, 255, 0) 0.1 fresh (boot friendly) = (Ok c', w') /\
    packets w' = packets (boot friendly) /\
    (In (lower "SPECTRUM")
        ["breathing"; "rainbow"; "flash"; "pulse"; "wave"; "spectrum";
         "fade"; "strobe"; "ripple"]%string ->
     Archive.thread c' = Some (length (threads (boot friendly))) /\
     threads w' = threads (boot friendly) ++
                  [{| t_name := "Anim-" ++ lower "SPECTRUM"; t_alive := true |}]) /\
    (~ In (lower "SPECTRUM")
        ["breathing"; "rainbow"; "flash"; "pulse"; "wave"; "spectrum";
         "fade"; "strobe"; "ripple"]%string ->
     Archive.thread c' = None /\ threads w' = threads (boot friendly)).
Proof.
  apply (Archive_start_launches "SPECTRUM" (0, 255, 0) 0.1 fresh (boot friendly)).
  - split; [reflexivity|intros t; split; reflexivity].
  - intros tid H. discriminate.
  - discriminate.
Defined.
(** ** The archive breathing and the first write that fails *)

Lemma answered_refl (w : world) : answered w w [].
Proof. unfold answered. rewrite app_nil_r. auto. Qed.

Lemma answered_trans (w1 w2 w3 : world) (o1 o2 : list bool) :
  answered w1 w2 o1 -> answered w2 w3 o2 -> answered w1 w3 (o1 ++ o2).
Proof.
  intros (Ho & Hf & Hs) (Ho' & Hf' & Hs'). unfold answered.
  rewrite Hs', Hs, app_assoc. repeat split; congruence.
Qed.

Lemma answered_live (p : string) (w w' : world) (os : list bool) :
  answered w w' os -> quiet w /\ plugged p w -> quiet w' /\ plugged p w'.
Proof.
  intros (Ho & Hf & _) [[Hfl Hint] [Hne Hdev]]. repeat split.
  - congruence.
  - rewrite Ho. exact Hint.
  - exact Hne.
  - rewrite Ho. apply Hdev.
  - rewrite Ho. apply Hdev.
Qed.

Lemma is_set_answered (w : world) :
  quiet w -> exists w', is_set w = (Ok false, w') /\ answered w w' [].
Proof.
  intros [Hf Hint]. unfold is_set.
  assert (Hres : match interfere (oracle w) (now w) with
                 | Some b => b
                 | None => flag w
                 end = false).
  { destruct (interfere (oracle w) (now w)) as [[|]|] eqn:Hi;
      [exfalso; exact (Hint _ Hi)|reflexivity|exact Hf]. }
  rewrite Hres. eexists. split; [reflexivity|].
  unfold answered, outcomes. simpl. rewrite app_nil_r. auto.
Qed.

Lemma sleep_answered (w : world) :
  exists w', sleep w = (Ok tt, w') /\ answered w w' [].
Proof.
  eexists. split; [reflexivity|].
  unfold answered, outcomes. simpl. rewrite omap_app. simpl. auto.
Qed.

Lemma Archive_send_feature_report_answered (p : string) (id : Z)
    (data : list Z) (w : world) :
  plugged p w ->
  0 <= id < 256 ->
  Forall (fun z => 0 <= z < 256) data ->
  Z.of_nat (length data) < IOCTL_BUFSZ ->
  exists ok w',
    Archive.send_feature_report p id data w = (Ok ok, w') /\
    answered w w' [ok].
Proof.
  intros [Hne Hdev] Hid Hdata Hlen.
  destruct (Archive_send_feature_report_sends p id data w Hne
              (proj1 (Hdev _)) (proj2 (Hdev _)) Hid Hdata Hlen)
    as (pkt & _ & Hrun).
  eexists _, _. split; [exact Hrun|].
  unfold answered, outcomes. simpl. rewrite omap_app. simpl. auto.
Qed.

Lemma Archive_set_color_answered (p : string) (r g b i : Z) (w : world) :
  plugged p w ->
  exists ok w',
    Archive.set_color p r g b i None None w = (Ok ok, w') /\
    answered w w' [ok].
Proof.
  intros Hpl. unfold Archive.set_color.
  apply (Archive_send_feature_report_answered p SET_COLOR _ w Hpl).
  - unfold SET_COLOR. lia.
  - apply Archive_set_color_payload_bytes.
  - reflexivity.
Qed.

Lemma Archive_disable_autonomous_answered (p : string) (w : world) :
  plugged p w ->
  exists ok w',
    Archive.disable_autonomous p w = (Ok ok, w') /\ answered w w' [ok].
Proof.
  intros Hpl. unfold Archive.disable_autonomous.
  destruct (Archive_send_feature_report_answered p DISABLE_AUTONOMOUS [0x00]
              w Hpl) as (ok & w1 & Hrun & Ha);
    [unfold DISABLE_AUTONOMOUS; lia|repeat constructor; lia|reflexivity|].
  rewrite (bind_ok _ _ _ _ _ Hrun). destruct ok.
  - destruct (sleep_answered w1) as (w2 & Hsl & Ha2).
    unfold bind at 1. rewrite Hsl. eexists _, _. split; [reflexivity|].
    pose proof (answered_trans _ _ _ _ _ Ha Ha2) as H. exact H.
  - eexists _, _. split; [reflexivity|exact Ha].
Qed.

Lemma until_failure_step (returned : bool) (w1 w2 w3 : world) (n : nat) :
  answered w1 w2 (repeat true n) -> until_failure returned w2 w3 ->
  until_failure returned w1 w3.
Proof.
  intros Ha (m & Hb). exists (n + m)%nat.
  pose proof (answered_trans _ _ _ _ _ Ha Hb) as H.
  rewrite app_assoc, <- repeat_app in H. exact H.
Qed.

Section BreathingGuard.

Variable p : string.
Variables r g b n : Z.

Lemma breathing_pass_until_failure (xs : list Z) :
  forall w, quiet w /\ plugged p w ->
    exists returned w',
      for_ xs (breathing_body p r g b n) w = (Ok returned, w') /\ until_failure returned w w'.
Proof.
  induction xs as [|k xs IH]; intros w HQ.
  - exists false, w. split; [reflexivity|].
    exists 0%nat. apply answered_refl.
  - simpl for_. unfold breathing_body at 1.
    destruct (is_set_answered w (proj1 HQ)) as (w1 & Hset & Ha1).
    cbv zeta.
    unfold bind at 1. unfold bind at 1. rewrite Hset. cbv iota.
    pose proof (answered_live p _ _ _ Ha1 HQ) as HQ1.
    destruct (Archive_set_color_answered p r g b
                (Archive.breathing_level n k) w1 (proj2 HQ1))
      as (ok & w2 & Hcol & Ha2).
    unfold bind at 1. rewrite Hcol.
    pose proof (answered_trans _ _ _ _ _ Ha1 Ha2) as Ha12.
    destruct ok; cbn [negb].
    + destruct (sleep_answered w2) as (w3 & Hsl & Ha3).
      unfold bind at 1. rewrite Hsl. cbn [ret].
      pose proof (answered_trans _ _ _ _ _ Ha12 Ha3) as Ha13.
      destruct (IH w3 (answered_live p _ _ _ Ha13 HQ))
        as (returned & w4 & Hrun & Hu).
      exists returned, w4. split; [exact Hrun|].
      exact (until_failure_step returned w w3 w4 1 Ha13 Hu).
    + exists true, w2. split; [reflexivity|].
      exists 0%nat. exact Ha12.
Qed.

Lemma breathing_loop_until_failure (xs : list Z) (fuel : nat) :
  forall w, quiet w /\ plugged p w ->
    exists st w',
      while_not_stopped fuel (for_ xs (breathing_body p r g b n)) w = (Ok st, w') /\
      until_failure (match st with Returned => true | Running => false end)
        w w'.
Proof.
  induction fuel as [|fuel IH]; intros w HQ.
  - exists Running, w. split; [reflexivity|].
    exists 0%nat. apply answered_refl.
  - simpl while_not_stopped.
    destruct (is_set_answered w (proj1 HQ)) as (w1 & Hset & Ha1).
    rewrite (bind_ok _ _ _ _ _ Hset). cbv iota.
    destruct (breathing_pass_until_failure xs w1 (answered_live p _ _ _ Ha1 HQ))
      as (returned & w2 & Hrun & (m & Ha2)).
    rewrite (bind_ok _ _ _ _ _ Hrun).
    pose proof (answered_trans _ _ _ _ _ Ha1 Ha2) as Ha12.
    destruct returned.
    + exists Returned, w2. split; [reflexivity|]. exists m. exact Ha12.
    + rewrite app_nil_r in Ha12. simpl app in Ha12.
      destruct (IH w2 (answered_live p _ _ _ Ha12 HQ)) as (st & w3 & Hrun3 & Hu).
      exists st, w3. split; [exact Hrun3|].
      exact (until_failure_step _ w w2 w3 m Ha12 Hu).
Qed.

End BreathingGuard.

(** The archive [breathing] with the device node there and nobody asking
    for a stop: as long as the device takes every write the worker keeps
    running, and it returns exactly after the first write the device
    refuses, the pre-flight or a colour report, with that write its
    last. *)
Lemma Archive_breathing_until_failure (p : string) (rgb : Z * Z * Z)
    (interval : Q) (fuel : nat) (w : world) :
  quiet w -> plugged p w ->
  exists st w' m,
    Archive.breathing p rgb interval fuel w = (Ok st, w') /\
    outcomes w' = outcomes w ++ repeat true m ++
      match st with Returned => [false] | Running => [] end.
Proof.
  intros Hq Hpl. destruct rgb as [[r g] b]. unfold Archive.breathing.
  unfold guarded, try_except.
  destruct (Archive_disable_autonomous_answered p w Hpl)
    as (ok & w1 & Hdis & Ha1).
  rewrite (bind_ok _ _ _ _ _ Hdis).
  destruct ok; cbn [negb].
  - destruct (breathing_loop_until_failure p r g b
                (Archive.updates_per_cycle interval)
                (range 0 (Archive.updates_per_cycle interval)) fuel w1
                (answered_live p _ _ _ Ha1 (conj Hq Hpl)))
      as (st & w2 & Hrun & Hu).
    change (while_not_stopped fuel
              (for_ (range 0 (Archive.updates_per_cycle interval))
                 (breathing_body p r g b (Archive.updates_per_cycle interval)))
              w1 = (Ok st, w2)) in Hrun.
    unfold breathing_body in Hrun. cbv zeta in Hrun |- *. rewrite Hrun.
    destruct (until_failure_step _ w w1 w2 1 Ha1 Hu) as (m & _ & _ & Ho).
    exists st, w2, m. split; [reflexivity|].
    rewrite Ho. destruct st; reflexivity.
  - exists Returned, w1, 0%nat. split; [reflexivity|].
    destruct Ha1 as (_ & _ & Ho). exact Ho.
Qed.

(** ** C7: failed writes inside a running pattern *)

(** [start] for the static style with the device node there: whatever
    becomes of its two writes, it ends normally with the handle empty and
    its last act is the signal "static_applied". *)
Lemma Archive_start_static_silent (style : string) (r g b : Z)
    (interval : Q) (c : Archive.controller) (w : world) :
  lower style = "static"%string ->
  is_empty (Archive._get_device_path c) = false ->
  (forall t, path_exists (oracle w) t (Archive._get_device_path c) = true) ->
  exists w',
    Archive.start style (r, g, b) interval c w =
      (Ok {| Archive.thread := None;
             Archive._get_device_path := Archive._get_device_path c |}, w') /\
    last (trace w') = Some (EvSignal "static_applied") /\
    length (threads w') = length (threads w).
Proof.
  intros Hst Hne Hpath. unfold Archive.start.
  destruct (Archive_stop_effect c w) as (w1 & Hstop & Ho1 & _ & Hl1 & _).
  rewrite (bind_ok _ _ _ _ _ Hstop).
  set (w2 := emit_event EvClear (with_flag false w1)).
  assert (Hclear : event_clear w1 = (Ok tt, w2)) by reflexivity.
  rewrite (bind_ok _ _ _ _ _ Hclear). cbv zeta. simpl Archive._get_device_path.
  rewrite Hne.
  assert (Hpres : exists_ (Archive._get_device_path c) w2 = (Ok true, tick w2)).
  { unfold exists_. change (oracle w2) with (oracle w1).
    rewrite Ho1, Hpath. reflexivity. }
  rewrite (bind_ok _ _ _ _ _ Hpres). cbn [negb].
  rewrite Hst. change (String.eqb "static" "static") with true. cbv iota.
  destruct (Archive_disable_autonomous_effect (Archive._get_device_path c)
              (tick w2)) as (ok & w3 & e3 & Hdis & Hext3 & _).
  rewrite (bind_ok _ _ _ _ _ Hdis).
  destruct (Archive_set_color_effect (Archive._get_device_path c) r g b 255
              None None w3) as (sent & w4 & e4 & Hcol & Hext4 & _).
  rewrite (bind_ok _ _ _ _ _ Hcol).
  eexists. split; [reflexivity|]. simpl. split; [apply last_snoc|].
  destruct Hext3 as (_ & _ & Ht3 & _). destruct Hext4 as (_ & _ & Ht4 & _).
  rewrite Ht4, Ht3. exact Hl1.
Qed.

(** C7, as stated, fails twice.  The breathing pattern of
    src/archive/kbdrgb.py tests the result of [set_color] and returns on the
    first failure: with the ioctl failing from the first colour write on,
    the worker followed for a hundred passes has returned after two packets
    (the pre-flight and the failed write) and one sleep.  And [start] does
    not surface the failure of its own writes: for the static style, with
    every ioctl failing, both reports are refused by the device, yet
    [start] ends normally and the one signal it emits is
    "static_applied". *)
Lemma C7_breathing_stops_and_start_hides_failures :
  (exists w',
     Archive.breathing "/dev/hidraw1" (0, 255, 0) 1 100
       (boot (failing_after 2)) = (Ok Returned, w') /\
     length (packets w') = 2%nat /\
     sleeps w' = 1%nat) /\
  (let run := Archive.start "static" (0, 255, 0) 1 fresh
                (boot (failing_after 0)) in
   fst run = Ok fresh /\
   outcomes (snd run) = [false; false] /\
   signals (snd run) = ["static_applied"%string]).
Proof.
  split.
  - destruct (Archive_breathing_returns_on_failed_write "/dev/hidraw1"
                (0, 255, 0) 1 99 (boot (failing_after 2)))
      as (w' & Hrun & Hpk & Hsl).
    + reflexivity.
    + split; [reflexivity|intros t; discriminate].
    + intros t. reflexivity.
    + intros t. reflexivity.
    + reflexivity.
    + reflexivity.
    + exists w'. split; [exact Hrun|]. split; assumption.
  - repeat split; reflexivity.
Qed.

(** C7 (amended).  Once its pre-flight [disable_autonomous] has succeeded
    and as long as nobody sets the stop flag, every pattern except the
    archive's breathing keeps looping whatever the device does to the
    per-step writes (node missing, open refused, ioctl failing): followed
    for any number of passes the worker is still running and has completed
    at least one step per pass.  This holds for the eight other workers of
    the archive's [style_funcs] and for the daemon's breathing, rainbow and
    ripple; the breathing worker of src/kbdrgb.py, which does not test its
    pre-flight either, keeps looping whether or not that succeeded, with
    parameters that fit a byte.  The archive's breathing, with the device
    node there, keeps running as long as the device takes every write and
    returns exactly after the first write it refuses, that write being its
    last.  A pre-flight that fails is acted on by
    the workers of the archive and of the daemon alone: each returns at
    once, with no colour report and no sleep.  [start] itself surfaces no
    write failure: for the static style, with the device node there, it
    ends normally, launches nothing and emits "static_applied" last,
    whatever became of its two writes. *)
Theorem C7_failed_writes_are_absorbed :
  (forall (p : string) (rgb : Z * Z * Z) (interval : Q)
          (draws : list Archive.draw) (w : world),
     quiet w ->
     fst (Archive.disable_autonomous p w) = Ok true ->
     (forall name worker,
        In (name, worker) (Archive.style_funcs p rgb interval draws) ->
        name <> "breathing" ->
        exists w', worker w = (Ok Running, w') /\ runs (length draws) w w') /\
     (exists w', Daemon.breathing p rgb interval (length draws) w = (Ok Running, w') /\
                 runs (length draws) w w') /\
     (exists w', Daemon.rainbow p interval (length draws) w = (Ok Running, w') /\
                 runs (length draws) w w') /\
     (exists w', Daemon.ripple p rgb interval draws w = (Ok Running, w') /\
                 runs (length draws) w w')) /\
  (forall (c : Current.controller) (r g b : Z) (interval : Q) (i : Z)
          (fuel : nat) (w : world),
     quiet w ->
     Current._params c = ((r, g, b), interval, i) ->
     0 <= r <= 255 -> 0 <= g <= 255 -> 0 <= b <= 255 -> 0 <= i <= 255 ->
     exists w',
       Current.breathing (Current.device_path c) (Current.get_params c)
         fuel w = (Ok Running, w') /\
       runs fuel w w') /\
  (forall (p : string) (rgb : Z * Z * Z) (interval : Q) (fuel : nat)
          (w : world),
     quiet w -> plugged p w ->
     exists st w' m,
       Archive.breathing p rgb interval fuel w = (Ok st, w') /\
       outcomes w' = outcomes w ++ repeat true m ++
         match st with Returned => [false] | Running => [] end) /\
  (forall (p : string) (rgb : Z * Z * Z) (interval : Q)
          (draws : list Archive.draw) (w : world),
     fst (Archive.disable_autonomous p w) = Ok false ->
     let w1 := snd (Archive.disable_autonomous p w) in
     (forall name worker,
        In (name, worker) (Archive.style_funcs p rgb interval draws) ->
        worker w = (Ok Returned, w1)) /\
     Daemon.breathing p rgb interval (length draws) w = (Ok Returned, w1) /\
     Daemon.rainbow p interval (length draws) w = (Ok Returned, w1) /\
     Daemon.ripple p rgb interval draws w = (Ok Returned, w1) /\
     color_writes w1 = color_writes w /\
     sleeps w1 = sleeps w) /\
  (forall (style : string) (r g b : Z) (interval : Q)
          (c : Archive.controller) (w : world),
     lower style = "static"%string ->
     is_empty (Archive._get_device_path c) = false ->
     (forall t, path_exists (oracle w) t (Archive._get_device_path c) = true) ->
     exists w',
       Archive.start style (r, g, b) interval c w =
         (Ok {| Archive.thread := None;
                Archive._get_device_path := Archive._get_device_path c |}, w') /\
       last (trace w') = Some (EvSignal "static_applied") /\
       length (threads w') = length (threads w)).
Proof.
  split; [|split; [|split; [|split]]].
  - intros p rgb interval draws w Hq Hpre. split; [|split; [|split]].
    + intros name worker Hin Hname. unfold Archive.style_funcs in Hin.
      cbv zeta in Hin. simpl in Hin.
      destruct Hin as [H|[H|[H|[H|[H|[H|[H|[H|[H|[]]]]]]]]]];
        inversion H; subst name worker; clear H.
      * exfalso. apply Hname. reflexivity.
      * apply Archive_rainbow_runs; assumption.
      * unfold Archive.flash. destruct rgb as [[r g] b].
        apply Archive_square_wave_runs; assumption.
      * unfold Archive.pulse. destruct rgb as [[r g] b].
        apply Archive_square_wave_runs; assumption.
      * apply Archive_wave_runs; assumption.
      * apply Archive_spectrum_runs; assumption.
      * apply Archive_fade_runs; assumption.
      * unfold Archive.strobe. destruct rgb as [[r g] b].
        apply Archive_square_wave_runs; assumption.
      * apply Archive_ripple_runs; assumption.
    + apply Daemon_breathing_runs; assumption.
    + apply Daemon_rainbow_runs; assumption.
    + apply Daemon_ripple_runs; assumption.
  - intros c r g b interval i fuel w Hq Hp Hr Hg Hb Hi.
    apply (Current_breathing_runs c r g b interval i); assumption.
  - intros p rgb interval fuel w Hq Hpl.
    apply Archive_breathing_until_failure; assumption.
  - intros p rgb interval draws w Hfail.
    apply preflight_failure_returns. exact Hfail.
  - intros style r g b interval c w Hst Hne Hpath.
    apply Archive_start_static_silent; assumption.
Qed.

Lemma C7_failed_writes_are_absorbed_witness :
  let p := "/dev/hidraw1"%string in
  let rgb := (0, 255, 0) in
  let draws := [ {| Archive.uniform := 0.1; Archive.randint := 3 |};
                 {| Archive.uniform := 0.5; Archive.randint := 19 |} ] in
  ((forall name worker,
      In (name, worker)
         (Archive.style_funcs p rgb 0.2 draws) ->
      name <> "breathing" ->
      exists w', worker (boot (failing_after 2)) = (Ok Running, w') /\
                 runs (length draws) (boot (failing_after 2)) w') /\
   (exists w', Daemon.breathing p rgb 0.2 (length draws)
                 (boot (failing_after 2)) = (Ok Running, w') /\
               runs (length draws) (boot (failing_after 2)) w') /\
   (exists w', Daemon.rainbow p 0.2 (length draws)
                 (boot (failing_after 2)) = (Ok Running, w') /\
               runs (length draws) (boot (failing_after 2)) w') /\
   (exists w', Daemon.ripple p rgb 0.2 draws
                 (boot (failing_after 2)) = (Ok Running, w') /\
               runs (length draws) (boot (failing_after 2)) w')) /\
  (exists w',
     Current.breathing p (Current.get_params (Current.init p)) 2
       (boot unplugged) = (Ok Running, w') /\
     runs 2 (boot unplugged) w') /\
  (exists st w' m,
     Archive.breathing p rgb 0.2 2 (boot (failing_after 40)) = (Ok st, w') /\
     outcomes w' = outcomes (boot (failing_after 40)) ++ repeat true m ++
       match st with Returned => [false] | Running => [] end) /\
  (let w1 := snd (Archive.disable_autonomous p (boot (failing_after 0))) in
   (forall name worker,
      In (name, worker) (Archive.style_funcs p rgb 0.2 draws) ->
      worker (boot (failing_after 0)) = (Ok Returned, w1)) /\
   Daemon.breathing p rgb 0.2 (length draws) (boot (failing_after 0)) =
     (Ok Returned, w1) /\
   Daemon.rainbow p 0.2 (length draws) (boot (failing_after 0)) =
     (Ok Returned, w1) /\
   Daemon.ripple p rgb 0.2 draws (boot (failing_after 0)) = (Ok Returned, w1) /\
   color_writes w1 = color_writes (boot (failing_after 0)) /\
   sleeps w1 = sleeps (boot (failing_after 0))) /\
  (exists w',
     Archive.start "Static" (0, 255, 0) 0.2 fresh (boot (failing_after 0)) =
       (Ok {| Archive.thread := None;
              Archive._get_device_path := Archive._get_device_path fresh |},
        w') /\
     last (trace w') = Some (EvSignal "static_applied") /\
     length (threads w') = length (threads (boot (failing_after 0)))).
Proof.
  intros p rgb draws.
  pose proof C7_failed_writes_are_absorbed as (HA & HB & HC & HD & HE).
  split; [|split; [|split; [|split]]].
  - apply (HA p rgb 0.2%Q draws (boot (failing_after 2))).
    + split; [reflexivity|intros t; discriminate].
    + reflexivity.
  - apply (HB (Current.init p) 255 0 0 0.5%Q 255 2%nat (boot unplugged)).
    + split; [reflexivity|intros t; discriminate].
    + reflexivity.
    + lia.
    + lia.
    + lia.
    + lia.
  - apply (HC p rgb 0.2%Q 2%nat (boot (failing_after 40))).
    + split; [reflexivity|intros t; discriminate].
    + split; [reflexivity|intros t; split; reflexivity].
  - apply (HD p rgb 0.2%Q draws (boot (failing_after 0))). reflexivity.
  - apply (HE "Static"%string 0 255 0 0.2%Q fresh (boot (failing_after 0))).
    + reflexivity.
    + reflexivity.
    + intros t. reflexivity.
Defined.


(** ** The daemon's state manager *)

Lemma Archive_send_feature_report_flag (p : string) (id : Z) (data : list Z)
    (w : world) :
  flag (snd (Archive.send_feature_report p id data w)) = flag w /\
  oracle (snd (Archive.send_feature_report p id data w)) = oracle w.
Proof.
  unfold Archive.send_feature_report.
  destruct (is_empty p); [split; reflexivity|].
  unfold bind, exists_, lift, open_and_ioctl.
  destruct (path_exists (oracle w) (now w) p); cbn [negb]; [|split; reflexivity].
  destruct (py_bytes [id]); [|split; reflexivity].
  destruct (py_bytes data); [|split; reflexivity].
  cbn [oracle now tick].
  destruct (open_ok (oracle w) (S (now w))); [|split; reflexivity].
  destruct (IOCTL_BUFSZ <? _); split; reflexivity.
Qed.

Section DaemonFlag.

Variable default_path : string.
Variable int_of_str : string -> result Z.

Lemma Daemon_send_feature_report_flag (path : json) (id : Z) (data : list Z)
    (w : world) :
  flag (snd (Daemon.send_feature_report path id data w)) = flag w /\
  oracle (snd (Daemon.send_feature_report path id data w)) = oracle w.
Proof.
  destruct path; simpl;
    try (match goal with |- context [if ?c then _ else _] => destruct c end;
         split; reflexivity);
    try (split; reflexivity).
  apply Archive_send_feature_report_flag.
Qed.

Lemma Daemon_disable_autonomous_flag (path : json) (w : world) :
  flag (snd (Daemon.disable_autonomous path w)) = flag w /\
  oracle (snd (Daemon.disable_autonomous path w)) = oracle w.
Proof.
  unfold Daemon.disable_autonomous, bind.
  pose proof (Daemon_send_feature_report_flag path DISABLE_AUTONOMOUS [0x00] w) as H.
  destruct (Daemon.send_feature_report path DISABLE_AUTONOMOUS [0x00] w)
    as [[[|]|e] w1]; simpl in *; exact H.
Qed.

Lemma Daemon_set_color_flag (path : json) (args : list json) (w : world) :
  flag (snd (Daemon.set_color int_of_str path args w)) = flag w /\
  oracle (snd (Daemon.set_color int_of_str path args w)) = oracle w.
Proof.
  assert (Hcall : forall r g b i s e,
    flag (snd ((let* start_id := lift (Daemon.led_index s) in
                let* end_id := lift (Daemon.led_index e) in
                let start_id := default DEFAULT_LED_START start_id in
                let end_id := default DEFAULT_LED_END end_id in
                let* r := lift (Daemon.py_int int_of_str r) in
                let r := Z.max 0 (Z.min 255 r) in
                let* g := lift (Daemon.py_int int_of_str g) in
                let g := Z.max 0 (Z.min 255 g) in
                let* b := lift (Daemon.py_int int_of_str b) in
                let b := Z.max 0 (Z.min 255 b) in
                let* i := lift (Daemon.py_int int_of_str i) in
                let i := Z.max 0 (Z.min MAX_INTENSITY i) in
                Daemon.send_feature_report path SET_COLOR
                  [0x01;
                   Z.land start_id 0xFF; Z.land (Z.shiftr start_id 8) 0xFF;
                   Z.land end_id 0xFF; Z.land (Z.shiftr end_id 8) 0xFF;
                   r; g; b; i]) w)) = flag w /\
    oracle (snd ((let* start_id := lift (Daemon.led_index s) in
                let* end_id := lift (Daemon.led_index e) in
                let start_id := default DEFAULT_LED_START start_id in
                let end_id := default DEFAULT_LED_END end_id in
                let* r := lift (Daemon.py_int int_of_str r) in
                let r := Z.max 0 (Z.min 255 r) in
                let* g := lift (Daemon.py_int int_of_str g) in
                let g := Z.max 0 (Z.min 255 g) in
                let* b := lift (Daemon.py_int int_of_str b) in
                let b := Z.max 0 (Z.min 255 b) in
                let* i := lift (Daemon.py_int int_of_str i) in
                let i := Z.max 0 (Z.min MAX_INTENSITY i) in
                Daemon.send_feature_report path SET_COLOR
                  [0x01;
                   Z.land start_id 0xFF; Z.land (Z.shiftr start_id 8) 0xFF;
                   Z.land end_id 0xFF; Z.land (Z.shiftr end_id 8) 0xFF;
                   r; g; b; i]) w)) = oracle w).
  { intros r g b i s e. unfold bind, lift.
    destruct (Daemon.led_index s); [|split; reflexivity].
    destruct (Daemon.led_index e); [|split; reflexivity].
    destruct (Daemon.py_int int_of_str r); [|split; reflexivity].
    destruct (Daemon.py_int int_of_str g); [|split; reflexivity].
    destruct (Daemon.py_int int_of_str b); [|split; reflexivity].
    destruct (Daemon.py_int int_of_str i); [|split; reflexivity].
    apply Daemon_send_feature_report_flag. }
  unfold Daemon.set_color.
  destruct args as [|r [|g [|b [|i [|s [|e [|x args]]]]]]];
    try (split; reflexivity); apply Hcall.
Qed.

(** [stop_animation] when the worker behind the handle is alive. *)
Lemma Daemon_stop_animation_running (ds : Daemon.daemon_state) (a : nat)
    (w : world) :
  Daemon.animation_thread ds = Some a ->
  thread_alive a w = true ->
  exists w',
    Daemon.stop_animation ds w = (Ok daemon_init, w') /\ flag w' = true /\
    oracle w' = oracle w.
Proof.
  intros Hds Ha. unfold Daemon.stop_animation. rewrite Hds.
  unfold bind, is_alive. rewrite Ha.
  eexists. split; [reflexivity|].
  unfold event_set, join. simpl.
  destruct (ends_in_time _ _); split; reflexivity.
Qed.

(** [start_animation] for the static style over a live worker: the flag
    that [stop_animation] set is still set when the call ends, normally
    or not. *)
Lemma Daemon_start_static_frame (s : string) (color : list json)
    (intensity interval path : json) (ds : Daemon.daemon_state) (a : nat)
    (w : world) :
  Daemon.animation_thread ds = Some a ->
  thread_alive a w = true ->
  lower s = "static"%string ->
  flag (snd (Daemon.start_animation int_of_str (JStr s) color intensity
               interval path ds w)) = true /\
  oracle (snd (Daemon.start_animation int_of_str (JStr s) color intensity
                 interval path ds w)) = oracle w /\
  (forall ds',
     fst (Daemon.start_animation int_of_str (JStr s) color intensity
            interval path ds w) = Ok ds' -> ds' = daemon_init).
Proof.
  intros Hds Ha Hst.
  remember (Daemon.start_animation int_of_str (JStr s) color intensity
              interval path ds w) as run eqn:Hrun.
  unfold Daemon.start_animation in Hrun.
  destruct (Daemon_stop_animation_running ds a w Hds Ha)
    as (w1 & Hstop & Hf1 & Ho1).
  rewrite (bind_ok _ _ _ _ _ Hstop) in Hrun.
  assert (Hlow : lift (Daemon.str_lower (JStr s)) w1 = (Ok (lower s), w1))
    by reflexivity.
  rewrite (bind_ok _ _ _ _ _ Hlow) in Hrun. rewrite Hst in Hrun.
  change (String.eqb "static" "static") with true in Hrun. cbv iota in Hrun.
  pose proof (Daemon_disable_autonomous_flag path w1) as [Hd Hdo].
  unfold bind at 1 in Hrun.
  destruct (Daemon.disable_autonomous path w1) as [[ok|e] w2];
    simpl in Hd, Hdo;
    [|subst run; simpl; split; [congruence|split; [congruence|discriminate]]].
  pose proof (Daemon_set_color_flag path (color ++ [intensity]) w2) as [Hc Hco].
  unfold bind in Hrun.
  destruct (Daemon.set_color int_of_str path (color ++ [intensity]) w2)
    as [[sent|e] w3]; simpl in *; subst run; simpl;
    (split; [congruence|split; [congruence|]]).
  - intros ds' [= <-]. reflexivity.
  - discriminate.
Qed.

(** X20.  [DaemonState.start_animation] and the stop flag, when it has to
    stop a worker that is alive: for every style other than "static" the
    flag is clear on return, but for "static" (in any letter case) the
    flag that [stop_animation] set is never cleared, so it is still set on
    return, whether the static colour went out or the call raised. *)
Theorem Daemon_start_animation_stop_flag (s : string) (color : list json)
    (intensity interval path : json) (ds : Daemon.daemon_state) (a : nat)
    (w : world) :
  Daemon.animation_thread ds = Some a ->
  thread_alive a w = true ->
  flag (snd (Daemon.start_animation int_of_str (JStr s) color intensity
               interval path ds w)) =
  String.eqb (lower s) "static".
Proof.
  intros Hds Ha. unfold Daemon.start_animation.
  destruct (Daemon_stop_animation_running ds a w Hds Ha)
    as (w1 & Hstop & Hf1 & _).
  rewrite (bind_ok _ _ _ _ _ Hstop).
  assert (Hlow : lift (Daemon.str_lower (JStr s)) w1 = (Ok (lower s), w1))
    by reflexivity.
  rewrite (bind_ok _ _ _ _ _ Hlow).
  destruct (String.eqb (lower s) "static").
  - pose proof (Daemon_disable_autonomous_flag path w1) as [Hd _].
    unfold bind at 1.
    destruct (Daemon.disable_autonomous path w1) as [[ok|e] w2];
      simpl in Hd; [|simpl; congruence].
    pose proof (Daemon_set_color_flag path (color ++ [intensity]) w2) as [Hc _].
    unfold bind.
    destruct (Daemon.set_color int_of_str path (color ++ [intensity]) w2)
      as [[sent|e] w3]; simpl in *; congruence.
  - unfold bind at 1. unfold event_clear. cbn [fst snd].
    destruct (existsb (String.eqb (lower s)) Daemon.animations); reflexivity.
Qed.

(** X21.  [DaemonState.start_animation] launches its workers without
    looking at the device: with no worker running, a style that lower-cases
    to "breathing", "rainbow" or "ripple" starts one thread, named
    "Daemon-" and the style as it was written, whatever the device path
    is and whether or not a node exists there; the handle names the
    thread, [current_animation] is the style as written, and nothing has
    been handed to the device.  Any other style but "static" starts
    nothing and leaves both fields empty. *)
Theorem Daemon_start_animation_launches (s : string) (color : list json)
    (intensity interval path : json) (ds : Daemon.daemon_state) (w : world) :
  idle (Daemon.animation_thread ds) w ->
  lower s <> "static"%string ->
  exists ds' w',
    Daemon.start_animation int_of_str (JStr s) color intensity interval path
      ds w = (Ok ds', w') /\
    packets w' = packets w /\
    (In (lower s) ["breathing"; "rainbow"; "ripple"]%string ->
     ds' = {| Daemon.animation_thread := Some (length (threads w));
              Daemon.current_animation := Some (JStr s) |} /\
     threads w' = threads w ++
                  [{| t_name := "Daemon-" ++ s; t_alive := true |}]) /\
    (~ In (lower s) ["breathing"; "rainbow"; "ripple"]%string ->
     ds' = daemon_init /\ threads w' = threads w).
Proof.
  intros Hidle Hns. unfold Daemon.start_animation.
  assert (Hstop : Daemon.stop_animation ds w = (Ok daemon_init, w)).
  { unfold Daemon.stop_animation.
    destruct (Daemon.animation_thread ds) as [t|]; [|reflexivity].
    unfold bind, is_alive. rewrite (Hidle t eq_refl). reflexivity. }
  rewrite (bind_ok _ _ _ _ _ Hstop).
  assert (Hlow : lift (Daemon.str_lower (JStr s)) w = (Ok (lower s), w))
    by reflexivity.
  rewrite (bind_ok _ _ _ _ _ Hlow).
  destruct (String.eqb (lower s) "static") eqn:Hst;
    [apply String.eqb_eq in Hst; contradiction|].
  unfold bind at 1. unfold event_clear. cbn [fst snd].
  change Daemon.animations with ["breathing"; "rainbow"; "ripple"]%string.
  destruct (existsb (String.eqb (lower s)) ["breathing"; "rainbow"; "ripple"]%string)
    eqn:Hex.
  - eexists _, _. split; [reflexivity|]. split; [|split].
    + unfold packets. simpl. rewrite !omap_app. simpl. rewrite !app_nil_r.
      reflexivity.
    + intros _. split; reflexivity.
    + intros Hn. exfalso. apply Hn.
      apply existsb_exists in Hex. destruct Hex as (x & Hin & Heq).
      apply String.eqb_eq in Heq. rewrite Heq. exact Hin.
  - eexists _, _. split; [reflexivity|]. split; [|split].
    + unfold packets. simpl. rewrite !omap_app. simpl. rewrite !app_nil_r.
      reflexivity.
    + intros Hin. exfalso.
      assert (Ht : existsb (String.eqb (lower s))
                     ["breathing"; "rainbow"; "ripple"]%string = true).
      { apply existsb_exists. exists (lower s).
        split; [exact Hin|apply String.eqb_refl]. }
      pose proof (eq_trans (eq_sym Ht) Hex) as Habs. discriminate Habs.
    + intros _. split; reflexivity.
Qed.

(** X28.  The watcher shares its stop flag with the animation.  When a
    pass of [watch_state_file] finds a newer state file whose style is
    "static" while a worker is alive, [apply_state] stops the worker, which
    sets the flag, and the static branch of [start_animation] returns
    without clearing it: whether the static colour went out or the call
    raised, the watcher sleeps once more and then leaves its loop.  What
    the state file holds afterwards is never looked at. *)
Theorem watcher_ends_after_static (f : Daemon.snapshot) (last mtime : Q)
    (kvs : list (string * json)) (s : string) (color : list json)
    (ds : Daemon.daemon_state) (a : nat) (w : world) :
  Daemon.animation_thread ds = Some a ->
  thread_alive a w = true ->
  flag w = false ->
  (forall t, interfere (oracle w) t = None) ->
  Daemon.st_mtime f = Some mtime ->
  (last < mtime)%Q ->
  Daemon.parsed f = Some (JDict kvs) ->
  kvs <> [] ->
  (list_to_map (reverse kvs) : gmap string json) !! "style"%string =
    Some (JStr s) ->
  lower s = "static"%string ->
  Daemon.py_tuple (default (JList [JInt 255; JInt 255; JInt 255])
                     ((list_to_map (reverse kvs) : gmap string json)
                        !! "color"%string)) = Ok color ->
  exists w',
    flag w' = true /\
    forall f' files,
      Daemon.watch_state_file default_path int_of_str (f :: f' :: files)
        last ds w = (Ok (Returned, (mtime, daemon_init)), w').
Proof.
  intros Hds Ha Hflag Hint Hm Hlt Hp Hne Hstyle Hst Hcol.
  set (w0 := tick (with_flag false w)).
  assert (Hset : is_set w = (Ok false, w0)).
  { unfold is_set. rewrite (Hint (now w)), Hflag. reflexivity. }
  set (m := (list_to_map (reverse kvs) : gmap string json)) in *.
  set (run := Daemon.start_animation int_of_str (JStr s) color
                (default (JInt 255) (m !! "intensity"%string))
                (default (JFloat 0.1) (m !! "interval"%string))
                (default (JStr default_path) (m !! "device_path"%string))
                ds w0).
  destruct (Daemon_start_static_frame s color
              (default (JInt 255) (m !! "intensity"%string))
              (default (JFloat 0.1) (m !! "interval"%string))
              (default (JStr default_path) (m !! "device_path"%string))
              ds a w0 Hds Ha Hst) as (Hf1 & Ho1 & Hres).
  fold run in Hf1, Ho1, Hres.
  assert (Happly : Daemon.apply_loaded default_path int_of_str (JDict kvs) ds w0
                   = run).
  { unfold Daemon.apply_loaded, Daemon.apply_state. fold m.
    rewrite Hstyle, Hcol. reflexivity. }
  assert (Hbody : exists w1,
    try_except
      (let* ds' := Daemon.apply_loaded default_path int_of_str (JDict kvs) ds in
       ret (mtime, ds'))
      (fun _ => ret (mtime, Daemon.fields_after_raise (JDict kvs) ds)) w0
    = (Ok (mtime, daemon_init), w1) /\ flag w1 = true /\ oracle w1 = oracle w).
  { exists (snd run). unfold try_except, bind. rewrite Happly.
    destruct run as [[ds'|e] w1] eqn:Hrun; simpl in *.
    - rewrite (Hres ds' eq_refl). auto.
    - unfold Daemon.fields_after_raise. fold m. rewrite Hcol. auto. }
  destruct Hbody as (w1 & Hbody & Hfl1 & Hor1).
  set (w2 := tick (emit_event EvSleep w1)).
  exists (tick (with_flag true w2)). split; [reflexivity|].
  intros f' files. simpl Daemon.watch_state_file.
  rewrite (bind_ok _ _ _ _ _ Hset). cbv iota.
  rewrite Hm.
  assert (Hle : Qle_bool mtime last = false).
  { destruct (Qle_bool mtime last) eqn:H; [|reflexivity].
    apply Qle_bool_iff in H. exfalso. apply (Qlt_not_le _ _ Hlt H). }
  rewrite Hle.
  assert (Hload : Daemon.load_state f = JDict kvs).
  { unfold Daemon.load_state. rewrite Hm, Hp. reflexivity. }
  rewrite Hload.
  assert (Htruthy : Daemon.truthy (JDict kvs) = true)
    by (destruct kvs; [contradiction|reflexivity]).
  rewrite Htruthy.
  rewrite (bind_ok _ _ _ _ _ Hbody).
  assert (Hsleep : sleep w1 = (Ok tt, w2)) by reflexivity.
  rewrite (bind_ok _ _ _ _ _ Hsleep). cbn [fst snd].
  assert (Hset2 : is_set w2 = (Ok true, tick (with_flag true w2))).
  { assert (Hi2 : interfere (oracle w2) (now w2) = None).
    { change (oracle w2) with (oracle w1). rewrite Hor1. apply Hint. }
    assert (Hf2 : flag w2 = true) by exact Hfl1.
    unfold is_set. rewrite Hi2, Hf2. reflexivity. }
  rewrite (bind_ok _ _ _ _ _ Hset2). reflexivity.
Qed.

(** X29.  The watcher applies a state file only when it is newer than the
    last one applied: over any number of passes that find no file, or a
    file whose modification time has not advanced, nothing is applied,
    nothing reaches the device, the fields of the daemon and the last
    modification time stay as they were, and the watcher is still
    running. *)
Theorem watcher_skips_unchanged (files : list Daemon.snapshot) (last : Q)
    (ds : Daemon.daemon_state) :
  Forall (fun f => forall mtime, Daemon.st_mtime f = Some mtime ->
                                 (mtime <= last)%Q) files ->
  forall w, quiet w ->
    exists w',
      Daemon.watch_state_file default_path int_of_str files last ds w =
        (Ok (Running, (last, ds)), w') /\
      packets w' = packets w /\
      threads w' = threads w /\
      sleeps w' = (sleeps w + length files)%nat.
Proof.
  induction 1 as [|f files Hf _ IH]; intros w Hq.
  - exists w. simpl. repeat split; lia.
  - destruct (is_set_wrote w Hq) as (w1 & Hset & Hw1).
    assert (Hbody :
      (match Daemon.st_mtime f with
       | Some mtime =>
           if Qle_bool mtime last then ret (last, ds)
           else
             let state := Daemon.load_state f in
             if Daemon.truthy state then
               try_except
                 (let* ds' := Daemon.apply_loaded default_path int_of_str state ds in
                  ret (mtime, ds'))
                 (fun _ => ret (mtime, Daemon.fields_after_raise state ds))
             else ret (mtime, ds)
       | None => ret (last, ds)
       end) w1 = (Ok (last, ds), w1)).
    { destruct (Daemon.st_mtime f) as [mtime|]; [|reflexivity].
      replace (Qle_bool mtime last) with true; [reflexivity|].
      symmetry. apply Qle_bool_iff. apply Hf. reflexivity. }
    destruct (sleep_wrote w1) as (w2 & Hsl & Hw2).
    pose proof (wrote_trans _ _ _ _ _ Hw1 Hw2) as Hw12.
    destruct (IH w2 (wrote_quiet _ _ _ Hw12 Hq)) as (w3 & Hrun & Hp3 & Ht3 & Hs3).
    exists w3. split.
    + simpl Daemon.watch_state_file. rewrite (bind_ok _ _ _ _ _ Hset). cbv iota.
      rewrite (bind_ok _ _ _ _ _ Hbody). rewrite (bind_ok _ _ _ _ _ Hsl).
      exact Hrun.
    + destruct Hw12 as (_ & _ & Ht12 & _ & Hp12).
      split; [rewrite Hp3, Hp12, app_nil_r; reflexivity|].
      split; [congruence|].
      rewrite Hs3. simpl length.
      assert (Hs2 : sleeps w2 = S (sleeps w)).
      { unfold sleep in Hsl. injection Hsl as <-.
        unfold sleeps. simpl. rewrite omap_app, length_app. simpl.
        unfold is_set in Hset. injection Hset as _ <-. simpl. lia. }
      lia.
Qed.

End DaemonFlag.

Lemma Daemon_start_animation_stop_flag_witness :
  let w := snd (spawn "Daemon-rainbow" "rainbow"
                  [JStr "/dev/hidraw1"; JFloat 0.1] (boot friendly)) in
  let ds := {| Daemon.animation_thread := Some 0%nat;
               Daemon.current_animation := Some (JStr "rainbow") |} in
  flag (snd (Daemon.start_animation (fun _ => Raise ValueError) (JStr "Static")
               [JInt 255; JInt 0; JInt 0] (JInt 255) (JFloat 0.1)
               (JStr "/dev/hidraw1") ds w)) =
  String.eqb (lower "Static") "static".
Proof.
  intros w ds.
  apply (Daemon_start_animation_stop_flag (fun _ => Raise ValueError) "Static"
           [JInt 255; JInt 0; JInt 0] (JInt 255) (JFloat 0.1)
           (JStr "/dev/hidraw1") ds 0%nat w); reflexivity.
Defined.

Lemma Daemon_start_animation_launches_witness :
  let w := boot unplugged in
  exists ds' w',
    Daemon.start_animation (fun _ => Raise ValueError) (JStr "Ripple")
      [JInt 255; JInt 0; JInt 0] (JInt 255) (JFloat 0.1) (JStr "/dev/hidraw1")
      daemon_init w = (Ok ds', w') /\
    packets w' = packets w /\
    (In (lower "Ripple") ["breathing"; "rainbow"; "ripple"]%string ->
     ds' = {| Daemon.animation_thread := Some (length (threads w));
              Daemon.current_animation := Some (JStr "Ripple") |} /\
     threads w' = threads w ++
                  [{| t_name := "Daemon-" ++ "Ripple"; t_alive := true |}]) /\
    (~ In (lower "Ripple") ["breathing"; "rainbow"; "ripple"]%string ->
     ds' = daemon_init /\ threads w' = threads w).
Proof.
  intros w.
  apply (Daemon_start_animation_launches (fun _ => Raise ValueError) "Ripple"
           [JInt 255; JInt 0; JInt 0] (JInt 255) (JFloat 0.1)
           (JStr "/dev/hidraw1") daemon_init w).
  - intros tid H. discriminate.
  - discriminate.
Defined.

Lemma watcher_ends_after_static_witness :
  let w := snd (spawn "Daemon-rainbow" "rainbow"
                  [JStr "/dev/hidraw1"; JFloat 0.1] (boot friendly)) in
  let ds := {| Daemon.animation_thread := Some 0%nat;
               Daemon.current_animation := Some (JStr "rainbow") |} in
  let kvs := [("style"%string, JStr "Static");
              ("color"%string, JList [JInt 0; JInt 0; JInt 255])] in
  let f := {| Daemon.st_mtime := Some 1700000000%Q;
              Daemon.parsed := Some (JDict kvs) |} in
  exists w',
    flag w' = true /\
    forall f' files,
      Daemon.watch_state_file "/dev/hidraw1" (fun _ => Raise ValueError)
        (f :: f' :: files) 0 ds w =
      (Ok (Returned, (1700000000%Q, daemon_init)), w').
Proof.
  intros w ds kvs f.
  apply (watcher_ends_after_static "/dev/hidraw1" (fun _ => Raise ValueError)
           f 0 1700000000 kvs "Static" [JInt 0; JInt 0; JInt 255] ds 0%nat w);
    try reflexivity.
  discriminate.
Defined.

Lemma watcher_skips_unchanged_witness :
  exists w',
    Daemon.watch_state_file "/dev/hidraw1" (fun _ => Raise ValueError)
      [{| Daemon.st_mtime := None; Daemon.parsed := None |};
       {| Daemon.st_mtime := Some 5%Q; Daemon.parsed := Some (JDict []) |}]
      5 daemon_init (boot friendly) =
      (Ok (Running, (5%Q, daemon_init)), w') /\
    packets w' = packets (boot friendly) /\
    threads w' = threads (boot friendly) /\
    sleeps w' = (sleeps (boot friendly) + 2)%nat.
Proof.
  apply (watcher_skips_unchanged "/dev/hidraw1" (fun _ => Raise ValueError)
           [{| Daemon.st_mtime := None; Daemon.parsed := None |};
            {| Daemon.st_mtime := Some 5%Q; Daemon.parsed := Some (JDict []) |}]
           5 daemon_init).
  - repeat constructor.
    + intros mtime H. discriminate.
    + intros mtime [= <-]. apply Qle_refl.
  - split; [reflexivity|intros t; discriminate].
Defined.

(** ** The speed slider *)

Lemma Rround_IZR (z : Z) : Rround (IZR z) = z.
Proof.
  unfold Rround.
  assert (H : Int_part (IZR z) = z) by (apply Int_part_unique; lra).
  rewrite H. destruct (Rlt_dec (IZR z - IZR z) (1 / 2)) as [_|Hn];
    [reflexivity|exfalso; apply Hn; lra].
Qed.

Lemma ln_10_pos : (0 < ln 10)%R.
Proof. rewrite <- ln_1. apply ln_increasing; lra. Qed.

Lemma Rpower_10_1 : Rpower 10 1 = 10%R.
Proof. apply Rpower_1. lra. Qed.

Lemma Rpower_10_m2 : Rpower 10 (-2) = 0.01%R.
Proof.
  replace (-2)%R with (Ropp 2) by lra.
  rewrite Rpower_Ropp. replace 2%R with (INR 2) by (simpl; lra).
  rewrite Rpower_pow by lra. simpl. lra.
Qed.

Lemma log10_Rpower (x : R) : log10 (Rpower 10 x) = x.
Proof.
  unfold log10, Rpower. rewrite ln_exp. field.
  pose proof ln_10_pos. lra.
Qed.

Lemma Rpower_10_between (v : Z) :
  0 <= v <= 100 ->
  (0.01 <= Rpower 10 (1 - 0.03 * IZR v) <= 10)%R.
Proof.
  intros Hv.
  assert (H0 : (0 <= IZR v <= 100)%R).
  { split; [apply (IZR_le 0)|apply (IZR_le v 100)]; lia. }
  split.
  - rewrite <- Rpower_10_m2. apply Rle_Rpower; lra.
  - rewrite <- Rpower_10_1 at 2. apply Rle_Rpower; lra.
Qed.

(** X22.  The speed slider of the two windows: for every position [v] of
    its range 0..100 the interval [10 ** (1 - 0.03 * v)] lies between 0.01
    and 10 seconds, so the clamping to [0.01, 30] leaves it alone, and
    [_interval_to_slider] takes it back to [v] exactly; position 0 is 10
    seconds, position 100 is 0.01 seconds, and a higher position never
    gives a longer interval.  (Floats are read as real numbers.) *)
Theorem slider_interval_round_trip (v : Z) :
  0 <= v <= 100 ->
  (0.01 <= Current._slider_to_interval v <= 10)%R /\
  Current._interval_to_slider (Current._slider_to_interval v) = v /\
  Current._slider_to_interval 0 = 10%R /\
  Current._slider_to_interval 100 = 0.01%R /\
  (forall v', v <= v' ->
     (Current._slider_to_interval v' <= Current._slider_to_interval v)%R).
Proof.
  intros Hv.
  assert (Hid : forall u, 0 <= u <= 100 ->
            Current._slider_to_interval u = Rpower 10 (1 - 0.03 * IZR u)).
  { intros u Hu. unfold Current._slider_to_interval.
    pose proof (Rpower_10_between u Hu) as [Hlo Hhi].
    rewrite Rmin_right by lra. rewrite Rmax_right by lra. reflexivity. }
  pose proof (Rpower_10_between v Hv) as Hb.
  split; [rewrite Hid by exact Hv; exact Hb|].
  split.
  - unfold Current._interval_to_slider. rewrite Hid by exact Hv.
    rewrite Rmin_right by lra. rewrite Rmax_right by lra.
    rewrite log10_Rpower.
    replace ((1 - (1 - 0.03 * IZR v)) / 0.03)%R with (IZR v) by lra.
    apply Rround_IZR.
  - split; [|split].
    + rewrite Hid by lia. replace (1 - 0.03 * 0)%R with 1%R by lra.
      apply Rpower_10_1.
    + rewrite Hid by lia. replace (1 - 0.03 * 100)%R with (-2)%R by lra.
      apply Rpower_10_m2.
    + intros v' Hle. unfold Current._slider_to_interval.
      assert (Hp : (Rpower 10 (1 - 0.03 * IZR v') <=
                    Rpower 10 (1 - 0.03 * IZR v))%R).
      { apply Rle_Rpower; [lra|]. apply IZR_le in Hle. lra. }
      unfold Rmax, Rmin. repeat destruct (Rle_dec _ _); lra.
Qed.

Lemma slider_interval_round_trip_witness :
  (0.01 <= Current._slider_to_interval 40 <= 10)%R /\
  Current._interval_to_slider (Current._slider_to_interval 40) = 40 /\
  Current._slider_to_interval 0 = 10%R /\
  Current._slider_to_interval 100 = 0.01%R /\
  (forall v', 40 <= v' ->
     (Current._slider_to_interval v' <= Current._slider_to_interval 40)%R).
Proof. apply (slider_interval_round_trip 40). lia. Defined.

(** ** The command line of src/kbdrgb.py *)

Lemma In_all_ascii (c : ascii) : In c all_ascii.
Proof.
  unfold all_ascii. rewrite <- (ascii_nat_embedding c).
  apply in_map. apply in_seq. pose proof (nat_ascii_bounded c). lia.
Qed.

(** Two hexadecimal digits read by [int(_, 16)], checked on every pair of
    characters. *)
Lemma int_base16_two_digits (c1 c2 : ascii) (d1 d2 : Z) :
  digit_value c1 = Some d1 -> d1 < 16 ->
  digit_value c2 = Some d2 -> d2 < 16 ->
  int_base16 (String c1 (String c2 EmptyString)) = Ok (16 * d1 + d2) /\
  Ascii.eqb c1 "#" = false /\
  0 <= 16 * d1 + d2 <= 255.
Proof.
  assert (Hall :
    forallb (fun a =>
      forallb (fun b =>
        match digit_value a, digit_value b with
        | Some x, Some y =>
            if (x <? 16) && (y <? 16) then
              match int_base16 (String a (String b EmptyString)) with
              | Ok z => (z =? 16 * x + y) && negb (Ascii.eqb a "#") &&
                        (0 <=? z) && (z <=? 255)
              | Raise _ => false
              end
            else true
        | _, _ => true
        end) all_ascii) all_ascii = true) by (vm_compute; reflexivity).
  intros H1 Hd1 H2 Hd2.
  rewrite forallb_forall in Hall. specialize (Hall c1 (In_all_ascii c1)).
  rewrite forallb_forall in Hall. specialize (Hall c2 (In_all_ascii c2)).
  rewrite H1, H2 in Hall.
  replace (d1 <? 16) with true in Hall by (symmetry; apply Z.ltb_lt; lia).
  replace (d2 <? 16) with true in Hall by (symmetry; apply Z.ltb_lt; lia).
  cbn [andb] in Hall.
  destruct (int_base16 (String c1 (String c2 EmptyString))) as [z|e];
    [|discriminate].
  apply andb_prop in Hall. destruct Hall as [Hall Hhi].
  apply andb_prop in Hall. destruct Hall as [Hall Hlo].
  apply andb_prop in Hall. destruct Hall as [Hz Hne].
  apply Z.eqb_eq in Hz. apply Z.leb_le in Hlo, Hhi.
  subst z. split; [reflexivity|]. split; [|lia].
  destruct (Ascii.eqb c1 "#"); [discriminate|reflexivity].
Qed.

Lemma parse_color_hex (sr sg sb rest : string) (r g b : Z) :
  hex_pair sr r -> hex_pair sg g -> hex_pair sb b ->
  Current.parse_color (sr ++ sg ++ sb ++ rest) = Ok (r, g, b) /\
  lstrip "#" (sr ++ sg ++ sb ++ rest) = (sr ++ sg ++ sb ++ rest)%string /\
  0 <= r <= 255 /\ 0 <= g <= 255 /\ 0 <= b <= 255.
Proof.
  intros (a1 & a2 & x1 & x2 & -> & Ha1 & Hx1 & Ha2 & Hx2 & ->)
         (b1 & b2 & y1 & y2 & -> & Hb1 & Hy1 & Hb2 & Hy2 & ->)
         (c1 & c2 & z1 & z2 & -> & Hc1 & Hz1 & Hc2 & Hz2 & ->).
  destruct (int_base16_two_digits a1 a2 x1 x2 Ha1 Hx1 Ha2 Hx2) as (Hr & Hh & Hrr).
  destruct (int_base16_two_digits b1 b2 y1 y2 Hb1 Hy1 Hb2 Hy2) as (Hg & _ & Hgr).
  destruct (int_base16_two_digits c1 c2 z1 z2 Hc1 Hz1 Hc2 Hz2) as (Hb & _ & Hbr).
  assert (Hs : (String a1 (String a2 EmptyString) ++
                String b1 (String b2 EmptyString) ++
                String c1 (String c2 EmptyString) ++ rest)%string =
               String a1 (String a2 (String b1 (String b2
                 (String c1 (String c2 rest)))))) by reflexivity.
  rewrite Hs. split; [|split; [|auto]].
  - unfold Current.parse_color, slice.
    cbn [substring Nat.sub].
    assert (Hend : forall s, substring 0 0 s = EmptyString)
      by (intros [|? ?]; reflexivity).
    rewrite !Hend, Hr, Hg, Hb. reflexivity.
  - cbn [lstrip]. rewrite Hh. reflexivity.
Qed.

Lemma int_base16_exn (s : string) (e : exn) :
  int_base16 s = Raise e -> e = ValueError.
Proof.
  unfold int_base16.
  destruct (match skip_spaces s with
            | String "+" t => (1, t)
            | String "-" t => (-1, t)
            | _ => (1, skip_spaces s)
            end) as [sign s2].
  set (s3 := match s2 with
             | String "0" (String x t) =>
                 if Ascii.eqb x "x" || Ascii.eqb x "X"
                 then match t with String "_" t' => t' | _ => t end
                 else s2
             | _ => s2
             end).
  assert (Hscan :
    match scan_digits s3 false 0 0 with
    | Some (z, S _, rest) =>
        if is_empty (skip_spaces rest) then Ok (sign * z) else Raise ValueError
    | _ => Raise ValueError
    end = Raise e -> e = ValueError).
  { destruct (scan_digits s3 false 0 0) as [[[z [|n]] rest]|]; try congruence.
    destruct (is_empty (skip_spaces rest)); congruence. }
  destruct s3 as [|c t]; [exact Hscan|].
  destruct c as [[|] [|] [|] [|] [|] [|] [|] [|]]; try exact Hscan; congruence.
Qed.

Lemma parse_color_short (h : string) :
  (String.length h <= 4)%nat -> Current.parse_color h = Raise ValueError.
Proof.
  intros Hlen. unfold Current.parse_color.
  assert (Hlast : slice h 4 6 = EmptyString).
  { unfold slice.
    destruct h as [|c1 [|c2 [|c3 [|c4 [|c5 h]]]]]; try reflexivity.
    simpl in Hlen. lia. }
  rewrite Hlast.
  destruct (int_base16 (slice h 0 2)) as [r|e] eqn:Hr;
    [|apply int_base16_exn in Hr; congruence].
  destruct (int_base16 (slice h 2 4)) as [g|e] eqn:Hg;
    [|apply int_base16_exn in Hg; congruence].
  reflexivity.
Qed.

(** X23.  [handle_cli] with a colour of six hexadecimal digits, with or
    without a leading [#] and whatever follows the sixth digit: the
    digits are read pairwise as red, green and blue, each a byte; with the
    device there the engine is started with that colour, the brightness
    given (255 when absent) and the speed given (0.5 when absent).  For
    the mode "breathing" that launches the worker and writes no colour;
    for every other mode the disable-autonomous report and one static
    colour report go out. *)
Theorem handle_cli_hex_colour (dev m : string) (hash : bool)
    (sr sg sb rest : string) (r g b : Z) (bri : option Z) (spd : option Q)
    (w : world) :
  hex_pair sr r -> hex_pair sg g -> hex_pair sb b ->
  plugged dev w ->
  0 <= default 255 bri <= 255 ->
  let args :=
    {| Current.mode := m;
       Current.color :=
         Some ((if hash then "#" else "") ++ sr ++ sg ++ sb ++ rest)%string;
       Current.brightness := bri;
       Current.speed := spd |} in
  exists c' w',
    Current.handle_cli dev args w = (Ok c', w') /\
    Current._params c' = ((r, g, b), default 0.5%Q spd, default 255 bri) /\
    if String.eqb (lower m) "breathing" then
      Current.thread c' = Some (length (threads w)) /\
      packets w' = packets w ++ [[0x0B; 0x00]]
    else
      packets w' = packets w ++
        [[0x0B; 0x00]; [0x05; 0x01; 0; 0; 100; 0; r; g; b; default 255 bri]].
Proof.
  intros Hsr Hsg Hsb Hpl Hbri args.
  destruct (parse_color_hex sr sg sb rest r g b Hsr Hsg Hsb)
    as (Hparse & Hstrip & Hr & Hg & Hb).
  unfold Current.handle_cli. cbn [Current.color Current.mode Current.brightness
                                    Current.speed args].
  assert (Hcol :
    (if is_empty ((if hash then "#" else "") ++ sr ++ sg ++ sb ++ rest)%string
     then ret (255, 0, 0)
     else lift (Current.parse_color
                  (lstrip "#" ((if hash then "#" else "") ++
                               sr ++ sg ++ sb ++ rest)%string))) w
    = (Ok (r, g, b), w)).
  { assert (Hne : is_empty (sr ++ sg ++ sb ++ rest)%string = false).
    { destruct Hsr as (c1 & c2 & d1 & d2 & -> & _). reflexivity. }
    destruct hash.
    - change ("#" ++ sr ++ sg ++ sb ++ rest)%string
        with (String "#" (sr ++ sg ++ sb ++ rest)%string).
      cbn [is_empty lstrip]. change (Ascii.eqb "#" "#") with true. cbv iota.
      rewrite Hstrip. unfold lift. rewrite Hparse. reflexivity.
    - change ("" ++ sr ++ sg ++ sb ++ rest)%string
        with (sr ++ sg ++ sb ++ rest)%string.
      rewrite Hne, Hstrip. unfold lift. rewrite Hparse. reflexivity. }
  rewrite (bind_ok _ _ _ _ _ Hcol).
  destruct (Current_start_idle m r g b (default 0.5%Q spd) (default 255 bri)
              (Current.init dev) w) as (c' & w1 & Hstart & _ & Hpar & _ & Hcase);
    try assumption.
  { intros tid H. discriminate. }
  rewrite (bind_ok _ _ _ _ _ Hstart).
  eexists c', _. split; [reflexivity|]. split; [exact Hpar|].
  cbn [snd]. rewrite packets_tick, packets_app, app_nil_r.
  destruct (String.eqb (lower m) "breathing").
  - destruct Hcase as (Hth & _ & Hpk). split; assumption.
  - destruct Hcase as (_ & _ & Hpk). exact Hpk.
Qed.

Lemma handle_cli_hex_colour_witness :
  let args :=
    {| Current.mode := "static";
       Current.color :=
         Some ((if true then "#" else "") ++ "00" ++ "ff" ++ "7F" ++ "")%string;
       Current.brightness := Some 200;
       Current.speed := None |} in
  exists c' w',
    Current.handle_cli "/dev/hidraw1" args (boot friendly) = (Ok c', w') /\
    Current._params c' =
      ((0, 255, 127), default 0.5%Q None, default 255 (Some 200)) /\
    if String.eqb (lower "static") "breathing" then
      Current.thread c' = Some (length (threads (boot friendly))) /\
      packets w' = packets (boot friendly) ++ [[0x0B; 0x00]]
    else
      packets w' = packets (boot friendly) ++
        [[0x0B; 0x00];
         [0x05; 0x01; 0; 0; 100; 0; 0; 255; 127; default 255 (Some 200)]].
Proof.
  apply (handle_cli_hex_colour "/dev/hidraw1" "static" true "00" "ff" "7F" ""
           0 255 127 (Some 200) None (boot friendly)).
  - exists "0"%char, "0"%char, 0, 0. repeat split; reflexivity.
  - exists "f"%char, "f"%char, 15, 15. repeat split; reflexivity.
  - exists "7"%char, "F"%char, 7, 15. repeat split; reflexivity.
  - split; [reflexivity|intros t; split; reflexivity].
  - simpl. lia.
Defined.

(** X24.  [handle_cli] with a colour that is too short: when fewer than
    five characters are left after the leading [#] signs (the three-digit
    shorthand, say), the third slice is empty, [int('', 16)] raises
    ValueError, and the command line fails before anything has touched the
    device or the stop flag. *)
Theorem handle_cli_short_colour (dev : string) (args : Current.cli_args)
    (s : string) (w : world) :
  Current.color args = Some s ->
  is_empty s = false ->
  (String.length (lstrip "#" s) <= 4)%nat ->
  Current.handle_cli dev args w = (Raise ValueError, w).
Proof.
  intros Hc Hne Hlen. unfold Current.handle_cli. rewrite Hc, Hne.
  unfold bind at 1. unfold lift. rewrite (parse_color_short _ Hlen).
  reflexivity.
Qed.

Lemma handle_cli_short_colour_witness :
  Current.handle_cli "/dev/hidraw1"
    {| Current.mode := "static"; Current.color := Some "#fff"%string;
       Current.brightness := None; Current.speed := None |}
    (boot friendly) = (Raise ValueError, boot friendly).
Proof.
  apply (handle_cli_short_colour "/dev/hidraw1" _ "#fff" (boot friendly));
    [reflexivity | reflexivity | simpl; lia].
Defined.

(** ** The live breathing of src/kbdrgb.py *)

Lemma gone_wrote (p : string) (w w' : world) (pkts : list (list Z)) :
  wrote w w' pkts -> quiet w /\ gone p w -> quiet w' /\ gone p w'.
Proof.
  intros Hw [Hq Hg]. split; [exact (wrote_quiet _ _ _ Hw Hq)|].
  destruct Hw as (Ho & _). unfold gone. rewrite Ho. exact Hg.
Qed.

Lemma Current_set_color_gone (p : string) (r g b i : Z) (w : world) :
  gone p w ->
  exists w', Current.set_color p r g b i w = (Ok false, w') /\ wrote w w' [].
Proof.
  intros Hg. unfold Current.set_color, Current.send_feature_report, bind, exists_.
  rewrite (Hg (now w)). cbn [negb]. eexists. split; [reflexivity|].
  unfold wrote. simpl. rewrite packets_tick, app_nil_r. repeat split; auto.
Qed.

Lemma Current_disable_autonomous_gone (p : string) (w : world) :
  gone p w ->
  exists w', Current.disable_autonomous p w = (Ok tt, w') /\ wrote w w' [].
Proof.
  intros Hg. unfold Current.disable_autonomous, Current.send_feature_report.
  unfold bind at 1. unfold bind at 1. unfold exists_. rewrite (Hg (now w)).
  cbn [negb ret]. destruct (sleep_wrote (tick w)) as (w2 & Hsl & Hw2).
  exists w2. split; [exact Hsl|].
  assert (H1 : wrote w (tick w) []).
  { unfold wrote. simpl. rewrite packets_tick, app_nil_r. repeat split; auto. }
  exact (wrote_trans _ _ _ _ _ H1 Hw2).
Qed.

Section LiveBreathing.

Variable p : string.

(** What the caller knows of the world and every write preserves. *)
Variable Inv : world -> Prop.
Hypothesis Inv_quiet : forall w, Inv w -> quiet w.
Hypothesis Inv_wrote : forall w w' pkts, wrote w w' pkts -> Inv w -> Inv w'.

(** What a colour report comes to on the wire, for the values that fit. *)
Variable fits : Z * Z * Z * Z -> Prop.
Variable out : Z * Z * Z * Z -> list (list Z).
Hypothesis Inv_set_color :
  forall r g b i w, Inv w -> fits (r, g, b, i) ->
    exists sent w', Current.set_color p r g b i w = (Ok sent, w') /\
                    wrote w w' (out (r, g, b, i)).

(** One pass of [for k in range(180)] when the provider answers the
    interval the cycle was begun with. *)
Lemma live_step (rgb : Z * Z * Z) (interval : Q) (intensity k : Z)
    (st : (Z * Z * Z) * Z) (w : world) :
  Inv w ->
  (let '(r, g, b) := rgb in fits (r, g, b, Current.breathing_level k intensity)) ->
  exists w',
    Current.breathing_step p (ret (rgb, interval, intensity)) interval k st w =
      (Ok (false, (rgb, intensity)), w') /\
    wrote w w'
      (let '(r, g, b) := rgb in out (r, g, b, Current.breathing_level k intensity)).
Proof.
  intros HQ Hfit. destruct st as [rgb0 i0]. destruct rgb as [[r g] b].
  unfold Current.breathing_step.
  destruct (is_set_wrote w (Inv_quiet _ HQ)) as (w1 & Hset & Hw1).
  rewrite (bind_ok _ _ _ _ _ Hset). cbv iota.
  unfold bind at 1. unfold ret at 1.
  assert (Heq : Qeq_bool interval interval = true)
    by (apply Qeq_bool_iff; reflexivity).
  rewrite Heq. cbn [negb].
  assert (Hc : (if bool_decide ((r, g, b) <> rgb0) then (r, g, b) else rgb0)
               = (r, g, b)).
  { destruct (bool_decide ((r, g, b) <> rgb0)) eqn:Hd; [reflexivity|].
    apply bool_decide_eq_false in Hd.
    destruct (decide ((r, g, b) = rgb0)) as [<-|Hne]; [reflexivity|contradiction]. }
  assert (Hi : (if bool_decide (intensity <> i0) then intensity else i0)
               = intensity).
  { destruct (bool_decide (intensity <> i0)) eqn:Hd; [reflexivity|].
    apply bool_decide_eq_false in Hd.
    destruct (decide (intensity = i0)) as [<-|Hne]; [reflexivity|contradiction]. }
  rewrite Hc, Hi.
  destruct (Inv_set_color r g b (Current.breathing_level k intensity) w1
              (Inv_wrote _ _ _ Hw1 HQ) Hfit) as (sent & w2 & Hcol & Hw2).
  rewrite (bind_ok _ _ _ _ _ Hcol).
  destruct (sleep_wrote w2) as (w3 & Hsl & Hw3).
  rewrite (bind_ok _ _ _ _ _ Hsl).
  eexists. split; [reflexivity|].
  pose proof (wrote_trans _ _ _ _ _ Hw1 (wrote_trans _ _ _ _ _ Hw2 Hw3)) as H.
  rewrite app_nil_l, app_nil_r in H. exact H.
Qed.

Lemma live_cycle (r g b : Z) (interval : Q) (intensity : Z) (xs : list Z) :
  (forall k, fits (r, g, b, Current.breathing_level k intensity)) ->
  forall st w, Inv w ->
    exists st' w',
      Current.for_break xs
        (Current.breathing_step p (ret ((r, g, b), interval, intensity)) interval)
        st w = (Ok st', w') /\
      wrote w w'
        (concat (map (fun k => out (r, g, b, Current.breathing_level k intensity))
                   xs)).
Proof.
  intros Hfit. induction xs as [|k xs IH]; intros st w HQ.
  - exists st, w. split; [reflexivity|apply wrote_refl].
  - destruct (live_step (r, g, b) interval intensity k st w HQ (Hfit k))
      as (w1 & Hstep & Hw1).
    destruct (IH ((r, g, b), intensity) w1 (Inv_wrote _ _ _ Hw1 HQ))
      as (st2 & w2 & Hrun2 & Hw2).
    exists st2, w2. split.
    + simpl Current.for_break. rewrite (bind_ok _ _ _ _ _ Hstep). exact Hrun2.
    + simpl. exact (wrote_trans _ _ _ _ _ Hw1 Hw2).
Qed.

Lemma live_loop (r g b : Z) (interval : Q) (intensity : Z) (fuel : nat) :
  (forall k, fits (r, g, b, Current.breathing_level k intensity)) ->
  forall w, Inv w ->
    exists w',
      while_not_stopped fuel
        (let* p0 := ret ((r, g, b), interval, intensity) in
         let '(color, interval0, intensity0) := p0 in
         let* _ := Current.for_break (range 0 180)
                     (Current.breathing_step p
                        (ret ((r, g, b), interval, intensity)) interval0)
                     (color, intensity0) in
         ret false) w = (Ok Running, w') /\
      wrote w w'
        (concat (repeat
           (concat (map (fun k => out (r, g, b, Current.breathing_level k intensity))
                      (range 0 180))) fuel)).
Proof.
  intros Hfit w HQ.
  apply (while_wrote Inv Inv_quiet Inv_wrote); [|exact HQ].
  intros w1 HQ1. unfold bind at 1. unfold ret at 1.
  destruct (live_cycle r g b interval intensity (range 0 180) Hfit
              ((r, g, b), intensity) w1 HQ1) as (st' & w2 & Hrun & Hw2).
  rewrite (bind_ok _ _ _ _ _ Hrun). exists w2. split; [reflexivity|exact Hw2].
Qed.

End LiveBreathing.

Lemma breathing_level_fits (r g b intensity : Z) :
  0 <= r <= 255 -> 0 <= g <= 255 -> 0 <= b <= 255 -> 0 <= intensity <= 255 ->
  forall k,
    0 <= r <= 255 /\ 0 <= g <= 255 /\ 0 <= b <= 255 /\
    0 <= Current.breathing_level k intensity <= 255.
Proof.
  intros Hr Hg Hb Hi k.
  pose proof (Current_breathing_level_range k intensity ltac:(lia)). lia.
Qed.

(** The packets of the live breathing as the model computes them, the
    level of each step taken over the reals. *)
Lemma Current_breathing_exact (c : Current.controller) (r g b : Z)
    (interval : Q) (intensity : Z) (fuel : nat) (w : world) :
  Current._params c = ((r, g, b), interval, intensity) ->
  0 <= r <= 255 -> 0 <= g <= 255 -> 0 <= b <= 255 -> 0 <= intensity <= 255 ->
  quiet w -> plugged (Current.device_path c) w ->
  exists w',
    Current.breathing (Current.device_path c) (Current.get_params c) fuel w =
      (Ok Running, w') /\
    packets w' = packets w ++ [0x0B; 0x00] ::
      concat (repeat
                (map (fun k =>
                        live_packet (r, g, b, Current.breathing_level k intensity))
                   (range 0 180)) fuel).
Proof.
  intros Hpar Hr Hg Hb Hi Hq Hpl.
  unfold Current.breathing, Current.get_params. rewrite Hpar.
  set (p := Current.device_path c) in *.
  destruct (Current_disable_autonomous_wrote p w Hpl) as (w1 & Hdis & Hw1).
  rewrite (bind_ok _ _ _ _ _ Hdis).
  destruct (live_loop p (fun w => quiet w /\ plugged p w) (live_quiet p)
              (live_wrote p)
              (fun v => let '(r, g, b, i) := v in
                        0 <= r <= 255 /\ 0 <= g <= 255 /\ 0 <= b <= 255 /\
                        0 <= i <= 255)
              (fun v => [live_packet v])) with (w := w1) (fuel := fuel)
      (r := r) (g := g) (b := b) (interval := interval) (intensity := intensity)
    as (w2 & Hrun & Hw2).
  - intros r0 g0 b0 i0 w0 [_ Hpl0] (H1 & H2 & H3 & H4).
    apply Current_set_color_wrote; assumption.
  - apply breathing_level_fits; assumption.
  - exact (live_wrote p _ _ _ Hw1 (conj Hq Hpl)).
  - exists w2. split; [exact Hrun|].
    destruct (wrote_trans _ _ _ _ _ Hw1 Hw2) as (_ & _ & _ & _ & Hp).
    rewrite Hp. rewrite concat_map_singleton. reflexivity.
Qed.

Lemma Current_breathing_level_near (k T : Z) :
  0 <= T -> near_level 180 T k (Current.breathing_level k T).
Proof.
  intros HT. split.
  - apply Current_breathing_level_range. exact HT.
  - apply Current_breathing_level_vs_spec. exact HT.
Qed.

(** X25.  The live breathing of src/kbdrgb.py with the device there,
    nobody stopping it and the parameters left alone: after the
    disable-autonomous report each pass of the [while] loop hands the
    device exactly 180 colour reports and nothing else, whether or not the
    writes succeed: the reports of the steps 0 to 179 in this order, each
    with the colour as it is and an intensity from 0 to the target that is
    the rounded value of the breathing curve at its step or one less
    (which of the two depends on how [int(phase * intensity)] rounds). *)
Theorem Current_breathing_cycle (c : Current.controller) (r g b : Z)
    (interval : Q) (intensity : Z) (fuel : nat) (w : world) :
  Current._params c = ((r, g, b), interval, intensity) ->
  0 <= r <= 255 -> 0 <= g <= 255 -> 0 <= b <= 255 -> 0 <= intensity <= 255 ->
  quiet w -> plugged (Current.device_path c) w ->
  exists w' levels,
    Current.breathing (Current.device_path c) (Current.get_params c) fuel w =
      (Ok Running, w') /\
    packets w' = packets w ++ [0x0B; 0x00] ::
      map (fun i => live_packet (r, g, b, i)) levels /\
    Forall2 (near_level 180 intensity)
      (concat (repeat (range 0 180) fuel)) levels.
Proof.
  intros Hpar Hr Hg Hb Hi Hq Hpl.
  destruct (Current_breathing_exact c r g b interval intensity fuel w
              Hpar Hr Hg Hb Hi Hq Hpl) as (w' & Hrun & Hp).
  exists w', (map (fun k => Current.breathing_level k intensity)
                (concat (repeat (range 0 180) fuel))).
  split; [exact Hrun|]. split.
  - rewrite Hp, map_map, <- concat_repeat_map. reflexivity.
  - apply Forall2_map_levels. intros k.
    apply Current_breathing_level_near. lia.
Qed.

Lemma Current_breathing_cycle_witness :
  let c := Current.init "/dev/hidraw1" in
  exists w' levels,
    Current.breathing (Current.device_path c) (Current.get_params c) 2
      (boot friendly) = (Ok Running, w') /\
    packets w' = packets (boot friendly) ++ [0x0B; 0x00] ::
      map (fun i => live_packet (255, 0, 0, i)) levels /\
    Forall2 (near_level 180 255) (concat (repeat (range 0 180) 2)) levels.
Proof.
  intros c.
  apply (Current_breathing_cycle c 255 0 0 0.5 255 2 (boot friendly));
    [ reflexivity | lia | lia | lia | lia
    | split; [reflexivity|intros t; discriminate]
    | split; [reflexivity|intros t; split; reflexivity] ].
Defined.

(** X26.  The live breathing of src/kbdrgb.py with the device node
    missing: it never gives up.  However long it is followed it is still
    running, nothing has been handed to the device, and nothing is raised
    whatever the parameters are, bytes or not, since [send_feature_report]
    answers False before it builds the packet. *)
Theorem Current_breathing_without_device (p : string) (r g b : Z)
    (interval : Q) (intensity : Z) (fuel : nat) (w : world) :
  quiet w -> gone p w ->
  exists w',
    Current.breathing p (ret ((r, g, b), interval, intensity)) fuel w =
      (Ok Running, w') /\
    packets w' = packets w /\
    quiet w'.
Proof.
  intros Hq Hg. unfold Current.breathing.
  destruct (Current_disable_autonomous_gone p w Hg) as (w1 & Hdis & Hw1).
  rewrite (bind_ok _ _ _ _ _ Hdis).
  destruct (live_loop p (fun w => quiet w /\ gone p w)
              (fun w H => proj1 H) (gone_wrote p)
              (fun _ => True) (fun _ => [])) with (w := w1) (fuel := fuel)
      (r := r) (g := g) (b := b) (interval := interval) (intensity := intensity)
    as (w2 & Hrun & Hw2).
  - intros r0 g0 b0 i0 w0 [_ Hg0] _.
    destruct (Current_set_color_gone p r0 g0 b0 i0 w0 Hg0) as (w' & Hc & Hw).
    exists false, w'. split; assumption.
  - intros k. exact I.
  - exact (gone_wrote p _ _ _ Hw1 (conj Hq Hg)).
  - exists w2. split; [exact Hrun|].
    pose proof (wrote_trans _ _ _ _ _ Hw1 Hw2) as Hw.
    split; [|exact (wrote_quiet _ _ _ Hw Hq)].
    destruct Hw as (_ & _ & _ & _ & Hp). rewrite Hp.
    assert (Hnil : forall n (xs : list Z),
              concat (repeat (concat (map (fun _ : Z => @nil (list Z)) xs)) n) = []).
    { intros n xs. assert (Hc : concat (map (fun _ : Z => @nil (list Z)) xs) = [])
        by (induction xs; simpl; auto).
      rewrite Hc. induction n; simpl; auto. }
    rewrite Hnil. rewrite app_nil_r. reflexivity.
Qed.

Lemma Current_breathing_without_device_witness :
  exists w',
    Current.breathing "/dev/hidraw1" (ret ((300, 0, 0), 0.5%Q, 999)) 3
      (boot unplugged) = (Ok Running, w') /\
    packets w' = packets (boot unplugged) /\
    quiet w'.
Proof.
  apply (Current_breathing_without_device "/dev/hidraw1" 300 0 0 0.5 999 3
           (boot unplugged)).
  - split; [reflexivity|intros t; discriminate].
  - intros t. reflexivity.
Defined.

(** X27.  Live updates of the breathing worker, with the device there and
    nobody stopping it: when the parameters the provider answers at a step
    carry a new colour or a new intensity (and the interval of the running
    cycle), that very step writes the new colour at the level of the new
    intensity (the rounded value of the curve for that intensity, or one
    less) and the worker goes on with them; when they carry another
    interval, the step writes nothing and breaks out of the cycle, so that
    the next cycle starts over with the new interval.  The step is one of
    the 180 of a cycle. *)
Theorem live_update_within_one_step (p : string) (r g b : Z)
    (interval interval' : Q) (intensity k : Z) (st : (Z * Z * Z) * Z)
    (w : world) :
  quiet w -> plugged p w ->
  0 <= r <= 255 -> 0 <= g <= 255 -> 0 <= b <= 255 -> 0 <= intensity <= 255 ->
  0 <= k < 180 ->
  (exists w' i,
     Current.breathing_step p (ret ((r, g, b), interval, intensity)) interval
       k st w = (Ok (false, ((r, g, b), intensity)), w') /\
     packets w' = packets w ++ [live_packet (r, g, b, i)] /\
     near_level 180 intensity k i) /\
  (~ (interval' == interval)%Q ->
   exists w',
     Current.breathing_step p (ret ((r, g, b), interval', intensity)) interval
       k st w = (Ok (true, st), w') /\
     packets w' = packets w).
Proof.
  intros Hq Hpl Hr Hg Hb Hi Hk. split.
  - destruct (live_step p (fun w => quiet w /\ plugged p w) (live_quiet p)
                (live_wrote p)
                (fun v => let '(r, g, b, i) := v in
                          0 <= r <= 255 /\ 0 <= g <= 255 /\ 0 <= b <= 255 /\
                          0 <= i <= 255)
                (fun v => [live_packet v])) with (rgb := (r, g, b))
        (interval := interval) (intensity := intensity) (k := k) (st := st)
        (w := w) as (w' & Hstep & Hw).
    + intros r0 g0 b0 i0 w0 [_ Hpl0] (H1 & H2 & H3 & H4).
      apply Current_set_color_wrote; assumption.
    + split; assumption.
    + apply breathing_level_fits; assumption.
    + exists w', (Current.breathing_level k intensity).
      split; [exact Hstep|]. split; [apply Hw|].
      apply Current_breathing_level_near. lia.
  - intros Hne. destruct st as [rgb0 i0]. unfold Current.breathing_step.
    destruct (is_set_wrote w Hq) as (w1 & Hset & Hw1).
    rewrite (bind_ok _ _ _ _ _ Hset). cbv iota.
    unfold bind at 1. unfold ret at 1.
    assert (Hneq : Qeq_bool interval' interval = false).
    { destruct (Qeq_bool interval' interval) eqn:He; [|reflexivity].
      apply Qeq_bool_iff in He. contradiction. }
    rewrite Hneq. cbn [negb].
    exists w1. split; [reflexivity|].
    destruct Hw1 as (_ & _ & _ & _ & Hp). rewrite Hp, app_nil_r. reflexivity.
Qed.

Lemma live_update_within_one_step_witness :
  (exists w' i,
     Current.breathing_step "/dev/hidraw1" (ret ((0, 0, 255), 0.5%Q, 128)) 0.5
       45 ((255, 0, 0), 255) (boot friendly) =
       (Ok (false, ((0, 0, 255), 128)), w') /\
     packets w' = packets (boot friendly) ++ [live_packet (0, 0, 255, i)] /\
     near_level 180 128 45 i) /\
  (~ (2 == 0.5)%Q ->
   exists w',
     Current.breathing_step "/dev/hidraw1" (ret ((0, 0, 255), 2%Q, 128)) 0.5
       45 ((255, 0, 0), 255) (boot friendly) =
       (Ok (true, ((255, 0, 0), 255)), w') /\
     packets w' = packets (boot friendly)).
Proof.
  apply (live_update_within_one_step "/dev/hidraw1" 0 0 255 0.5 2 128 45
           ((255, 0, 0), 255) (boot friendly));
    [ split; [reflexivity|intros t; discriminate]
    | split; [reflexivity|intros t; split; reflexivity]
    | lia | lia | lia | lia | lia ].
Defined.

(** ** One pass of ripple, in closed form *)

(** The boost loop touches no device: it is a function of the list. *)
Lemma boost_fold_struck (k : Z) (l : list Z) (w : world) :
  0 <= k < 20 ->
  length l = 20%nat ->
  for_fold (range (Z.max 0 (k - 2)) (Z.min Archive.leds (k + 3)))
    (Archive.boost_led k) l w = (Ok (struck k l), w).
Proof.
  intros Hk Hlen.
  do 20 (destruct l as [|? l]; [discriminate Hlen|]).
  destruct l; [|discriminate Hlen]. clear Hlen.
  assert (Hcases : In k (range 0 20)) by (apply In_range; lia).
  simpl in Hcases.
  repeat (destruct Hcases as [<-|Hcases]; [vm_compute; reflexivity|]).
  contradiction.
Qed.

Lemma replace_nth_middle (pre post : list Z) (x y : Z) :
  replace_nth (length pre) y (pre ++ x :: post) = pre ++ y :: post.
Proof. induction pre as [|a pre IH]; simpl; [reflexivity|rewrite IH; reflexivity]. Qed.

Lemma nth_error_middle (pre post : list Z) (x : Z) :
  nth_error (pre ++ x :: post) (length pre) = Some x.
Proof. induction pre as [|a pre IH]; simpl; [reflexivity|exact IH]. Qed.

(** The decay of one segment: the stored value is replaced by its decayed
    value, which is what the colour report carries. *)
Lemma decay_led_closed (p : string) (r g b : Z) (pre post : list Z) (x : Z)
    (w : world) :
  plugged p w ->
  (length pre < 20)%nat ->
  let seg := Z.of_nat (length pre) in
  let y := if 51 <? x then Z.max 51 (x - 2) else x in
  exists w',
    Archive.decay_led p (r, g, b) seg (pre ++ x :: post) w =
      (Ok (pre ++ y :: post), w') /\
    wrote w w' [segment_packet seg (r, g, b, y)].
Proof.
  intros Hpl Hlen seg y. unfold Archive.decay_led.
  assert (Hin : 0 <= seg < Z.of_nat (length (pre ++ x :: post))).
  { unfold seg. rewrite length_app. simpl. lia. }
  assert (Hnat : Z.to_nat seg = length pre) by (unfold seg; lia).
  assert (Hget : getitem (pre ++ x :: post) seg = Ok x).
  { destruct (getitem_in_range _ _ Hin) as (x0 & Hg & Hn).
    rewrite Hnat, nth_error_middle in Hn. congruence. }
  unfold bind at 1. unfold lift at 1. rewrite Hget.
  rewrite base_intensity_eq.
  assert (Hl1 :
    (if 51 <? x
     then lift (setitem (pre ++ x :: post) seg (Z.max 51 (x - 2)))
     else ret (pre ++ x :: post)) w = (Ok (pre ++ y :: post), w)).
  { unfold y. destruct (51 <? x); [|reflexivity].
    unfold lift. rewrite setitem_in_range by exact Hin.
    rewrite Hnat, replace_nth_middle. reflexivity. }
  rewrite (bind_ok _ _ _ _ _ Hl1).
  assert (Hin' : 0 <= seg < Z.of_nat (length (pre ++ y :: post))).
  { unfold seg. rewrite length_app. simpl. lia. }
  assert (Hget' : getitem (pre ++ y :: post) seg = Ok y).
  { destruct (getitem_in_range _ _ Hin') as (x0 & Hg & Hn).
    rewrite Hnat, nth_error_middle in Hn. congruence. }
  unfold bind at 1. unfold lift at 1. rewrite Hget'.
  destruct (Archive_set_color_segment p r g b y seg w Hpl) as (w' & Hcol & Hw);
    [unfold seg; lia|].
  rewrite (bind_ok _ _ _ _ _ Hcol).
  exists w'. split; [reflexivity|exact Hw].
Qed.

Lemma decay_fold_closed (p : string) (r g b : Z) (post : list Z) :
  forall (pre : list Z) (w : world),
    quiet w -> plugged p w ->
    (length pre + length post <= 20)%nat ->
    exists w',
      for_fold (map (fun n => Z.of_nat (length pre + n)) (seq 0 (length post)))
        (Archive.decay_led p (r, g, b)) (pre ++ post) w =
        (Ok (pre ++ settled post), w') /\
      wrote w w'
        (imap (fun n y => segment_packet (Z.of_nat (length pre + n)) (r, g, b, y))
           (settled post)).
Proof.
  induction post as [|x post IH]; intros pre w Hq Hpl Hlen.
  - exists w. split; [reflexivity|apply wrote_refl].
  - simpl length. simpl seq. cbn [map]. rewrite <- seq_shift, map_map.
    rewrite Nat.add_0_r.
    destruct (decay_led_closed p r g b pre post x w Hpl) as (w1 & Hrun & Hw1);
      [simpl in Hlen; lia|].
    cbv zeta in Hrun, Hw1.
    set (y := if 51 <? x then Z.max 51 (x - 2) else x) in *.
    destruct (IH (pre ++ [y]) w1 (wrote_quiet _ _ _ Hw1 Hq)
                (wrote_plugged _ _ _ _ Hw1 Hpl)) as (w2 & Hrun2 & Hw2).
    { rewrite length_app. simpl in *. lia. }
    exists w2. split.
    + simpl for_fold. rewrite (bind_ok _ _ _ _ _ Hrun).
      assert (Hres : pre ++ settled (x :: post) = (pre ++ [y]) ++ settled post).
      { rewrite <- app_assoc. reflexivity. }
      rewrite Hres, <- Hrun2, <- app_assoc. cbn [app].
      f_equal. apply map_ext. intros n. rewrite length_app. simpl.
      f_equal. lia.
    + pose proof (wrote_trans _ _ _ _ _ Hw1 Hw2) as H.
      unfold settled. cbn [map imap]. fold (settled post).
      rewrite Nat.add_0_r. fold y.
      assert (Himap :
        imap ((fun n y0 => segment_packet (Z.of_nat (length pre + n))
                             (r, g, b, y0)) ∘ S) (settled post) =
        imap (fun n y0 => segment_packet (Z.of_nat (length (pre ++ [y]) + n))
                            (r, g, b, y0)) (settled post)).
      { apply imap_ext. intros n y0 _. unfold compose. rewrite length_app.
        simpl length. f_equal. f_equal. lia. }
      rewrite Himap. exact H.
Qed.

(** X30.  One pass of [ripple], in closed form, with the device there and
    nobody stopping it.  The keystroke fires when the timer plus the
    interval reaches the random threshold; it then lifts the struck
    segment by 12, its neighbours by 6 and the next ones by 4, capped at
    255 and cut off at the ends of the keyboard, and resets the timer.
    Then every segment above the baseline 51 loses 2 without going below
    it, and the pass hands the device exactly twenty colour reports,
    segment by segment, each with the intensity just stored. *)
Theorem ripple_pass_closed_form (p : string) (r g b : Z) (interval : Q)
    (d : Archive.draw) (st : Archive.ripple_state) (w : world) :
  quiet w -> plugged p w ->
  length (Archive.led_intensities st) = 20%nat ->
  0 <= Archive.randint d < 20 ->
  let timer := (Archive.ripple_timer st + interval)%Q in
  let fires := Qle_bool (Archive.uniform d) timer in
  let after :=
    settled (if fires then struck (Archive.randint d) (Archive.led_intensities st)
             else Archive.led_intensities st) in
  exists w',
    Archive.ripple_pass p (r, g, b) interval d st w =
      (Ok {| Archive.led_intensities := after;
             Archive.ripple_timer := if fires then 0%Q else timer |}, w') /\
    packets w' = packets w ++
      imap (fun seg y => segment_packet (Z.of_nat seg) (r, g, b, y)) after.
Proof.
  intros Hq Hpl Hlen Hk timer fires after. unfold Archive.ripple_pass.
  fold timer. fold fires.
  set (l1 := if fires then struck (Archive.randint d) (Archive.led_intensities st)
             else Archive.led_intensities st) in *.
  assert (Hl1 : length l1 = 20%nat).
  { unfold l1. destruct fires; [|exact Hlen].
    unfold struck. rewrite length_imap. exact Hlen. }
  assert (Hfirst :
    (if fires
     then
       let keystroke_led := Archive.randint d in
       let* l := for_fold
                   (range (Z.max 0 (keystroke_led - 2))
                      (Z.min Archive.leds (keystroke_led + 3)))
                   (Archive.boost_led keystroke_led)
                   (Archive.led_intensities st) in
       ret {| Archive.led_intensities := l; Archive.ripple_timer := 0%Q |}
     else ret {| Archive.led_intensities := Archive.led_intensities st;
                 Archive.ripple_timer := timer |}) w =
    (Ok {| Archive.led_intensities := l1;
           Archive.ripple_timer := if fires then 0%Q else timer |}, w)).
  { unfold l1. destruct fires; [|reflexivity]. cbv zeta.
    rewrite (bind_ok _ _ _ _ _
               (boost_fold_struck (Archive.randint d)
                  (Archive.led_intensities st) w Hk Hlen)).
    reflexivity. }
  rewrite (bind_ok _ _ _ _ _ Hfirst). cbn [Archive.led_intensities
                                             Archive.ripple_timer].
  destruct (decay_fold_closed p r g b l1 [] w Hq Hpl) as (w' & Hrun & Hw);
    [simpl; lia|].
  simpl app in Hrun. simpl length in Hrun, Hw.
  assert (Hrange : range 0 Archive.leds =
                   map (fun n => Z.of_nat (0 + n)) (seq 0 (length l1))).
  { rewrite Hl1. reflexivity. }
  rewrite Hrange, (bind_ok _ _ _ _ _ Hrun).
  exists w'. split; [reflexivity|].
  destruct Hw as (_ & _ & _ & _ & Hp). exact Hp.
Qed.

Lemma ripple_pass_closed_form_witness :
  let d := {| Archive.uniform := 0.1; Archive.randint := 19 |} in
  let st := Archive.ripple_init in
  let timer := (Archive.ripple_timer st + 0.2)%Q in
  let fires := Qle_bool (Archive.uniform d) timer in
  let after :=
    settled (if fires then struck (Archive.randint d) (Archive.led_intensities st)
             else Archive.led_intensities st) in
  exists w',
    Archive.ripple_pass "/dev/hidraw1" (0, 255, 0) 0.2 d st (boot friendly) =
      (Ok {| Archive.led_intensities := after;
             Archive.ripple_timer := if fires then 0%Q else timer |}, w') /\
    packets w' = packets (boot friendly) ++
      imap (fun seg y => segment_packet (Z.of_nat seg) (0, 255, 0, y)) after.
Proof.
  intros d st.
  apply (ripple_pass_closed_form "/dev/hidraw1" 0 255 0 0.2 d st (boot friendly)).
  - split; [reflexivity|intros t; discriminate].
  - split; [reflexivity|intros t; split; reflexivity].
  - reflexivity.
  - simpl. lia.
Defined.
